(** * picochess: the DGT command dispatcher and the message-to-display
      state machine

    A shallow embedding of [dispatcher.py] (class [Dispatcher]) and of the
    parts of [dgt/display.py] (class [DgtDisplay]) that decide what reaches
    the clock, followed by the properties established about them.

    Conventions.
    - Python objects built by the [Dgt] class factory carry only the keyword
      arguments they were constructed with; an attribute the dispatcher
      probes with [hasattr] is an [option] field, [None] meaning that the
      object has no such attribute.
    - [DisplayDgt.show], [DispatchDgt.fire], [Observable.fire] and the timer
      calls are recorded, in program order, in a trace of effects.
    - A caught or uncaught Python exception is an explicit result. *)

From Stdlib Require Import ZArith QArith List Bool String Ascii Lia.
Import ListNotations.

Set Implicit Arguments.

Local Open Scope Z_scope.

(* ================================================================== *)
(** * Commands sent towards the DGT hardware ([dgt/api.py], class [Dgt]) *)
(* ================================================================== *)

Module Api.

(** [chess.Move]: the null move is the only move that is falsy. *)
Inductive Move : Type :=
| NullMove
| UciMove (uci : string).

Definition move_truthy (mv : Move) : bool :=
  match mv with NullMove => false | UciMove _ => true end.

Definition move_uci (mv : Move) : string :=
  match mv with NullMove => "0000"%string | UciMove u => u end.

Inductive ClockSide : Type := LEFT | RIGHT | NONE.

Inductive ClockIcons : Type := DOT | COLON.

(** The class tags of [DgtApi]; [repr message] returns one of them. *)
Inductive ApiType : Type :=
| T_DISPLAY_MOVE | T_DISPLAY_TEXT | T_DISPLAY_TIME
| T_LIGHT_CLEAR | T_LIGHT_SQUARES
| T_CLOCK_STOP | T_CLOCK_START | T_CLOCK_VERSION | T_CLOCK_TIME.

(** Modelled from the spec: [dgt/api.py] is not among the sources.  The
    commands are show-a-move, show-raw-text, show-elapsed-time, clear-lights,
    light-up-squares, stop-clock, start-clock, report-clock-version and
    set-clock-time; each carries the keyword arguments that [display.py]
    passes.  A text carries its three width variants [l], [m], [s] and the
    icon [rd] that [_combine_depth_and_score] sets. *)
Inductive Payload : Type :=
| DISPLAY_MOVE (move : Move) (fen : option string) (side : ClockSide)
               (beep : bool) (devs : list string)
| DISPLAY_TEXT (l m s : string) (beep : bool) (rd : option ClockIcons)
| DISPLAY_TIME (force : bool) (devs : list string)
| LIGHT_CLEAR
| LIGHT_SQUARES (uci_move : string)
| CLOCK_STOP (devs : list string)
| CLOCK_START (time_left time_right : Z) (side : ClockSide)
              (devs : list string)
| CLOCK_VERSION (main sub : Z) (dev : string)
| CLOCK_TIME (time_left time_right : Z) (dev : string).

(** A command object.  [wait] and [maxtime] are the two attributes the
    dispatcher probes with [hasattr]. *)
Record DgtApi : Type := mkApi {
  body : Payload;
  wait : option bool;
  maxtime : option Q
}.

Definition repr (message : DgtApi) : ApiType :=
  match body message with
  | DISPLAY_MOVE _ _ _ _ _ => T_DISPLAY_MOVE
  | DISPLAY_TEXT _ _ _ _ _ => T_DISPLAY_TEXT
  | DISPLAY_TIME _ _ => T_DISPLAY_TIME
  | LIGHT_CLEAR => T_LIGHT_CLEAR
  | LIGHT_SQUARES _ => T_LIGHT_SQUARES
  | CLOCK_STOP _ => T_CLOCK_STOP
  | CLOCK_START _ _ _ _ => T_CLOCK_START
  | CLOCK_VERSION _ _ _ => T_CLOCK_VERSION
  | CLOCK_TIME _ _ _ => T_CLOCK_TIME
  end.

(** [message.beep]; only move and text commands are asked for it. *)
Definition beep (message : DgtApi) : bool :=
  match body message with
  | DISPLAY_MOVE _ _ _ b _ => b
  | DISPLAY_TEXT _ _ _ b _ => b
  | _ => false
  end.

(** [repr(message) in (DgtApi.CLOCK_START, DgtApi.CLOCK_STOP, DgtApi.CLOCK_TIME)] *)
Definition is_clock_state (message : DgtApi) : bool :=
  match repr message with
  | T_CLOCK_START | T_CLOCK_STOP | T_CLOCK_TIME => true
  | _ => false
  end.

(** [repr(message) in (DgtApi.DISPLAY_MOVE, DgtApi.DISPLAY_TEXT)] *)
Definition is_move_or_text (message : DgtApi) : bool :=
  match repr message with
  | T_DISPLAY_MOVE | T_DISPLAY_TEXT => true
  | _ => false
  end.

Definition all_devs : list string := ["ser"; "i2c"; "web"]%string.

End Api.

(* ================================================================== *)
(** * The dispatcher ([dispatcher.py]) *)
(* ================================================================== *)

Module Dispatcher.
Import Api.

(** A [threading.Timer] object: its interval and, to tell two timer
    objects apart, the rank of its creation. *)
Record Timer : Type := mkTimer {
  interval : Q;
  serial : nat
}.

(** The fields of [Dispatcher.__init__]; [timers_made] counts the timer
    objects created so far and only serves to number them. *)
Record State : Type := mkState {
  maxtimer : option Timer;
  maxtimer_running : bool;
  time_factor : Q;
  tasks : list DgtApi;
  display_hash : option Z;
  timers_made : nat
}.

Definition init : State :=
  {| maxtimer := None; maxtimer_running := false; time_factor := 1%Q;
     tasks := []; display_hash := None; timers_made := 0%nat |}.

Inductive Effect : Type :=
| Show (message : DgtApi)          (* DisplayDgt.show(message) *)
| TimerStart (t : Timer)           (* Timer(...).start() *)
| TimerCancel (t : option Timer).  (* maxtimer.cancel(); maxtimer.join() *)

Definition set_display_hash (h : option Z) (st : State) : State :=
  {| maxtimer := maxtimer st; maxtimer_running := maxtimer_running st;
     time_factor := time_factor st; tasks := tasks st;
     display_hash := h; timers_made := timers_made st |}.

Definition set_tasks (ts : list DgtApi) (st : State) : State :=
  {| maxtimer := maxtimer st; maxtimer_running := maxtimer_running st;
     time_factor := time_factor st; tasks := ts;
     display_hash := display_hash st; timers_made := timers_made st |}.

Definition set_maxtimer_running (b : bool) (st : State) : State :=
  {| maxtimer := maxtimer st; maxtimer_running := b;
     time_factor := time_factor st; tasks := tasks st;
     display_hash := display_hash st; timers_made := timers_made st |}.

(** [self.maxtimer = Timer(maxtime * time_factor, ...)]; [start()];
    [self.maxtimer_running = True] *)
Definition arm_timer (secs : Q) (st : State) : State * Timer :=
  let t := {| interval := secs * time_factor st; serial := timers_made st |} in
  ({| maxtimer := Some t; maxtimer_running := true;
      time_factor := time_factor st; tasks := tasks st;
      display_hash := display_hash st; timers_made := S (timers_made st) |}, t).

(** [message.maxtime > 0] *)
Definition positive (q : Q) : bool := negb (Qle_bool q 0).

(** [hasattr(message, 'maxtime') and message.maxtime > 0] *)
Definition has_positive_maxtime (message : DgtApi) : bool :=
  match maxtime message with
  | Some q => positive q
  | None => false
  end.

(** [self.display_hash == hash(message)] *)
Definition hash_matches (h : option Z) (v : Z) : bool :=
  match h with
  | Some x => x =? v
  | None => false
  end.

Section WithHash.

(** Python's [hash] on command objects. *)
Variable hash : DgtApi -> Z.

(** [Dispatcher._process_message] *)
Definition _process_message (st : State) (message : DgtApi)
  : State * list Effect :=
  let '(do_handle, st1) :=
    if is_clock_state message then (true, set_display_hash None st)
    else if is_move_or_text message then
           if hash_matches (display_hash st) (hash message)
              && negb (beep message)
           then (false, st)
           else (true, set_display_hash (Some (hash message)) st)
         else (true, st) in
  if do_handle then
    match maxtime message with
    | Some q =>
        if positive q then
          let '(st2, t) := arm_timer q st1 in
          (st2, [TimerStart t; Show message])
        else (st1, [Show message])
    | None => (st1, [Show message])
    end
  else (st1, []).

(** Lines 90-107 of [Dispatcher.run]: what happens to an incoming
    command before it is processed. *)
Inductive Arbitration : Type :=
| Deferred (st : State)                      (* [continue] *)
| Proceed (st : State) (out : list Effect).

Definition arbitrate (st : State) (message : DgtApi) : Arbitration :=
  if maxtimer_running st then
    match wait message with
    | Some true => Deferred (set_tasks (tasks st ++ [message]) st)
    | Some false =>
        Proceed (set_tasks [] (set_maxtimer_running false st))
                [TimerCancel (maxtimer st)]
    | None => Proceed st []
    end
  else Proceed st [].

(** One iteration of the loop of [Dispatcher.run] on the command taken
    from the queue. *)
Definition run_step (st : State) (message : DgtApi)
  : State * list Effect :=
  match arbitrate st message with
  | Deferred st1 => (st1, [])
  | Proceed st1 out =>
      let '(st2, out2) := _process_message st1 message in
      (st2, out ++ out2)
  end.

(** The refresh shown when the timer fires. *)
Definition time_refresh : DgtApi :=
  {| body := DISPLAY_TIME false all_devs; wait := Some true;
     maxtime := None |}.

(** The [while self.tasks] loop of [_stopped_maxtimer]; [ts] is the
    content of [self.tasks] on entry. *)
Fixpoint drain (st : State) (ts : list DgtApi) : State * list Effect :=
  match ts with
  | [] => (set_tasks [] st, [])
  | message :: rest =>
      let '(st1, out1) := _process_message (set_tasks rest st) message in
      if maxtimer_running st1 then (st1, out1)
      else let '(st2, out2) := drain st1 rest in (st2, out1 ++ out2)
  end.

(** [Dispatcher._stopped_maxtimer], the callback of the timer. *)
Definition _stopped_maxtimer (st : State) : State * list Effect :=
  let st0 := set_maxtimer_running false st in
  let '(st1, out) := drain st0 (tasks st0) in
  (st1, Show time_refresh :: out).

(** Processing a list of commands one after the other. *)
Fixpoint process_all (st : State) (ms : list DgtApi)
  : State * list Effect :=
  match ms with
  | [] => (st, [])
  | message :: rest =>
      let '(st1, out1) := _process_message st message in
      let '(st2, out2) := process_all st1 rest in
      (st2, out1 ++ out2)
  end.

(** As many timer expiries as it takes to empty the queue, at most
    [fuel]; the output of each expiry is kept apart. *)
Fixpoint expire_rounds (fuel : nat) (st : State)
  : State * list (list Effect) :=
  match fuel with
  | O => (st, [])
  | S k =>
      let '(st1, out) := _stopped_maxtimer st in
      match tasks st1 with
      | [] => (st1, [out])
      | _ :: _ =>
          let '(st2, outs) := expire_rounds k st1 in (st2, out :: outs)
      end
  end.

End WithHash.

(** The last move or text command that reached the hardware sink. *)
Fixpoint last_move_text (out : list Effect) : option DgtApi :=
  match out with
  | [] => None
  | e :: rest =>
      match last_move_text rest with
      | Some m => Some m
      | None =>
          match e with
          | Show m => if is_move_or_text m then Some m else None
          | _ => None
          end
      end
  end.

(** The dedup hash, when set, is the hash of the last move or text
    command that was forwarded. *)
Definition hash_tracks (hash : DgtApi -> Z) (st : State) (out : list Effect)
  : Prop :=
  forall h, display_hash st = Some h ->
            exists m, last_move_text out = Some m /\ hash m = h.

(** The effects that only concern the timer. *)
Definition timer_only (e : Effect) : Prop :=
  match e with
  | Show _ => False
  | _ => True
  end.

(** The states that the dispatcher reaches from its creation, with what
    it has shown so far: a command is taken from the queue, or a timer
    fires. *)
Inductive Reachable (hash : DgtApi -> Z) : State -> list Effect -> Prop :=
| reach_init : Reachable hash init []
| reach_submit (st : State) (out : list Effect) (message : DgtApi) :
    Reachable hash st out ->
    Reachable hash (fst (run_step hash st message))
              (out ++ snd (run_step hash st message))
| reach_expire (st : State) (out : list Effect) :
    Reachable hash st out ->
    Reachable hash (fst (_stopped_maxtimer hash st))
              (out ++ snd (_stopped_maxtimer hash st)).

(** Two states that agree on everything [_process_message] reads. *)
Definition same_core (a b : State) : Prop :=
  maxtimer a = maxtimer b /\ time_factor a = time_factor b /\
  display_hash a = display_hash b /\ timers_made a = timers_made b.

End Dispatcher.

(* ================================================================== *)
(** * Python built-ins used by [display.py] *)
(* ================================================================== *)

Module Py.

Local Open Scope string_scope.

(** Exceptions that the modelled code can raise. *)
Inductive Exn : Type := ValueError | TypeError | IndexError | KeyError.

(** [s[::-1]] *)
Fixpoint rev_onto (s acc : string) : string :=
  match s with
  | EmptyString => acc
  | String c r => rev_onto r (String c acc)
  end.

Definition reversed (s : string) : string := rev_onto s "".

(** [s.split(sep)] for a one-character separator. *)
Fixpoint split_from (sep : ascii) (s : string) (cur : string) : list string :=
  match s with
  | EmptyString => [reversed cur]
  | String c r =>
      if Ascii.eqb c sep then reversed cur :: split_from sep r ""
      else split_from sep r (String c cur)
  end.

Definition split (sep : ascii) (s : string) : list string :=
  split_from sep s "".

(** [s[-n:]] for [n > 0]: the last [n] characters, or all of [s]. *)
Definition last_chars (n : nat) (s : string) : string :=
  substring (String.length s - n) n s.

(** [s.rjust(width)] and the right alignment of a format field. *)
Fixpoint spaces (n : nat) : string :=
  match n with O => "" | S k => String " " (spaces k) end.

Definition rjust (width : nat) (s : string) : string :=
  spaces (width - String.length s) ++ s.

(** [s.replace('.', '')] *)
Fixpoint remove_dots (s : string) : string :=
  match s with
  | EmptyString => ""
  | String c r =>
      if Ascii.eqb c "." then remove_dots r else String c (remove_dots r)
  end.

(** Decimal digits of a natural number, most significant first;
    [fuel] bounds the number of digits. *)
Definition digit_char (d : nat) : ascii := ascii_of_nat (48 + d).

Fixpoint digits_fuel (fuel n : nat) (acc : string) : string :=
  match fuel with
  | O => acc
  | S k =>
      let acc' := String (digit_char (n mod 10)) acc in
      if (n / 10 =? 0)%nat then acc' else digits_fuel k (n / 10) acc'
  end.

Definition str_nat (n : nat) : string := digits_fuel (S n) n "".

(** [str(z)] and ['{:d}'.format(z)] for an integer. *)
Definition str_int (z : Z) : string :=
  if (z <? 0)%Z then String "-" (str_nat (Z.abs_nat z))
  else str_nat (Z.abs_nat z).

(** ['{:Wd}'.format(z)] *)
Definition format_d (width : nat) (z : Z) : string :=
  rjust width (str_int z).

(** ['{:W.2f}'.format(z / 100)] for an integer [z].  Python divides in
    floating point; the quotient of an integer of at most eight
    characters by 100 is printed with its two exact decimals. *)
Definition two_digits (n : nat) : string :=
  String (digit_char (n / 10)) (String (digit_char (n mod 10)) "").

Definition format_2f_hundredths (width : nat) (z : Z) : string :=
  let a := Z.abs_nat z in
  let sign := if (z <? 0)%Z then "-" else "" in
  rjust width (sign ++ str_nat (a / 100) ++ "." ++ two_digits (a mod 100)).

(** The same without the decimal point: sign, integer part and the two
    decimals, right aligned on one character less. *)
Definition hundredths_digits (width : nat) (z : Z) : string :=
  let a := Z.abs_nat z in
  let sign := if (z <? 0)%Z then "-" else "" in
  rjust (width - 1) (sign ++ str_nat (a / 100) ++ two_digits (a mod 100)).

(** [int(s)]: surrounding white space is dropped, one sign is allowed,
    and at least one decimal digit must follow; anything else is a
    [ValueError], rendered as [None].  The digits are the ASCII digits;
    the grouping of digits with underscores that Python 3.6 introduced is
    left out. *)
Definition is_space (c : ascii) : bool :=
  let n := nat_of_ascii c in
  ((n =? 32) || ((9 <=? n) && (n <=? 13)) || ((28 <=? n) && (n <=? 31)))%nat.

Fixpoint lstrip (s : string) : string :=
  match s with
  | String c r => if is_space c then lstrip r else s
  | EmptyString => ""
  end.

Definition strip (s : string) : string :=
  reversed (lstrip (reversed (lstrip s))).

Definition digit_value (c : ascii) : option nat :=
  let n := nat_of_ascii c in
  if ((48 <=? n) && (n <=? 57))%nat then Some (n - 48)%nat else None.

Fixpoint parse_digits (s : string) (acc : nat) : option nat :=
  match s with
  | EmptyString => Some acc
  | String c r =>
      match digit_value c with
      | Some d => parse_digits r (10 * acc + d)
      | None => None
      end
  end.

Definition parse_unsigned (s : string) : option nat :=
  match s with
  | EmptyString => None
  | _ => parse_digits s 0
  end.

Definition int (s : string) : option Z :=
  match strip s with
  | String "-" r => option_map (fun n => (- Z.of_nat n)%Z) (parse_unsigned r)
  | String "+" r => option_map Z.of_nat (parse_unsigned r)
  | r => option_map Z.of_nat (parse_unsigned r)
  end.

(** [t.index(x)] on a tuple of strings; [None] when [x] does not occur. *)
Fixpoint index (x : string) (t : list string) : option nat :=
  match t with
  | [] => None
  | y :: r => if String.eqb x y then Some O else option_map S (index x r)
  end.

(** [x in t] *)
Definition mem (x : string) (t : list string) : bool :=
  existsb (String.eqb x) t.

(** [ceil(n / d)] on the length of a table.  Python divides in floating
    point; the quotient of a length by 8 is exact, so that the ceiling is
    the one of the integers. *)
Definition ceil_div (n d : Z) : Z := (n + d - 1) / d.

End Py.

(* ================================================================== *)
(** * The message-to-display state machine ([dgt/display.py]) *)
(* ================================================================== *)

Module Display.
Import Api Py.

Local Open Scope string_scope.

(** The enumerations of [chess] and [dgt/util.py], as far as [display.py]
    names their members. *)
Inductive Color : Type := WHITE | BLACK.

Inductive Mode : Type := NORMAL | ANALYSIS | KIBITZ | OBSERVE | REMOTE | PONDER.

Inductive GameResult : Type := WIN_WHITE | WIN_BLACK | DRAW.

Inductive TimeMode : Type := FIXED | BLITZ | FISCHER.

Inductive BeepLevel : Type := BL_NO | BL_CONFIG | BL_BUTTON | BL_MAP.

(** The second argument of [DgtTranslate.text]. *)
Inductive TextArg : Type :=
| NoArg
| ArgNone
| ArgInt (z : Z)
| ArgStr (s : string).

Definition Options : Type := list (string * string).

(** An entry of [dgtmenu.installed_engines]. *)
Record Engine : Type := mkEngine {
  eng_file : string;
  eng_name : string;
  eng_text : DgtApi;
  level_dict : list (string * Options)
}.

(** An entry of [dgtmenu.all_books]. *)
Record Book : Type := mkBook {
  book_file : string;
  book_text : DgtApi
}.

Record TimeControl : Type := mkTimeControl {
  tc_mode : TimeMode;
  get_parameters : list (string * Z)
}.

(** What [Observable.fire] sends back to the rest of the program. *)
Inductive Event : Type :=
| LEVEL (options : Options) (level_text : DgtApi)
| SET_OPENING_BOOK (book : Book) (book_text : DgtApi) (show_ok : bool)
| NEW_ENGINE (eng : Engine) (eng_text : DgtApi) (options : Options)
             (show_ok : bool)
| SET_INTERACTION_MODE (mode : Mode) (mode_text : DgtApi) (show_ok : bool)
| SET_TIME_CONTROL (tc_init : list (string * Z)) (time_text : DgtApi)
                   (show_ok : bool)
| SHUTDOWN (dev : string)
| REBOOT (dev : string)
| DRAWRESIGN (result : GameResult)
| NEW_GAME (pos960 : Z)
| FEN (fen : string)
| ALTERNATIVE_MOVE
| PAUSE_RESUME
| SWITCH_SIDES (engine_finished : bool)
| EXIT_MENU.

(** The observable actions of the state machine, in program order. *)
Inductive Action : Type :=
| Dispatch (command : DgtApi)            (* DispatchDgt.fire *)
| Fire (event : Event)                   (* Observable.fire *)
| ConfigWrite (engine_level : option string).
                                         (* config['engine-level'] = ...; write() *)

(** The fields of [DgtDisplay.__init__]. *)
Record Session : Type := mkSession {
  engine_finished : bool;
  drawresign_fen : option string;
  show_move_or_value : Z;
  leds_are_on : bool;
  play_move : Move;
  hint_move : Move;
  last_move : Move;
  play_fen : option string;
  hint_fen : option string;
  last_fen : option string;
  play_turn : option Color;
  hint_turn : option Color;
  last_turn : option Color;
  score : DgtApi;
  depth : option Z
}.

(** ** The three fixed-width renderings of the score

    [self.score] is always a text made by [DgtTranslate.text]; the
    accessors below are only meant for [DISPLAY_TEXT] objects. *)

Inductive Length : Type := Len_s | Len_m | Len_l.

(** The inner function [_score_to_string]; [None] is the [ValueError]
    of [int(score_val)]. *)
Definition _score_to_string (score_val : string) (length : Length)
  : option string :=
  match int score_val with
  | None => None
  | Some v =>
      Some (remove_dots
              (format_2f_hundredths
                 (match length with Len_s => 5 | Len_m => 7 | Len_l => 9 end)%nat
                 v))
  end.

Definition set_l (v : string) (t : DgtApi) : DgtApi :=
  match body t with
  | DISPLAY_TEXT _ m s b rd =>
      {| body := DISPLAY_TEXT v m s b rd; wait := wait t; maxtime := maxtime t |}
  | _ => t
  end.

Definition set_m (v : string) (t : DgtApi) : DgtApi :=
  match body t with
  | DISPLAY_TEXT l _ s b rd =>
      {| body := DISPLAY_TEXT l v s b rd; wait := wait t; maxtime := maxtime t |}
  | _ => t
  end.

Definition set_s (v : string) (t : DgtApi) : DgtApi :=
  match body t with
  | DISPLAY_TEXT l m _ b rd =>
      {| body := DISPLAY_TEXT l m v b rd; wait := wait t; maxtime := maxtime t |}
  | _ => t
  end.

Definition set_rd (v : ClockIcons) (t : DgtApi) : DgtApi :=
  match body t with
  | DISPLAY_TEXT l m s b _ =>
      {| body := DISPLAY_TEXT l m s b (Some v); wait := wait t;
         maxtime := maxtime t |}
  | _ => t
  end.

Definition get_l (t : DgtApi) : string :=
  match body t with DISPLAY_TEXT l _ _ _ _ => l | _ => "" end.

Definition get_m (t : DgtApi) : string :=
  match body t with DISPLAY_TEXT _ m _ _ _ => m | _ => "" end.

Definition get_s (t : DgtApi) : string :=
  match body t with DISPLAY_TEXT _ _ s _ _ => s | _ => "" end.

(** [text.beep = b], [text.maxtime = q], [text.wait = b] *)
Definition set_beep (b : bool) (t : DgtApi) : DgtApi :=
  match body t with
  | DISPLAY_TEXT l m s _ rd =>
      {| body := DISPLAY_TEXT l m s b rd; wait := wait t; maxtime := maxtime t |}
  | DISPLAY_MOVE mv f sd _ dv =>
      {| body := DISPLAY_MOVE mv f sd b dv; wait := wait t; maxtime := maxtime t |}
  | _ => t
  end.

Definition set_maxtime (q : Q) (t : DgtApi) : DgtApi :=
  {| body := body t; wait := wait t; maxtime := Some q |}.

Definition set_wait (b : bool) (t : DgtApi) : DgtApi :=
  {| body := body t; wait := Some b; maxtime := maxtime t |}.

(** The result of the [try] block of [_combine_depth_and_score]: the
    working copy as far as it was rewritten, and how the block ended. *)
Inductive TryResult : Type :=
| Completed (score : DgtApi)
| Caught (score : DgtApi)        (* ValueError, swallowed by [except] *)
| Escaped (e : Exn).             (* any other exception *)

(** Lines 99-102: the two clamping tests on the short variant. *)
Definition clamp_short (score : DgtApi) : option DgtApi :=
  match int (get_s score) with
  | None => None
  | Some v =>
      let score1 := if (v <=? -1000)%Z then set_s "-999" score else score in
      match int (get_s score1) with
      | None => None
      | Some v1 =>
          Some (if (v1 >=? 1000)%Z then set_s "999" score1 else score1)
      end
  end.

(** Lines 97-109.  The arguments of [format] are evaluated from left to
    right before formatting, so a failing [int] is seen before a depth
    that cannot be formatted. *)
Definition combine_try (score : DgtApi) (depth : option Z) : TryResult :=
  match clamp_short score with
  | None => Caught score
  | Some score1 =>
      match _score_to_string (last_chars 8 (get_l score1)) Len_l with
      | None => Caught score1
      | Some str_l =>
          match depth with
          | None => Escaped TypeError
          | Some d =>
              let score2 := set_l (format_d 3 d ++ str_l) score1 in
              match _score_to_string (last_chars 6 (get_m score2)) Len_m with
              | None => Caught score2
              | Some str_m =>
                  let score3 := set_m (format_d 2 (d mod 100)%Z ++ str_m) score2 in
                  match _score_to_string (last_chars 4 (get_s score3)) Len_s with
                  | None => Caught score3
                  | Some str_s =>
                      let score4 :=
                        set_s (format_d 2 (d mod 100)%Z ++ str_s) score3 in
                      Completed (set_rd DOT score4)
                  end
              end
          end
      end
  end.

(** The [int] conversions of the [try] block, in the order in which they
    are reached: one of them raises [ValueError]. *)
Definition conversion_fails (score : DgtApi) (depth : option Z) : Prop :=
  int (get_s score) = None \/
  exists score1,
    clamp_short score = Some score1 /\
    (int (last_chars 8 (get_l score1)) = None \/
     (int (last_chars 8 (get_l score1)) <> None /\ depth <> None /\
      (int (last_chars 6 (get_m score1)) = None \/
       (int (last_chars 6 (get_m score1)) <> None /\
        int (last_chars 4 (get_s score1)) = None)))).

(** The value shown by the short variant for the integer [v] read from the
    short field, [v4] being the integer read from its last four
    characters. *)
Definition clamp_999 (v v4 : Z) : Z :=
  if (v <=? -1000)%Z then (-999)%Z
  else if (v >=? 1000)%Z then 999%Z
  else v4.

(** ** The menu object and the other collaborators *)

Section Model.

(** Where the user stands in the menu tree; the navigation logic of
    [dgt/menu.py] is not part of this development. *)
Variable NavState : Type.

(** Modelled from the spec: [dgt/menu.py] is not among the sources.
    The menu state holds the current interaction mode, the selected
    engine, book and level index, the flip-board flag and the
    time-control selection tables, and exposes getters and setters;
    [set_position_reverse_to_flipboard] persists the flip decision. *)
Record DgtMenu : Type := mkMenu {
  flip_board : bool;
  dgt_fen : string;
  engine_restart : bool;
  engine_has_960 : bool;
  confirm : bool;
  mode : Mode;
  engine_index : nat;
  engine_level : option Z;
  installed_engines : list Engine;
  book_index : nat;
  all_books : list Book;
  time_mode : TimeMode;
  time_fixed : nat;
  time_blitz : nat;
  time_fisch : nat;
  tc_fixed_map : list (string * TimeControl);
  tc_blitz_map : list (string * TimeControl);
  tc_fisch_map : list (string * TimeControl);
  tc_fixed_list : list string;
  tc_blitz_list : list string;
  tc_fisch_list : list string;
  nav : NavState
}.

Definition set_position_reverse_to_flipboard (mn : DgtMenu) : DgtMenu :=
  {| flip_board := negb (flip_board mn); dgt_fen := dgt_fen mn;
     engine_restart := engine_restart mn; engine_has_960 := engine_has_960 mn;
     confirm := confirm mn; mode := mode mn; engine_index := engine_index mn;
     engine_level := engine_level mn; installed_engines := installed_engines mn;
     book_index := book_index mn; all_books := all_books mn;
     time_mode := time_mode mn; time_fixed := time_fixed mn;
     time_blitz := time_blitz mn; time_fisch := time_fisch mn;
     tc_fixed_map := tc_fixed_map mn; tc_blitz_map := tc_blitz_map mn;
     tc_fisch_map := tc_fisch_map mn; tc_fixed_list := tc_fixed_list mn;
     tc_blitz_list := tc_blitz_list mn; tc_fisch_list := tc_fisch_list mn;
     nav := nav mn |}.

Definition set_dgt_fen (v : string) (mn : DgtMenu) : DgtMenu :=
  {| flip_board := flip_board mn; dgt_fen := v;
     engine_restart := engine_restart mn; engine_has_960 := engine_has_960 mn;
     confirm := confirm mn; mode := mode mn; engine_index := engine_index mn;
     engine_level := engine_level mn; installed_engines := installed_engines mn;
     book_index := book_index mn; all_books := all_books mn;
     time_mode := time_mode mn; time_fixed := time_fixed mn;
     time_blitz := time_blitz mn; time_fisch := time_fisch mn;
     tc_fixed_map := tc_fixed_map mn; tc_blitz_map := tc_blitz_map mn;
     tc_fisch_map := tc_fisch_map mn; tc_fixed_list := tc_fixed_list mn;
     tc_blitz_list := tc_blitz_list mn; tc_fisch_list := tc_fisch_list mn;
     nav := nav mn |}.

Definition set_engine_restart (v : bool) (mn : DgtMenu) : DgtMenu :=
  {| flip_board := flip_board mn; dgt_fen := dgt_fen mn;
     engine_restart := v; engine_has_960 := engine_has_960 mn;
     confirm := confirm mn; mode := mode mn; engine_index := engine_index mn;
     engine_level := engine_level mn; installed_engines := installed_engines mn;
     book_index := book_index mn; all_books := all_books mn;
     time_mode := time_mode mn; time_fixed := time_fixed mn;
     time_blitz := time_blitz mn; time_fisch := time_fisch mn;
     tc_fixed_map := tc_fixed_map mn; tc_blitz_map := tc_blitz_map mn;
     tc_fisch_map := tc_fisch_map mn; tc_fixed_list := tc_fixed_list mn;
     tc_blitz_list := tc_blitz_list mn; tc_fisch_list := tc_fisch_list mn;
     nav := nav mn |}.

Definition set_mode (v : Mode) (mn : DgtMenu) : DgtMenu :=
  {| flip_board := flip_board mn; dgt_fen := dgt_fen mn;
     engine_restart := engine_restart mn; engine_has_960 := engine_has_960 mn;
     confirm := confirm mn; mode := v; engine_index := engine_index mn;
     engine_level := engine_level mn; installed_engines := installed_engines mn;
     book_index := book_index mn; all_books := all_books mn;
     time_mode := time_mode mn; time_fixed := time_fixed mn;
     time_blitz := time_blitz mn; time_fisch := time_fisch mn;
     tc_fixed_map := tc_fixed_map mn; tc_blitz_map := tc_blitz_map mn;
     tc_fisch_map := tc_fisch_map mn; tc_fixed_list := tc_fixed_list mn;
     tc_blitz_list := tc_blitz_list mn; tc_fisch_list := tc_fisch_list mn;
     nav := nav mn |}.

Definition set_engine_index (v : nat) (mn : DgtMenu) : DgtMenu :=
  {| flip_board := flip_board mn; dgt_fen := dgt_fen mn;
     engine_restart := engine_restart mn; engine_has_960 := engine_has_960 mn;
     confirm := confirm mn; mode := mode mn; engine_index := v;
     engine_level := engine_level mn; installed_engines := installed_engines mn;
     book_index := book_index mn; all_books := all_books mn;
     time_mode := time_mode mn; time_fixed := time_fixed mn;
     time_blitz := time_blitz mn; time_fisch := time_fisch mn;
     tc_fixed_map := tc_fixed_map mn; tc_blitz_map := tc_blitz_map mn;
     tc_fisch_map := tc_fisch_map mn; tc_fixed_list := tc_fixed_list mn;
     tc_blitz_list := tc_blitz_list mn; tc_fisch_list := tc_fisch_list mn;
     nav := nav mn |}.

Definition set_engine_level (v : Z) (mn : DgtMenu) : DgtMenu :=
  {| flip_board := flip_board mn; dgt_fen := dgt_fen mn;
     engine_restart := engine_restart mn; engine_has_960 := engine_has_960 mn;
     confirm := confirm mn; mode := mode mn; engine_index := engine_index mn;
     engine_level := Some v; installed_engines := installed_engines mn;
     book_index := book_index mn; all_books := all_books mn;
     time_mode := time_mode mn; time_fixed := time_fixed mn;
     time_blitz := time_blitz mn; time_fisch := time_fisch mn;
     tc_fixed_map := tc_fixed_map mn; tc_blitz_map := tc_blitz_map mn;
     tc_fisch_map := tc_fisch_map mn; tc_fixed_list := tc_fixed_list mn;
     tc_blitz_list := tc_blitz_list mn; tc_fisch_list := tc_fisch_list mn;
     nav := nav mn |}.

Definition set_installed_engines (v : list Engine) (mn : DgtMenu) : DgtMenu :=
  {| flip_board := flip_board mn; dgt_fen := dgt_fen mn;
     engine_restart := engine_restart mn; engine_has_960 := engine_has_960 mn;
     confirm := confirm mn; mode := mode mn; engine_index := engine_index mn;
     engine_level := engine_level mn; installed_engines := v;
     book_index := book_index mn; all_books := all_books mn;
     time_mode := time_mode mn; time_fixed := time_fixed mn;
     time_blitz := time_blitz mn; time_fisch := time_fisch mn;
     tc_fixed_map := tc_fixed_map mn; tc_blitz_map := tc_blitz_map mn;
     tc_fisch_map := tc_fisch_map mn; tc_fixed_list := tc_fixed_list mn;
     tc_blitz_list := tc_blitz_list mn; tc_fisch_list := tc_fisch_list mn;
     nav := nav mn |}.

Definition set_book (v : nat) (mn : DgtMenu) : DgtMenu :=
  {| flip_board := flip_board mn; dgt_fen := dgt_fen mn;
     engine_restart := engine_restart mn; engine_has_960 := engine_has_960 mn;
     confirm := confirm mn; mode := mode mn; engine_index := engine_index mn;
     engine_level := engine_level mn; installed_engines := installed_engines mn;
     book_index := v; all_books := all_books mn;
     time_mode := time_mode mn; time_fixed := time_fixed mn;
     time_blitz := time_blitz mn; time_fisch := time_fisch mn;
     tc_fixed_map := tc_fixed_map mn; tc_blitz_map := tc_blitz_map mn;
     tc_fisch_map := tc_fisch_map mn; tc_fixed_list := tc_fixed_list mn;
     tc_blitz_list := tc_blitz_list mn; tc_fisch_list := tc_fisch_list mn;
     nav := nav mn |}.

Definition set_all_books (v : list Book) (mn : DgtMenu) : DgtMenu :=
  {| flip_board := flip_board mn; dgt_fen := dgt_fen mn;
     engine_restart := engine_restart mn; engine_has_960 := engine_has_960 mn;
     confirm := confirm mn; mode := mode mn; engine_index := engine_index mn;
     engine_level := engine_level mn; installed_engines := installed_engines mn;
     book_index := book_index mn; all_books := v;
     time_mode := time_mode mn; time_fixed := time_fixed mn;
     time_blitz := time_blitz mn; time_fisch := time_fisch mn;
     tc_fixed_map := tc_fixed_map mn; tc_blitz_map := tc_blitz_map mn;
     tc_fisch_map := tc_fisch_map mn; tc_fixed_list := tc_fixed_list mn;
     tc_blitz_list := tc_blitz_list mn; tc_fisch_list := tc_fisch_list mn;
     nav := nav mn |}.

(** [set_time_mode] together with the index setter of the family. *)
Definition set_time_selection (tm : TimeMode) (idx : nat) (mn : DgtMenu)
  : DgtMenu :=
  {| flip_board := flip_board mn; dgt_fen := dgt_fen mn;
     engine_restart := engine_restart mn; engine_has_960 := engine_has_960 mn;
     confirm := confirm mn; mode := mode mn; engine_index := engine_index mn;
     engine_level := engine_level mn; installed_engines := installed_engines mn;
     book_index := book_index mn; all_books := all_books mn;
     time_mode := tm;
     time_fixed := match tm with FIXED => idx | _ => time_fixed mn end;
     time_blitz := match tm with BLITZ => idx | _ => time_blitz mn end;
     time_fisch := match tm with FISCHER => idx | _ => time_fisch mn end;
     tc_fixed_map := tc_fixed_map mn; tc_blitz_map := tc_blitz_map mn;
     tc_fisch_map := tc_fisch_map mn; tc_fixed_list := tc_fixed_list mn;
     tc_blitz_list := tc_blitz_list mn; tc_fisch_list := tc_fisch_list mn;
     nav := nav mn |}.

(** [dgtmenu.get_engine()]: the entry at the selected index. *)
Definition get_engine (mn : DgtMenu) : option Engine :=
  nth_error (installed_engines mn) (engine_index mn).

(** The collaborators that are consumed through a narrow interface:
    the translation table, the navigation of the menu and the
    [chess] library. *)
Record External : Type := mkExternal {
  text : string -> TextArg -> DgtApi;   (* DgtTranslate.text *)
  bl : BeepLevel -> bool;               (* DgtTranslate.bl *)
  mode_value : Mode -> string;          (* Mode.value *)
  inside_menu : DgtMenu -> bool;
  enter_top_menu : DgtMenu -> DgtMenu;
  up : DgtMenu -> DgtMenu * option DgtApi;
  down : DgtMenu -> DgtMenu * option DgtApi;
  left : DgtMenu -> DgtMenu * DgtApi;
  right : DgtMenu -> DgtMenu * DgtApi;
  get_current_text : DgtMenu -> option DgtApi;
  (* chess.Board(fen + ' w - - 0 1').chess960_pos(ignore_castling=True);
     the outer [None] is the ValueError of a board that does not parse *)
  chess960_pos : string -> option (option Z)
}.

Variable ext : External.

(** ** State, trace and exceptions of one handler *)

Record World : Type := mkWorld {
  me : Session;            (* the fields of [self] *)
  dgtmenu : DgtMenu;       (* [self.dgtmenu] *)
  actions : list Action    (* what was fired so far, oldest first *)
}.

Inductive Outcome (A : Type) : Type :=
| Done (a : A)
| Raised (e : Exn).

Arguments Raised {A} e.

Definition M (A : Type) : Type := World -> Outcome A * World.

Definition ret {A : Type} (a : A) : M A := fun w => (Done a, w).

Definition bind {A B : Type} (c : M A) (k : A -> M B) : M B :=
  fun w =>
    match c w with
    | (Done a, w1) => k a w1
    | (Raised e, w1) => (Raised e, w1)
    end.

Definition raise {A : Type} (e : Exn) : M A := fun w => (Raised e, w).

Definition Exn_eqb (a b : Exn) : bool :=
  match a, b with
  | ValueError, ValueError | TypeError, TypeError
  | IndexError, IndexError | KeyError, KeyError => true
  | _, _ => false
  end.

(** [try: c  except e: pass] *)
Definition try_pass (c : M unit) (e : Exn) : M unit :=
  fun w =>
    match c w with
    | (Raised e1, w1) =>
        if Exn_eqb e1 e then (Done tt, w1) else (Raised e1, w1)
    | r => r
    end.

Definition get_me : M Session := fun w => (Done (me w), w).

Definition get_menu : M DgtMenu := fun w => (Done (dgtmenu w), w).

Definition modify_me (f : Session -> Session) : M unit :=
  fun w => (Done tt, {| me := f (me w); dgtmenu := dgtmenu w;
                        actions := actions w |}).

Definition modify_menu (f : DgtMenu -> DgtMenu) : M unit :=
  fun w => (Done tt, {| me := me w; dgtmenu := f (dgtmenu w);
                        actions := actions w |}).

Definition emit (a : Action) : M unit :=
  fun w => (Done tt, {| me := me w; dgtmenu := dgtmenu w;
                        actions := actions w ++ [a] |}).

(** A lookup that raises when there is nothing to return. *)
Definition or_raise {A : Type} (o : option A) (e : Exn) : M A :=
  match o with
  | Some a => ret a
  | None => raise e
  end.

End Model.

Arguments Raised {A} e.
Arguments ret {NavState A} a.
Arguments raise {NavState A} e.
Arguments get_me {NavState}.
Arguments get_menu {NavState}.
Arguments emit {NavState} a.
Arguments or_raise {NavState A} o e.

Declare Scope py_scope.
Delimit Scope py_scope with py.

Notation "x <- c ;; k" := (bind c (fun x => k))
  (at level 61, c at next level, right associativity) : py_scope.
Notation "c ;;; k" := (bind c (fun _ => k))
  (at level 61, right associativity) : py_scope.

(** ** The gesture tables of [_process_fen] *)

Definition level_map : list string :=
  ["rnbqkbnr/pppppppp/8/q7/8/8/PPPPPPPP/RNBQKBNR";
   "rnbqkbnr/pppppppp/8/1q6/8/8/PPPPPPPP/RNBQKBNR";
   "rnbqkbnr/pppppppp/8/2q5/8/8/PPPPPPPP/RNBQKBNR";
   "rnbqkbnr/pppppppp/8/3q4/8/8/PPPPPPPP/RNBQKBNR";
   "rnbqkbnr/pppppppp/8/4q3/8/8/PPPPPPPP/RNBQKBNR";
   "rnbqkbnr/pppppppp/8/5q2/8/8/PPPPPPPP/RNBQKBNR";
   "rnbqkbnr/pppppppp/8/6q1/8/8/PPPPPPPP/RNBQKBNR";
   "rnbqkbnr/pppppppp/8/7q/8/8/PPPPPPPP/RNBQKBNR"].

Definition book_map : list string :=
  ["rnbqkbnr/pppppppp/8/8/8/q7/PPPPPPPP/RNBQKBNR";
   "rnbqkbnr/pppppppp/8/8/8/1q6/PPPPPPPP/RNBQKBNR";
   "rnbqkbnr/pppppppp/8/8/8/2q5/PPPPPPPP/RNBQKBNR";
   "rnbqkbnr/pppppppp/8/8/8/3q4/PPPPPPPP/RNBQKBNR";
   "rnbqkbnr/pppppppp/8/8/8/4q3/PPPPPPPP/RNBQKBNR";
   "rnbqkbnr/pppppppp/8/8/8/5q2/PPPPPPPP/RNBQKBNR";
   "rnbqkbnr/pppppppp/8/8/8/6q1/PPPPPPPP/RNBQKBNR";
   "rnbqkbnr/pppppppp/8/8/8/7q/PPPPPPPP/RNBQKBNR";
   "rnbqkbnr/pppppppp/8/8/q7/8/PPPPPPPP/RNBQKBNR";
   "rnbqkbnr/pppppppp/8/8/1q6/8/PPPPPPPP/RNBQKBNR";
   "rnbqkbnr/pppppppp/8/8/2q5/8/PPPPPPPP/RNBQKBNR";
   "rnbqkbnr/pppppppp/8/8/3q4/8/PPPPPPPP/RNBQKBNR";
   "rnbqkbnr/pppppppp/8/8/4q3/8/PPPPPPPP/RNBQKBNR";
   "rnbqkbnr/pppppppp/8/8/5q2/8/PPPPPPPP/RNBQKBNR";
   "rnbqkbnr/pppppppp/8/8/6q1/8/PPPPPPPP/RNBQKBNR";
   "rnbqkbnr/pppppppp/8/8/7q/8/PPPPPPPP/RNBQKBNR"].

Definition engine_map : list string :=
  ["rnbqkbnr/pppppppp/q7/8/8/8/PPPPPPPP/RNBQKBNR";
   "rnbqkbnr/pppppppp/1q6/8/8/8/PPPPPPPP/RNBQKBNR";
   "rnbqkbnr/pppppppp/2q5/8/8/8/PPPPPPPP/RNBQKBNR";
   "rnbqkbnr/pppppppp/3q4/8/8/8/PPPPPPPP/RNBQKBNR";
   "rnbqkbnr/pppppppp/4q3/8/8/8/PPPPPPPP/RNBQKBNR";
   "rnbqkbnr/pppppppp/5q2/8/8/8/PPPPPPPP/RNBQKBNR";
   "rnbqkbnr/pppppppp/6q1/8/8/8/PPPPPPPP/RNBQKBNR";
   "rnbqkbnr/pppppppp/7q/8/8/8/PPPPPPPP/RNBQKBNR"].

Definition shutdown_map : list string :=
  ["rnbqkbnr/pppppppp/8/8/8/8/PPPPPPPP/RNBQQBNR";
   "RNBQQBNR/PPPPPPPP/8/8/8/8/pppppppp/rnbkqbnr";
   "8/8/8/8/8/8/8/3QQ3";
   "3QQ3/8/8/8/8/8/8/8"].

Definition reboot_map : list string :=
  ["rnbqqbnr/pppppppp/8/8/8/8/PPPPPPPP/RNBQKBNR";
   "RNBKQBNR/PPPPPPPP/8/8/8/8/pppppppp/rnbqqbnr";
   "8/8/8/8/8/8/8/3qq3";
   "3qq3/8/8/8/8/8/8/8"].

Definition mode_map : list (string * Mode) :=
  [("rnbqkbnr/pppppppp/8/Q7/8/8/PPPPPPPP/RNBQKBNR", NORMAL);
   ("rnbqkbnr/pppppppp/8/1Q6/8/8/PPPPPPPP/RNBQKBNR", ANALYSIS);
   ("rnbqkbnr/pppppppp/8/2Q5/8/8/PPPPPPPP/RNBQKBNR", KIBITZ);
   ("rnbqkbnr/pppppppp/8/3Q4/8/8/PPPPPPPP/RNBQKBNR", OBSERVE);
   ("rnbqkbnr/pppppppp/8/4Q3/8/8/PPPPPPPP/RNBQKBNR", REMOTE);
   ("rnbqkbnr/pppppppp/8/5Q2/8/8/PPPPPPPP/RNBQKBNR", PONDER)].

Definition drawresign_map : list (string * GameResult) :=
  [("8/8/8/3k4/4K3/8/8/8", WIN_WHITE);
   ("8/8/8/3K4/4k3/8/8/8", WIN_WHITE);
   ("8/8/8/4k3/3K4/8/8/8", WIN_BLACK);
   ("8/8/8/4K3/3k4/8/8/8", WIN_BLACK);
   ("8/8/8/3kK3/8/8/8/8", DRAW);
   ("8/8/8/3Kk3/8/8/8/8", DRAW);
   ("8/8/8/8/3kK3/8/8/8", DRAW);
   ("8/8/8/8/3Kk3/8/8/8", DRAW)].

(** The position that tells that the board is mounted the other way. *)
Definition flip_pattern : string :=
  "RNBKQBNR/PPPPPPPP/8/8/8/8/pppppppp/rnbkqbnr".

(** ** Dictionaries and lists *)

(** [d[key]] and [key in d] on a dictionary kept in insertion order. *)
Fixpoint lookup {V : Type} (key : string) (d : list (string * V)) : option V :=
  match d with
  | [] => None
  | (k, v) :: r => if String.eqb key k then Some v else lookup key r
  end.

Definition keys {V : Type} (d : list (string * V)) : list string :=
  map fst d.

(** [sorted(d)]: the keys in increasing order. *)
Fixpoint insert_sorted (x : string) (l : list string) : list string :=
  match l with
  | [] => [x]
  | y :: r => if String.leb x y then x :: l else y :: insert_sorted x r
  end.

Definition sorted (l : list string) : list string :=
  fold_right insert_sorted [] l.

(** [l[i]] for a Python integer: a negative index counts from the end. *)
Definition item {A : Type} (l : list A) (i : Z) : option A :=
  let n := Z.of_nat (List.length l) in
  if (0 <=? i)%Z then nth_error l (Z.to_nat i)
  else if (- n <=? i)%Z then nth_error l (Z.to_nat (n + i))
  else None.

(** [l[i] = v] in place, for an index that is in range. *)
Fixpoint store {A : Type} (l : list A) (i : nat) (v : A) : list A :=
  match l, i with
  | [], _ => []
  | _ :: r, O => v :: r
  | x :: r, S k => x :: store r k v
  end.

(** Lines 290-291: the level chosen for the gesture at file [file_index]
    when the engine has [level_count] levels. *)
Definition level_for (level_count file_index : Z) : Z :=
  let inc := ceil_div level_count 8 in
  Z.min (inc * file_index) (level_count - 1).

Definition set_drawresign_fen (v : option string) (s : Session) : Session :=
  {| engine_finished := engine_finished s; drawresign_fen := v;
     show_move_or_value := show_move_or_value s; leds_are_on := leds_are_on s;
     play_move := play_move s; hint_move := hint_move s;
     last_move := last_move s; play_fen := play_fen s; hint_fen := hint_fen s;
     last_fen := last_fen s; play_turn := play_turn s;
     hint_turn := hint_turn s; last_turn := last_turn s;
     score := score s; depth := depth s |}.

Definition set_engine_finished (v : bool) (s : Session) : Session :=
  {| engine_finished := v; drawresign_fen := drawresign_fen s;
     show_move_or_value := show_move_or_value s; leds_are_on := leds_are_on s;
     play_move := play_move s; hint_move := hint_move s;
     last_move := last_move s; play_fen := play_fen s; hint_fen := hint_fen s;
     last_fen := last_fen s; play_turn := play_turn s;
     hint_turn := hint_turn s; last_turn := last_turn s;
     score := score s; depth := depth s |}.

(** [self.play_move = chess.Move.null()], [self.play_fen = None],
    [self.play_turn = None] *)
Definition clear_play (s : Session) : Session :=
  {| engine_finished := engine_finished s; drawresign_fen := drawresign_fen s;
     show_move_or_value := show_move_or_value s; leds_are_on := leds_are_on s;
     play_move := NullMove; hint_move := hint_move s;
     last_move := last_move s; play_fen := None; hint_fen := hint_fen s;
     last_fen := last_fen s; play_turn := None;
     hint_turn := hint_turn s; last_turn := last_turn s;
     score := score s; depth := depth s |}.

(** The fifth and fourth rank of a position of eight ranks, on an
    otherwise empty board. *)
Definition drawresign_slice (fen : string) : option string :=
  match split "/" fen with
  | [_; _; _; rnk_5; rnk_4; _; _; _] =>
      Some ("8/8/8/" ++ rnk_5 ++ "/" ++ rnk_4 ++ "/8/8/8")
  | _ => None
  end.

(** ** The handlers *)

(** The button message of the board driver. *)
Record ButtonMessage : Type := mkButton {
  button : Z;
  dev : string
}.

Section Handlers.

Variable NavState : Type.
Variable ext : External NavState.

Local Open Scope py_scope.

(** [DgtDisplay._inside_menu] *)
Definition _inside_menu : M NavState bool :=
  mn <- get_menu ;; ret (inside_menu ext mn).

(** [DgtDisplay._exit_menu] *)
Definition _exit_menu : M NavState bool :=
  mn <- get_menu ;;
  if inside_menu ext mn then
    modify_menu (enter_top_menu ext) ;;;
    mn1 <- get_menu ;;
    if negb (confirm mn1) then ret true else ret false
  else ret false.

(** [DgtDisplay._power_off] *)
Definition _power_off (dev : string) : M NavState unit :=
  emit (Dispatch (text ext "Y10_goodbye" NoArg)) ;;;
  modify_menu (@set_engine_restart NavState true) ;;;
  emit (Fire (SHUTDOWN dev)).

(** [DgtDisplay._reboot] *)
Definition _reboot (dev : string) : M NavState unit :=
  emit (Dispatch (text ext "Y10_pleasewait" NoArg)) ;;;
  modify_menu (@set_engine_restart NavState true) ;;;
  emit (Fire (REBOOT dev)).

(** [DgtDisplay._get_clock_side] *)
Definition _get_clock_side (turn : option Color) : ClockSide :=
  match turn with
  | Some WHITE => LEFT
  | _ => RIGHT
  end.

(** [DgtDisplay._drawresign]: unpacking anything but eight ranks is a
    [ValueError]. *)
Definition _drawresign : M NavState string :=
  mn <- get_menu ;;
  or_raise (drawresign_slice (dgt_fen mn)) ValueError.

(** Lines 286-302: the level gesture. *)
Definition fen_level (fen : string) : M NavState unit :=
  mn <- get_menu ;;
  eng <- or_raise (get_engine mn) IndexError ;;
  let level_dict := level_dict eng in
  match level_dict with
  | _ :: _ =>
      file_index <- or_raise (index fen level_map) ValueError ;;
      let level :=
        level_for (Z.of_nat (List.length level_dict)) (Z.of_nat file_index) in
      modify_menu (@set_engine_level NavState level) ;;;
      msg <- or_raise (item (sorted (keys level_dict)) level) IndexError ;;
      let text0 := text ext "M10_level" (ArgStr msg) in
      w <- _exit_menu ;;
      let text1 := set_wait w text0 in
      emit (ConfigWrite (Some msg)) ;;;
      options <- or_raise (lookup msg level_dict) KeyError ;;
      emit (Fire (LEVEL options text1))
  | [] => ret tt
  end.

(** Lines 303-315: the book gesture.  The text belongs to the entry of
    [all_books]; assigning to it changes that entry. *)
Definition store_book_text (i : nat) (t : DgtApi) (mn : DgtMenu NavState) : DgtMenu NavState :=
  match nth_error (all_books mn) i with
  | Some b =>
      set_all_books
        (store (all_books mn) i {| book_file := book_file b; book_text := t |})
        mn
  | None => mn
  end.

Definition fen_book (fen : string) : M NavState unit :=
  book_index <- or_raise (index fen book_map) ValueError ;;
  try_pass
    (mn <- get_menu ;;
     book <- or_raise (nth_error (all_books mn) book_index) IndexError ;;
     modify_menu (@set_book NavState book_index) ;;;
     let text1 := set_maxtime 1 (set_beep (bl ext BL_MAP) (book_text book)) in
     modify_menu (store_book_text book_index text1) ;;;
     w <- _exit_menu ;;
     let text2 := set_wait w text1 in
     modify_menu (store_book_text book_index text2) ;;;
     emit (Fire (SET_OPENING_BOOK
                   {| book_file := book_file book; book_text := text2 |}
                   text2 false)))
    IndexError.

(** Lines 316-345: the engine gesture. *)
Definition store_engine_text (t : DgtApi) (mn : DgtMenu NavState) : DgtMenu NavState :=
  match get_engine mn with
  | Some e =>
      set_installed_engines
        (store (installed_engines mn) (engine_index mn)
               {| eng_file := eng_file e; eng_name := eng_name e;
                  eng_text := t; level_dict := level_dict e |})
        mn
  | None => mn
  end.

Definition fen_engine (fen : string) : M NavState unit :=
  mn <- get_menu ;;
  match installed_engines mn with
  | _ :: _ =>
      try_pass
        (idx <- or_raise (index fen engine_map) ValueError ;;
         modify_menu (@set_engine_index NavState idx) ;;;
         mn1 <- get_menu ;;
         eng <- or_raise (get_engine mn1) IndexError ;;
         let level_dict := level_dict eng in
         let eng_text1 :=
           set_maxtime 1 (set_beep (bl ext BL_MAP) (eng_text eng)) in
         modify_menu (store_engine_text eng_text1) ;;;
         w <- _exit_menu ;;
         let eng_text2 := set_wait w eng_text1 in
         modify_menu (store_engine_text eng_text2) ;;;
         r <- match level_dict with
              | _ :: _ =>
                  let len_level := Z.of_nat (List.length level_dict) in
                  mn2 <- get_menu ;;
                  (match engine_level mn2 with
                   | None =>
                       modify_menu (@set_engine_level NavState (len_level - 1))
                   | Some lv =>
                       if (len_level <=? lv)%Z then
                         modify_menu
                           (@set_engine_level NavState (len_level - 1))
                       else ret tt
                   end) ;;;
                  mn3 <- get_menu ;;
                  lv <- or_raise (engine_level mn3) TypeError ;;
                  msg <- or_raise (item (sorted (keys level_dict)) lv)
                                  IndexError ;;
                  options <- or_raise (lookup msg level_dict) KeyError ;;
                  emit (Fire (LEVEL [] (text ext "M10_level" (ArgStr msg)))) ;;;
                  ret (Some msg, options)
              | [] => ret (None, [])
              end ;;
         let '(msg, options) := r in
         emit (ConfigWrite msg) ;;;
         emit (Fire (NEW_ENGINE
                       {| eng_file := eng_file eng; eng_name := eng_name eng;
                          eng_text := eng_text2;
                          level_dict := level_dict |}
                       eng_text2 options false)) ;;;
         modify_menu (@set_engine_restart NavState true))
        IndexError
  | [] => emit (Dispatch (text ext "Y00_erroreng" NoArg))
  end.

(** Lines 346-353: the interaction-mode gesture. *)
Definition fen_mode (m : Mode) : M NavState unit :=
  modify_menu (@set_mode NavState m) ;;;
  let text1 :=
    set_maxtime 1 (set_beep (bl ext BL_MAP)
                            (text ext (mode_value ext m) NoArg)) in
  w <- _exit_menu ;;
  let text2 := set_wait w text1 in
  emit (Fire (SET_INTERACTION_MODE m text2 false)).

(** Lines 354-377: the three time-control gestures, which differ in the
    family [tm], its table [tc_map], its list of names [tc_list] and the
    text identifier. *)
Definition fen_time (tm : TimeMode) (text_id : string)
           (tc_map : DgtMenu NavState -> list (string * TimeControl))
           (tc_list : DgtMenu NavState -> list string)
           (fen : string) : M NavState unit :=
  mn <- get_menu ;;
  idx <- or_raise (index fen (keys (tc_map mn))) ValueError ;;
  modify_menu (@set_time_selection NavState tm idx) ;;;
  name <- or_raise (nth_error (tc_list mn) idx) IndexError ;;
  let text0 := text ext text_id (ArgStr name) in
  w <- _exit_menu ;;
  let text1 := set_wait w text0 in
  mn1 <- get_menu ;;
  timectrl <- or_raise (lookup fen (tc_map mn1)) KeyError ;;
  emit (Fire (SET_TIME_CONTROL (get_parameters timectrl) text1 false)).

(** Lines 388-399: a position that is no gesture. *)
Definition fen_board (fen : string) : M NavState unit :=
  pos <- or_raise (chess960_pos ext fen) ValueError ;;
  match pos with
  | Some pos960 =>
      mn <- get_menu ;;
      if (pos960 =? 518)%Z || engine_has_960 mn then
        emit (Fire (NEW_GAME pos960))
      else
        emit (Dispatch (text ext "Y00_error960" NoArg))
  | None => emit (Fire (FEN fen))
  end.

(** Lines 286-399: the chain of tests on the stored position. *)
Definition fen_dispatch (fen : string) : M NavState unit :=
  mn <- get_menu ;;
  s <- get_me ;;
  if mem fen level_map then fen_level fen
  else if mem fen book_map then fen_book fen
  else if mem fen engine_map then fen_engine fen
  else match lookup fen mode_map with
  | Some m => fen_mode m
  | None =>
  if mem fen (keys (tc_fixed_map mn)) then
    fen_time FIXED "M10_tc_fixed" (@tc_fixed_map _) (@tc_fixed_list _) fen
  else if mem fen (keys (tc_blitz_map mn)) then
    fen_time BLITZ "M10_tc_blitz" (@tc_blitz_map _) (@tc_blitz_list _) fen
  else if mem fen (keys (tc_fisch_map mn)) then
    fen_time FISCHER "M10_tc_fisch" (@tc_fisch_map _) (@tc_fisch_list _) fen
  else if mem fen shutdown_map then _power_off "web"
  else if mem fen reboot_map then _reboot "web"
  else
    match option_map (fun d => lookup d drawresign_map) (drawresign_fen s) with
    | Some (Some result) =>
        inside <- _inside_menu ;;
        if negb inside then emit (Fire (DRAWRESIGN result)) else ret tt
    | _ => fen_board fen
    end
  end.

(** Line 273-274: the position turned round when the board is flipped. *)
Definition oriented (mn : DgtMenu NavState) (fen : string) (raw : bool)
  : string :=
  if flip_board mn && raw then reversed fen else fen.

(** Lines 273-278: the position after the two orientation tests. *)
Definition normalize_fen (fen : string) (raw : bool) : M NavState string :=
  mn <- get_menu ;;
  let fen1 := oriented mn fen raw in
  if String.eqb fen1 flip_pattern then
    modify_menu (@set_position_reverse_to_flipboard NavState) ;;;
    ret (reversed fen1)
  else ret fen1.

(** The position that [normalize_fen] returns. *)
Definition normal_fen (mn : DgtMenu NavState) (fen : string) (raw : bool)
  : string :=
  let fen1 := oriented mn fen raw in
  if String.eqb fen1 flip_pattern then reversed fen1 else fen1.

(** What [_exit_menu] does to the menu. *)
Definition left_menu (mn : DgtMenu NavState) : DgtMenu NavState :=
  if inside_menu ext mn then enter_top_menu ext mn else mn.

(** [DgtDisplay._process_fen] *)
Definition _process_fen (fen : string) (raw : bool) : M NavState unit :=
  fen1 <- normalize_fen fen raw ;;
  mn <- get_menu ;;
  if String.eqb fen1 (dgt_fen mn) then ret tt
  else
    modify_menu (@set_dgt_fen NavState fen1) ;;;
    dr <- _drawresign ;;
    modify_me (set_drawresign_fen (Some dr)) ;;;
    fen_dispatch fen1.

(** [DgtDisplay._combine_depth_and_score].  The method works on a copy of
    [self.score]; it returns the copy, or lets an exception other than
    [ValueError] through. *)
Definition _combine_depth_and_score : M NavState DgtApi :=
  s <- get_me ;;
  match combine_try (score s) (depth s) with
  | Completed sc => ret sc
  | Caught sc => ret sc
  | Escaped e => raise e
  end.

(** [DgtDisplay._exit_display] *)
Definition _exit_display : M NavState unit :=
  s <- get_me ;;
  mn <- get_menu ;;
  if move_truthy (play_move s)
     && match mode mn with NORMAL | REMOTE => true | _ => false end
  then
    emit (Dispatch
            {| body := DISPLAY_MOVE (play_move s) (play_fen s)
                                    (_get_clock_side (play_turn s))
                                    (bl ext BL_BUTTON) all_devs;
               wait := Some true; maxtime := Some 1%Q |})
  else
    let text0 :=
      if inside_menu ext mn then get_current_text ext mn else None in
    match text0 with
    | Some t => emit (Dispatch (set_wait true t))
    | None =>
        emit (Dispatch {| body := DISPLAY_TIME true all_devs;
                          wait := Some true; maxtime := None |})
    end.

(** The text shown for [move]: the move itself, or "no move". *)
Definition move_or_nomove (mv : Move) (fen : option string)
           (turn : option Color) : DgtApi :=
  if move_truthy mv then
    {| body := DISPLAY_MOVE mv fen (_get_clock_side turn)
                            (bl ext BL_BUTTON) all_devs;
       wait := Some false; maxtime := Some 1%Q |}
  else text ext "B10_nomove" NoArg.

(** [DgtDisplay._process_button0] *)
Definition _process_button0 (dev : string) : M NavState unit :=
  inside <- _inside_menu ;;
  if inside then
    mn <- get_menu ;;
    let '(mn1, t) := up ext mn in
    modify_menu (fun _ => mn1) ;;;
    match t with
    | Some t1 => emit (Dispatch t1)
    | None => _exit_display
    end
  else
    s <- get_me ;;
    emit (Dispatch (move_or_nomove (last_move s) (last_fen s) (last_turn s))) ;;;
    _exit_display.

(** [DgtDisplay._process_button1] *)
Definition _process_button1 (dev : string) : M NavState unit :=
  inside <- _inside_menu ;;
  if inside then
    mn <- get_menu ;;
    let '(mn1, t) := left ext mn in
    modify_menu (fun _ => mn1) ;;;
    emit (Dispatch t)
  else
    t <- _combine_depth_and_score ;;
    emit (Dispatch (set_beep (bl ext BL_BUTTON) t)) ;;;
    _exit_display.

(** [DgtDisplay._process_button2] *)
Definition _process_button2 (dev : string) : M NavState unit :=
  mn <- get_menu ;;
  match mode mn with
  | ANALYSIS | KIBITZ | PONDER =>
      emit (Dispatch (text ext "B00_nofunction" NoArg))
  | _ =>
      s <- get_me ;;
      if engine_finished s then
        modify_me (set_engine_finished false) ;;;
        emit (Fire ALTERNATIVE_MOVE)
      else emit (Fire PAUSE_RESUME)
  end.

(** [DgtDisplay._process_button3] *)
Definition _process_button3 (dev : string) : M NavState unit :=
  inside <- _inside_menu ;;
  if inside then
    mn <- get_menu ;;
    let '(mn1, t) := right ext mn in
    modify_menu (fun _ => mn1) ;;;
    emit (Dispatch t)
  else
    s <- get_me ;;
    emit (Dispatch (move_or_nomove (hint_move s) (hint_fen s) (hint_turn s))) ;;;
    _exit_display.

(** [DgtDisplay._process_button4] *)
Definition _process_button4 (dev : string) : M NavState unit :=
  mn <- get_menu ;;
  let '(mn1, t) := down ext mn in
  modify_menu (fun _ => mn1) ;;;
  match t with
  | Some t1 => emit (Dispatch t1)
  | None => emit (Fire EXIT_MENU)
  end.

(** [DgtDisplay._process_lever] *)
Definition _process_lever (right_side_down : bool) (dev : string)
  : M NavState unit :=
  inside <- _inside_menu ;;
  if negb inside then
    modify_me clear_play ;;;
    s <- get_me ;;
    emit (Fire (SWITCH_SIDES (engine_finished s)))
  else ret tt.

(** [DgtDisplay._process_button] *)
Definition _process_button (message : ButtonMessage) : M NavState unit :=
  let button := button message in
  mn <- get_menu ;;
  if negb (engine_restart mn) then
    if (button =? 0)%Z then _process_button0 (dev message)
    else if (button =? 1)%Z then _process_button1 (dev message)
    else if (button =? 2)%Z then _process_button2 (dev message)
    else if (button =? 3)%Z then _process_button3 (dev message)
    else if (button =? 4)%Z then _process_button4 (dev message)
    else if (button =? 17)%Z then _power_off (dev message)
    else if (button =? 64)%Z then _process_lever true (dev message)
    else if (button =? -64)%Z then _process_lever false (dev message)
    else ret tt
  else ret tt.

End Handlers.

(** ** The stored position and the orientation flag *)

Section Board.

Variable NavState : Type.

(** The world [w'] holds the same position and orientation as [w]. *)
Definition board_kept (w w' : World NavState) : Prop :=
  dgt_fen (dgtmenu w') = dgt_fen (dgtmenu w) /\
  flip_board (dgtmenu w') = flip_board (dgtmenu w).

(** A handler that leaves them alone, however it ends. *)
Definition keeps_board {A : Type} (c : M NavState A) : Prop :=
  forall w, board_kept w (snd (c w)).

(** Going back to the top menu does not touch them. *)
Definition nav_keeps_board (ext : External NavState) : Prop :=
  forall mn,
    dgt_fen (enter_top_menu ext mn) = dgt_fen mn /\
    flip_board (enter_top_menu ext mn) = flip_board mn.

End Board.

End Display.

(* ================================================================== *)
(** * Runs of the dispatcher *)
(* ================================================================== *)

Module DispatcherRuns.
Import Api Dispatcher.

(** What happens to the dispatcher: the loop of [run] takes a command from
    the queue, or the timer fires and calls [_stopped_maxtimer]. *)
Inductive Input : Type :=
| Submit (message : DgtApi)
| Expire.

Section WithHash.

Variable hash : DgtApi -> Z.

Definition step (st : State) (i : Input) : State * list Effect :=
  match i with
  | Submit message => run_step hash st message
  | Expire => _stopped_maxtimer hash st
  end.

Fixpoint run_inputs (st : State) (ins : list Input) : State * list Effect :=
  match ins with
  | [] => (st, [])
  | i :: rest =>
      let '(st1, out1) := step st i in
      let '(st2, out2) := run_inputs st1 rest in
      (st2, out1 ++ out2)
  end.

End WithHash.

(** The commands handed to the dispatcher, in their order. *)
Definition submitted (ins : list Input) : list DgtApi :=
  flat_map (fun i => match i with Submit m => [m] | Expire => [] end) ins.

(** The commands that reached the hardware sink, in their order. *)
Definition shown (out : list Effect) : list DgtApi :=
  flat_map (fun e => match e with Show m => [m] | _ => [] end) out.

(** The same without the refresh of the time display that opens the
    output of each expiry. *)
Fixpoint forwarded (hash : DgtApi -> Z) (st : State) (ins : list Input)
  : list DgtApi :=
  match ins with
  | [] => []
  | i :: rest =>
      let out := snd (step hash st i) in
      shown (match i with Submit _ => out | Expire => tl out end)
      ++ forwarded hash (fst (step hash st i)) rest
  end.

(** [l1] is [l2] with some elements left out. *)
Inductive Subseq {A : Type} : list A -> list A -> Prop :=
| subseq_nil : Subseq [] []
| subseq_skip (x : A) (l1 l2 : list A) : Subseq l1 l2 -> Subseq l1 (x :: l2)
| subseq_take (x : A) (l1 l2 : list A) :
    Subseq l1 l2 -> Subseq (x :: l1) (x :: l2).

(** Every timer that is started is started for the command shown next,
    with the [maxtime] of that command as its interval. *)
Fixpoint well_timed (out : list Effect) : Prop :=
  match out with
  | [] => True
  | TimerStart t :: Show m :: rest =>
      (exists q, maxtime m = Some q /\ positive q = true /\
                 (interval t == q)%Q)
      /\ well_timed rest
  | TimerStart _ :: _ => False
  | _ :: rest => well_timed rest
  end.

(** A command waits in the queue only while a timer runs, and a running
    timer has a handle. *)
Definition queue_inv (st : State) : Prop :=
  (maxtimer_running st = false -> tasks st = []) /\
  (maxtimer_running st = true -> maxtimer st <> None) /\
  time_factor st = 1%Q.

(** The part of [queue_inv] that the handling of one command keeps. *)
Definition handle_ok (st : State) : Prop :=
  (maxtimer_running st = true -> maxtimer st <> None) /\
  time_factor st = 1%Q.

End DispatcherRuns.

(* ================================================================== *)
(** * The two threads of the dispatcher *)
(* ================================================================== *)

Module Threads.
Import Api Dispatcher.

(** The dispatcher lives in two kinds of threads: the loop of [run], and,
    for every timer that expires, the thread of that [threading.Timer],
    which calls [_stopped_maxtimer].  [process_lock] is held around
    [_process_message] only (lines 54-55 and 109-110): the test of the
    flag at line 90 and the append of line 93 on the one side, the
    assignment of line 41 and the loop of lines 52-57 on the other, are
    not protected from each other.  [DispatcherRuns.step] takes an
    iteration of the loop and a call of the callback each as a whole; the
    moves below cut the two threads at the places just named.  Within a
    move a thread is not interrupted, so every schedule of these moves is
    a schedule of the program, which has more of them: what is reached
    here, the program reaches. *)

(** Where the loop of [run] stands. *)
Inductive RunPc : Type :=
| AtGet                          (* line 87, [dispatch_queue.get()] *)
| AtAppend (message : DgtApi)    (* line 93, the tests of lines 90-92 passed *)
| AtCancel (message : DgtApi)    (* line 98 *)
| AtProcess (message : DgtApi).  (* line 109 *)

Record Config : Type := mkConfig {
  fields : State;                (* the attributes of the dispatcher *)
  run_pc : RunPc;
  dispatch_queue : list DgtApi;  (* the commands that [run] has not taken *)
  sleeping : list Timer;         (* started, neither expired nor cancelled *)
  fired : list Timer;            (* expired, the callback has passed line 41 *)
  trace : list Effect            (* what was done so far, oldest first *)
}.

Inductive Move : Type :=
| RunTest            (* lines 87-92: take a command and test the flag *)
| RunAct             (* line 93, or lines 98-103, or lines 109-110 *)
| Fire (t : Timer)   (* [t] expires and its callback executes line 41 *)
| Drain (t : Timer). (* lines 49-57 of the callback of [t] *)

(** Two timer objects are the same when they were created at the same
    rank. *)
Definition same_timer (t u : Timer) : bool := Nat.eqb (serial t) (serial u).

Definition is_among (t : Timer) (ts : list Timer) : bool :=
  existsb (same_timer t) ts.

Definition without (t : Timer) (ts : list Timer) : list Timer :=
  filter (fun u => negb (same_timer t u)) ts.

(** The timers that a piece of output has started. *)
Definition started (out : list Effect) : list Timer :=
  flat_map (fun e => match e with TimerStart t => [t] | _ => [] end) out.

(** A dispatcher that was just created, with the commands that will be
    handed to it. *)
Definition start (messages : list DgtApi) : Config :=
  {| fields := init; run_pc := AtGet; dispatch_queue := messages;
     sleeping := []; fired := []; trace := [] |}.

Section WithHash.

Variable hash : DgtApi -> Z.

(** One move, or [None] when the move cannot be made: [get] blocks on an
    empty queue, [join] waits for the callback of the timer while it is
    under way, a timer expires only while it sleeps, and a callback goes
    on only once it has begun.  [cancel] on a timer that has expired does
    nothing.  On a dispatcher without a timer object line 98 raises
    [AttributeError], which ends the loop; the schedules stop there. *)
Definition perform (c : Config) (mv : Move) : option Config :=
  match mv with
  | RunTest =>
      match run_pc c, dispatch_queue c with
      | AtGet, message :: rest =>
          Some {| fields := fields c;
                  run_pc :=
                    if maxtimer_running (fields c) then
                      match wait message with
                      | Some true => AtAppend message
                      | Some false => AtCancel message
                      | None => AtProcess message
                      end
                    else AtProcess message;
                  dispatch_queue := rest;
                  sleeping := sleeping c; fired := fired c;
                  trace := trace c |}
      | _, _ => None
      end
  | RunAct =>
      match run_pc c with
      | AtGet => None
      | AtAppend message =>
          Some {| fields := set_tasks (tasks (fields c) ++ [message]) (fields c);
                  run_pc := AtGet;
                  dispatch_queue := dispatch_queue c;
                  sleeping := sleeping c; fired := fired c;
                  trace := trace c |}
      | AtCancel message =>
          match maxtimer (fields c) with
          | Some t =>
              if is_among t (fired c) then None
              else
                Some {| fields :=
                          set_tasks [] (set_maxtimer_running false (fields c));
                        run_pc := AtProcess message;
                        dispatch_queue := dispatch_queue c;
                        sleeping := without t (sleeping c); fired := fired c;
                        trace := trace c ++ [TimerCancel (Some t)] |}
          | None => None
          end
      | AtProcess message =>
          let '(st1, out) := _process_message hash (fields c) message in
          Some {| fields := st1;
                  run_pc := AtGet;
                  dispatch_queue := dispatch_queue c;
                  sleeping := sleeping c ++ started out; fired := fired c;
                  trace := trace c ++ out |}
      end
  | Fire t =>
      if is_among t (sleeping c) then
        Some {| fields := set_maxtimer_running false (fields c);
                run_pc := run_pc c;
                dispatch_queue := dispatch_queue c;
                sleeping := without t (sleeping c); fired := fired c ++ [t];
                trace := trace c |}
      else None
  | Drain t =>
      if is_among t (fired c) then
        let '(st1, out) := drain hash (fields c) (tasks (fields c)) in
        Some {| fields := st1;
                run_pc := run_pc c;
                dispatch_queue := dispatch_queue c;
                sleeping := sleeping c ++ started out;
                fired := without t (fired c);
                trace := trace c ++ Show time_refresh :: out |}
      else None
  end.

(** The moves of a schedule, one after the other. *)
Fixpoint schedule (c : Config) (moves : list Move) : option Config :=
  match moves with
  | [] => Some c
  | mv :: rest =>
      match perform c mv with
      | Some c1 => schedule c1 rest
      | None => None
      end
  end.

End WithHash.

(** Nothing is left to happen: the loop waits for a command and there is
    none, no timer sleeps and no callback is under way. *)
Definition at_rest (c : Config) : Prop :=
  run_pc c = AtGet /\ dispatch_queue c = [] /\
  sleeping c = [] /\ fired c = [].

End Threads.

(* ================================================================== *)
(** * The outcome of a report of the board *)
(* ================================================================== *)

Module Gestures.
Import Api Py Display.

Section Outcomes.

Variable NavState : Type.

(** The menu after the orientation tests of [_process_fen]. *)
Definition turned (mn : DgtMenu NavState) (fen : string) (raw : bool)
  : DgtMenu NavState :=
  if String.eqb (oriented mn fen raw) flip_pattern
  then set_position_reverse_to_flipboard mn else mn.

(** The menu once the new position is stored. *)
Definition arrived (mn : DgtMenu NavState) (fen : string) (raw : bool)
  : DgtMenu NavState :=
  set_dgt_fen (normal_fen mn fen raw) (turned mn fen raw).

(** The world that keeps the middle ranks [dr] of the new position, holds
    the menu [mn] and has seen [acts] after what [w] had seen. *)
Definition after (w : World NavState) (mn : DgtMenu NavState)
           (dr : option string) (acts : list Action) : World NavState :=
  {| me := set_drawresign_fen dr (me w);
     dgtmenu := mn;
     actions := actions w ++ acts |}.

(** No entry of [table] shows one of the draw or resign patterns on its
    two middle ranks. *)
Definition no_kings_in (table : list string) : bool :=
  forallb (fun t => match drawresign_slice t with
                    | Some s => match lookup s drawresign_map with
                                | None => true
                                | Some _ => false
                                end
                    | None => true
                    end) table.

End Outcomes.

End Gestures.

(* ================================================================== *)
(** * What the buttons show and keep *)
(* ================================================================== *)

Module Buttons.
Import Api Py Display.

Section Buttons.

Variable NavState : Type.
Variable ext : External NavState.

(** A handler that leaves the fields of the display alone, however it
    ends. *)
Definition keeps_me {A : Type} (c : M NavState A) : Prop :=
  forall w, me (snd (c w)) = me w.

(** The command that [_exit_display] dispatches: the pending move of the
    computer, the text of the menu, or the clock. *)
Definition shown_on_exit (s : Session) (mn : DgtMenu NavState) : DgtApi :=
  if move_truthy (play_move s)
     && match mode mn with NORMAL | REMOTE => true | _ => false end
  then
    {| body := DISPLAY_MOVE (play_move s) (play_fen s)
                            (_get_clock_side (play_turn s))
                            (bl ext BL_BUTTON) all_devs;
       wait := Some true; maxtime := Some 1%Q |}
  else
    match (if inside_menu ext mn then get_current_text ext mn else None) with
    | Some t => set_wait true t
    | None => {| body := DISPLAY_TIME true all_devs;
                 wait := Some true; maxtime := None |}
    end.

(** The world after the commands [cs] were dispatched. *)
Definition dispatched (w : World NavState) (cs : list DgtApi)
  : World NavState :=
  {| me := me w; dgtmenu := dgtmenu w;
     actions := actions w ++ map Dispatch cs |}.

End Buttons.

End Buttons.

(* ================================================================== *)
(** * The messages of a game ([DgtDisplay._process_message]) *)
(* ================================================================== *)

(** The messages of [dgt/api.py] with the keyword arguments that the
    handlers read.  [Game] stands for [chess.Board].  The messages on the
    start of an engine, the time control, the clock and the network
    ([ENGINE_STARTUP], [TIME_CONTROL], [STARTUP_INFO], [CLOCK_START],
    [IP_INFO], [DGT_CLOCK_VERSION]) are not part of this development. *)
Module Message.
Import Api Display.

Inductive t (Game : Type) : Type :=
| ENGINE_READY (eng_file : string) (eng_text : DgtApi) (has_960 : bool)
               (show_ok : bool)
| ENGINE_FAIL
| COMPUTER_MOVE (move : Move) (ponder : option Move) (game : Game)
                (wait : bool)
| START_NEW_GAME (game : Game) (newgame : bool)
| COMPUTER_MOVE_DONE
| USER_MOVE_DONE (move : Move) (fen : string) (turn : Color)
| REVIEW_MOVE_DONE (move : Move) (fen : string) (turn : Color)
| ALTERNATIVE_MOVE
| LEVEL (level_text : DgtApi)
| OPENING_BOOK (book_text : DgtApi) (show_ok : bool)
| TAKE_BACK
| GAME_ENDS (result_value : string)
| INTERACTION_MODE (mode_text : DgtApi) (show_ok : bool)
| PLAY_MODE (play_mode_text : DgtApi)
| NEW_SCORE (score : Z) (mate : option Z) (mode : Mode) (turn : Color)
| BOOK_MOVE
| NEW_PV (pv : list Move) (mode : Mode) (game : Game)
| NEW_DEPTH (depth : Z)
| SEARCH_STARTED
| SEARCH_STOPPED
| CLOCK_STOP (devs : list string)
| DGT_BUTTON (button : ButtonMessage)
| DGT_FEN (fen : string) (raw : bool)
| DGT_CLOCK_TIME (time_left time_right : Z) (dev : string)
| DGT_SERIAL_NR
| DGT_JACK_CONNECTED_ERROR
| DGT_EBOARD_VERSION (text : DgtApi)
| DGT_NO_EBOARD_ERROR (text : DgtApi)
| DGT_NO_CLOCK_ERROR
| SWITCH_SIDES (move : Move)
| EXIT_MENU
| WRONG_FEN.

Arguments ENGINE_FAIL {Game}.
Arguments ENGINE_READY {Game}.
Arguments COMPUTER_MOVE_DONE {Game}.
Arguments USER_MOVE_DONE {Game}.
Arguments REVIEW_MOVE_DONE {Game}.
Arguments ALTERNATIVE_MOVE {Game}.
Arguments LEVEL {Game}.
Arguments OPENING_BOOK {Game}.
Arguments TAKE_BACK {Game}.
Arguments GAME_ENDS {Game}.
Arguments INTERACTION_MODE {Game}.
Arguments PLAY_MODE {Game}.
Arguments NEW_SCORE {Game}.
Arguments BOOK_MOVE {Game}.
Arguments NEW_DEPTH {Game}.
Arguments SEARCH_STARTED {Game}.
Arguments SEARCH_STOPPED {Game}.
Arguments CLOCK_STOP {Game}.
Arguments DGT_BUTTON {Game}.
Arguments DGT_FEN {Game}.
Arguments DGT_CLOCK_TIME {Game}.
Arguments DGT_SERIAL_NR {Game}.
Arguments DGT_JACK_CONNECTED_ERROR {Game}.
Arguments DGT_EBOARD_VERSION {Game}.
Arguments DGT_NO_EBOARD_ERROR {Game}.
Arguments DGT_NO_CLOCK_ERROR {Game}.
Arguments SWITCH_SIDES {Game}.
Arguments EXIT_MENU {Game}.
Arguments WRONG_FEN {Game}.

End Message.

Module Play.
Import Api Py Display.

Local Open Scope string_scope.

(** ** Assignments to the fields of the display *)

Definition set_leds_are_on (v : bool) (s : Session) : Session :=
  {| engine_finished := engine_finished s; drawresign_fen := drawresign_fen s;
     show_move_or_value := show_move_or_value s; leds_are_on := v;
     play_move := play_move s; hint_move := hint_move s;
     last_move := last_move s; play_fen := play_fen s; hint_fen := hint_fen s;
     last_fen := last_fen s; play_turn := play_turn s;
     hint_turn := hint_turn s; last_turn := last_turn s;
     score := score s; depth := depth s |}.

Definition set_show_move_or_value (v : Z) (s : Session) : Session :=
  {| engine_finished := engine_finished s; drawresign_fen := drawresign_fen s;
     show_move_or_value := v; leds_are_on := leds_are_on s;
     play_move := play_move s; hint_move := hint_move s;
     last_move := last_move s; play_fen := play_fen s; hint_fen := hint_fen s;
     last_fen := last_fen s; play_turn := play_turn s;
     hint_turn := hint_turn s; last_turn := last_turn s;
     score := score s; depth := depth s |}.

(** [self.play_move], [self.play_fen] and [self.play_turn] *)
Definition set_play (mv : Move) (fen : option string) (turn : option Color)
           (s : Session) : Session :=
  {| engine_finished := engine_finished s; drawresign_fen := drawresign_fen s;
     show_move_or_value := show_move_or_value s; leds_are_on := leds_are_on s;
     play_move := mv; hint_move := hint_move s;
     last_move := last_move s; play_fen := fen; hint_fen := hint_fen s;
     last_fen := last_fen s; play_turn := turn;
     hint_turn := hint_turn s; last_turn := last_turn s;
     score := score s; depth := depth s |}.

(** [self.hint_move], [self.hint_fen] and [self.hint_turn] *)
Definition set_hint (mv : Move) (fen : option string) (turn : option Color)
           (s : Session) : Session :=
  {| engine_finished := engine_finished s; drawresign_fen := drawresign_fen s;
     show_move_or_value := show_move_or_value s; leds_are_on := leds_are_on s;
     play_move := play_move s; hint_move := mv;
     last_move := last_move s; play_fen := play_fen s; hint_fen := fen;
     last_fen := last_fen s; play_turn := play_turn s;
     hint_turn := turn; last_turn := last_turn s;
     score := score s; depth := depth s |}.

(** [self.last_move], [self.last_fen] and [self.last_turn] *)
Definition set_last (mv : Move) (fen : option string) (turn : option Color)
           (s : Session) : Session :=
  {| engine_finished := engine_finished s; drawresign_fen := drawresign_fen s;
     show_move_or_value := show_move_or_value s; leds_are_on := leds_are_on s;
     play_move := play_move s; hint_move := hint_move s;
     last_move := mv; play_fen := play_fen s; hint_fen := hint_fen s;
     last_fen := fen; play_turn := play_turn s;
     hint_turn := hint_turn s; last_turn := turn;
     score := score s; depth := depth s |}.

Definition set_score (v : DgtApi) (s : Session) : Session :=
  {| engine_finished := engine_finished s; drawresign_fen := drawresign_fen s;
     show_move_or_value := show_move_or_value s; leds_are_on := leds_are_on s;
     play_move := play_move s; hint_move := hint_move s;
     last_move := last_move s; play_fen := play_fen s; hint_fen := hint_fen s;
     last_fen := last_fen s; play_turn := play_turn s;
     hint_turn := hint_turn s; last_turn := last_turn s;
     score := v; depth := depth s |}.

Definition set_depth (v : option Z) (s : Session) : Session :=
  {| engine_finished := engine_finished s; drawresign_fen := drawresign_fen s;
     show_move_or_value := show_move_or_value s; leds_are_on := leds_are_on s;
     play_move := play_move s; hint_move := hint_move s;
     last_move := last_move s; play_fen := play_fen s; hint_fen := hint_fen s;
     last_fen := last_fen s; play_turn := play_turn s;
     hint_turn := hint_turn s; last_turn := last_turn s;
     score := score s; depth := v |}.

(** The two light commands; they are made without [wait] and [maxtime]. *)
Definition light_clear : DgtApi :=
  {| body := LIGHT_CLEAR; wait := None; maxtime := None |}.

Definition light_squares (mv : Move) : DgtApi :=
  {| body := LIGHT_SQUARES (move_uci mv); wait := None; maxtime := None |}.

(** [Dgt.DISPLAY_TIME(force=True, wait=True, devs=...)] *)
Definition display_time (devs : list string) : DgtApi :=
  {| body := DISPLAY_TIME true devs; wait := Some true; maxtime := None |}.

(** [str(pos960)] *)
Definition str_option (pos960 : option Z) : string :=
  match pos960 with
  | None => "None"
  | Some p => str_int p
  end.

(** [if ponder:] on a move that may be [None] *)
Definition ponder_truthy (ponder : option Move) : bool :=
  match ponder with
  | Some mv => move_truthy mv
  | None => false
  end.

Definition Mode_eqb (a b : Mode) : bool :=
  match a, b with
  | NORMAL, NORMAL | ANALYSIS, ANALYSIS | KIBITZ, KIBITZ
  | OBSERVE, OBSERVE | REMOTE, REMOTE | PONDER, PONDER => true
  | _, _ => false
  end.

(** What the handlers ask of [chess.Board] ([Game]), of the object behind
    [self.time_control] ([Clock]) and of the menu, whose sources are not
    part of this development: each method is a function that is left
    open. *)
Record Collaborators (NavState Game Clock : Type) : Type := mkCollaborators {
  game_fen : Game -> string;                   (* game.fen() *)
  game_turn : Game -> Color;                   (* game.turn *)
  game_chess960_pos : Game -> option Z;        (* game.chess960_pos() *)
  pushed : Game -> Move -> Game;               (* game.copy(), push(move) *)
  reset : Clock -> Clock;                      (* time_control.reset() *)
  current_clock_time : Clock -> bool -> Z * Z; (* current_clock_time(flip_board) *)
  clock_mode : Clock -> TimeMode;              (* time_control.mode *)
  get_ponderinterval : DgtMenu NavState -> Z   (* dgtmenu.get_ponderinterval() *)
}.

Section Handlers.

Variable NavState : Type.
Variable ext : External NavState.

Variable Game : Type.
Variable Clock : Type.
Variable co : Collaborators NavState Game Clock.

Local Open Scope py_scope.

(** [dgtmenu.set_engine_has_960] *)
Definition set_engine_has_960 (v : bool) (mn : DgtMenu NavState)
  : DgtMenu NavState :=
  {| flip_board := flip_board mn; dgt_fen := dgt_fen mn;
     engine_restart := engine_restart mn; engine_has_960 := v;
     confirm := confirm mn; mode := mode mn; engine_index := engine_index mn;
     engine_level := engine_level mn; installed_engines := installed_engines mn;
     book_index := book_index mn; all_books := all_books mn;
     time_mode := time_mode mn; time_fixed := time_fixed mn;
     time_blitz := time_blitz mn; time_fisch := time_fisch mn;
     tc_fixed_map := tc_fixed_map mn; tc_blitz_map := tc_blitz_map mn;
     tc_fisch_map := tc_fisch_map mn; tc_fixed_list := tc_fixed_list mn;
     tc_blitz_list := tc_blitz_list mn; tc_fisch_list := tc_fisch_list mn;
     nav := nav mn |}.

(** The four lines that open most handlers:
    [if self.leds_are_on: DispatchDgt.fire(Dgt.LIGHT_CLEAR());
     self.leds_are_on = False] *)
Definition clear_lights : M NavState unit :=
  s <- get_me ;;
  if leds_are_on s then
    emit (Dispatch light_clear) ;;;
    modify_me (set_leds_are_on false)
  else ret tt.

(** [DgtDisplay._reset_moves_and_score] *)
Definition _reset_moves_and_score : M NavState unit :=
  modify_me (set_play NullMove None None) ;;;
  modify_me (set_hint NullMove None None) ;;;
  modify_me (set_last NullMove None None) ;;;
  modify_me (set_score (text ext "N10_score" ArgNone)) ;;;
  modify_me (set_depth None).

(** [if not self.dgtmenu.get_confirm() or not show_ok:
     DispatchDgt.fire(text)] *)
Definition unless_confirmed (show_ok : bool) (t : DgtApi) : M NavState unit :=
  mn <- get_menu ;;
  if negb (confirm mn) || negb show_ok then emit (Dispatch t) else ret tt.

(** The loop of [_process_engine_ready]: the index of the last installed
    engine with the file of the message is selected. *)
Fixpoint select_engine (file : string) (engines : list Engine) (index : nat)
  : M NavState unit :=
  match engines with
  | [] => ret tt
  | e :: rest =>
      (if String.eqb (eng_file e) file
       then modify_menu (@set_engine_index NavState index)
       else ret tt) ;;;
      select_engine file rest (S index)
  end.

(** The index that this loop leaves selected, [None] when no engine has
    the file. *)
Fixpoint last_match (file : string) (engines : list Engine) (index : nat)
  : option nat :=
  match engines with
  | [] => None
  | e :: rest =>
      match last_match file rest (S index) with
      | Some j => Some j
      | None => if String.eqb (eng_file e) file then Some index else None
      end
  end.

(** [DgtDisplay._process_engine_ready] *)
Definition _process_engine_ready (eng_file : string) (eng_text : DgtApi)
           (has_960 show_ok : bool) : M NavState unit :=
  mn <- get_menu ;;
  select_engine eng_file (installed_engines mn) 0 ;;;
  modify_menu (set_engine_has_960 has_960) ;;;
  unless_confirmed show_ok eng_text ;;;
  modify_menu (@set_engine_restart NavState false).

(** [DgtDisplay._process_computer_move].  The lights that are still on
    are cleared on the board, the flag is left as it is and set again at
    the end. *)
Definition _process_computer_move (move : Move) (ponder : option Move)
           (game : Game) (wait : bool) : M NavState unit :=
  s <- get_me ;;
  (if leds_are_on s then emit (Dispatch light_clear) else ret tt) ;;;
  modify_me (set_engine_finished true) ;;;
  modify_me (set_play move (Some (game_fen co game)) (Some (game_turn co game))) ;;;
  (if ponder_truthy ponder then
     let game_copy := pushed co game move in
     modify_me (set_hint (match ponder with Some mv => mv | None => NullMove end)
                         (Some (game_fen co game_copy))
                         (Some (game_turn co game_copy)))
   else modify_me (set_hint NullMove None None)) ;;;
  let side := _get_clock_side (Some (game_turn co game)) in
  emit (Dispatch {| body := DISPLAY_MOVE move (Some (game_fen co game)) side
                                         (bl ext BL_CONFIG) all_devs;
                    Api.wait := Some wait; maxtime := Some 0%Q |}) ;;;
  emit (Dispatch (light_squares move)) ;;;
  modify_me (set_leds_are_on true).

(** [DgtDisplay._process_computer_move_done] *)
Definition _process_computer_move_done (time_control : Clock)
  : M NavState unit :=
  clear_lights ;;;
  s <- get_me ;;
  modify_me (set_last (play_move s) (play_fen s) (play_turn s)) ;;;
  modify_me (set_play NullMove None None) ;;;
  modify_me (set_engine_finished false) ;;;
  mn <- get_menu ;;
  (if negb (confirm mn) then emit (Dispatch (text ext "K05_okpico" NoArg))
   else ret tt) ;;;
  match clock_mode co time_control with
  | FIXED => emit (Dispatch (display_time all_devs))
  | _ => ret tt
  end.

(** [DgtDisplay._process_user_move_done] *)
Definition _process_user_move_done (move : Move) (fen : string)
           (turn : Color) : M NavState unit :=
  clear_lights ;;;
  modify_me (set_last move (Some fen) (Some turn)) ;;;
  modify_me (set_engine_finished false) ;;;
  mn <- get_menu ;;
  if negb (confirm mn) then emit (Dispatch (text ext "K05_okuser" NoArg))
  else ret tt.

(** [DgtDisplay._process_review_move_done] *)
Definition _process_review_move_done (move : Move) (fen : string)
           (turn : Color) : M NavState unit :=
  clear_lights ;;;
  modify_me (set_last move (Some fen) (Some turn)) ;;;
  mn <- get_menu ;;
  if negb (confirm mn) then emit (Dispatch (text ext "K05_okmove" NoArg))
  else ret tt.

(** [DgtDisplay._process_start_new_game]; the time control is the one
    that [reset] has returned. *)
Definition _process_start_new_game (game : Game) (newgame : bool)
           (time_control : Clock) : M NavState unit :=
  clear_lights ;;;
  _reset_moves_and_score ;;;
  modify_me (set_engine_finished false) ;;;
  (if newgame then
     let pos960 := game_chess960_pos co game in
     let game_text :=
       match pos960 with
       | None => "C10_newgame"
       | Some p => if (p =? 518)%Z then "C10_newgame" else "C10_ucigame"
       end in
     emit (Dispatch (text ext game_text (ArgStr (str_option pos960))))
   else ret tt) ;;;
  mn <- get_menu ;;
  match mode mn with
  | NORMAL | OBSERVE | REMOTE =>
      let '(time_left, time_right) :=
        current_clock_time co time_control (flip_board mn) in
      emit (Dispatch {| body := CLOCK_START time_left time_right NONE all_devs;
                        wait := Some true; maxtime := None |})
  | _ => ret tt
  end.

(** [DgtDisplay._process_new_score]; the score of the message is an
    integer, so that [int] returns it. *)
Definition _process_new_score (score_val : Z) (mate : option Z) (mode : Mode)
           (turn : Color) : M NavState unit :=
  let text0 :=
    match mate with
    | None =>
        let score1 :=
          match turn with BLACK => (score_val * -1)%Z | WHITE => score_val end in
        text ext "N10_score" (ArgInt score1)
    | Some m => text ext "N10_mate" (ArgStr (str_int m))
    end in
  modify_me (set_score text0) ;;;
  inside <- _inside_menu ext ;;
  if Mode_eqb mode KIBITZ && negb inside then
    t <- @_combine_depth_and_score NavState ;;
    emit (Dispatch t)
  else ret tt.

(** [DgtDisplay._process_new_pv]; [pv[0]] of an empty list is an
    [IndexError]. *)
Definition _process_new_pv (pv : list Move) (mode : Mode) (game : Game)
  : M NavState unit :=
  mv <- or_raise (nth_error pv 0) IndexError ;;
  modify_me (set_hint mv (Some (game_fen co game)) (Some (game_turn co game))) ;;;
  inside <- _inside_menu ext ;;
  if Mode_eqb mode ANALYSIS && negb inside then
    s <- get_me ;;
    let side := _get_clock_side (hint_turn s) in
    emit (Dispatch {| body := DISPLAY_MOVE (hint_move s) (hint_fen s) side
                                           (bl ext BL_NO) all_devs;
                      wait := Some true; maxtime := Some 0%Q |})
  else ret tt.

(** ** The display with its time control *)

Record Desk : Type := mkDesk {
  world : World NavState;
  time_control : Clock
}.

(** How the handling of a message ends.  [ZeroDivisionError] is the one
    exception of these handlers that [Py.Exn] does not name. *)
Inductive Ending : Type :=
| Returned
| Threw (e : Exn)
| ZeroDivisionError.

Definition lift (c : M NavState unit) (d : Desk) : Ending * Desk :=
  let '(o, w) := c (world d) in
  (match o with Done _ => Returned | Raised e => Threw e end,
   {| world := w; time_control := time_control d |}).

(** [DgtDisplay._process_dgt_serial_nr], the tick of the watchdog.  The
    remainder of a division by zero raises after the text was
    dispatched. *)
Definition _process_dgt_serial_nr (d : Desk) : Ending * Desk :=
  let w := world d in
  let mn := dgtmenu w in
  let s := me w in
  if Mode_eqb (mode mn) PONDER && negb (inside_menu ext mn) then
    let chosen : Outcome DgtApi * World NavState :=
      if (show_move_or_value s >=? get_ponderinterval co mn)%Z then
        if move_truthy (hint_move s) then
          (Done {| body := DISPLAY_MOVE (hint_move s) (hint_fen s)
                                        (_get_clock_side (hint_turn s))
                                        (bl ext BL_NO) all_devs;
                   wait := Some true; maxtime := Some 1%Q |}, w)
        else (Done (text ext "N10_nomove" NoArg), w)
      else @_combine_depth_and_score NavState w in
    match chosen with
    | (Raised e, w1) =>
        (Threw e, {| world := w1; time_control := time_control d |})
    | (Done t, w1) =>
        let w2 := {| me := me w1; dgtmenu := dgtmenu w1;
                     actions := actions w1 ++ [Dispatch (set_wait true t)] |} in
        let modulus := (get_ponderinterval co mn * 2)%Z in
        if (modulus =? 0)%Z then
          (ZeroDivisionError, {| world := w2; time_control := time_control d |})
        else
          (Returned,
           {| world :=
                {| me := set_show_move_or_value
                           ((show_move_or_value s + 1) mod modulus)%Z (me w2);
                   dgtmenu := dgtmenu w2; actions := actions w2 |};
              time_control := time_control d |})
    end
  else (Returned, d).

(** The text of [GAME_ENDS]: half a second, with the beep of the
    configuration level. *)
Definition game_ends_text (result_value : string) : DgtApi :=
  set_maxtime (1 # 2) (set_beep (bl ext BL_CONFIG)
                                (text ext result_value NoArg)).

(** [DgtDisplay._process_message] *)
Definition _process_message (message : Message.t Game) (d : Desk)
  : Ending * Desk :=
  match message with
  | Message.ENGINE_READY eng_file eng_text has_960 show_ok =>
      lift (_process_engine_ready eng_file eng_text has_960 show_ok) d
  | Message.ENGINE_FAIL =>
      lift (emit (Dispatch (text ext "Y00_erroreng" NoArg))) d
  | Message.COMPUTER_MOVE move ponder game wait =>
      lift (_process_computer_move move ponder game wait) d
  | Message.START_NEW_GAME game newgame =>
      let tc := reset co (time_control d) in
      lift (_process_start_new_game game newgame tc)
           {| world := world d; time_control := tc |}
  | Message.COMPUTER_MOVE_DONE =>
      lift (_process_computer_move_done (time_control d)) d
  | Message.USER_MOVE_DONE move fen turn =>
      lift (_process_user_move_done move fen turn) d
  | Message.REVIEW_MOVE_DONE move fen turn =>
      lift (_process_review_move_done move fen turn) d
  | Message.ALTERNATIVE_MOVE =>
      lift (clear_lights ;;;
            emit (Dispatch (text ext "B05_altmove" NoArg))) d
  | Message.LEVEL level_text =>
      lift (mn <- get_menu ;;
            if negb (engine_restart mn) then emit (Dispatch level_text)
            else ret tt) d
  | Message.OPENING_BOOK book_text show_ok =>
      lift (unless_confirmed show_ok book_text) d
  | Message.TAKE_BACK =>
      lift (clear_lights ;;;
            _reset_moves_and_score ;;;
            modify_me (set_engine_finished false) ;;;
            emit (Dispatch (text ext "C10_takeback" NoArg))) d
  | Message.GAME_ENDS result_value =>
      lift (mn <- get_menu ;;
            if negb (engine_restart mn)
            then emit (Dispatch (game_ends_text result_value))
            else ret tt) d
  | Message.INTERACTION_MODE mode_text show_ok =>
      lift (modify_me (set_engine_finished false) ;;;
            unless_confirmed show_ok mode_text) d
  | Message.PLAY_MODE play_mode_text =>
      lift (emit (Dispatch play_mode_text)) d
  | Message.NEW_SCORE score_val mate mode turn =>
      lift (_process_new_score score_val mate mode turn) d
  | Message.BOOK_MOVE =>
      lift (modify_me (set_score (text ext "N10_score" ArgNone)) ;;;
            emit (Dispatch (text ext "N10_bookmove" NoArg))) d
  | Message.NEW_PV pv mode game =>
      lift (_process_new_pv pv mode game) d
  | Message.NEW_DEPTH depth =>
      lift (modify_me (set_depth (Some depth))) d
  | Message.SEARCH_STARTED => (Returned, d)
  | Message.SEARCH_STOPPED => (Returned, d)
  | Message.CLOCK_STOP devs =>
      lift (emit (Dispatch {| body := CLOCK_STOP devs;
                              wait := None; maxtime := None |})) d
  | Message.DGT_BUTTON button => lift (_process_button ext button) d
  | Message.DGT_FEN fen raw => lift (_process_fen ext fen raw) d
  | Message.DGT_CLOCK_TIME time_left time_right dev =>
      lift (emit (Dispatch {| body := CLOCK_TIME time_left time_right dev;
                              wait := None; maxtime := None |})) d
  | Message.DGT_SERIAL_NR => _process_dgt_serial_nr d
  | Message.DGT_JACK_CONNECTED_ERROR =>
      lift (emit (Dispatch (text ext "Y00_errorjack" NoArg))) d
  | Message.DGT_EBOARD_VERSION text0 =>
      lift (emit (Dispatch text0) ;;;
            emit (Dispatch (display_time ["i2c"%string]))) d
  | Message.DGT_NO_EBOARD_ERROR text0 => lift (emit (Dispatch text0)) d
  | Message.DGT_NO_CLOCK_ERROR => (Returned, d)
  | Message.SWITCH_SIDES move =>
      lift (modify_me (set_engine_finished false) ;;;
            modify_me (set_hint NullMove None None)) d
  | Message.EXIT_MENU => lift (_exit_display ext) d
  | Message.WRONG_FEN =>
      lift (emit (Dispatch (text ext "C10_setpieces" NoArg))) d
  end.

(** The loop of [run] on the messages of the queue: an exception ends
    the thread. *)
Fixpoint run (messages : list (Message.t Game)) (d : Desk) : Ending * Desk :=
  match messages with
  | [] => (Returned, d)
  | message :: rest =>
      match _process_message message d with
      | (Returned, d1) => run rest d1
      | stopped => stopped
      end
  end.

(** [DgtDisplay.__init__] *)
Definition created (mn : DgtMenu NavState) (tc : Clock) : Desk :=
  {| world :=
       {| me :=
            {| engine_finished := false; drawresign_fen := None;
               show_move_or_value := 0; leds_are_on := false;
               play_move := NullMove; hint_move := NullMove;
               last_move := NullMove;
               play_fen := None; hint_fen := None; last_fen := None;
               play_turn := None; hint_turn := None; last_turn := None;
               score := text ext "N10_score" ArgNone; depth := None |};
          dgtmenu := mn;
          actions := [] |};
     time_control := tc |}.

End Handlers.

End Play.

(* ================================================================== *)
(** * The lights of the board *)
(* ================================================================== *)

Module Lights.
Import Api Py Display.

Definition is_light (c : DgtApi) : bool :=
  match body c with
  | LIGHT_CLEAR | LIGHT_SQUARES _ => true
  | _ => false
  end.

(** An action that does not reach the lights. *)
Definition dark (a : Action) : Prop :=
  match a with
  | Dispatch c => is_light c = false
  | _ => True
  end.

(** Whether squares are lit once [acts] went out, [lit] telling whether
    they were before. *)
Fixpoint lit_after (lit : bool) (acts : list Action) : bool :=
  match acts with
  | [] => lit
  | Dispatch c :: rest =>
      lit_after (match body c with
                 | LIGHT_SQUARES _ => true
                 | LIGHT_CLEAR => false
                 | _ => lit
                 end) rest
  | _ :: rest => lit_after lit rest
  end.

(** The lights are cleared only when squares are lit, and squares are
    lit only when none is. *)
Fixpoint lights_alternate (lit : bool) (acts : list Action) : Prop :=
  match acts with
  | [] => True
  | Dispatch c :: rest =>
      match body c with
      | LIGHT_SQUARES _ => lit = false /\ lights_alternate true rest
      | LIGHT_CLEAR => lit = true /\ lights_alternate false rest
      | _ => lights_alternate lit rest
      end
  | _ :: rest => lights_alternate lit rest
  end.

(** The texts that come with a message are no light commands. *)
Definition carries_no_light {Game : Type} (message : Message.t Game) : Prop :=
  match message with
  | Message.ENGINE_READY _ t _ _ | Message.LEVEL t
  | Message.OPENING_BOOK t _ | Message.INTERACTION_MODE t _
  | Message.PLAY_MODE t | Message.DGT_EBOARD_VERSION t
  | Message.DGT_NO_EBOARD_ERROR t => is_light t = false
  | _ => True
  end.

Section Lights.

Variable NavState : Type.

(** The translation and the menu hand out no light commands. *)
Definition texts_only (ext : External NavState) : Prop :=
  (forall text_id arg, is_light (text ext text_id arg) = false) /\
  (forall mn t, snd (up ext mn) = Some t -> is_light t = false) /\
  (forall mn t, snd (down ext mn) = Some t -> is_light t = false) /\
  (forall mn, is_light (snd (left ext mn)) = false) /\
  (forall mn, is_light (snd (right ext mn)) = false) /\
  (forall mn t, get_current_text ext mn = Some t -> is_light t = false).

(** The flag of the display tells what the board shows. *)
Definition led_inv (w : World NavState) : Prop :=
  leds_are_on (me w) = lit_after false (actions w) /\
  lights_alternate false (actions w) /\
  is_light (score (me w)) = false.

(** A handler that keeps the flag and the score and reaches no light,
    however it ends. *)
Definition quiet {A : Type} (c : M NavState A) : Prop :=
  forall w, is_light (score (me w)) = false ->
    score (me (snd (c w))) = score (me w) /\
    leds_are_on (me (snd (c w))) = leds_are_on (me w) /\
    exists acts, actions (snd (c w)) = actions w ++ acts /\ Forall dark acts.

Definition keeps_led_inv {A : Type} (c : M NavState A) : Prop :=
  forall w, led_inv w -> led_inv (snd (c w)).

End Lights.

End Lights.

(* ================================================================== *)
(** * The ponder display *)
(* ================================================================== *)

Module Ponder.
Import Api Py Display Play.

Local Open Scope string_scope.

Section Ponder.

Variable NavState : Type.
Variable ext : External NavState.
Variable Game : Type.
Variable Clock : Type.
Variable co : Collaborators NavState Game Clock.

(** What a tick shows in ponder mode when the counter stands at [v]: the
    score up to the ponder interval, the hint move from there on.  The
    score is the one with the depth in front, as far as it could be
    combined. *)
Definition ponder_shown (s : Session) (mn : DgtMenu NavState) (v : Z)
  : DgtApi :=
  set_wait true
    (if (v >=? get_ponderinterval co mn)%Z then
       if move_truthy (hint_move s) then
         {| body := DISPLAY_MOVE (hint_move s) (hint_fen s)
                                 (_get_clock_side (hint_turn s))
                                 (bl ext BL_NO) all_devs;
            wait := Some true; maxtime := Some 1%Q |}
       else text ext "N10_nomove" NoArg
     else
       match combine_try (score s) (depth s) with
       | Completed sc | Caught sc => sc
       | Escaped _ => score s
       end).

(** [n] ticks of the watchdog. *)
Definition ticks (n : nat) : list (Message.t Game) :=
  repeat Message.DGT_SERIAL_NR n.

End Ponder.

End Ponder.

(* ================================================================== *)
(** * The engine wrapper ([uci/engine.py]) *)
(* ================================================================== *)

Module Uci.
Import Api.

(** [dgt.util.EngineStatus] *)
Inductive EngineStatus : Type := THINK | PONDER | WAIT.

(** What a finished search hands back: [bestmove] and [ponder]. *)
Record BestMove : Type := mkBestMove {
  bestmove : Move;
  ponder_move : option Move
}.

(** The events that [UciEngine] fires. *)
Inductive Event : Type :=
| START_SEARCH (engine_status : EngineStatus)
| STOP_SEARCH (engine_status : EngineStatus)
| BEST_MOVE (move : Move) (ponder : option Move) (inbook : bool).

Section Engine.

(** [chess.uci]: the commands that are sent to the engine process take
    the keyword arguments of the caller, and the command object that
    [engine.go] returns gives the best move once the search has ended. *)
Variable TimeDict : Type.
Variable Future : Type.
Variable result : Future -> BestMove.

(** What leaves the wrapper, in program order. *)
Inductive Effect : Type :=
| Fire (event : Event)                        (* Observable.fire *)
| EngineGo (time_dict : TimeDict)             (* engine.go with time_dict *)
| EnginePonder                                (* engine.go(ponder=True, infinite=True, ...) *)
| EngineStop                                  (* engine.stop() *)
| EngineSetoption (options : list (string * string)).
                                              (* engine.setoption(options) *)

(** The fields that [__init__] sets after the engine was spawned. *)
Record UciEngine : Type := mkEngine {
  options : list (string * string);
  future : option Future;
  show_best : bool;
  res : option BestMove;
  status : EngineStatus;
  level_support : bool
}.

Definition init : UciEngine :=
  {| options := []; future := None; show_best := true; res := None;
     status := WAIT; level_support := false |}.

Definition is_thinking (self : UciEngine) : bool :=
  match status self with THINK => true | _ => false end.

Definition is_pondering (self : UciEngine) : bool :=
  match status self with PONDER => true | _ => false end.

Definition is_waiting (self : UciEngine) : bool :=
  match status self with WAIT => true | _ => false end.

(** [options[name] = value] on a dictionary kept in insertion order. *)
Fixpoint assign (name value : string) (d : list (string * string))
  : list (string * string) :=
  match d with
  | [] => [(name, value)]
  | (k, v) :: rest =>
      if String.eqb k name then (k, value) :: rest
      else (k, v) :: assign name value rest
  end.

(** [UciEngine.option] *)
Definition option (name value : string) (self : UciEngine) : UciEngine :=
  {| options := assign name value (options self); future := future self;
     show_best := show_best self; res := res self; status := status self;
     level_support := level_support self |}.

(** [UciEngine.level] *)
Definition level (opts : list (string * string)) (self : UciEngine)
  : UciEngine :=
  {| options := opts; future := future self;
     show_best := show_best self; res := res self; status := status self;
     level_support := level_support self |}.

(** [UciEngine.send] *)
Definition send (self : UciEngine) : UciEngine * list Effect :=
  (self, [EngineSetoption (options self)]).

(** How [stop] ends: with the value it returns, or with the
    [AttributeError] of [None.result()]. *)
Inductive Stopped : Type :=
| Returns (best : Datatypes.option BestMove)
| AttributeError.

(** [UciEngine.stop] *)
Definition stop (show_best0 : bool) (self : UciEngine)
  : Stopped * UciEngine * list Effect :=
  if is_waiting self then (Returns (res self), self, [])
  else
    let self1 :=
      {| options := options self; future := future self;
         show_best := show_best0; res := res self; status := status self;
         level_support := level_support self |} in
    match future self1 with
    | Some f => (Returns (Some (result f)), self1, [EngineStop])
    | None => (AttributeError, self1, [EngineStop])
    end.

(** [UciEngine.go]; [f] is the command object that [engine.go] returns. *)
Definition go (time_dict : TimeDict) (f : Future) (self : UciEngine)
  : Future * UciEngine * list Effect :=
  (f,
   {| options := options self; future := Some f; show_best := true;
      res := res self; status := THINK;
      level_support := level_support self |},
   [Fire (START_SEARCH THINK); EngineGo time_dict]).

(** [UciEngine.ponder] *)
Definition ponder (f : Future) (self : UciEngine)
  : Future * UciEngine * list Effect :=
  (f,
   {| options := options self; future := Some f; show_best := false;
      res := res self; status := PONDER;
      level_support := level_support self |},
   [Fire (START_SEARCH PONDER); EnginePonder]).

(** [UciEngine.callback], which the engine calls with the command object
    of the search that has ended. *)
Definition callback (command : Future) (self : UciEngine)
  : UciEngine * list Effect :=
  let r := result command in
  ({| options := options self; future := future self;
      show_best := show_best self; res := Some r; status := WAIT;
      level_support := level_support self |},
   Fire (STOP_SEARCH (status self))
   :: (if show_best self
       then [Fire (BEST_MOVE (bestmove r) (ponder_move r) false)]
       else [])).

(** ** Sequences of calls *)

Inductive Call : Type :=
| Go (time_dict : TimeDict) (f : Future)
| Ponder (f : Future)
| Stop (show_best : bool)
| Callback (command : Future)
| Option (name value : string)
| Level (opts : list (string * string))
| Send.

(** One call; the value that [stop] returns is kept, [None] standing for
    the calls that return nothing of interest. *)
Definition call (c : Call) (self : UciEngine)
  : Datatypes.option Stopped * UciEngine * list Effect :=
  match c with
  | Go time_dict f =>
      let '(_, self1, out) := go time_dict f self in (None, self1, out)
  | Ponder f =>
      let '(_, self1, out) := ponder f self in (None, self1, out)
  | Stop b =>
      let '(v, self1, out) := stop b self in (Some v, self1, out)
  | Callback command =>
      let '(self1, out) := callback command self in (None, self1, out)
  | Option name value => (None, option name value self, [])
  | Level opts => (None, level opts self, [])
  | Send => let '(self1, out) := send self in (None, self1, out)
  end.

(** The calls one after the other: the engine at the end, the values
    that the calls of [stop] returned, and the effects. *)
Fixpoint calls (cs : list Call) (self : UciEngine)
  : UciEngine * list Stopped * list Effect :=
  match cs with
  | [] => (self, [], [])
  | c :: rest =>
      let '(v, self1, out1) := call c self in
      let '(self2, vs, out2) := calls rest self1 in
      (self2,
       match v with Some x => x :: vs | None => vs end,
       out1 ++ out2)
  end.

(** A search that is under way has its command object. *)
Definition searching_has_future (self : UciEngine) : Prop :=
  status self = WAIT \/ future self <> None.

(** The events among the effects. *)
Definition fired (out : list Effect) : list Event :=
  flat_map (fun e => match e with Fire ev => [ev] | _ => [] end) out.

End Engine.

End Uci.

(* ================================================================== *)
(** * From the display to the dispatcher *)
(* ================================================================== *)

Module Pipeline.
Import Api Dispatcher DispatcherRuns Display.

(** The commands that [DispatchDgt.fire] has put into the queue of the
    dispatcher, in their order. *)
Definition commands (acts : list Action) : list DgtApi :=
  flat_map (fun a => match a with Dispatch c => [c] | _ => [] end) acts.

(** What the handler that led from [w] to [w'] has done. *)
Definition appended {NavState : Type} (w w' : World NavState) : list Action :=
  skipn (List.length (actions w)) (actions w').

(** The dispatcher takes the commands of a handler one by one. *)
Definition handed_over {NavState : Type} (w w' : World NavState)
  : list Input :=
  map Submit (commands (appended w w')).

End Pipeline.

(* ================================================================== *)
(** * Concrete inputs *)
(* ================================================================== *)

Module Samples.
Import Api Dispatcher.

Local Open Scope string_scope.

(** A hash that depends on the content of a command: the characters of
    its text or move, its beep flag and its class. *)
Fixpoint string_code (s : string) (acc : Z) : Z :=
  match s with
  | EmptyString => acc
  | String c r => string_code r ((acc * 257 + Z.of_nat (nat_of_ascii c)) mod 1000003)
  end.

Definition sample_hash (message : DgtApi) : Z :=
  match body message with
  | DISPLAY_MOVE mv _ _ b _ => string_code (move_uci mv) (if b then 3 else 2)
  | DISPLAY_TEXT l m s b _ => string_code (l ++ m ++ s) (if b then 5 else 4)
  | _ => 1
  end.

Definition text_cmd (content : string) (w : bool) (secs : Q) (b : bool) : DgtApi :=
  {| body := DISPLAY_TEXT content content content b None;
     wait := Some w; maxtime := Some secs |}.

Definition move_cmd (uci : string) (w : bool) (secs : Q) (b : bool) : DgtApi :=
  {| body := DISPLAY_MOVE (UciMove uci) None LEFT b all_devs;
     wait := Some w; maxtime := Some secs |}.

Definition clock_stop_cmd : DgtApi :=
  {| body := CLOCK_STOP all_devs; wait := None; maxtime := None |}.

(** A dispatcher whose timer was armed by a one-second command. *)
Definition busy : State :=
  {| maxtimer := Some {| interval := 1; serial := 0 |};
     maxtimer_running := true; time_factor := 1; tasks := [];
     display_hash := None; timers_made := 1 |}.

End Samples.

Module DisplaySamples.
Import Api Py Display.

Local Open Scope string_scope.

(** A translation table that shows the identifier of a text. *)
Definition sample_text (text_id : string) (arg : TextArg) : DgtApi :=
  {| body := DISPLAY_TEXT text_id text_id text_id false None;
     wait := Some false; maxtime := Some 0%Q |}.

(** The text of a numeric score, as the three fields hold it. *)
Definition score_text (l m s : string) : DgtApi :=
  {| body := DISPLAY_TEXT l m s false None;
     wait := Some false; maxtime := Some 1%Q |}.

Definition standard_start : string :=
  "rnbqkbnr/pppppppp/8/8/8/8/PPPPPPPP/RNBQKBNR".

(** Chess960 start position number 0. *)
Definition start_960_0 : string :=
  "bbqnnrkr/pppppppp/8/8/8/8/PPPPPPPP/BBQNNRKR".

(** What [chess960_pos] answers on the two start positions above; every
    other board is taken to parse and to be no start position. *)
Definition sample_chess960_pos (fen : string) : option (option Z) :=
  if String.eqb fen standard_start then Some (Some 518%Z)
  else if String.eqb fen start_960_0 then Some (Some 0%Z)
  else Some None.

(** A menu that is never entered. *)
Definition sample_ext : External unit :=
  {| text := sample_text;
     bl := fun _ => false;
     mode_value := fun _ => "B00_mode";
     inside_menu := fun _ => false;
     enter_top_menu := fun mn => mn;
     up := fun mn => (mn, None);
     down := fun mn => (mn, None);
     left := fun mn => (mn, sample_text "left" NoArg);
     right := fun mn => (mn, sample_text "right" NoArg);
     get_current_text := fun _ => None;
     chess960_pos := sample_chess960_pos |}.

(** An engine with twenty levels. *)
Definition sample_levels : list (string * Options) :=
  map (fun k => ("Level " ++ str_nat k, [("Skill Level", str_nat k)]))
      (seq 10 20).

Definition sample_engine : Engine :=
  {| eng_file := "engines/stockfish"; eng_name := "Stockfish";
     eng_text := sample_text "stockfish" NoArg; level_dict := sample_levels |}.

Definition sample_menu : DgtMenu unit :=
  {| flip_board := false; dgt_fen := "8/8/8/8/8/8/8/8";
     engine_restart := false; engine_has_960 := false; confirm := true;
     mode := NORMAL; engine_index := 0; engine_level := None;
     installed_engines := [sample_engine];
     book_index := 0; all_books := [];
     time_mode := BLITZ; time_fixed := 0; time_blitz := 0; time_fisch := 0;
     tc_fixed_map := []; tc_blitz_map := []; tc_fisch_map := [];
     tc_fixed_list := []; tc_blitz_list := []; tc_fisch_list := [];
     nav := tt |}.

(** The fields of a display that has just been created. *)
Definition sample_session : Session :=
  {| engine_finished := false; drawresign_fen := None;
     show_move_or_value := 0; leds_are_on := false;
     play_move := NullMove; hint_move := NullMove; last_move := NullMove;
     play_fen := None; hint_fen := None; last_fen := None;
     play_turn := None; hint_turn := None; last_turn := None;
     score := score_text "no score" "no score" "no scr"; depth := None |}.

Definition sample_world : World unit :=
  {| me := sample_session; dgtmenu := sample_menu; actions := [] |}.

Definition with_score (sc : DgtApi) (d : option Z) (s : Session) : Session :=
  {| engine_finished := engine_finished s; drawresign_fen := drawresign_fen s;
     show_move_or_value := show_move_or_value s; leds_are_on := leds_are_on s;
     play_move := play_move s; hint_move := hint_move s;
     last_move := last_move s; play_fen := play_fen s; hint_fen := hint_fen s;
     last_fen := last_fen s; play_turn := play_turn s;
     hint_turn := hint_turn s; last_turn := last_turn s;
     score := sc; depth := d |}.

(** The display after a score of [-1500] centipawns at depth 12. *)
Definition world_minus_1500 : World unit :=
  {| me := with_score (score_text "   -1500" "   -1500" " -1500") (Some 12%Z)
                      sample_session;
     dgtmenu := sample_menu; actions := [] |}.

(** The display after a score of [1500] centipawns at depth 12. *)
Definition world_plus_1500 : World unit :=
  {| me := with_score (score_text "    1500" "    1500" "  1500") (Some 12%Z)
                      sample_session;
     dgtmenu := sample_menu; actions := [] |}.

(** The display after a score of [123] centipawns, before any depth was
    reported. *)
Definition world_score_before_depth : World unit :=
  {| me := with_score (score_text "     123" "     123" "   123") None
                      sample_session;
     dgtmenu := sample_menu; actions := [] |}.

(** A menu that waits for its engine to restart. *)
Definition restarting_world : World unit :=
  {| me := sample_session;
     dgtmenu := set_engine_restart true sample_menu; actions := [] |}.

End DisplaySamples.

Module RunSamples.
Import Api Dispatcher DispatcherRuns Samples.

Local Open Scope string_scope.

(** A timed text, a move that waits behind it, and the expiry of the
    timer. *)
Definition timed_then_move : list Input :=
  [Submit (text_cmd "mate" false 1 false);
   Submit (move_cmd "e2e4" true 0 false);
   Expire].

(** The same with a clock stop, which has no [wait] attribute, handed in
    before the timer fires. *)
Definition with_clock_stop : list Input :=
  [Submit (text_cmd "mate" false 1 false);
   Submit (move_cmd "e2e4" true 0 false);
   Submit clock_stop_cmd;
   Expire].

End RunSamples.

Module GestureSamples.
Import Api Py Display DisplaySamples.

Local Open Scope string_scope.

(** The board is mounted the other way round. *)
Definition flipped_world : World unit :=
  {| me := sample_session;
     dgtmenu := set_position_reverse_to_flipboard sample_menu;
     actions := [] |}.

Definition sample_book : Book :=
  {| book_file := "books/a-nobook.bin";
     book_text := sample_text "nobook" NoArg |}.

(** One opening book is installed. *)
Definition library_world : World unit :=
  {| me := sample_session;
     dgtmenu := set_all_books [sample_book] sample_menu;
     actions := [] |}.

(** No engine is installed. *)
Definition no_engine_world : World unit :=
  {| me := sample_session;
     dgtmenu := set_installed_engines [] sample_menu;
     actions := [] |}.

(** The second shutdown gesture, as a flipped board reports it. *)
Definition two_queens_seen_flipped : string :=
  "RNBQQBNR/PPPPPPPP/8/8/8/8/pppppppp/rnbkqbnr".

(** The kings on d5 and e4 with a rook left in two corners. *)
Definition kings_and_rooks : string := "r7/8/8/3k4/4K3/8/8/7R".

Definition after_e2e4 : string :=
  "rnbqkbnr/pppppppp/8/8/4P3/8/PPPP1PPP/RNBQKBNR".

End GestureSamples.

Module ButtonSamples.
Import Api Py Display DisplaySamples.

Local Open Scope string_scope.

(** The engine has just delivered its move. *)
Definition finished_world : World unit :=
  {| me := set_engine_finished true sample_session;
     dgtmenu := sample_menu; actions := [] |}.

(** The user has answered 1.e4 of the computer with 1...e5. *)
Definition moved_session : Session :=
  {| engine_finished := false; drawresign_fen := None;
     show_move_or_value := 0; leds_are_on := false;
     play_move := NullMove; hint_move := NullMove;
     last_move := UciMove "e7e5";
     play_fen := None; hint_fen := None;
     last_fen :=
       Some "rnbqkbnr/pppppppp/8/8/4P3/8/PPPP1PPP/RNBQKBNR b KQkq - 0 1";
     play_turn := None; hint_turn := None; last_turn := Some BLACK;
     score := score_text "no score" "no score" "no scr"; depth := None |}.

Definition moved_world : World unit :=
  {| me := moved_session; dgtmenu := sample_menu; actions := [] |}.

End ButtonSamples.

Module PlaySamples.
Import Api Py Display Play DisplaySamples.

Local Open Scope string_scope.

(** A board that is known by its notation and the side to move; pushing a
    move hands the turn over. *)
Definition SampleGame : Type := (string * Color)%type.

Definition other (c : Color) : Color :=
  match c with WHITE => BLACK | BLACK => WHITE end.

(** A blitz clock with five minutes on either side and a ponder display
    that changes every three ticks. *)
Definition sample_co : Collaborators unit SampleGame unit :=
  {| game_fen := fst;
     game_turn := snd;
     game_chess960_pos := fun _ => Some 518%Z;
     pushed := fun g mv => (fst g ++ " " ++ move_uci mv, other (snd g));
     reset := fun c => c;
     current_clock_time := fun _ _ => (300%Z, 300%Z);
     clock_mode := fun _ => BLITZ;
     get_ponderinterval := fun _ => 3%Z |}.

(** A translator that writes the number of a score right-justified into
    the three fields of the text, eight, eight and six characters wide. *)
Definition score_ext : External unit :=
  {| text := fun text_id arg =>
               match arg with
               | ArgInt v =>
                   score_text (rjust 8 (str_int v)) (rjust 8 (str_int v))
                              (rjust 6 (str_int v))
               | _ => sample_text text_id arg
               end;
     bl := bl sample_ext;
     mode_value := mode_value sample_ext;
     inside_menu := inside_menu sample_ext;
     enter_top_menu := enter_top_menu sample_ext;
     up := up sample_ext;
     down := down sample_ext;
     left := left sample_ext;
     right := right sample_ext;
     get_current_text := get_current_text sample_ext;
     chess960_pos := chess960_pos sample_ext |}.

Definition start_game : SampleGame :=
  ("rnbqkbnr/pppppppp/8/8/8/8/PPPPPPPP/RNBQKBNR w KQkq - 0 1", WHITE).

(** The computer opens with the king's pawn, thinks again and plays the
    queen's pawn instead, and the user replies. *)
Definition opening : list (Message.t SampleGame) :=
  [Message.START_NEW_GAME start_game true;
   Message.COMPUTER_MOVE (UciMove "e2e4") (Some (UciMove "e7e5")) start_game
                         false;
   Message.ALTERNATIVE_MOVE;
   Message.COMPUTER_MOVE (UciMove "d2d4") None start_game false;
   Message.COMPUTER_MOVE_DONE;
   Message.USER_MOVE_DONE
     (UciMove "d7d5")
     "rnbqkbnr/pppppppp/8/8/3P4/8/PPP1PPPP/RNBQKBNR b KQkq - 0 1" BLACK].

Definition sample_desk : Desk unit unit :=
  {| world := sample_world; time_control := tt |}.

(** The engine ponders while the user is to move. *)
Definition ponder_desk : Desk unit unit :=
  {| world := {| me := sample_session;
                 dgtmenu := set_mode PONDER sample_menu;
                 actions := [] |};
     time_control := tt |}.

End PlaySamples.

Module UciSamples.
Import Api Uci.

Local Open Scope string_scope.

(** A search is known by its number; every search finds the same move. *)
Definition sample_result (f : nat) : BestMove :=
  {| bestmove := UciMove "g1f3"; ponder_move := Some (UciMove "g8f6") |}.

End UciSamples.

(* ================================================================== *)
(** * Properties of the dispatcher *)
(* ================================================================== *)

Module DispatcherFacts.
Import Api Dispatcher.

Section WithHash.

Variable hash : DgtApi -> Z.

Ltac break_process :=
  unfold _process_message;
  repeat match goal with
         | |- context [if ?b then _ else _] => destruct b eqn:?
         | |- context [match maxtime ?m with _ => _ end] =>
             destruct (maxtime m) eqn:?
         end; cbn [fst snd arm_timer].

(** [_process_message] never touches the queue nor the time factor. *)
Lemma process_keeps_tasks (st : State) (m : DgtApi) :
  tasks (fst (_process_message hash st m)) = tasks st.
Proof. break_process; reflexivity. Qed.

Lemma process_keeps_time_factor (st : State) (m : DgtApi) :
  time_factor (fst (_process_message hash st m)) = time_factor st.
Proof. break_process; reflexivity. Qed.

(** It only ever switches the running flag on. *)
Lemma process_running_mono (st : State) (m : DgtApi) :
  maxtimer_running st = true ->
  maxtimer_running (fst (_process_message hash st m)) = true.
Proof. intros H; break_process; cbn; assumption || reflexivity. Qed.

(** What it does depends neither on the queue nor on the running flag. *)
Lemma process_same_core (a b : State) (m : DgtApi) :
  same_core a b ->
  same_core (fst (_process_message hash a m)) (fst (_process_message hash b m))
  /\ snd (_process_message hash a m) = snd (_process_message hash b m)
  /\ (maxtimer_running (fst (_process_message hash a m)) = true ->
      maxtimer_running a = false ->
      maxtimer_running (fst (_process_message hash b m)) = true).
Proof.
  intros (Ht & Hf & Hh & Hn).
  unfold _process_message, same_core, arm_timer.
  rewrite Hh.
  destruct (is_clock_state m); [| destruct (is_move_or_text m);
    [destruct (hash_matches (display_hash b) (hash m) && negb (beep m)) |]];
    (destruct (maxtime m) as [q|]; [destruct (positive q) |]);
    cbn; rewrite ?Ht, ?Hf, ?Hh, ?Hn; repeat split; auto; congruence.
Qed.

Lemma last_move_text_app (a b : list Effect) :
  last_move_text (a ++ b) =
  match last_move_text b with
  | Some m => Some m
  | None => last_move_text a
  end.
Proof.
  induction a as [|e a IH]; cbn.
  - destruct (last_move_text b); reflexivity.
  - rewrite IH. destruct (last_move_text b); reflexivity.
Qed.

Lemma hash_matches_true (h : option Z) (v : Z) :
  hash_matches h v = true <-> h = Some v.
Proof.
  destruct h as [x|]; cbn; [rewrite Z.eqb_eq | ]; split; congruence.
Qed.

(** Every command leaves the hash tracking the last forwarded move or
    text. *)
Lemma process_keeps_tracking (st : State) (out0 : list Effect) (m : DgtApi) :
  hash_tracks hash st out0 ->
  hash_tracks hash (fst (_process_message hash st m))
              (out0 ++ snd (_process_message hash st m)).
Proof.
  intros Inv h. unfold _process_message.
  destruct (is_clock_state m) eqn:Ec.
  - destruct (maxtime m) as [q|]; [destruct (positive q)|]; cbn; discriminate.
  - destruct (is_move_or_text m) eqn:Em.
    + destruct (hash_matches (display_hash st) (hash m) && negb (beep m)) eqn:Ed.
      * cbn. rewrite app_nil_r. apply Inv.
      * destruct (maxtime m) as [q|]; [destruct (positive q)|]; cbn;
          intros [= <-]; exists m; rewrite last_move_text_app; cbn;
          rewrite Em; split; reflexivity.
    + destruct (maxtime m) as [q|]; [destruct (positive q)|]; cbn;
        intros Hh; destruct (Inv h Hh) as (m0 & Hl & Hm); exists m0;
        rewrite last_move_text_app; cbn; rewrite Em; split; assumption.
Qed.

Lemma process_all_keeps_tracking (ms : list DgtApi) :
  forall (st : State) (out0 : list Effect),
    hash_tracks hash st out0 ->
    hash_tracks hash (fst (process_all hash st ms))
                (out0 ++ snd (process_all hash st ms)).
Proof.
  induction ms as [|m ms IH]; intros st out0 Inv; cbn [process_all].
  - cbn. rewrite app_nil_r. exact Inv.
  - assert (Inv1 := process_keeps_tracking m Inv).
    destruct (_process_message hash st m) as [s1 o1]. cbn [fst snd] in Inv1.
    assert (Inv2 := IH s1 (out0 ++ o1) Inv1).
    destruct (process_all hash s1 ms) as [s2 o2]. cbn [fst snd] in *.
    rewrite app_assoc. exact Inv2.
Qed.

Lemma run_step_keeps_tracking (st : State) (out0 : list Effect) (m : DgtApi) :
  hash_tracks hash st out0 ->
  hash_tracks hash (fst (run_step hash st m)) (out0 ++ snd (run_step hash st m)).
Proof.
  intros Inv. unfold run_step, arbitrate.
  destruct (maxtimer_running st); [destruct (wait m) as [[|]|] |].
  - cbn. rewrite app_nil_r. exact Inv.
  - assert (Inv0 : hash_tracks hash (set_tasks [] (set_maxtimer_running false st))
                               (out0 ++ [TimerCancel (maxtimer st)])).
    { intros h Hh. destruct (Inv h Hh) as (m0 & Hl & Hm). exists m0.
      rewrite last_move_text_app. cbn. split; assumption. }
    assert (Inv1 := process_keeps_tracking m Inv0).
    destruct (_process_message hash _ m) as [s1 o1]. cbn [fst snd] in *.
    rewrite <- app_assoc in Inv1. exact Inv1.
  - assert (Inv1 := process_keeps_tracking m Inv).
    destruct (_process_message hash st m) as [s1 o1]. exact Inv1.
  - assert (Inv1 := process_keeps_tracking m Inv).
    destruct (_process_message hash st m) as [s1 o1]. exact Inv1.
Qed.

(** C1.  Take two move or text commands processed one after the other.
    After the first, the dedup hash is the hash of the last move or text
    command that was forwarded, and that hash is the one of the first
    command.  If the second has the same hash and asks for no beep, it is
    dropped: nothing is shown and the state does not move.  Otherwise the
    dedup hash becomes the hash of the second command, which is shown,
    preceded at most by the start of its timer. *)
Theorem C1_consecutive_move_text_dedup
  (st : State) (out0 : list Effect) (m1 m2 : DgtApi) :
  hash_tracks hash st out0 ->
  is_move_or_text m1 = true ->
  is_move_or_text m2 = true ->
  let st1 := fst (_process_message hash st m1) in
  let out1 := out0 ++ snd (_process_message hash st m1) in
  let st2 := fst (_process_message hash st1 m2) in
  let out2 := snd (_process_message hash st1 m2) in
  exists fwd,
    last_move_text out1 = Some fwd /\
    hash fwd = hash m1 /\
    display_hash st1 = Some (hash fwd) /\
    (if (hash m2 =? hash fwd) && negb (beep m2)
     then st2 = st1 /\ out2 = []
     else display_hash st2 = Some (hash m2) /\
          exists pre, out2 = pre ++ [Show m2] /\ Forall timer_only pre).
Proof.
  intros Inv K1 K2 st1 out1 st2 out2.
  assert (K1c : is_clock_state m1 = false)
    by (unfold is_clock_state, is_move_or_text in *; destruct (repr m1); congruence).
  assert (K2c : is_clock_state m2 = false)
    by (unfold is_clock_state, is_move_or_text in *; destruct (repr m2); congruence).
  assert (H1 : display_hash st1 = Some (hash m1)).
  { subst st1. unfold _process_message. rewrite K1c, K1.
    destruct (hash_matches (display_hash st) (hash m1) && negb (beep m1)) eqn:Ed.
    - apply andb_true_iff in Ed. destruct Ed as [Ed _].
      apply hash_matches_true in Ed. exact Ed.
    - destruct (maxtime m1) as [q|]; [destruct (positive q)|]; reflexivity. }
  destruct (process_keeps_tracking m1 Inv H1) as (fwd & Hl & Hf).
  exists fwd. fold out1 in Hl.
  split; [exact Hl|]. split; [exact Hf|]. split; [congruence|].
  rewrite Hf. subst st2 out2. unfold _process_message.
  rewrite K2c, K2, H1. cbn [hash_matches]. rewrite (Z.eqb_sym (hash m1)).
  destruct ((hash m2 =? hash m1) && negb (beep m2)).
  - split; reflexivity.
  - destruct (maxtime m2) as [q|]; [destruct (positive q)|]; cbn;
      (split; [reflexivity|]).
    + eexists [_]. split; [reflexivity|]. repeat constructor.
    + exists []. split; [reflexivity|]. constructor.
    + exists []. split; [reflexivity|]. constructor.
Qed.

(** ** Draining the queue when the timer fires *)

Lemma process_set_tasks (ts : list DgtApi) (st : State) (m : DgtApi) :
  _process_message hash (set_tasks ts st) m =
  (set_tasks ts (fst (_process_message hash st m)),
   snd (_process_message hash st m)).
Proof.
  unfold _process_message.
  change (display_hash (set_tasks ts st)) with (display_hash st).
  destruct (is_clock_state m); [| destruct (is_move_or_text m);
    [destruct (hash_matches (display_hash st) (hash m) && negb (beep m)) |]];
    (destruct (maxtime m) as [q|]; [destruct (positive q) |]); reflexivity.
Qed.

Lemma process_all_set_tasks (ms ts : list DgtApi) (st : State) :
  process_all hash (set_tasks ts st) ms =
  (set_tasks ts (fst (process_all hash st ms)), snd (process_all hash st ms)).
Proof.
  revert st. induction ms as [|m ms IH]; intros st; cbn [process_all].
  - reflexivity.
  - rewrite process_set_tasks.
    destruct (_process_message hash st m) as [s1 o1]. cbn [fst snd].
    rewrite IH. destruct (process_all hash s1 ms) as [s2 o2]. reflexivity.
Qed.

Lemma process_all_app (xs ys : list DgtApi) (st : State) :
  process_all hash st (xs ++ ys) =
  (fst (process_all hash (fst (process_all hash st xs)) ys),
   snd (process_all hash st xs)
   ++ snd (process_all hash (fst (process_all hash st xs)) ys)).
Proof.
  revert st. induction xs as [|x xs IH]; intros st; cbn [process_all app].
  - cbn. destruct (process_all hash st ys). reflexivity.
  - destruct (_process_message hash st x) as [s1 o1]. rewrite IH.
    destruct (process_all hash s1 xs) as [s2 o2]. cbn [fst snd].
    destruct (process_all hash s2 ys) as [s3 o3]. cbn [fst snd].
    rewrite app_assoc. reflexivity.
Qed.

Lemma process_all_same_core (ms : list DgtApi) (a b : State) :
  same_core a b ->
  same_core (fst (process_all hash a ms)) (fst (process_all hash b ms))
  /\ snd (process_all hash a ms) = snd (process_all hash b ms).
Proof.
  revert a b. induction ms as [|m ms IH]; intros a b Hab; cbn [process_all].
  - split; [exact Hab | reflexivity].
  - destruct (process_same_core m Hab) as (Hc & Ho & _).
    destruct (_process_message hash a m) as [a1 oa].
    destruct (_process_message hash b m) as [b1 ob]. cbn [fst snd] in *.
    destruct (IH a1 b1 Hc) as (Hc2 & Ho2).
    destruct (process_all hash a1 ms) as [a2 oa2].
    destruct (process_all hash b1 ms) as [b2 ob2]. cbn [fst snd] in *.
    split; [exact Hc2 | congruence].
Qed.

Lemma set_tasks_same_core (ts : list DgtApi) (st : State) :
  same_core (set_tasks ts st) st.
Proof. repeat split. Qed.

Lemma set_running_same_core (b : bool) (st : State) :
  same_core (set_maxtimer_running b st) st.
Proof. repeat split. Qed.

Lemma same_core_trans (a b c : State) :
  same_core a b -> same_core b c -> same_core a c.
Proof. unfold same_core. intuition congruence. Qed.

Lemma same_core_sym (a b : State) : same_core a b -> same_core b a.
Proof. unfold same_core. intuition congruence. Qed.

(** The loop handles a prefix of the queue, one command after the other,
    and stops at the first command that arms the timer. *)
Lemma drain_prefix (ts : list DgtApi) :
  forall st,
    maxtimer_running st = false ->
    exists k,
      (k <= List.length ts)%nat /\
      (ts <> [] -> 1 <= k)%nat /\
      drain hash st ts =
        (set_tasks (skipn k ts) (fst (process_all hash st (firstn k ts))),
         snd (process_all hash st (firstn k ts))) /\
      ((k < List.length ts)%nat ->
       maxtimer_running (fst (process_all hash st (firstn k ts))) = true) /\
      (forall j, (j < k)%nat ->
         maxtimer_running (fst (process_all hash st (firstn j ts))) = false).
Proof.
  induction ts as [|m rest IH]; intros st Hrun.
  - exists 0%nat. cbn. split; [lia|]. split; [congruence|].
    split; [reflexivity|]. split; intros; lia.
  - cbn [drain]. rewrite process_set_tasks.
    destruct (_process_message hash st m) as [s1 o1] eqn:E1. cbn [fst snd].
    change (maxtimer_running (set_tasks rest s1)) with (maxtimer_running s1).
    destruct (maxtimer_running s1) eqn:R1.
    + exists 1%nat. cbn [firstn skipn process_all List.length]. rewrite E1.
      cbn [fst snd]. rewrite app_nil_r.
      split; [lia|]. split; [lia|]. split; [reflexivity|].
      split; [intros _; exact R1|].
      intros j Hj. assert (j = 0)%nat by lia. subst j. exact Hrun.
    + destruct (IH (set_tasks rest s1) R1) as (k & Hk & Hne & Hd & Hstop & Hmin).
      exists (S k). cbn [firstn skipn process_all List.length]. rewrite E1.
      rewrite Hd. rewrite process_all_set_tasks in Hstop |- *.
      cbn [fst snd] in *.
      destruct (process_all hash s1 (firstn k rest)) as [s2 o2] eqn:E2.
      cbn [fst snd] in *.
      split; [lia|]. split; [lia|]. split; [reflexivity|].
      split; [intros Hlt; apply Hstop; lia|].
      intros j Hj. destruct j as [|j]; [exact Hrun|].
      cbn [firstn process_all]. rewrite E1.
      specialize (Hmin j ltac:(lia)).
      rewrite process_all_set_tasks in Hmin. cbn [fst snd] in Hmin.
      destruct (process_all hash s1 (firstn j rest)). exact Hmin.
Qed.

(** One expiry, seen from outside. *)
Lemma stopped_maxtimer_prefix (st : State) :
  exists k,
    (k <= List.length (tasks st))%nat /\
    (tasks st <> [] -> 1 <= k)%nat /\
    _stopped_maxtimer hash st =
      (set_tasks (skipn k (tasks st))
         (fst (process_all hash (set_maxtimer_running false st)
                           (firstn k (tasks st)))),
       Show time_refresh
         :: snd (process_all hash (set_maxtimer_running false st)
                             (firstn k (tasks st)))) /\
    ((k < List.length (tasks st))%nat ->
     maxtimer_running
       (fst (process_all hash (set_maxtimer_running false st)
                         (firstn k (tasks st)))) = true) /\
    (forall j, (j < k)%nat ->
       maxtimer_running
         (fst (process_all hash (set_maxtimer_running false st)
                           (firstn j (tasks st)))) = false).
Proof.
  destruct (drain_prefix (tasks st) (set_maxtimer_running false st) eq_refl)
    as (k & Hk & Hne & Hd & Hstop & Hmin).
  exists k. unfold _stopped_maxtimer.
  change (tasks (set_maxtimer_running false st)) with (tasks st).
  rewrite Hd. repeat split; assumption.
Qed.

Lemma stopped_maxtimer_keeps_tracking (st : State) (out0 : list Effect) :
  hash_tracks hash st out0 ->
  hash_tracks hash (fst (_stopped_maxtimer hash st))
              (out0 ++ snd (_stopped_maxtimer hash st)).
Proof.
  intros Inv.
  destruct (stopped_maxtimer_prefix st) as (k & _ & _ & Hs & _).
  rewrite Hs. cbn [fst snd].
  assert (Inv0 : hash_tracks hash (set_maxtimer_running false st)
                             (out0 ++ [Show time_refresh])).
  { intros h Hh. destruct (Inv h Hh) as (m0 & Hl & Hm). exists m0.
    rewrite last_move_text_app. cbn. split; assumption. }
  assert (Inv1 := process_all_keeps_tracking (firstn k (tasks st)) Inv0).
  rewrite <- app_assoc in Inv1. exact Inv1.
Qed.

(** In every state that the dispatcher reaches, the dedup hash, when set,
    is the hash of the last move or text command that was shown. *)
Lemma reachable_hash_tracks (st : State) (out : list Effect) :
  Reachable hash st out -> hash_tracks hash st out.
Proof.
  induction 1 as [|st out m _ IH|st out _ IH].
  - intros h Hh. discriminate Hh.
  - apply run_step_keeps_tracking. exact IH.
  - apply stopped_maxtimer_keeps_tracking. exact IH.
Qed.

(** Expiry after expiry, the whole queue is handled in its order. *)
Lemma expire_rounds_spec (fuel : nat) :
  forall st,
    (List.length (tasks st) <= fuel)%nat -> (1 <= fuel)%nat ->
    tasks (fst (expire_rounds hash fuel st)) = [] /\
    (1 <= List.length (snd (expire_rounds hash fuel st)) <= fuel)%nat /\
    Forall (fun o => hd_error o = Some (Show time_refresh))
           (snd (expire_rounds hash fuel st)) /\
    List.concat (map (@tl Effect) (snd (expire_rounds hash fuel st))) =
      snd (process_all hash (set_maxtimer_running false st) (tasks st)) /\
    same_core (fst (expire_rounds hash fuel st))
              (fst (process_all hash (set_maxtimer_running false st) (tasks st))).
Proof.
  induction fuel as [|f IH]; intros st Hlen Hpos; [lia|].
  destruct (stopped_maxtimer_prefix st) as (k & Hk & Hne & Hs & _ & _).
  cbn [expire_rounds]. rewrite Hs.
  set (st0 := set_maxtimer_running false st) in *.
  set (stP := fst (process_all hash st0 (firstn k (tasks st)))) in *.
  set (outP := snd (process_all hash st0 (firstn k (tasks st)))) in *.
  change (tasks (set_tasks (skipn k (tasks st)) stP)) with (skipn k (tasks st)).
  destruct (skipn k (tasks st)) as [|r0 rs] eqn:Esk.
  - assert (Hall : firstn k (tasks st) = tasks st).
    { apply firstn_all2.
      assert (L := length_skipn k (tasks st)). rewrite Esk in L. cbn in L. lia. }
    cbn [fst snd List.length map List.concat tl].
    split; [reflexivity|]. split; [lia|].
    split; [repeat constructor|].
    rewrite app_nil_r. subst outP stP. rewrite Hall.
    split; [reflexivity|]. apply set_tasks_same_core.
  - assert (Hk1 : (1 <= k)%nat).
    { apply Hne. intros E. rewrite E in Esk. destruct k; discriminate. }
    assert (Lsk : (List.length (skipn k (tasks st)) = S (List.length rs))%nat)
      by (rewrite Esk; reflexivity).
    rewrite length_skipn in Lsk.
    set (st1 := set_tasks (r0 :: rs) stP).
    assert (Hl1 : (List.length (tasks st1) <= f)%nat) by (cbn; lia).
    assert (Hf1 : (1 <= f)%nat) by (cbn in Hl1; lia).
    destruct (IH st1 Hl1 Hf1) as (T & (N1 & N2) & F & C & S).
    destruct (expire_rounds hash f st1) as [st2 outs]. cbn [fst snd] in *.
    assert (Hcore : same_core (set_maxtimer_running false st1) stP).
    { apply same_core_trans with st1;
        [apply set_running_same_core | apply set_tasks_same_core]. }
    destruct (process_all_same_core (r0 :: rs) Hcore) as (Hc2 & Ho2).
    change (tasks st1) with (r0 :: rs) in *.
    assert (Hsplit : tasks st = firstn k (tasks st) ++ (r0 :: rs))
      by (rewrite <- Esk; symmetry; apply firstn_skipn).
    split; [exact T|]. split; [cbn [List.length]; lia|].
    split; [constructor; [reflexivity | exact F]|].
    rewrite Hsplit at 1 2. rewrite process_all_app. cbn [fst snd].
    fold stP outP. cbn [map List.concat tl].
    split.
    + rewrite C, Ho2. reflexivity.
    + apply same_core_trans with
        (fst (process_all hash (set_maxtimer_running false st1) (r0 :: rs)));
        assumption.
Qed.

(** A command that waits is queued behind a running timer. *)
Lemma run_step_defers (st : State) (m : DgtApi) :
  maxtimer_running st = true -> wait m = Some true ->
  run_step hash st m = (set_tasks (tasks st ++ [m]) st, []).
Proof.
  intros R W. unfold run_step, arbitrate. rewrite R, W. reflexivity.
Qed.

(** C2.  When the timer fires, in whatever state, the refresh of the time
    display is shown first; then a prefix of the queue is processed in
    arrival order by [_process_message], the rest stays queued, and the
    prefix ends exactly at the first command that arms the timer again.
    Moreover, three commands that arrive with [wait = True] while the timer
    runs are queued without being shown, and at most three expiries later
    (as many as the queue is long, in general) the queue is empty: each
    expiry starts with the refresh, and what is shown besides is, in this
    order, what processing the queued commands one after the other shows,
    with the dedup hash each one leaves to the next. *)
Theorem C2_timer_expiry_drains_fifo (st : State) (a b c : DgtApi) :
  maxtimer_running st = true ->
  wait a = Some true -> wait b = Some true -> wait c = Some true ->
  (forall s0 : State,
      exists k,
        (k <= List.length (tasks s0))%nat /\
        (tasks s0 <> [] -> 1 <= k)%nat /\
        _stopped_maxtimer hash s0 =
          (set_tasks (skipn k (tasks s0))
             (fst (process_all hash (set_maxtimer_running false s0)
                               (firstn k (tasks s0)))),
           Show time_refresh
             :: snd (process_all hash (set_maxtimer_running false s0)
                                 (firstn k (tasks s0)))) /\
        ((k < List.length (tasks s0))%nat ->
         maxtimer_running
           (fst (process_all hash (set_maxtimer_running false s0)
                             (firstn k (tasks s0)))) = true) /\
        (forall j, (j < k)%nat ->
           maxtimer_running
             (fst (process_all hash (set_maxtimer_running false s0)
                               (firstn j (tasks s0)))) = false)) /\
  let q1 := run_step hash st a in
  let q2 := run_step hash (fst q1) b in
  let q3 := run_step hash (fst q2) c in
  let queue := tasks st ++ [a; b; c] in
  snd q1 = [] /\ snd q2 = [] /\ snd q3 = [] /\
  fst q3 = set_tasks queue st /\
  let r := expire_rounds hash (List.length queue) (fst q3) in
  let direct := process_all hash (set_maxtimer_running false st) queue in
  tasks (fst r) = [] /\
  (1 <= List.length (snd r) <= List.length queue)%nat /\
  Forall (fun o => hd_error o = Some (Show time_refresh)) (snd r) /\
  List.concat (map (@tl Effect) (snd r)) = snd direct /\
  same_core (fst r) (fst direct).
Proof.
  intros R Wa Wb Wc.
  split; [intros s0; apply stopped_maxtimer_prefix|].
  cbv zeta.
  rewrite (@run_step_defers st a R Wa). cbn [fst snd].
  rewrite (@run_step_defers (set_tasks (tasks st ++ [a]) st) b R Wb).
  cbn [fst snd].
  rewrite (@run_step_defers
             (set_tasks (tasks (set_tasks (tasks st ++ [a]) st) ++ [b])
                        (set_tasks (tasks st ++ [a]) st)) c R Wc).
  cbn [fst snd].
  cbn [tasks set_tasks]. rewrite <- !app_assoc. cbn [app].
  split; [reflexivity|]. split; [reflexivity|]. split; [reflexivity|].
  split; [reflexivity|].
  set (queue := tasks st ++ [a; b; c]).
  set (stq := {| maxtimer := maxtimer st; maxtimer_running := maxtimer_running st;
                 time_factor := time_factor st; tasks := queue;
                 display_hash := display_hash st;
                 timers_made := timers_made st |}).
  change (set_tasks queue (set_tasks (tasks st ++ [a; b])
                                     (set_tasks (tasks st ++ [a]) st)))
    with stq.
  assert (Hq : (1 <= List.length queue)%nat)
    by (subst queue; rewrite length_app; cbn; lia).
  destruct (@expire_rounds_spec (List.length queue) stq (le_n _) Hq)
    as (T & N & F & C & S).
  change (tasks stq) with queue in *.
  assert (Hcore : same_core (set_maxtimer_running false stq)
                            (set_maxtimer_running false st)) by (repeat split).
  destruct (process_all_same_core queue Hcore) as (Hc2 & Ho2).
  split; [exact T|]. split; [exact N|]. split; [exact F|].
  split; [rewrite C; exact Ho2|].
  apply same_core_trans with
    (fst (process_all hash (set_maxtimer_running false stq) queue)); assumption.
Qed.

(** ** Commands that do not ask for a minimum display time *)

Lemma positive_zero (q : Q) : (q == 0)%Q -> positive q = false.
Proof.
  intros H. unfold positive.
  assert (L : Qle_bool q 0 = true) by (apply Qle_bool_iff; rewrite H; apply Qle_refl).
  rewrite L. reflexivity.
Qed.

Lemma zero_maxtime_not_positive (m : DgtApi) (q : Q) :
  maxtime m = Some q -> (q == 0)%Q -> has_positive_maxtime m = false.
Proof.
  intros Hm Hq. unfold has_positive_maxtime. rewrite Hm.
  exact (positive_zero Hq).
Qed.

Lemma absent_maxtime_not_positive (m : DgtApi) :
  maxtime m = None -> has_positive_maxtime m = false.
Proof. intros Hm. unfold has_positive_maxtime. rewrite Hm. reflexivity. Qed.

(** C3, amended.  Whether a command is queued does not depend on its
    [maxtime]: a command with [wait = True] that arrives while the timer
    runs is put at the end of the queue and nothing is shown, whatever its
    [maxtime].  A command for which the test of line 71 fails, because its
    [maxtime] is 0 (or negative) or because it has no [maxtime] attribute,
    as the clock commands that [display.py] builds, and which arrives
    while no timer runs or without [wait = True], is not queued: it passes
    arbitration, the queue is left as it is or (when the command cancels
    the timer) emptied, nothing but that cancel precedes the command, no
    timer is armed, and the command is either shown last or it is a move
    or text with the hash of the dedup hash and no beep, in which case
    nothing more is shown.  A clock-state command is always shown, and it
    resets the dedup hash. *)
Theorem C3_maxtime_zero_not_waiting (st : State) (m : DgtApi) :
  (maxtimer_running st = true -> wait m = Some true ->
   run_step hash st m = (set_tasks (tasks st ++ [m]) st, [])) /\
  (has_positive_maxtime m = false ->
   maxtimer_running st = false \/ wait m <> Some true ->
   exists st0 pre,
     arbitrate st m = Proceed st0 pre /\
     (pre = [] \/ pre = [TimerCancel (maxtimer st)]) /\
     Forall timer_only pre /\
     (tasks st0 = tasks st \/ tasks st0 = []) /\
     tasks (fst (run_step hash st m)) = tasks st0 /\
     maxtimer (fst (run_step hash st m)) = maxtimer st /\
     (snd (run_step hash st m) = pre ++ [Show m] \/
      (snd (run_step hash st m) = pre /\
       is_move_or_text m = true /\
       display_hash st = Some (hash m) /\ beep m = false)) /\
     (is_clock_state m = true ->
      snd (run_step hash st m) = pre ++ [Show m] /\
      display_hash (fst (run_step hash st m)) = None)).
Proof.
  split; [exact (@run_step_defers st m)|].
  intros Hp Hcase.
  assert (Harb : exists st0 pre,
             arbitrate st m = Proceed st0 pre /\
             (pre = [] \/ pre = [TimerCancel (maxtimer st)]) /\
             Forall timer_only pre /\
             (tasks st0 = tasks st \/ tasks st0 = []) /\
             maxtimer st0 = maxtimer st /\ display_hash st0 = display_hash st).
  { unfold arbitrate. destruct (maxtimer_running st) eqn:R.
    - destruct Hcase as [Hc|Hc]; [discriminate|].
      destruct (wait m) as [[|]|]; [congruence | |].
      + eexists _, _. split; [reflexivity|]. split; [right; reflexivity|].
        split; [repeat constructor|]. split; [right; reflexivity|].
        split; reflexivity.
      + exists st, []. split; [reflexivity|]. split; [left; reflexivity|].
        split; [constructor|].
        split; [left; reflexivity|]. split; reflexivity.
    - exists st, []. split; [reflexivity|]. split; [left; reflexivity|].
      split; [constructor|].
      split; [left; reflexivity|]. split; reflexivity. }
  destruct Harb as (st0 & pre & Ha & Hshape & Hpre & Ht & Hmt & Hdh).
  exists st0, pre. unfold run_step. rewrite Ha.
  split; [reflexivity|]. split; [exact Hshape|].
  split; [exact Hpre|]. split; [exact Ht|].
  assert (Hshow : forall s1 : State,
             match maxtime m with
             | Some q =>
                 if positive q
                 then let '(st2, t) := arm_timer q s1 in
                      (st2, [TimerStart t; Show m])
                 else (s1, [Show m])
             | None => (s1, [Show m])
             end = (s1, [Show m])).
  { intros s1. unfold has_positive_maxtime in Hp.
    destruct (maxtime m) as [q|]; [rewrite Hp|]; reflexivity. }
  unfold _process_message. rewrite Hdh.
  destruct (is_clock_state m) eqn:Ec.
  - rewrite Hshow. cbn. repeat split; auto.
  - destruct (is_move_or_text m) eqn:Em.
    + destruct (hash_matches (display_hash st) (hash m) && negb (beep m)) eqn:Ed.
      * cbn. rewrite app_nil_r.
        apply andb_true_iff in Ed. destruct Ed as [E1 E2].
        apply hash_matches_true in E1. apply negb_true_iff in E2.
        repeat split; auto; discriminate.
      * rewrite Hshow. cbn. repeat split; auto; discriminate.
    + rewrite Hshow. cbn. repeat split; auto; discriminate.
Qed.

(** C10.  A command without a [wait] attribute that arrives while the
    timer runs passes arbitration with the state untouched: it is neither
    queued nor does it cancel the timer, so the timer handle, the running
    flag and the queue reach [_process_message] as they were, and the step
    is that of [_process_message] alone, as when no timer runs.  After the
    step the queue is still the same and the flag still set; the handle is
    the same too unless the command itself was shown with a positive
    [maxtime]. *)
Theorem C10_no_wait_attribute_keeps_timer (st : State) (m : DgtApi) :
  maxtimer_running st = true ->
  wait m = None ->
  arbitrate st m = Proceed st [] /\
  arbitrate (set_maxtimer_running false st) m
    = Proceed (set_maxtimer_running false st) [] /\
  run_step hash st m = _process_message hash st m /\
  tasks (fst (run_step hash st m)) = tasks st /\
  maxtimer_running (fst (run_step hash st m)) = true /\
  Forall (fun e => match e with TimerCancel _ => False | _ => True end)
         (snd (run_step hash st m)) /\
  (has_positive_maxtime m = false \/ snd (run_step hash st m) = [] ->
   maxtimer (fst (run_step hash st m)) = maxtimer st).
Proof.
  intros R W.
  assert (Ha : arbitrate st m = Proceed st []).
  { unfold arbitrate. rewrite R, W. reflexivity. }
  assert (Hr : run_step hash st m = _process_message hash st m).
  { unfold run_step. rewrite Ha.
    destruct (_process_message hash st m). reflexivity. }
  split; [exact Ha|]. split; [reflexivity|]. split; [exact Hr|].
  rewrite Hr.
  split; [apply process_keeps_tasks|].
  split; [apply process_running_mono; exact R|].
  unfold _process_message, has_positive_maxtime.
  destruct (is_clock_state m); [| destruct (is_move_or_text m);
    [destruct (hash_matches (display_hash st) (hash m) && negb (beep m)) |]];
    (destruct (maxtime m) as [q|]; [destruct (positive q) |]); cbn;
    (split; [repeat constructor | intros [H|H]; congruence || reflexivity]).
Qed.

End WithHash.

Import Samples.

Local Open Scope string_scope.

(** The same text sent twice to a fresh dispatcher is shown once. *)
Lemma C1_witness_same_text_twice :
  hash_tracks sample_hash init [] /\
  is_move_or_text (text_cmd "ok" false 0 false) = true /\
  snd (_process_message sample_hash
         (fst (_process_message sample_hash init (text_cmd "ok" false 0 false)))
         (text_cmd "ok" false 0 false)) = [].
Proof.
  assert (Inv : hash_tracks sample_hash init []) by (intros h Hh; discriminate Hh).
  split; [exact Inv|]. split; [reflexivity|].
  destruct (@C1_consecutive_move_text_dedup sample_hash init []
              (text_cmd "ok" false 0 false) (text_cmd "ok" false 0 false)
              Inv eq_refl eq_refl) as (fwd & _ & Hf & _ & Hcase).
  rewrite Hf, Z.eqb_refl in Hcase. exact (proj2 Hcase).
Defined.

(** Three waiting commands behind a running timer: the second repeats the
    first, the first arms the timer again, and two expiries empty the
    queue. *)
Lemma C2_witness_three_waiting :
  maxtimer_running busy = true /\
  wait (text_cmd "mate" true 1 false) = Some true /\
  wait (move_cmd "e2e4" true 0 false) = Some true /\
  tasks (fst (expire_rounds sample_hash 3
                (set_tasks [text_cmd "mate" true 1 false;
                            text_cmd "mate" true 1 false;
                            move_cmd "e2e4" true 0 false] busy))) = [].
Proof.
  split; [reflexivity|]. split; [reflexivity|]. split; [reflexivity|].
  destruct (@C2_timer_expiry_drains_fifo sample_hash busy
              (text_cmd "mate" true 1 false) (text_cmd "mate" true 1 false)
              (move_cmd "e2e4" true 0 false) eq_refl eq_refl eq_refl eq_refl)
    as (_ & _ & _ & _ & _ & T & _).
  exact T.
Defined.

(** The run of that queue: the first text arms the timer and ends the first
    expiry, its repetition is dropped, and the move is shown at the second
    expiry. *)
Example three_waiting_run :
  snd (expire_rounds sample_hash 3
         (set_tasks [text_cmd "mate" true 1 false;
                     text_cmd "mate" true 1 false;
                     move_cmd "e2e4" true 0 false] busy))
  = [[Show time_refresh;
      TimerStart {| interval := 1; serial := 1 |};
      Show (text_cmd "mate" true 1 false)];
     [Show time_refresh;
      Show (move_cmd "e2e4" true 0 false)]].
Proof. reflexivity. Qed.

(** C3 as stated fails: a move with [maxtime = 0] and [wait = True] that
    arrives while the timer runs is put in the queue and nothing is shown. *)
Lemma C3_counterexample_zero_maxtime_deferred :
  maxtime (move_cmd "e2e4" true 0 false) = Some 0%Q /\
  maxtimer_running busy = true /\
  run_step sample_hash busy (move_cmd "e2e4" true 0 false)
    = (set_tasks [move_cmd "e2e4" true 0 false] busy, []).
Proof. repeat split. Qed.

(** The amended statement on three commands behind the running timer of
    [busy]: a text with [maxtime = 0] and [wait = False] cancels the timer
    and is shown at once; a clock stop, which has neither [maxtime] nor
    [wait], is shown at once and leaves the timer alone; a move with
    [maxtime = 0] and [wait = True] is queued. *)
Lemma C3_witness_zero_maxtime_not_waiting :
  (has_positive_maxtime (text_cmd "ok" false 0 false) = false /\
   wait (text_cmd "ok" false 0 false) <> Some true /\
   tasks (fst (run_step sample_hash busy (text_cmd "ok" false 0 false))) = [] /\
   maxtimer (fst (run_step sample_hash busy (text_cmd "ok" false 0 false)))
     = maxtimer busy) /\
  (has_positive_maxtime clock_stop_cmd = false /\
   wait clock_stop_cmd <> Some true /\
   is_clock_state clock_stop_cmd = true /\
   snd (run_step sample_hash busy clock_stop_cmd) = [Show clock_stop_cmd] /\
   display_hash (fst (run_step sample_hash busy clock_stop_cmd)) = None) /\
  (maxtimer_running busy = true /\
   wait (move_cmd "e2e4" true 0 false) = Some true /\
   run_step sample_hash busy (move_cmd "e2e4" true 0 false)
     = (set_tasks (tasks busy ++ [move_cmd "e2e4" true 0 false]) busy, [])).
Proof.
  assert (W : wait (text_cmd "ok" false 0 false) <> Some true) by discriminate.
  assert (Wc : wait clock_stop_cmd <> Some true) by discriminate.
  split; [|split].
  - split; [reflexivity|]. split; [exact W|].
    destruct (proj2 (@C3_maxtime_zero_not_waiting sample_hash busy
                       (text_cmd "ok" false 0 false))
                    eq_refl (or_intror W))
      as (st0 & pre & _ & _ & _ & _ & _ & Hm & _).
    split; [reflexivity | exact Hm].
  - split; [reflexivity|]. split; [exact Wc|]. split; [reflexivity|].
    destruct (proj2 (@C3_maxtime_zero_not_waiting sample_hash busy
                       clock_stop_cmd)
                    eq_refl (or_intror Wc))
      as (st0 & pre & Ha & _ & _ & _ & _ & _ & _ & Hclock).
    destruct (Hclock eq_refl) as [Hs Hd].
    split; [|exact Hd].
    injection Ha as _ <-. exact Hs.
  - split; [reflexivity|]. split; [reflexivity|].
    exact (proj1 (@C3_maxtime_zero_not_waiting sample_hash busy
                    (move_cmd "e2e4" true 0 false))
                 eq_refl eq_refl).
Defined.

(** A clock stop, which has no [wait] attribute, behind a running timer. *)
Lemma C10_witness_clock_stop :
  maxtimer_running busy = true /\
  wait clock_stop_cmd = None /\
  run_step sample_hash busy clock_stop_cmd
    = _process_message sample_hash busy clock_stop_cmd /\
  tasks (fst (run_step sample_hash busy clock_stop_cmd)) = tasks busy.
Proof.
  split; [reflexivity|]. split; [reflexivity|].
  destruct (@C10_no_wait_attribute_keeps_timer sample_hash busy clock_stop_cmd
              eq_refl eq_refl) as (_ & _ & Hr & Ht & _).
  split; [exact Hr | exact Ht].
Defined.

End DispatcherFacts.

(* ================================================================== *)
(** * Properties of the string functions *)
(* ================================================================== *)

Module PyFacts.
Import Py.

Local Open Scope string_scope.

Lemma length_append (a b : string) :
  String.length (a ++ b) = (String.length a + String.length b)%nat.
Proof. induction a as [|c a IH]; cbn; [reflexivity | rewrite IH; reflexivity]. Qed.

Lemma remove_dots_append (a b : string) :
  remove_dots (a ++ b) = remove_dots a ++ remove_dots b.
Proof.
  induction a as [|c a IH]; cbn; [reflexivity|].
  destruct (Ascii.eqb c "."); cbn; rewrite IH; reflexivity.
Qed.

Lemma remove_dots_spaces (n : nat) : remove_dots (spaces n) = spaces n.
Proof. induction n as [|n IH]; cbn; [reflexivity | rewrite IH; reflexivity]. Qed.

Lemma digit_char_no_dot (d : nat) :
  (d < 10)%nat -> Ascii.eqb (digit_char d) "." = false.
Proof.
  intros H. do 10 (destruct d as [|d]; [reflexivity|]). lia.
Qed.

Lemma remove_dots_digits (fuel : nat) :
  forall (n : nat) (acc : string),
    remove_dots (digits_fuel fuel n acc) = digits_fuel fuel n (remove_dots acc).
Proof.
  induction fuel as [|k IH]; intros n acc; cbn [digits_fuel]; [reflexivity|].
  assert (D : Ascii.eqb (digit_char (n mod 10)) "." = false)
    by (apply digit_char_no_dot; apply Nat.mod_upper_bound; lia).
  destruct (n / 10 =? 0)%nat.
  - cbn [remove_dots]. rewrite D. reflexivity.
  - rewrite IH. cbn [remove_dots]. rewrite D. reflexivity.
Qed.

Lemma remove_dots_str_nat (n : nat) : remove_dots (str_nat n) = str_nat n.
Proof. unfold str_nat. rewrite remove_dots_digits. reflexivity. Qed.

Lemma remove_dots_two_digits (n : nat) :
  (n < 100)%nat -> remove_dots (two_digits n) = two_digits n.
Proof.
  intros H. unfold two_digits. cbn [remove_dots].
  rewrite !digit_char_no_dot; [reflexivity | |].
  - apply Nat.mod_upper_bound. lia.
  - apply Nat.Div0.div_lt_upper_bound. lia.
Qed.

(** Removing the point from the two-decimal rendering leaves the sign, the
    integer part and the two decimals, on one character less. *)
Lemma remove_dots_format_2f (width : nat) (z : Z) :
  remove_dots (format_2f_hundredths width z) = hundredths_digits width z.
Proof.
  unfold format_2f_hundredths, hundredths_digits, rjust.
  set (a := Z.abs_nat z).
  set (sign := if (z <? 0)%Z then "-" else "").
  assert (Hs : remove_dots sign = sign) by (subst sign; destruct (z <? 0)%Z; reflexivity).
  rewrite !remove_dots_append, remove_dots_spaces, Hs, remove_dots_str_nat.
  cbn [remove_dots]. cbn [Ascii.eqb Bool.eqb]. cbn [append].
  rewrite remove_dots_two_digits by (apply Nat.mod_upper_bound; lia).
  rewrite !length_append. cbn [String.length].
  replace (width -
           (String.length sign +
            (String.length (str_nat (a / 100)) +
             S (String.length (two_digits (a mod 100))))))%nat
    with (width - 1 -
          (String.length sign +
           (String.length (str_nat (a / 100)) +
            String.length (two_digits (a mod 100)))))%nat by lia.
  reflexivity.
Qed.

End PyFacts.

(* ================================================================== *)
(** * Properties of the display state machine *)
(* ================================================================== *)

Module DisplayFacts.
Import Api Py Display.

Local Open Scope string_scope.

(** ** Depth and score *)

Section Score.

Variable NavState : Type.

Lemma get_s_set_s (v : string) (l m s : string) (b : bool)
      (rd : option ClockIcons) (w : option bool) (mt : option Q) :
  get_s (set_s v {| body := DISPLAY_TEXT l m s b rd; wait := w; maxtime := mt |})
  = v.
Proof. reflexivity. Qed.

(** What the clamping tests leave in the short field. *)
Lemma clamp_short_text (l m s : string) (b : bool) (rd : option ClockIcons)
      (w : option bool) (mt : option Q) (vs : Z) :
  int s = Some vs ->
  clamp_short {| body := DISPLAY_TEXT l m s b rd; wait := w; maxtime := mt |}
  = Some {| body := DISPLAY_TEXT l m
                      (if (vs <=? -1000)%Z then "-999"
                       else if (vs >=? 1000)%Z then "999" else s)
                      b rd;
            wait := w; maxtime := mt |}.
Proof.
  intros Hs. unfold clamp_short. cbn [get_s body]. rewrite Hs.
  destruct (vs <=? -1000)%Z eqn:Elo.
  - reflexivity.
  - cbn [get_s body]. rewrite Hs.
    destruct (vs >=? 1000)%Z; reflexivity.
Qed.

(** C5, amended.  Take a score text whose short field reads as the integer
    [vs], and whose long and medium fields read, on their last eight and six
    characters, as [vl] and [vm].  With a depth [d], combining succeeds and
    returns the text in which each variant is the depth, right aligned on
    three (long) or two (medium and short, depth modulo 100) characters,
    followed by the value divided by 100 with two decimals and the point
    removed, that is, its sign, the digits of its integer part and its two
    decimals, right aligned on eight, six and four characters.  Only the
    short variant is clamped: it shows -999 for
    [vs <= -1000] and 999 for [vs >= 1000], and otherwise the integer [v4]
    read from the last four characters of the short field; the long and
    medium variants show [vl] and [vm] as they are.  Neither the stored
    score nor anything else of the display changes. *)
Theorem C5_only_short_variant_is_clamped
  (w : World NavState) (l m s : string) (b : bool) (rd : option ClockIcons)
  (wt : option bool) (mt : option Q) (d vs v4 vl vm : Z) :
  score (me w) = {| body := DISPLAY_TEXT l m s b rd; wait := wt; maxtime := mt |} ->
  depth (me w) = Some d ->
  int s = Some vs ->
  ((-1000 < vs < 1000)%Z -> int (last_chars 4 s) = Some v4) ->
  int (last_chars 8 l) = Some vl ->
  int (last_chars 6 m) = Some vm ->
  _combine_depth_and_score w =
  (Done {| body :=
             DISPLAY_TEXT
               (format_d 3 d ++ hundredths_digits 9 vl)
               (format_d 2 (d mod 100)%Z ++ hundredths_digits 7 vm)
               (format_d 2 (d mod 100)%Z
                  ++ hundredths_digits 5 (clamp_999 vs v4))
               b (Some DOT);
           wait := wt; maxtime := mt |},
   w).
Proof.
  intros Hsc Hd Hs H4 Hl Hm.
  rewrite <- !PyFacts.remove_dots_format_2f.
  unfold _combine_depth_and_score, bind, get_me, ret.
  rewrite Hsc, Hd. unfold combine_try.
  rewrite (@clamp_short_text l m s b rd wt mt vs Hs).
  cbn [get_l get_m get_s set_l set_m set_s set_rd body wait maxtime].
  unfold _score_to_string. rewrite Hl, Hm. unfold clamp_999.
  destruct (vs <=? -1000)%Z eqn:Elo.
  - reflexivity.
  - destruct (vs >=? 1000)%Z eqn:Ehi.
    + reflexivity.
    + rewrite H4 by lia. reflexivity.
Qed.

(** A failing [int] is swallowed: whenever one of the [int] conversions
    that the method reaches raises [ValueError], the method returns a text
    and raises nothing, and the display, with its stored score, is what it
    was.  When the very first conversion fails, the text returned is the
    stored score itself. *)
Lemma value_error_keeps_score (w : World NavState) :
  conversion_fails (score (me w)) (depth (me w)) ->
  exists t,
    _combine_depth_and_score w = (Done t, w) /\
    (int (get_s (score (me w))) = None -> t = score (me w)).
Proof.
  unfold conversion_fails, _combine_depth_and_score, bind, get_me, ret, raise.
  unfold combine_try, _score_to_string.
  intros [H1 | (sc1 & Hc & H)].
  - assert (Hn : clamp_short (score (me w)) = None)
      by (unfold clamp_short; rewrite H1; reflexivity).
    rewrite Hn. exists (score (me w)). split; [reflexivity | trivial].
  - rewrite Hc.
    assert (Hs1 : int (get_s (score (me w))) = None -> False).
    { intros E. unfold clamp_short in Hc. rewrite E in Hc. discriminate. }
    destruct H as [Hl | (Hl & Hd & H)].
    + rewrite Hl. eexists. split; [reflexivity | intros E; destruct (Hs1 E)].
    + destruct (int (last_chars 8 (get_l sc1))) as [vl|]; [|congruence].
      destruct (depth (me w)) as [d|]; [|congruence].
      assert (Gm : forall v, get_m (set_l v sc1) = get_m sc1)
        by (intros v; destruct sc1 as [[] ? ?]; reflexivity).
      assert (Gs : forall v v', get_s (set_m v (set_l v' sc1)) = get_s sc1)
        by (intros v v'; destruct sc1 as [[] ? ?]; reflexivity).
      rewrite Gm.
      destruct H as [Hm | (Hm & H4)].
      * rewrite Hm. eexists. split; [reflexivity | intros E; destruct (Hs1 E)].
      * destruct (int (last_chars 6 (get_m sc1))) as [vm|]; [|congruence].
        rewrite Gs, H4.
        eexists. split; [reflexivity | intros E; destruct (Hs1 E)].
Qed.

(** The clamping of the short field leaves the long field alone. *)
Lemma clamp_short_keeps_l (sc sc1 : DgtApi) :
  clamp_short sc = Some sc1 -> get_l sc1 = get_l sc.
Proof.
  assert (G : forall v t, get_l (set_s v t) = get_l t)
    by (intros v [[] ? ?]; reflexivity).
  unfold clamp_short. intros H.
  destruct (int (get_s sc)) as [v|]; [|discriminate].
  destruct (v <=? -1000)%Z.
  - destruct (int (get_s (set_s "-999" sc))) as [v1|]; [|discriminate].
    injection H as <-.
    destruct (v1 >=? 1000)%Z; rewrite ?G; reflexivity.
  - destruct (int (get_s sc)) as [v1|]; [|discriminate].
    injection H as <-.
    destruct (v1 >=? 1000)%Z; rewrite ?G; reflexivity.
Qed.

(** A short field that reads as an integer is clamped. *)
Lemma clamp_short_defined (sc : DgtApi) (vs : Z) :
  int (get_s sc) = Some vs -> clamp_short sc <> None.
Proof.
  intros Hs. unfold clamp_short. rewrite Hs.
  destruct (vs <=? -1000)%Z.
  - destruct sc as [[] ? ?]; cbn in *; discriminate.
  - rewrite Hs. discriminate.
Qed.

(** Without a depth, a score whose short field and long field read as
    integers leaves the [try] block by the [TypeError] of line 103. *)
Lemma combine_try_without_depth (sc : DgtApi) (vs vl : Z) :
  int (get_s sc) = Some vs ->
  int (last_chars 8 (get_l sc)) = Some vl ->
  combine_try sc None = Escaped TypeError.
Proof.
  intros Hs Hl. unfold combine_try.
  destruct (clamp_short sc) as [sc1|] eqn:Hc.
  - unfold _score_to_string.
    rewrite (clamp_short_keeps_l _ Hc), Hl. reflexivity.
  - destruct (clamp_short_defined _ Hs Hc).
Qed.

(** C6.  The claim fails on the code.  [self.depth] is [None] from
    [__init__] and [_reset_moves_and_score] until the first report of a
    depth.  When, in that state, the short field of the stored score and
    the last eight characters of its long field read as integers, no
    conversion raises [ValueError]; line 103 then formats the depth with
    ['{:3d}'], which raises [TypeError] for [None], and [except ValueError]
    does not catch it: the method raises instead of returning a text. *)
Theorem C6_score_without_depth_raises (w : World NavState) (vs vl : Z) :
  depth (me w) = None ->
  int (get_s (score (me w))) = Some vs ->
  int (last_chars 8 (get_l (score (me w)))) = Some vl ->
  _combine_depth_and_score w = (Raised TypeError, w).
Proof.
  intros Hd Hs Hl.
  unfold _combine_depth_and_score, bind, get_me, raise.
  rewrite Hd, (combine_try_without_depth _ Hs Hl). reflexivity.
Qed.

(** These are the only states in which the method raises: an exception
    that leaves it is this [TypeError]. *)
Lemma combine_raises_only_without_depth
      (w w1 : World NavState) (e : Exn) :
  _combine_depth_and_score w = (Raised e, w1) ->
  e = TypeError /\ w1 = w /\ depth (me w) = None /\
  int (get_s (score (me w))) <> None /\
  int (last_chars 8 (get_l (score (me w)))) <> None.
Proof.
  unfold _combine_depth_and_score, bind, get_me, ret, raise.
  unfold combine_try.
  destruct (clamp_short (score (me w))) as [sc1|] eqn:Hc; [|discriminate].
  assert (Hs : int (get_s (score (me w))) <> None).
  { intros E. unfold clamp_short in Hc. rewrite E in Hc. discriminate. }
  rewrite <- (clamp_short_keeps_l _ Hc).
  destruct (_score_to_string (last_chars 8 (get_l sc1)) Len_l) eqn:El;
    [|discriminate].
  assert (Hl : int (last_chars 8 (get_l sc1)) <> None).
  { intros E. unfold _score_to_string in El. rewrite E in El. discriminate. }
  destruct (depth (me w)) as [d|].
  - destruct (_score_to_string _ Len_m); [|discriminate].
    destruct (_score_to_string _ Len_s); discriminate.
  - intros H. injection H as <- <-. repeat split; assumption.
Qed.

End Score.

(** ** Board positions *)

Section Fen.

Variable NavState : Type.
Variable ext : External NavState.

Lemma bind_done {A B : Type} (c : M NavState A) (k : A -> M NavState B)
      (w w1 : World NavState) (a : A) :
  c w = (Done a, w1) -> bind c k w = k a w1.
Proof. intros H. unfold bind. rewrite H. reflexivity. Qed.

(** The menu after the orientation tests. *)
Lemma normalize_fen_run (fen : string) (raw : bool) (w : World NavState) :
  normalize_fen fen raw w =
  (Done (normal_fen (dgtmenu w) fen raw),
   if String.eqb (oriented (dgtmenu w) fen raw) flip_pattern
   then {| me := me w;
           dgtmenu := set_position_reverse_to_flipboard (dgtmenu w);
           actions := actions w |}
   else w).
Proof.
  unfold normalize_fen, normal_fen, bind, get_menu, modify_menu, ret.
  destruct (String.eqb (oriented (dgtmenu w) fen raw) flip_pattern);
    reflexivity.
Qed.

Lemma exit_menu_run (w : World NavState) :
  _exit_menu ext w =
  (Done (inside_menu ext (dgtmenu w)
         && negb (confirm (enter_top_menu ext (dgtmenu w)))),
   {| me := me w; dgtmenu := left_menu ext (dgtmenu w);
      actions := actions w |}).
Proof.
  unfold _exit_menu, left_menu, bind, get_menu, modify_menu, ret.
  destruct (inside_menu ext (dgtmenu w)); cbn.
  - destruct (confirm (enter_top_menu ext (dgtmenu w))); reflexivity.
  - destruct w; reflexivity.
Qed.

(** *** What a handler leaves alone *)

Lemma board_kept_refl (w : World NavState) : board_kept w w.
Proof. split; reflexivity. Qed.

Lemma board_kept_trans (w1 w2 w3 : World NavState) :
  board_kept w1 w2 -> board_kept w2 w3 -> board_kept w1 w3.
Proof. unfold board_kept. intuition congruence. Qed.

Lemma keeps_ret {A : Type} (a : A) : keeps_board (@ret NavState A a).
Proof. intros w. apply board_kept_refl. Qed.

Lemma keeps_raise {A : Type} (e : Exn) : keeps_board (@raise NavState A e).
Proof. intros w. apply board_kept_refl. Qed.

Lemma keeps_or_raise {A : Type} (o : option A) (e : Exn) :
  keeps_board (@or_raise NavState A o e).
Proof. destruct o; [apply keeps_ret | apply keeps_raise]. Qed.

Lemma keeps_get_me : keeps_board (@get_me NavState).
Proof. intros w. apply board_kept_refl. Qed.

Lemma keeps_get_menu : keeps_board (@get_menu NavState).
Proof. intros w. apply board_kept_refl. Qed.

Lemma keeps_emit (a : Action) : keeps_board (@emit NavState a).
Proof. intros w. split; reflexivity. Qed.

Lemma keeps_modify_me (f : Session -> Session) :
  keeps_board (@modify_me NavState f).
Proof. intros w. split; reflexivity. Qed.

Lemma keeps_modify_menu (f : DgtMenu NavState -> DgtMenu NavState) :
  (forall mn, dgt_fen (f mn) = dgt_fen mn /\ flip_board (f mn) = flip_board mn) ->
  keeps_board (modify_menu f).
Proof. intros Hf w. exact (Hf (dgtmenu w)). Qed.

Lemma keeps_bind {A B : Type} (c : M NavState A) (k : A -> M NavState B) :
  keeps_board c -> (forall a, keeps_board (k a)) -> keeps_board (bind c k).
Proof.
  intros Hc Hk w. unfold bind. specialize (Hc w).
  destruct (c w) as [[a|e] w1]; cbn [snd] in *.
  - apply board_kept_trans with w1; [exact Hc | apply Hk].
  - exact Hc.
Qed.

Lemma keeps_try_pass (c : M NavState unit) (e : Exn) :
  keeps_board c -> keeps_board (try_pass c e).
Proof.
  intros Hc w. unfold try_pass. specialize (Hc w).
  destruct (c w) as [[a|e1] w1]; cbn [snd] in *; [exact Hc|].
  destruct (Exn_eqb e1 e); exact Hc.
Qed.

Create HintDb frame.

#[local] Hint Resolve keeps_ret keeps_raise keeps_or_raise keeps_get_me
  keeps_get_menu keeps_emit keeps_modify_me keeps_try_pass : frame.

(** Splits a handler into its steps; the menu updates that remain are
    closed by computation. *)
Ltac frame :=
  repeat first
    [ solve [auto with frame]
    | apply keeps_bind; [| intros ?]
    | apply keeps_try_pass
    | apply keeps_modify_menu; intros ?; split; reflexivity
    | match goal with
      | |- keeps_board (match ?x with _ => _ end) => destruct x
      | |- keeps_board (if ?x then _ else _) => destruct x
      | |- keeps_board (let '(_, _) := ?x in _) => destruct x
      end ].

Section WithNav.

Hypothesis nav_ok : nav_keeps_board ext.

Lemma keeps_exit_menu : keeps_board (_exit_menu ext).
Proof.
  unfold _exit_menu. frame.
  apply keeps_modify_menu. exact nav_ok.
Qed.

Lemma keeps_store_book_text (i : nat) (t : DgtApi) :
  keeps_board (modify_menu (@store_book_text NavState i t)).
Proof.
  apply keeps_modify_menu. intros mn. unfold store_book_text.
  destruct (nth_error (all_books mn) i); split; reflexivity.
Qed.

Lemma keeps_store_engine_text (t : DgtApi) :
  keeps_board (modify_menu (@store_engine_text NavState t)).
Proof.
  apply keeps_modify_menu. intros mn. unfold store_engine_text.
  destruct (get_engine mn); split; reflexivity.
Qed.

#[local] Hint Resolve keeps_exit_menu keeps_store_book_text
  keeps_store_engine_text : frame.

Lemma keeps_fen_dispatch (fen : string) : keeps_board (fen_dispatch ext fen).
Proof.
  unfold fen_dispatch, fen_level, fen_book, fen_engine, fen_mode, fen_time,
    fen_board, _power_off, _reboot, _inside_menu.
  frame.
Qed.

(** After [_process_fen], however it ends, the stored position is the
    normalized one, and the orientation flag was toggled exactly when the
    reversed start position was seen. *)
Lemma process_fen_board (fen : string) (raw : bool) (w : World NavState) :
  dgt_fen (dgtmenu (snd (_process_fen ext fen raw w)))
    = normal_fen (dgtmenu w) fen raw /\
  flip_board (dgtmenu (snd (_process_fen ext fen raw w)))
    = (if String.eqb (oriented (dgtmenu w) fen raw) flip_pattern
       then negb (flip_board (dgtmenu w)) else flip_board (dgtmenu w)).
Proof.
  set (g := normal_fen (dgtmenu w) fen raw).
  set (hit := String.eqb (oriented (dgtmenu w) fen raw) flip_pattern).
  set (wN := if hit
             then {| me := me w;
                     dgtmenu := set_position_reverse_to_flipboard (dgtmenu w);
                     actions := actions w |}
             else w).
  set (rest := bind (@_drawresign NavState)
                 (fun dr => bind (modify_me (set_drawresign_fen (Some dr)))
                                 (fun _ => fen_dispatch ext g))).
  assert (Hrun : snd (_process_fen ext fen raw w) =
                 if String.eqb g (dgt_fen (dgtmenu wN)) then wN
                 else snd (rest {| me := me wN;
                                   dgtmenu := set_dgt_fen g (dgtmenu wN);
                                   actions := actions wN |})).
  { unfold _process_fen.
    rewrite (@bind_done _ _ _ _ _ _ _ (normalize_fen_run fen raw w)).
    fold g hit wN. unfold bind at 1. cbn [get_menu].
    destruct (String.eqb g (dgt_fen (dgtmenu wN))); reflexivity. }
  assert (HN : dgt_fen (dgtmenu wN) = dgt_fen (dgtmenu w) /\
               flip_board (dgtmenu wN)
               = (if hit then negb (flip_board (dgtmenu w))
                  else flip_board (dgtmenu w)))
    by (subst wN; destruct hit; split; reflexivity).
  destruct HN as [HNf HNb].
  rewrite Hrun.
  destruct (String.eqb g (dgt_fen (dgtmenu wN))) eqn:E.
  - apply String.eqb_eq in E. split; congruence.
  - assert (K : keeps_board rest).
    { unfold rest. apply keeps_bind; [unfold _drawresign; frame|].
      intros dr. apply keeps_bind; [frame|].
      intros _. apply keeps_fen_dispatch. }
    destruct (K {| me := me wN; dgtmenu := set_dgt_fen g (dgtmenu wN);
                   actions := actions wN |}) as [Kf Kb].
    cbn [dgtmenu dgt_fen flip_board set_dgt_fen] in Kf, Kb.
    split; congruence.
Qed.

End WithNav.

Lemma rev_onto_twice (s acc acc' : string) :
  rev_onto (rev_onto s acc) acc' = rev_onto acc (s ++ acc').
Proof.
  revert acc acc'. induction s as [|c s IH]; intros acc acc'; cbn.
  - reflexivity.
  - rewrite IH. reflexivity.
Qed.

Lemma reversed_involutive (s : string) : reversed (reversed s) = s.
Proof.
  unfold reversed. rewrite rev_onto_twice. cbn.
  induction s as [|c s IH]; cbn; [reflexivity | rewrite IH; reflexivity].
Qed.

(** A raw position that was just processed normalizes to the stored
    position without touching the orientation again. *)
Lemma second_report_normal (mn mn1 : DgtMenu NavState) (fen : string) :
  flip_board mn1
    = (if String.eqb (oriented mn fen true) flip_pattern
       then negb (flip_board mn) else flip_board mn) ->
  String.eqb (oriented mn1 fen true) flip_pattern = false /\
  normal_fen mn1 fen true = normal_fen mn fen true.
Proof.
  unfold normal_fen, oriented. intros Hb. rewrite Hb.
  assert (P : String.eqb (reversed flip_pattern) flip_pattern = false)
    by reflexivity.
  destruct (flip_board mn); cbn [andb negb].
  - destruct (String.eqb (reversed fen) flip_pattern) eqn:E; cbn [andb negb].
    + apply String.eqb_eq in E.
      assert (F : fen = reversed flip_pattern)
        by (rewrite <- E; symmetry; apply reversed_involutive).
      rewrite E, F, P. split; reflexivity.
    + rewrite E. split; reflexivity.
  - destruct (String.eqb fen flip_pattern) eqn:E; cbn [andb negb].
    + apply String.eqb_eq in E. rewrite E, P. split; reflexivity.
    + rewrite E. split; reflexivity.
Qed.

(** C7.  If the position, once normalized, is the one the menu holds, then
    [_process_fen] returns at once: nothing is fired or dispatched and no
    field of the display changes (the menu is the same too, but for the
    orientation flag when the reversed start position was seen).  As a
    result, reporting the same raw position a second time does nothing at
    all, however the first report ended. *)
Theorem C7_same_position_is_ignored
  (w : World NavState) (fen : string) (raw : bool) :
  nav_keeps_board ext ->
  (normal_fen (dgtmenu w) fen raw = dgt_fen (dgtmenu w) ->
   _process_fen ext fen raw w =
   (Done tt,
    {| me := me w;
       dgtmenu :=
         (if String.eqb (oriented (dgtmenu w) fen raw) flip_pattern
          then set_position_reverse_to_flipboard (dgtmenu w)
          else dgtmenu w);
       actions := actions w |})) /\
  _process_fen ext fen true (snd (_process_fen ext fen true w))
    = (Done tt, snd (_process_fen ext fen true w)).
Proof.
  intros nav_ok.
  assert (Same : forall (w0 : World NavState) (r : bool),
             normal_fen (dgtmenu w0) fen r = dgt_fen (dgtmenu w0) ->
             _process_fen ext fen r w0 =
             (Done tt,
              {| me := me w0;
                 dgtmenu :=
                   (if String.eqb (oriented (dgtmenu w0) fen r) flip_pattern
                    then set_position_reverse_to_flipboard (dgtmenu w0)
                    else dgtmenu w0);
                 actions := actions w0 |})).
  { intros w0 r H. unfold _process_fen.
    rewrite (@bind_done _ _ _ _ _ _ _ (normalize_fen_run fen r w0)).
    unfold bind, get_menu. rewrite H.
    destruct (String.eqb (oriented (dgtmenu w0) fen r) flip_pattern);
      cbn [dgtmenu dgt_fen set_position_reverse_to_flipboard];
      rewrite String.eqb_refl; [reflexivity | destruct w0; reflexivity]. }
  split; [apply Same|].
  destruct (process_fen_board nav_ok fen true w) as [Hf Hb].
  set (w1 := snd (_process_fen ext fen true w)) in *.
  destruct (second_report_normal (dgtmenu w) (dgtmenu w1) fen Hb) as [Hhit Hn].
  rewrite Same by congruence.
  rewrite Hhit. destruct w1; reflexivity.
Qed.


(** *** Reaching the chain of tests *)

(** A position that differs from the stored one is stored, its two middle
    ranks are kept, and the chain of tests runs on it. *)
Lemma process_fen_new (fen : string) (raw : bool) (w : World NavState)
      (dr : string) :
  String.eqb (normal_fen (dgtmenu w) fen raw) (dgt_fen (dgtmenu w)) = false ->
  drawresign_slice (normal_fen (dgtmenu w) fen raw) = Some dr ->
  _process_fen ext fen raw w =
  fen_dispatch ext (normal_fen (dgtmenu w) fen raw)
    {| me := set_drawresign_fen (Some dr) (me w);
       dgtmenu :=
         set_dgt_fen (normal_fen (dgtmenu w) fen raw)
           (if String.eqb (oriented (dgtmenu w) fen raw) flip_pattern
            then set_position_reverse_to_flipboard (dgtmenu w)
            else dgtmenu w);
       actions := actions w |}.
Proof.
  intros Hs Hd. unfold _process_fen.
  rewrite (@bind_done _ _ _ _ _ _ _ (normalize_fen_run fen raw w)).
  set (g := normal_fen (dgtmenu w) fen raw) in *.
  destruct (String.eqb (oriented (dgtmenu w) fen raw) flip_pattern);
    unfold bind at 1; cbn [get_menu dgtmenu dgt_fen
                           set_position_reverse_to_flipboard]; rewrite Hs;
    unfold bind at 1; cbn [modify_menu];
    unfold bind at 1; unfold _drawresign at 1; unfold bind at 1;
    cbn [get_menu dgtmenu dgt_fen set_dgt_fen]; rewrite Hd; cbn [or_raise ret];
    unfold bind at 1; cbn [modify_me me dgtmenu actions]; reflexivity.
Qed.

(** *** The level gesture *)

Lemma ceil_div_8 (n : Z) :
  8 * (ceil_div n 8 - 1) < n <= 8 * ceil_div n 8.
Proof.
  unfold ceil_div.
  assert (H := Z.div_mod (n + 8 - 1) 8 ltac:(lia)).
  assert (B := Z.mod_pos_bound (n + 8 - 1) 8 ltac:(lia)).
  lia.
Qed.

Lemma level_for_bounds (n f : Z) :
  1 <= n -> 0 <= f -> 0 <= level_for n f <= n - 1.
Proof.
  intros Hn Hf. unfold level_for.
  assert (C := ceil_div_8 n).
  assert (0 <= ceil_div n 8 * f) by nia.
  lia.
Qed.

Lemma level_for_monotone (n f1 f2 : Z) :
  1 <= n -> 0 <= f1 <= f2 -> level_for n f1 <= level_for n f2.
Proof.
  intros Hn Hf. unfold level_for.
  assert (C := ceil_div_8 n).
  assert (ceil_div n 8 * f1 <= ceil_div n 8 * f2) by nia.
  lia.
Qed.

Lemma insert_sorted_length (x : string) (l : list string) :
  List.length (insert_sorted x l) = S (List.length l).
Proof.
  induction l as [|y l IH]; cbn; [reflexivity|].
  destruct (String.leb x y); cbn; [reflexivity | rewrite IH; reflexivity].
Qed.

Lemma insert_sorted_in (x y : string) (l : list string) :
  In y (insert_sorted x l) -> y = x \/ In y l.
Proof.
  induction l as [|z l IH]; cbn.
  - intros [H|[]]; left; congruence.
  - destruct (String.leb x z); cbn.
    + intros [H|[H|H]]; [left | right; left | right; right]; congruence.
    + intros [H|H]; [right; left; exact H|].
      destruct (IH H) as [E|E]; [left; exact E | right; right; exact E].
Qed.

Lemma sorted_length (l : list string) :
  List.length (sorted l) = List.length l.
Proof.
  unfold sorted. induction l as [|x l IH]; cbn [fold_right List.length];
    [reflexivity|].
  rewrite insert_sorted_length, IH. reflexivity.
Qed.

Lemma sorted_in (y : string) (l : list string) : In y (sorted l) -> In y l.
Proof.
  unfold sorted. induction l as [|x l IH]; cbn [fold_right In]; [trivial|].
  intros H. destruct (insert_sorted_in _ _ _ H) as [E|E];
    [left; congruence | right; apply IH; exact E].
Qed.

Lemma lookup_in_keys {V : Type} (k : string) (d : list (string * V)) :
  In k (keys d) -> exists v, lookup k d = Some v.
Proof.
  induction d as [|[k0 v0] d IH]; cbn; [intros []|].
  intros H. destruct (String.eqb k k0) eqn:E; [exists v0; reflexivity|].
  destruct H as [H|H]; [|apply IH; exact H].
  subst k0. rewrite String.eqb_refl in E. discriminate.
Qed.

(** The level that the gesture selects names an entry of the table. *)
Lemma level_entry (d : list (string * Options)) (f : Z) :
  d <> [] -> 0 <= f ->
  exists msg options,
    item (sorted (keys d)) (level_for (Z.of_nat (List.length d)) f) = Some msg /\
    lookup msg d = Some options.
Proof.
  intros Hd Hf.
  assert (Hn : 1 <= Z.of_nat (List.length d))
    by (destruct d; [congruence | cbn [List.length]; lia]).
  assert (B := level_for_bounds Hn Hf).
  set (lv := level_for (Z.of_nat (List.length d)) f) in *.
  unfold item.
  assert (E : (0 <=? lv)%Z = true) by (apply Z.leb_le; lia). rewrite E.
  destruct (nth_error (sorted (keys d)) (Z.to_nat lv)) as [msg|] eqn:N.
  - apply nth_error_In in N. apply sorted_in in N.
    destruct (lookup_in_keys _ _ N) as [v Hv]. exists msg, v. split; auto.
  - apply nth_error_None in N. rewrite sorted_length in N.
    unfold keys in N. rewrite length_map in N. lia.
Qed.

(** Each gesture of [level_map] is found at its own index, has eight
    ranks, and differs from the reversed start position. *)
Lemma level_map_entry (f : nat) (g : string) :
  nth_error level_map f = Some g ->
  String.eqb g flip_pattern = false /\
  mem g level_map = true /\
  index g level_map = Some f /\
  (f < 8)%nat /\
  exists dr, drawresign_slice g = Some dr.
Proof.
  intros H.
  do 8 (destruct f as [|f];
        [injection H as <-; vm_compute; repeat split; try lia; eexists; reflexivity|]).
  destruct f; discriminate H.
Qed.

Lemma fen_level_run (g : string) (w : World NavState) (f : nat)
      (eng : Engine) (msg : string) (options : Options) :
  get_engine (dgtmenu w) = Some eng ->
  level_dict eng <> [] ->
  index g level_map = Some f ->
  item (sorted (keys (level_dict eng)))
       (level_for (Z.of_nat (List.length (level_dict eng))) (Z.of_nat f))
    = Some msg ->
  lookup msg (level_dict eng) = Some options ->
  fen_level ext g w =
  (Done tt,
   {| me := me w;
      dgtmenu :=
        left_menu ext
          (set_engine_level
             (level_for (Z.of_nat (List.length (level_dict eng))) (Z.of_nat f))
             (dgtmenu w));
      actions :=
        (actions w ++ [ConfigWrite (Some msg)])
        ++ [Fire (LEVEL options
                    (set_wait
                       (inside_menu ext
                          (set_engine_level
                             (level_for (Z.of_nat (List.length (level_dict eng)))
                                        (Z.of_nat f))
                             (dgtmenu w))
                        && negb (confirm
                                   (enter_top_menu ext
                                      (set_engine_level
                                         (level_for
                                            (Z.of_nat (List.length (level_dict eng)))
                                            (Z.of_nat f))
                                         (dgtmenu w)))))
                       (text ext "M10_level" (ArgStr msg))))] |}).
Proof.
  intros He Hd Hi Hm Ho. unfold fen_level.
  unfold bind at 1. cbn [get_menu]. rewrite He.
  unfold bind at 1. cbn [or_raise ret].
  destruct (level_dict eng) as [|p l] eqn:El; [congruence|].
  rewrite Hi. unfold bind at 1. cbn [or_raise ret].
  unfold bind at 1. cbn [modify_menu].
  rewrite Hm. unfold bind at 1. cbn [or_raise ret].
  rewrite (@bind_done _ _ _ _ _ _ _ (exit_menu_run _)).
  cbn [me dgtmenu actions].
  unfold bind at 1. cbn [emit]. rewrite Ho.
  unfold bind at 1. cbn [or_raise ret emit me dgtmenu actions].
  reflexivity.
Qed.

Lemma fen_dispatch_level (g : string) (w : World NavState) :
  mem g level_map = true -> fen_dispatch ext g w = fen_level ext g w.
Proof.
  intros H. unfold fen_dispatch, bind at 1. cbn [get_menu].
  unfold bind at 1. cbn [get_me]. rewrite H. reflexivity.
Qed.

(** C4.  When the position reported is the level gesture with the queen on
    file [f], differs from the stored position, and the selected engine
    has [n >= 1] levels, [_process_fen] ends normally with the level of the
    menu set to [min(ceil(n/8) * f, n - 1)], writes the name of that level
    to the configuration and fires the level event with its options.  The
    index is monotonic in [f] and lies between 0 and [n - 1]. *)
Theorem C4_level_gesture_selects_level
  (w : World NavState) (fen : string) (raw : bool) (f : nat) (g : string)
  (eng : Engine) :
  nth_error level_map f = Some g ->
  oriented (dgtmenu w) fen raw = g ->
  g <> dgt_fen (dgtmenu w) ->
  get_engine (dgtmenu w) = Some eng ->
  level_dict eng <> [] ->
  let n := Z.of_nat (List.length (level_dict eng)) in
  let level := level_for n (Z.of_nat f) in
  (exists msg options dr,
      item (sorted (keys (level_dict eng))) level = Some msg /\
      lookup msg (level_dict eng) = Some options /\
      _process_fen ext fen raw w =
      (Done tt,
       {| me := set_drawresign_fen (Some dr) (me w);
          dgtmenu :=
            left_menu ext (set_engine_level level (set_dgt_fen g (dgtmenu w)));
          actions :=
            (actions w ++ [ConfigWrite (Some msg)])
            ++ [Fire (LEVEL options
                        (set_wait
                           (inside_menu ext
                              (set_engine_level level
                                 (set_dgt_fen g (dgtmenu w)))
                            && negb (confirm
                                       (enter_top_menu ext
                                          (set_engine_level level
                                             (set_dgt_fen g (dgtmenu w))))))
                           (text ext "M10_level" (ArgStr msg))))] |})) /\
  (exists inc,
      8 * (inc - 1) < n <= 8 * inc /\
      level = Z.min (inc * Z.of_nat f) (n - 1)) /\
  (forall f1 f2, 0 <= f1 <= f2 -> level_for n f1 <= level_for n f2) /\
  (forall f0, 0 <= f0 -> 0 <= level_for n f0 <= n - 1).
Proof.
  intros Hnth Ho Hne He Hd n level.
  assert (Hn : 1 <= n)
    by (subst n; destruct (level_dict eng); [congruence | cbn [List.length]; lia]).
  destruct (level_map_entry _ Hnth) as (Hp & Hmem & Hidx & _ & dr & Hdr).
  destruct (@level_entry (level_dict eng) (Z.of_nat f) Hd ltac:(lia))
    as (msg & options & Hitem & Hlook).
  split; [| split; [| split]].
  - exists msg, options, dr. split; [exact Hitem|]. split; [exact Hlook|].
    assert (Hg : normal_fen (dgtmenu w) fen raw = g)
      by (unfold normal_fen; rewrite Ho, Hp; reflexivity).
    rewrite (@process_fen_new fen raw w dr);
      [| rewrite Hg; apply String.eqb_neq; exact Hne | rewrite Hg; exact Hdr].
    rewrite Hg, Ho, Hp.
    rewrite (fen_dispatch_level _ _ Hmem).
    rewrite (@fen_level_run g _ f eng msg options); try assumption; reflexivity.
  - exists (ceil_div n 8). split; [apply ceil_div_8 | reflexivity].
  - intros f1 f2 Hf. apply level_for_monotone; assumption.
  - intros f0 Hf. apply level_for_bounds; assumption.
Qed.

(** *** A start position that is no gesture *)

Lemma fen_dispatch_board (g : string) (w : World NavState) (dr : string) :
  mem g level_map = false ->
  mem g book_map = false ->
  mem g engine_map = false ->
  lookup g mode_map = None ->
  mem g (keys (tc_fixed_map (dgtmenu w))) = false ->
  mem g (keys (tc_blitz_map (dgtmenu w))) = false ->
  mem g (keys (tc_fisch_map (dgtmenu w))) = false ->
  mem g shutdown_map = false ->
  mem g reboot_map = false ->
  drawresign_fen (me w) = Some dr ->
  lookup dr drawresign_map = None ->
  fen_dispatch ext g w = fen_board ext g w.
Proof.
  intros H1 H2 H3 H4 H5 H6 H7 H8 H9 H10 H11.
  unfold fen_dispatch, bind at 1. cbn [get_menu].
  unfold bind at 1. cbn [get_me].
  rewrite H1, H2, H3, H4, H5, H6, H7, H8, H9, H10. cbn [option_map].
  rewrite H11. reflexivity.
Qed.

Lemma fen_board_error960 (g : string) (w : World NavState) (p : Z) :
  chess960_pos ext g = Some (Some p) ->
  p <> 518 ->
  engine_has_960 (dgtmenu w) = false ->
  fen_board ext g w =
  (Done tt,
   {| me := me w; dgtmenu := dgtmenu w;
      actions := actions w ++ [Dispatch (text ext "Y00_error960" NoArg)] |}).
Proof.
  intros Hc Hp Hh. unfold fen_board, bind at 1. rewrite Hc. cbn [or_raise ret].
  unfold bind at 1. cbn [get_menu]. rewrite Hh.
  assert (E : (p =? 518)%Z = false) by (apply Z.eqb_neq; exact Hp).
  rewrite E. reflexivity.
Qed.

(** C8, amended.  Take a position that, once normalized, differs from the
    stored one, matches no gesture table, and is a valid start position
    with a number other than 518, while the engine does not play Chess960.
    Then [_process_fen] dispatches the text "Y00_error960" and fires no
    event.  The menu stores the position, and of the fields of the display
    only [drawresign_fen] changes: it is set to the two middle ranks of the
    position. *)
Theorem C8_start_position_without_960
  (w : World NavState) (fen : string) (raw : bool) (p : Z) (dr : string) :
  let g := normal_fen (dgtmenu w) fen raw in
  g <> dgt_fen (dgtmenu w) ->
  drawresign_slice g = Some dr ->
  mem g level_map = false ->
  mem g book_map = false ->
  mem g engine_map = false ->
  lookup g mode_map = None ->
  mem g (keys (tc_fixed_map (dgtmenu w))) = false ->
  mem g (keys (tc_blitz_map (dgtmenu w))) = false ->
  mem g (keys (tc_fisch_map (dgtmenu w))) = false ->
  mem g shutdown_map = false ->
  mem g reboot_map = false ->
  lookup dr drawresign_map = None ->
  chess960_pos ext g = Some (Some p) ->
  p <> 518 ->
  engine_has_960 (dgtmenu w) = false ->
  _process_fen ext fen raw w =
  (Done tt,
   {| me := set_drawresign_fen (Some dr) (me w);
      dgtmenu :=
        set_dgt_fen g
          (if String.eqb (oriented (dgtmenu w) fen raw) flip_pattern
           then set_position_reverse_to_flipboard (dgtmenu w)
           else dgtmenu w);
      actions := actions w ++ [Dispatch (text ext "Y00_error960" NoArg)] |}).
Proof.
  intros g Hne Hdr H1 H2 H3 H4 H5 H6 H7 H8 H9 H10 Hc Hp Hh.
  rewrite (@process_fen_new fen raw w dr);
    [| apply String.eqb_neq; exact Hne | exact Hdr].
  fold g.
  assert (T : forall mn : DgtMenu NavState,
             (if String.eqb (oriented (dgtmenu w) fen raw) flip_pattern
              then set_position_reverse_to_flipboard (dgtmenu w)
              else dgtmenu w) = mn ->
             tc_fixed_map mn = tc_fixed_map (dgtmenu w) /\
             tc_blitz_map mn = tc_blitz_map (dgtmenu w) /\
             tc_fisch_map mn = tc_fisch_map (dgtmenu w) /\
             engine_has_960 mn = engine_has_960 (dgtmenu w)).
  { intros mn <-.
    destruct (String.eqb (oriented (dgtmenu w) fen raw) flip_pattern);
      repeat split. }
  destruct (T _ eq_refl) as (T1 & T2 & T3 & T4).
  rewrite (@fen_dispatch_board g _ dr); try assumption;
    try reflexivity;
    cbn [dgtmenu set_dgt_fen tc_fixed_map tc_blitz_map tc_fisch_map];
    try congruence.
  rewrite (@fen_board_error960 g _ p Hc Hp);
    [reflexivity | cbn [dgtmenu set_dgt_fen engine_has_960]; congruence].
Qed.

End Fen.

(** ** Buttons *)

Section Buttons.

Variable NavState : Type.
Variable ext : External NavState.

(** C9, amended.  A button message with the power code 0x11 is ignored
    while the menu waits for an engine restart.  Otherwise it dispatches
    the goodbye text, sets the restart flag and fires the shutdown event
    for the device of the message, whatever the rest of the state is; the
    fields of the display do not change. *)
Theorem C9_power_button_unless_restarting (w : World NavState) (d : string) :
  _process_button ext {| button := 17; dev := d |} w =
  if engine_restart (dgtmenu w) then (Done tt, w)
  else
    (Done tt,
     {| me := me w;
        dgtmenu := set_engine_restart true (dgtmenu w);
        actions := (actions w ++ [Dispatch (text ext "Y10_goodbye" NoArg)])
                     ++ [Fire (SHUTDOWN d)] |}).
Proof.
  unfold _process_button, bind, get_menu. cbn [button dev].
  destruct (engine_restart (dgtmenu w)) eqn:E; cbn [negb].
  - reflexivity.
  - reflexivity.
Qed.

End Buttons.

Import DisplaySamples.

(** C5 as stated fails: for -1500 centipawns at depth 12 the medium and
    long variants show 1500, not 999, and so they do for 1500 centipawns;
    only the short variant shows 999. *)
Lemma C5_counterexample_medium_and_long_unclamped :
  _combine_depth_and_score world_minus_1500 =
    (Done {| body := DISPLAY_TEXT " 12   -1500" "12 -1500" "12-999" false
                                  (Some DOT);
             wait := Some false; maxtime := Some 1%Q |},
     world_minus_1500) /\
  _combine_depth_and_score world_plus_1500 =
    (Done {| body := DISPLAY_TEXT " 12    1500" "12  1500" "12 999" false
                                  (Some DOT);
             wait := Some false; maxtime := Some 1%Q |},
     world_plus_1500).
Proof. split; reflexivity. Qed.

(** The amended statement at -1500 centipawns and depth 12. *)
Lemma C5_witness_minus_1500 :
  int " -1500" = Some (-1500)%Z /\
  int (last_chars 8 "   -1500") = Some (-1500)%Z /\
  int (last_chars 6 "   -1500") = Some (-1500)%Z /\
  _combine_depth_and_score world_minus_1500 =
    (Done {| body := DISPLAY_TEXT " 12   -1500" "12 -1500" "12-999" false
                                  (Some DOT);
             wait := Some false; maxtime := Some 1%Q |},
     world_minus_1500).
Proof.
  split; [reflexivity|]. split; [reflexivity|]. split; [reflexivity|].
  exact (@C5_only_short_variant_is_clamped unit world_minus_1500
           "   -1500" "   -1500" " -1500" false None (Some false) (Some 1%Q)
           12 (-1500) 0 (-1500) (-1500)
           eq_refl eq_refl eq_refl
           (fun H : (-1000 < -1500 < 1000)%Z =>
              match Z.lt_irrefl _ (Z.lt_trans _ _ _ (proj1 H) (eq_refl : (-1500 < -1000)%Z))
              with end)
           eq_refl eq_refl).
Defined.

(** A display without a score: "no scr" is no number, and the stored
    score is returned. *)
Example no_score_is_returned :
  conversion_fails (score (me sample_world)) (depth (me sample_world)) /\
  _combine_depth_and_score sample_world
    = (Done (score (me sample_world)), sample_world).
Proof.
  assert (F : conversion_fails (score (me sample_world))
                               (depth (me sample_world)))
    by (left; reflexivity).
  split; [exact F|].
  destruct (@value_error_keeps_score unit sample_world F)
    as (t & Hrun & Hsame).
  rewrite Hrun. rewrite (Hsame eq_refl). reflexivity.
Qed.

(** A score of 123 centipawns stored before any depth: the method raises
    [TypeError]. *)
Lemma C6_witness_score_before_depth :
  depth (me world_score_before_depth) = None /\
  int (get_s (score (me world_score_before_depth))) = Some 123%Z /\
  int (last_chars 8 (get_l (score (me world_score_before_depth))))
    = Some 123%Z /\
  _combine_depth_and_score world_score_before_depth
    = (Raised TypeError, world_score_before_depth).
Proof.
  split; [reflexivity|]. split; [reflexivity|]. split; [reflexivity|].
  exact (@C6_score_without_depth_raises unit world_score_before_depth
           123 123 eq_refl eq_refl eq_refl).
Defined.

(** C9 as stated fails: while the menu waits for an engine restart the
    power button fires nothing. *)
Lemma C9_counterexample_power_ignored_during_restart :
  engine_restart (dgtmenu restarting_world) = true /\
  _process_button sample_ext {| button := 17; dev := "ser" |} restarting_world
    = (Done tt, restarting_world) /\
  actions restarting_world = [].
Proof. repeat split. Qed.

(** The queen on the fourth file, with an engine of twenty levels, selects
    the level of index 9. *)
Lemma C4_witness_fourth_file :
  nth_error level_map 3 = Some "rnbqkbnr/pppppppp/8/3q4/8/8/PPPPPPPP/RNBQKBNR" /\
  get_engine (dgtmenu sample_world) = Some sample_engine /\
  level_dict sample_engine <> [] /\
  engine_level
    (dgtmenu (snd (_process_fen sample_ext
                     "rnbqkbnr/pppppppp/8/3q4/8/8/PPPPPPPP/RNBQKBNR" true
                     sample_world))) = Some 9%Z.
Proof.
  assert (Hd : level_dict sample_engine <> []) by discriminate.
  assert (Hne : "rnbqkbnr/pppppppp/8/3q4/8/8/PPPPPPPP/RNBQKBNR"
                <> dgt_fen (dgtmenu sample_world)) by discriminate.
  split; [reflexivity|]. split; [reflexivity|]. split; [exact Hd|].
  destruct (@C4_level_gesture_selects_level unit sample_ext sample_world
              "rnbqkbnr/pppppppp/8/3q4/8/8/PPPPPPPP/RNBQKBNR" true 3
              "rnbqkbnr/pppppppp/8/3q4/8/8/PPPPPPPP/RNBQKBNR" sample_engine
              eq_refl eq_refl Hne eq_refl Hd)
    as ((msg & options & dr & _ & _ & Hrun) & _).
  rewrite Hrun. reflexivity.
Defined.

(** The start position reported twice by the board. *)
Lemma C7_witness_start_position_twice :
  nav_keeps_board sample_ext /\
  _process_fen sample_ext standard_start true
    (snd (_process_fen sample_ext standard_start true sample_world))
  = (Done tt, snd (_process_fen sample_ext standard_start true sample_world)).
Proof.
  assert (Hnav : nav_keeps_board sample_ext)
    by (intros mn; split; reflexivity).
  split; [exact Hnav|].
  exact (proj2 (@C7_same_position_is_ignored unit sample_ext sample_world
                  standard_start true Hnav)).
Defined.

(** C8 as stated fails: on a display that has just been created, the
    Chess960 start position number 0, shown to an engine that does not play
    Chess960, is answered by the error text and no event, but the field
    [drawresign_fen] of the display changes from [None] to the empty middle
    ranks. *)
Lemma C8_counterexample_drawresign_fen_changes :
  chess960_pos sample_ext start_960_0 = Some (Some 0%Z) /\
  engine_has_960 (dgtmenu sample_world) = false /\
  drawresign_fen (me sample_world) = None /\
  _process_fen sample_ext start_960_0 true sample_world =
    (Done tt,
     {| me := set_drawresign_fen (Some "8/8/8/8/8/8/8/8") sample_session;
        dgtmenu := set_dgt_fen start_960_0 sample_menu;
        actions := [Dispatch (sample_text "Y00_error960" NoArg)] |}) /\
  drawresign_fen (set_drawresign_fen (Some "8/8/8/8/8/8/8/8") sample_session)
    = Some "8/8/8/8/8/8/8/8".
Proof. repeat split. Qed.

(** The amended statement on the same input. *)
Lemma C8_witness_start_960_0 :
  chess960_pos sample_ext start_960_0 = Some (Some 0%Z) /\
  engine_has_960 (dgtmenu sample_world) = false /\
  _process_fen sample_ext start_960_0 true sample_world =
    (Done tt,
     {| me := set_drawresign_fen (Some "8/8/8/8/8/8/8/8") sample_session;
        dgtmenu := set_dgt_fen start_960_0 sample_menu;
        actions := [Dispatch (sample_text "Y00_error960" NoArg)] |}).
Proof.
  split; [reflexivity|]. split; [reflexivity|].
  apply (@C8_start_position_without_960 unit sample_ext sample_world
           start_960_0 true 0%Z "8/8/8/8/8/8/8/8");
    solve [reflexivity | discriminate].
Defined.

End DisplayFacts.

(* ================================================================== *)
(** * Properties of the runs of the dispatcher *)
(* ================================================================== *)

Module DispatcherRunFacts.
Import Api Dispatcher DispatcherRuns.

Section WithHash.

Variable hash : DgtApi -> Z.

(** The three ways in which [_process_message] ends: the command is
    dropped, shown, or shown behind the start of its timer. *)
Lemma process_cases (st : State) (m : DgtApi) :
  let r := _process_message hash st m in
  tasks (fst r) = tasks st /\ time_factor (fst r) = time_factor st /\
  ((snd r = [] /\ fst r = st) \/
   (snd r = [Show m] /\ maxtimer (fst r) = maxtimer st /\
    maxtimer_running (fst r) = maxtimer_running st) \/
   (exists q t,
       maxtime m = Some q /\ positive q = true /\
       interval t = (q * time_factor st)%Q /\
       snd r = [TimerStart t; Show m] /\
       maxtimer (fst r) = Some t /\ maxtimer_running (fst r) = true)).
Proof.
  unfold _process_message.
  destruct (is_clock_state m); [| destruct (is_move_or_text m);
    [destruct (hash_matches (display_hash st) (hash m) && negb (beep m)) |]];
    (destruct (maxtime m) as [q|] eqn:Em; [destruct (positive q) eqn:Ep |]);
    cbn; (split; [reflexivity|]); (split; [reflexivity|]);
    try (left; split; reflexivity);
    try (right; left; repeat split; reflexivity);
    right; right; eexists q, _; repeat split; try reflexivity; assumption.
Qed.

Lemma process_keeps_handle (st : State) (m : DgtApi) :
  handle_ok st -> handle_ok (fst (_process_message hash st m)).
Proof.
  intros [Hh Hf]. destruct (process_cases st m) as (_ & Htf & Hc).
  split; [| congruence].
  destruct Hc as [[_ E] | [(_ & Em & Er) | (q & t & _ & _ & _ & _ & Em & _)]].
  - rewrite E. exact Hh.
  - rewrite Em, Er. exact Hh.
  - rewrite Em. discriminate.
Qed.

Lemma process_all_keeps_handle (ms : list DgtApi) :
  forall st, handle_ok st -> handle_ok (fst (process_all hash st ms)).
Proof.
  induction ms as [|m ms IH]; intros st H; cbn [process_all]; [exact H|].
  assert (H1 := process_keeps_handle m H).
  destruct (_process_message hash st m) as [s1 o1]. cbn [fst] in H1.
  specialize (IH s1 H1). destruct (process_all hash s1 ms). exact IH.
Qed.

(** Each step keeps the invariant of the queue. *)
Lemma step_keeps_queue_inv (st : State) (i : Input) :
  queue_inv st -> queue_inv (fst (step hash st i)).
Proof.
  intros (Hq & Hh & Hf). destruct i as [m|]; cbn [step].
  - unfold run_step, arbitrate.
    destruct (maxtimer_running st) eqn:R; [destruct (wait m) as [[|]|] |].
    + split; [cbn; intros E; congruence |
             split; [cbn; intros _; apply Hh; reflexivity | exact Hf]].
    + set (st0 := set_tasks [] (set_maxtimer_running false st)).
      assert (H0 : handle_ok st0) by (split; [discriminate | exact Hf]).
      assert (H1 := process_keeps_handle m H0).
      assert (T := DispatcherFacts.process_keeps_tasks hash st0 m).
      destruct (_process_message hash st0 m) as [s1 o1]. cbn [fst] in *.
      destruct H1 as [H1 H2]. repeat split; auto.
    + assert (H0 : handle_ok st)
        by (split; [intros _; apply Hh; reflexivity | exact Hf]).
      assert (H1 := process_keeps_handle m H0).
      assert (Rm := DispatcherFacts.process_running_mono hash st m R).
      destruct (_process_message hash st m) as [s1 o1]. cbn [fst] in *.
      destruct H1 as [H1 H2]. repeat split; auto. rewrite Rm. discriminate.
    + assert (H0 : handle_ok st)
        by (split; [rewrite R; discriminate | exact Hf]).
      assert (H1 := process_keeps_handle m H0).
      assert (T := DispatcherFacts.process_keeps_tasks hash st m).
      destruct (_process_message hash st m) as [s1 o1]. cbn [fst] in *.
      destruct H1 as [H1 H2]. repeat split; auto.
      intros _. rewrite T. apply Hq. reflexivity.
  - destruct (DispatcherFacts.stopped_maxtimer_prefix hash st)
      as (k & Hk & _ & Hs & Hstop & _).
    rewrite Hs. cbn [fst].
    set (st0 := set_maxtimer_running false st) in *.
    assert (H0 : handle_ok st0) by (split; [discriminate | exact Hf]).
    assert (H1 := process_all_keeps_handle (firstn k (tasks st)) H0).
    destruct (process_all hash st0 (firstn k (tasks st))) as [sP oP].
    cbn [fst snd] in *. destruct H1 as [H1 H2].
    repeat split; auto.
    cbn [set_tasks maxtimer_running tasks]. intros R.
    apply skipn_all2.
    destruct (Nat.lt_ge_cases k (List.length (tasks st))) as [L|L];
      [rewrite (Hstop L) in R; discriminate | exact L].
Qed.

Lemma init_queue_inv : queue_inv init.
Proof. repeat split. discriminate. Qed.

Lemma reachable_queue_inv (st : State) (out : list Effect) :
  Reachable hash st out -> queue_inv st.
Proof.
  induction 1 as [|st out m _ IH|st out _ IH].
  - exact init_queue_inv.
  - exact (step_keeps_queue_inv (Submit m) IH).
  - exact (step_keeps_queue_inv Expire IH).
Qed.

(** As long as the iterations of [run] and the calls of the callback
    follow each other without overlapping, which is what [Reachable]
    describes, a command waits in the queue only while the timer runs:
    when no timer runs the queue is empty.  In particular, when
    [_stopped_maxtimer] returns, either the queue is empty or a drained
    command has armed the timer again.  The two threads of the program
    can overlap, and then this fails: see the module [ThreadFacts]. *)
Lemma no_task_waits_without_timer (st : State) (out : list Effect) :
  Reachable hash st out ->
  (maxtimer_running st = false -> tasks st = []) /\
  (tasks (fst (_stopped_maxtimer hash st)) = [] \/
   maxtimer_running (fst (_stopped_maxtimer hash st)) = true).
Proof.
  intros H. split; [exact (proj1 (reachable_queue_inv H))|].
  destruct (step_keeps_queue_inv Expire (reachable_queue_inv H)) as (Hq & _).
  cbn [step] in Hq.
  destruct (maxtimer_running (fst (_stopped_maxtimer hash st)));
    [right; reflexivity | left; apply Hq; reflexivity].
Qed.

(** ** What is shown, and in which order *)

Lemma shown_app (a b : list Effect) : shown (a ++ b) = shown a ++ shown b.
Proof. unfold shown. apply flat_map_app. Qed.

Lemma in_shown (x : DgtApi) (out : list Effect) :
  In x (shown out) <-> In (Show x) out.
Proof.
  unfold shown. rewrite in_flat_map. split.
  - intros (e & He & Hx). destruct e; cbn in Hx; try contradiction.
    destruct Hx as [<-|[]]. exact He.
  - intros H. exists (Show x). split; [exact H | left; reflexivity].
Qed.

Lemma subseq_nil_l {A : Type} (l : list A) : Subseq [] l.
Proof. induction l; constructor; assumption. Qed.

Lemma subseq_refl {A : Type} (l : list A) : Subseq l l.
Proof. induction l; constructor; assumption. Qed.

Lemma subseq_app {A : Type} (a b c d : list A) :
  Subseq a b -> Subseq c d -> Subseq (a ++ c) (b ++ d).
Proof.
  induction 1 as [|x l1 l2 _ IH|x l1 l2 _ IH]; intros Hcd; cbn.
  - exact Hcd.
  - apply subseq_skip. apply IH. exact Hcd.
  - apply subseq_take. apply IH. exact Hcd.
Qed.

Lemma subseq_trans {A : Type} (a b c : list A) :
  Subseq a b -> Subseq b c -> Subseq a c.
Proof.
  intros Hab Hbc. revert a Hab.
  induction Hbc as [|x b c _ IH|x b c _ IH]; intros a Hab.
  - exact Hab.
  - apply subseq_skip. apply IH. exact Hab.
  - inversion Hab; subst.
    + apply subseq_skip. apply IH. assumption.
    + apply subseq_take. apply IH. assumption.
Qed.

Lemma subseq_in {A : Type} (a b : list A) (x : A) :
  Subseq a b -> In x a -> In x b.
Proof.
  induction 1 as [|y l1 l2 _ IH|y l1 l2 _ IH]; cbn; intros K.
  - exact K.
  - right. apply IH. exact K.
  - destruct K as [K|K]; [left; exact K | right; apply IH; exact K].
Qed.

Lemma process_shown (st : State) (m : DgtApi) :
  shown (snd (_process_message hash st m)) = [] \/
  shown (snd (_process_message hash st m)) = [m].
Proof.
  destruct (process_cases st m)
    as (_ & _ & [[E _] | [(E & _) | (q & t & _ & _ & _ & E & _)]]);
    rewrite E; cbn; auto.
Qed.

Lemma process_shown_subseq (st : State) (m : DgtApi) :
  Subseq (shown (snd (_process_message hash st m))) [m].
Proof.
  destruct (process_shown st m) as [E|E]; rewrite E;
    [apply subseq_nil_l | apply subseq_refl].
Qed.

Lemma process_all_shown_subseq (ms : list DgtApi) :
  forall st, Subseq (shown (snd (process_all hash st ms))) ms.
Proof.
  induction ms as [|m ms IH]; intros st; cbn [process_all].
  - constructor.
  - assert (H1 := process_shown_subseq st m).
    destruct (_process_message hash st m) as [s1 o1]. cbn [snd] in H1.
    specialize (IH s1). destruct (process_all hash s1 ms) as [s2 o2].
    cbn [snd] in *. rewrite shown_app.
    exact (subseq_app H1 IH).
Qed.

(** What a step forwards and what it leaves in the queue was in the
    queue or is the command submitted, in that order. *)
Lemma step_forwards_in_order (st : State) (i : Input) :
  queue_inv st ->
  (forall m, i = Submit m -> wait m <> None) ->
  Subseq (shown (match i with
                 | Submit _ => snd (step hash st i)
                 | Expire => tl (snd (step hash st i))
                 end)
          ++ tasks (fst (step hash st i)))
         (tasks st ++ submitted [i]).
Proof.
  intros (Hq & _ & _) Hw. destruct i as [m|]; cbn [step submitted flat_map app].
  - unfold run_step, arbitrate.
    destruct (maxtimer_running st) eqn:R; [destruct (wait m) as [[|]|] eqn:W |].
    + cbn. apply subseq_refl.
    + set (st0 := set_tasks [] (set_maxtimer_running false st)).
      assert (T := DispatcherFacts.process_keeps_tasks hash st0 m).
      assert (S := process_shown_subseq st0 m).
      destruct (_process_message hash st0 m) as [s1 o1]. cbn [fst snd] in *.
      rewrite T. cbn [st0 set_tasks tasks]. rewrite app_nil_r.
      change (shown (TimerCancel (maxtimer st) :: o1)) with (shown o1).
      exact (subseq_app (subseq_nil_l (tasks st)) S).
    + destruct (Hw m eq_refl W).
    + assert (T := DispatcherFacts.process_keeps_tasks hash st m).
      assert (S := process_shown_subseq st m).
      destruct (_process_message hash st m) as [s1 o1]. cbn [fst snd app] in *.
      rewrite T, (Hq eq_refl). rewrite app_nil_r. exact S.
  - destruct (DispatcherFacts.stopped_maxtimer_prefix hash st)
      as (k & _ & _ & Hs & _).
    rewrite Hs. cbn [fst snd tl set_tasks tasks]. rewrite app_nil_r.
    rewrite <- (firstn_skipn k (tasks st)) at 3.
    apply subseq_app; [apply process_all_shown_subseq | apply subseq_refl].
Qed.

Lemma forwarded_in_order (ins : list Input) :
  forall st,
    queue_inv st ->
    (forall m, In (Submit m) ins -> wait m <> None) ->
    Subseq (forwarded hash st ins) (tasks st ++ submitted ins).
Proof.
  induction ins as [|i ins IH]; intros st Hinv Hw.
  - cbn. apply subseq_nil_l.
  - cbn [forwarded].
    assert (H1 := @step_forwards_in_order st i Hinv
                    (fun m E => Hw m (or_introl E))).
    assert (H2 := IH (fst (step hash st i)) (step_keeps_queue_inv i Hinv)
                     (fun m E => Hw m (or_intror E))).
    assert (E : tasks st ++ submitted (i :: ins)
                = (tasks st ++ submitted [i]) ++ submitted ins).
    { rewrite <- app_assoc. f_equal. unfold submitted. cbn [flat_map].
      rewrite app_nil_r. reflexivity. }
    rewrite E.
    apply subseq_trans with
      (shown (match i with
              | Submit _ => snd (step hash st i)
              | Expire => tl (snd (step hash st i))
              end) ++ tasks (fst (step hash st i)) ++ submitted ins).
    + apply subseq_app; [apply subseq_refl | exact H2].
    + rewrite app_assoc. apply subseq_app; [exact H1 | apply subseq_refl].
Qed.

(** As long as the iterations of [run] and the calls of the callback
    follow each other without overlapping, and every command handed to a
    freshly created dispatcher has a [wait] attribute, the commands that
    reach the hardware sink, the refreshes of the time display apart, are
    commands that were handed in, in the order in which they were handed
    in: a command is deferred or dropped, but never overtaken by a later
    one.  The two threads of the program can overlap, and then this
    fails: see the module [ThreadFacts]. *)
Lemma display_order_follows_submission (ins : list Input) :
  (forall m, In (Submit m) ins -> wait m <> None) ->
  Subseq (forwarded hash init ins) (submitted ins).
Proof.
  intros Hw. exact (forwarded_in_order ins init_queue_inv Hw).
Qed.

(** Where a shown command comes from. *)
Lemma step_origin (st : State) (i : Input) (x : DgtApi) :
  (In (Show x) (snd (step hash st i)) ->
   x = time_refresh \/ In x (tasks st) \/ i = Submit x) /\
  (In x (tasks (fst (step hash st i))) -> In x (tasks st) \/ i = Submit x).
Proof.
  destruct i as [m|]; cbn [step].
  - assert (P : forall s0, In (Show x) (snd (_process_message hash s0 m)) -> x = m).
    { intros s0 H. apply in_shown in H.
      destruct (process_shown s0 m) as [E|E]; rewrite E in H;
        [destruct H | destruct H as [H|[]]; congruence]. }
    unfold run_step, arbitrate.
    destruct (maxtimer_running st); [destruct (wait m) as [[|]|] |].
    + cbn. split; [intros [] |].
      intros H. apply in_app_or in H.
      destruct H as [H|[H|[]]]; [left; exact H | right; congruence].
    + set (st0 := set_tasks [] (set_maxtimer_running false st)).
      assert (T := DispatcherFacts.process_keeps_tasks hash st0 m).
      assert (Px := P st0).
      destruct (_process_message hash st0 m) as [s1 o1]. cbn [fst snd] in *.
      split.
      * intros [H|H]; [discriminate H|]. right; right. f_equal.
        symmetry. exact (Px H).
      * rewrite T. intros [].
    + assert (T := DispatcherFacts.process_keeps_tasks hash st m).
      assert (Px := P st).
      destruct (_process_message hash st m) as [s1 o1]. cbn [fst snd app] in *.
      split; [intros H; right; right; f_equal; symmetry; exact (Px H) |].
      rewrite T. intros H. left. exact H.
    + assert (T := DispatcherFacts.process_keeps_tasks hash st m).
      assert (Px := P st).
      destruct (_process_message hash st m) as [s1 o1]. cbn [fst snd app] in *.
      split; [intros H; right; right; f_equal; symmetry; exact (Px H) |].
      rewrite T. intros H. left. exact H.
  - destruct (DispatcherFacts.stopped_maxtimer_prefix hash st)
      as (k & _ & _ & Hs & _).
    rewrite Hs. cbn [fst snd set_tasks tasks]. split.
    + intros [H|H]; [left; congruence|].
      right; left. apply in_shown in H.
      assert (Sq := process_all_shown_subseq (firstn k (tasks st))
                      (set_maxtimer_running false st)).
      apply (@subseq_in _ _ _ x Sq) in H.
      rewrite <- (firstn_skipn k (tasks st)). apply in_or_app. left. exact H.
    + intros H. left. rewrite <- (firstn_skipn k (tasks st)).
      apply in_or_app. right. exact H.
Qed.

Lemma shown_origin (ins : list Input) :
  forall (st : State) (x : DgtApi),
    In (Show x) (snd (run_inputs hash st ins)) ->
    x = time_refresh \/ In x (tasks st) \/ In x (submitted ins).
Proof.
  induction ins as [|i ins IH]; intros st x; cbn [run_inputs].
  - intros [].
  - destruct (step_origin st i x) as [H1 H2].
    destruct (step hash st i) as [s1 o1] eqn:E1. cbn [fst snd] in *.
    specialize (IH s1 x).
    destruct (run_inputs hash s1 ins) as [s2 o2]. cbn [snd] in *.
    intros H. apply in_app_or in H.
    assert (Sub : forall y, i = Submit y -> In y (submitted (i :: ins)))
      by (intros y ->; left; reflexivity).
    assert (Rest : In x (submitted ins) -> In x (submitted (i :: ins))).
    { intros K. unfold submitted. cbn [flat_map]. apply in_or_app.
      right. exact K. }
    destruct H as [H|H].
    + destruct (H1 H) as [K|[K|K]]; auto.
    + destruct (IH H) as [K|[K|K]]; auto.
      destruct (H2 K) as [K'|K']; auto.
Qed.

(** X4.  Whatever is handed to a freshly created dispatcher and whenever
    its timers fire, every command that reaches the hardware sink is the
    refresh of the time display or one of the commands handed in: the
    dispatcher makes up no other command. *)
Theorem shown_commands_were_submitted (ins : list Input) (x : DgtApi) :
  In (Show x) (snd (run_inputs hash init ins)) ->
  x = time_refresh \/ In x (submitted ins).
Proof.
  intros H. destruct (shown_origin ins init x H) as [K|[[]|K]]; auto.
Qed.


(** ** Timers *)

Lemma well_timed_app (a : list Effect) :
  forall b, well_timed b ->
    (well_timed a -> well_timed (a ++ b)) /\
    (forall e, well_timed (e :: a) -> well_timed ((e :: a) ++ b)).
Proof.
  induction a as [|e0 a IH]; intros b Hb.
  - split; [intros _; exact Hb|].
    intros e H. destruct e; cbn in *; try exact Hb. destruct H.
  - destruct (IH b Hb) as [IH1 IH2]. split.
    + intros H. apply IH2. exact H.
    + intros e H. destruct e.
      * cbn in *. apply IH2. exact H.
      * destruct e0 as [m0|t0|t0]; cbn in H |- *.
        -- destruct H as [H1 H2]. split; [exact H1 | apply IH1; exact H2].
        -- destruct H.
        -- destruct H.
      * cbn in *. apply IH2. exact H.
Qed.

Lemma process_well_timed (st : State) (m : DgtApi) :
  time_factor st = 1%Q -> well_timed (snd (_process_message hash st m)).
Proof.
  intros Hf.
  destruct (process_cases st m)
    as (_ & _ & [[E _] | [(E & _) | (q & t & Hm & Hp & Hi & E & _)]]);
    rewrite E; cbn; auto.
  split; [| exact I]. exists q. repeat split; auto.
  rewrite Hi, Hf. apply Qmult_1_r.
Qed.

Lemma process_all_well_timed (ms : list DgtApi) :
  forall st, time_factor st = 1%Q ->
             well_timed (snd (process_all hash st ms)).
Proof.
  induction ms as [|m ms IH]; intros st Hf; cbn [process_all]; [exact I|].
  assert (H1 := @process_well_timed st m Hf).
  destruct (process_cases st m) as (_ & Htf & _).
  destruct (_process_message hash st m) as [s1 o1]. cbn [fst snd] in *.
  assert (H2 := IH s1 ltac:(congruence)).
  destruct (process_all hash s1 ms) as [s2 o2]. cbn [snd] in *.
  exact (proj1 (well_timed_app o1 o2 H2) H1).
Qed.

Lemma step_well_timed (st : State) (i : Input) :
  time_factor st = 1%Q -> well_timed (snd (step hash st i)).
Proof.
  intros Hf. destruct i as [m|]; cbn [step].
  - unfold run_step, arbitrate.
    destruct (maxtimer_running st); [destruct (wait m) as [[|]|] |];
      try exact I;
      match goal with
      | |- context [_process_message hash ?s m] =>
          assert (H := @process_well_timed s m Hf);
          destruct (_process_message hash s m) as [s1 o1]; exact H
      end.
  - destruct (DispatcherFacts.stopped_maxtimer_prefix hash st)
      as (k & _ & _ & Hs & _).
    rewrite Hs. cbn [snd].
    exact (@process_all_well_timed (firstn k (tasks st))
             (set_maxtimer_running false st) Hf).
Qed.

Lemma process_all_keeps_time_factor (ms : list DgtApi) :
  forall st, time_factor (fst (process_all hash st ms)) = time_factor st.
Proof.
  induction ms as [|m ms IH]; intros st; cbn [process_all]; [reflexivity|].
  assert (H1 := DispatcherFacts.process_keeps_time_factor hash st m).
  destruct (_process_message hash st m) as [s1 o1]. cbn [fst] in H1.
  specialize (IH s1). destruct (process_all hash s1 ms). cbn [fst] in *.
  congruence.
Qed.

Lemma step_keeps_time_factor (st : State) (i : Input) :
  time_factor (fst (step hash st i)) = time_factor st.
Proof.
  destruct i as [m|]; cbn [step].
  - unfold run_step, arbitrate.
    destruct (maxtimer_running st); [destruct (wait m) as [[|]|] |];
      try reflexivity;
      match goal with
      | |- context [_process_message hash ?s m] =>
          assert (H := DispatcherFacts.process_keeps_time_factor hash s m);
          destruct (_process_message hash s m) as [s1 o1]; exact H
      end.
  - destruct (DispatcherFacts.stopped_maxtimer_prefix hash st)
      as (k & _ & _ & Hs & _).
    rewrite Hs. cbn [fst].
    exact (process_all_keeps_time_factor (firstn k (tasks st))
             (set_maxtimer_running false st)).
Qed.

(** X6.  In everything a dispatcher does from its creation, a timer is
    only ever started for the command that is shown next, that command has
    a positive [maxtime], and the interval of the timer is that [maxtime]
    (the time factor is 1 throughout). *)
Theorem timers_follow_maxtime (st : State) (out : list Effect) :
  Reachable hash st out -> well_timed out /\ time_factor st = 1%Q.
Proof.
  induction 1 as [|st out m _ [IHw IHf]|st out _ [IHw IHf]].
  - split; [exact I | reflexivity].
  - split.
    + exact (proj1 (well_timed_app out _
                      (@step_well_timed st (Submit m) IHf)) IHw).
    + rewrite <- IHf. exact (step_keeps_time_factor st (Submit m)).
  - split.
    + exact (proj1 (well_timed_app out _ (@step_well_timed st Expire IHf)) IHw).
    + rewrite <- IHf. exact (step_keeps_time_factor st Expire).
Qed.

(** X2.  In every state that the dispatcher reaches, a running timer has a
    handle, and it never asks a missing timer to cancel: the [cancel] and
    [join] calls of [run] always find the timer object. *)
Theorem cancel_always_finds_timer (st : State) (out : list Effect) :
  Reachable hash st out ->
  (maxtimer_running st = true -> exists t, maxtimer st = Some t) /\
  ~ In (TimerCancel None) out.
Proof.
  intros H. split.
  - intros R. destruct (reachable_queue_inv H) as (_ & Hh & _).
    destruct (maxtimer st) as [t|]; [exists t; reflexivity | destruct (Hh R eq_refl)].
  - induction H as [|st out m Hr IH|st out Hr IH].
    + intros [].
    + intros K. apply in_app_or in K. destruct K as [K|K]; [exact (IH K)|].
      destruct (reachable_queue_inv Hr) as (_ & Hh & _).
      assert (P : forall s0, ~ In (TimerCancel None)
                               (snd (_process_message hash s0 m))).
      { intros s0 Q.
        destruct (process_cases s0 m)
          as (_ & _ & [[E _] | [(E & _) | (q & t & _ & _ & _ & E & _)]]);
          rewrite E in Q; cbn in Q; intuition discriminate. }
      unfold run_step, arbitrate in K.
      destruct (maxtimer_running st) eqn:R; [destruct (wait m) as [[|]|] |].
      * destruct K.
      * assert (Px := P (set_tasks [] (set_maxtimer_running false st))).
        destruct (_process_message hash _ m) as [s1 o1]. cbn [snd app] in *.
        destruct K as [K|K]; [| exact (Px K)].
        injection K as K. exact (Hh eq_refl K).
      * assert (Px := P st).
        destruct (_process_message hash st m) as [s1 o1]. exact (Px K).
      * assert (Px := P st).
        destruct (_process_message hash st m) as [s1 o1]. exact (Px K).
    + intros K. apply in_app_or in K. destruct K as [K|K]; [exact (IH K)|].
      destruct (DispatcherFacts.stopped_maxtimer_prefix hash st)
        as (k & _ & _ & Hs & _).
      rewrite Hs in K. cbn [snd] in K. destruct K as [K|K]; [discriminate K|].
      clear - K. revert K.
      generalize (set_maxtimer_running false st).
      induction (firstn k (tasks st)) as [|m ms IHm]; intros s0 K.
      * destruct K.
      * cbn [process_all] in K.
        destruct (process_cases s0 m)
          as (_ & _ & Hc).
        destruct (_process_message hash s0 m) as [s1 o1]. cbn [fst snd] in *.
        specialize (IHm s1).
        destruct (process_all hash s1 ms) as [s2 o2]. cbn [snd] in *.
        apply in_app_or in K. destruct K as [K|K]; [| exact (IHm K)].
        destruct Hc as [[E _] | [(E & _) | (q & t & _ & _ & _ & E & _)]];
          rewrite E in K; cbn in K; intuition discriminate.
Qed.

End WithHash.

Lemma run_inputs_reachable (hash : DgtApi -> Z) (ins : list Input) :
  forall (st : State) (out : list Effect),
    Reachable hash st out ->
    Reachable hash (fst (run_inputs hash st ins))
              (out ++ snd (run_inputs hash st ins)).
Proof.
  induction ins as [|i ins IH]; intros st out H; cbn [run_inputs].
  - cbn. rewrite app_nil_r. exact H.
  - assert (H1 : Reachable hash (fst (step hash st i))
                           (out ++ snd (step hash st i)))
      by (destruct i; [apply reach_submit | apply reach_expire]; exact H).
    destruct (step hash st i) as [s1 o1]. cbn [fst snd] in H1.
    specialize (IH s1 (out ++ o1) H1).
    destruct (run_inputs hash s1 ins) as [s2 o2]. cbn [fst snd] in *.
    rewrite app_assoc. exact IH.
Qed.

Import Samples RunSamples.

Local Open Scope string_scope.

Lemma timed_then_move_reachable :
  Reachable sample_hash (fst (run_inputs sample_hash init timed_then_move))
            (snd (run_inputs sample_hash init timed_then_move)).
Proof.
  exact (@run_inputs_reachable sample_hash timed_then_move init []
           (reach_init sample_hash)).
Qed.

(** After the timed text, the waiting move and the expiry, no timer runs
    and the queue is empty. *)
Example no_task_waits_example :
  maxtimer_running (fst (run_inputs sample_hash init timed_then_move)) = false /\
  tasks (fst (run_inputs sample_hash init timed_then_move)) = [].
Proof.
  split; [reflexivity|].
  exact (proj1 (@no_task_waits_without_timer sample_hash _ _
                  timed_then_move_reachable) eq_refl).
Qed.

Lemma cancel_finds_timer_witness :
  ~ In (TimerCancel None)
       (snd (run_inputs sample_hash init timed_then_move)).
Proof.
  exact (proj2 (@cancel_always_finds_timer sample_hash _ _
                  timed_then_move_reachable)).
Defined.


Lemma shown_were_submitted_witness :
  In (Show (move_cmd "e2e4" true 0 false))
     (snd (run_inputs sample_hash init timed_then_move)) /\
  (move_cmd "e2e4" true 0 false = time_refresh \/
   In (move_cmd "e2e4" true 0 false) (submitted timed_then_move)).
Proof.
  assert (H : In (Show (move_cmd "e2e4" true 0 false))
                 (snd (run_inputs sample_hash init timed_then_move)))
    by (vm_compute; auto 10).
  split; [exact H|].
  exact (@shown_commands_were_submitted sample_hash timed_then_move _ H).
Defined.

(** The same run shows its commands in the order of their arrival. *)
Example display_order_example :
  (forall m, In (Submit m) timed_then_move -> wait m <> None) /\
  Subseq (forwarded sample_hash init timed_then_move)
         (submitted timed_then_move).
Proof.
  assert (H : forall m, In (Submit m) timed_then_move -> wait m <> None).
  { intros m [E|[E|[E|[]]]]; try discriminate E;
      injection E as <-; discriminate. }
  split; [exact H|].
  exact (@display_order_follows_submission sample_hash timed_then_move H).
Qed.

(** Without the hypothesis on [wait] the order can change: the clock stop
    is shown before the move that was handed in first. *)
Example clock_stop_overtakes :
  forwarded sample_hash init with_clock_stop
  = [text_cmd "mate" false 1 false; clock_stop_cmd;
     move_cmd "e2e4" true 0 false] /\
  submitted with_clock_stop
  = [text_cmd "mate" false 1 false; move_cmd "e2e4" true 0 false;
     clock_stop_cmd].
Proof. split; reflexivity. Qed.

Lemma timers_follow_maxtime_witness :
  well_timed (snd (run_inputs sample_hash init timed_then_move)).
Proof.
  exact (proj1 (@timers_follow_maxtime sample_hash _ _
                  timed_then_move_reachable)).
Defined.

End DispatcherRunFacts.

(* ================================================================== *)
(** * Properties of the dispatcher with its two threads *)
(* ================================================================== *)

Module ThreadFacts.
Import Api Dispatcher DispatcherRuns Threads.

Section WithHash.

Variable hash : DgtApi -> Z.

Ltac move1 :=
  unfold perform at 1;
  cbn [run_pc dispatch_queue fields sleeping fired trace started flat_map
       app is_among existsb].

Lemma same_timer_refl (t : Timer) : same_timer t t = true.
Proof. apply Nat.eqb_refl. Qed.

Lemma is_among_last (t : Timer) (ts : list Timer) :
  is_among t (ts ++ [t]) = true.
Proof.
  unfold is_among. rewrite existsb_app. cbn.
  rewrite same_timer_refl, orb_true_r. reflexivity.
Qed.

(** A command with a positive [maxtime] that meets no dedup hash arms a
    timer and is shown. *)
Lemma process_first_timed (st : State) (m : DgtApi) (q : Q) :
  maxtime m = Some q -> positive q = true ->
  hash_matches (display_hash st) (hash m) = false ->
  exists st1,
    _process_message hash st m
    = (st1, [TimerStart {| interval := q * time_factor st;
                           serial := timers_made st |};
             Show m]) /\
    maxtimer_running st1 = true /\ tasks st1 = tasks st /\
    maxtimer st1 = Some {| interval := q * time_factor st;
                           serial := timers_made st |} /\
    (display_hash st1 = display_hash st \/ display_hash st1 = None \/
     display_hash st1 = Some (hash m)).
Proof.
  intros Hm Hq Hh. unfold _process_message. rewrite Hm, Hq, Hh.
  destruct (is_clock_state m); [| destruct (is_move_or_text m)];
    cbn; eexists; repeat split; auto.
Qed.

(** A command that meets no dedup hash is shown, last of what its
    processing does. *)
Lemma process_shows_unmatched (st : State) (m : DgtApi) :
  hash_matches (display_hash st) (hash m) = false ->
  shown (snd (_process_message hash st m)) = [m] /\
  tasks (fst (_process_message hash st m)) = tasks st /\
  (display_hash (fst (_process_message hash st m)) = display_hash st \/
   display_hash (fst (_process_message hash st m)) = None \/
   display_hash (fst (_process_message hash st m)) = Some (hash m)).
Proof.
  intros Hh. unfold _process_message. rewrite Hh.
  destruct (is_clock_state m); [| destruct (is_move_or_text m)];
    (destruct (maxtime m) as [q|]; [destruct (positive q)|]); cbn;
    repeat split; auto.
Qed.

Lemma hash_matches_other (h : option Z) (a b : Z) :
  a <> b -> (h = None \/ h = Some a) -> hash_matches h b = false.
Proof.
  intros Hab [->| ->]; cbn; [reflexivity|].
  apply Z.eqb_neq. exact Hab.
Qed.

(** ** An iteration and a callback taken as a whole are schedules *)

(** An iteration of the loop, as [run_step] describes it, is two or three
    moves of the loop; when it cancels the timer, the timer object must
    be there and its callback must not be under way. *)
Lemma run_step_is_a_schedule (c : Config) (m : DgtApi) (rest : list DgtApi) :
  run_pc c = AtGet -> dispatch_queue c = m :: rest ->
  (maxtimer_running (fields c) = true -> wait m = Some false ->
   exists t, maxtimer (fields c) = Some t /\ is_among t (fired c) = false) ->
  exists moves c1,
    schedule hash c moves = Some c1 /\
    fields c1 = fst (run_step hash (fields c) m) /\
    trace c1 = trace c ++ snd (run_step hash (fields c) m) /\
    run_pc c1 = AtGet /\ dispatch_queue c1 = rest.
Proof.
  intros Hpc Hq Hjoin. unfold run_step, arbitrate.
  destruct (maxtimer_running (fields c)) eqn:R;
    [destruct (wait m) as [[|]|] eqn:W |].
  - exists [RunTest; RunAct]. eexists. split.
    + cbn [schedule]. unfold perform at 1. rewrite Hpc, Hq, R, W.
      cbn [schedule]. unfold perform. cbn [run_pc]. reflexivity.
    + cbn. rewrite app_nil_r. repeat split.
  - destruct (Hjoin eq_refl eq_refl) as (t & Ht & Hf).
    exists [RunTest; RunAct; RunAct].
    destruct (_process_message hash
                (set_tasks [] (set_maxtimer_running false (fields c))) m)
      as [st2 out2] eqn:P.
    eexists. split.
    + cbn [schedule]. unfold perform at 1. rewrite Hpc, Hq, R, W.
      unfold perform at 1. cbn [run_pc fields fired]. rewrite Ht, Hf.
      unfold perform. cbn [run_pc fields]. rewrite P. reflexivity.
    + cbn. rewrite Ht, <- app_assoc. repeat split.
  - exists [RunTest; RunAct].
    destruct (_process_message hash (fields c) m) as [st2 out2] eqn:P.
    eexists. split.
    + cbn [schedule]. unfold perform at 1. rewrite Hpc, Hq, R, W.
      unfold perform. cbn [run_pc fields]. rewrite P. reflexivity.
    + cbn. repeat split.
  - exists [RunTest; RunAct].
    destruct (_process_message hash (fields c) m) as [st2 out2] eqn:P.
    eexists. split.
    + cbn [schedule]. unfold perform at 1. rewrite Hpc, Hq, R.
      unfold perform. cbn [run_pc fields]. rewrite P. reflexivity.
    + cbn. repeat split.
Qed.

(** The expiry of a sleeping timer, as [_stopped_maxtimer] describes it,
    is its two moves one after the other. *)
Lemma expiry_is_a_schedule (c : Config) (t : Timer) :
  is_among t (sleeping c) = true ->
  exists c1,
    schedule hash c [Fire t; Drain t] = Some c1 /\
    fields c1 = fst (_stopped_maxtimer hash (fields c)) /\
    trace c1 = trace c ++ snd (_stopped_maxtimer hash (fields c)) /\
    run_pc c1 = run_pc c /\ dispatch_queue c1 = dispatch_queue c.
Proof.
  intros Hs. unfold _stopped_maxtimer.
  destruct (drain hash (set_maxtimer_running false (fields c))
                  (tasks (set_maxtimer_running false (fields c))))
    as [st1 out] eqn:D.
  eexists. split.
  - cbn [schedule]. unfold perform at 1. rewrite Hs.
    unfold perform. cbn [fired fields]. rewrite is_among_last, D.
    reflexivity.
  - cbn. repeat split.
Qed.

(** ** A command left in the queue *)

(** X1.  With two threads a command can wait in the queue while no timer
    runs.  A first command with a positive [maxtime] is shown and arms
    the timer; for a second command with [wait = True] the loop finds the
    flag set at line 90; before it reaches line 93 the timer expires and
    its callback clears the flag, shows the time and finds the queue
    empty; the loop then appends the command.  The dispatcher is at rest:
    the loop waits for a command, no timer sleeps, no callback is under
    way; the flag is cleared, and the second command sits in the queue
    and has not been shown. *)
Theorem waiting_command_can_be_stranded (m1 m2 : DgtApi) :
  has_positive_maxtime m1 = true -> wait m2 = Some true ->
  exists (t : Timer) (c : Config),
    schedule hash (start [m1; m2])
             [RunTest; RunAct; RunTest; Fire t; Drain t; RunAct] = Some c /\
    at_rest c /\
    maxtimer_running (fields c) = false /\
    tasks (fields c) = [m2] /\
    shown (trace c) = [m1; time_refresh].
Proof.
  intros Hp Hw. unfold has_positive_maxtime in Hp.
  destruct (maxtime m1) as [q|] eqn:Hq; [|discriminate].
  destruct (@process_first_timed init m1 q Hq Hp eq_refl)
    as (st1 & P & R & T & Mt & _).
  exists {| interval := q * time_factor init; serial := timers_made init |}.
  eexists. split.
  - unfold start. cbn [schedule].
    move1. cbn [maxtimer_running init].
    move1. rewrite P.
    move1. rewrite R, Hw.
    move1. rewrite same_timer_refl. cbn [orb].
    move1. rewrite same_timer_refl. cbn [orb].
    cbn [set_maxtimer_running tasks]. rewrite T. cbn [init tasks drain].
    move1. reflexivity.
  - cbn. repeat split.
Qed.

(** ** A command shown before an older one *)

Lemma subseq_length {A : Type} (a b : list A) :
  Subseq a b -> (List.length a <= List.length b)%nat.
Proof. induction 1; cbn; lia. Qed.

(** X5.  With two threads a command can be shown before one that was
    handed in earlier, even when every command has a [wait] attribute.
    A first command with a positive [maxtime] arms the timer and a second
    one with [wait = True] is queued behind it.  The timer expires and its
    callback clears the flag at line 41; before the callback goes on, the
    loop takes a third command, finds the flag cleared and shows the
    command; the callback then shows the time and the queued second
    command.  The hashes of the three commands differ, so that none is
    dropped as a repetition.  What is shown, the time apart, is not the
    commands handed in with some left out. *)
Theorem later_command_can_overtake (m1 m2 m3 : DgtApi) :
  has_positive_maxtime m1 = true -> wait m2 = Some true ->
  hash m3 <> hash m1 -> hash m2 <> hash m1 -> hash m2 <> hash m3 ->
  exists (t : Timer) (c : Config),
    schedule hash (start [m1; m2; m3])
             [RunTest; RunAct; RunTest; RunAct; Fire t; RunTest; RunAct;
              Drain t] = Some c /\
    run_pc c = AtGet /\ dispatch_queue c = [] /\ fired c = [] /\
    tasks (fields c) = [] /\
    shown (trace c) = [m1; m3; time_refresh; m2] /\
    ~ Subseq [m1; m3; m2] [m1; m2; m3].
Proof.
  intros Hp Hw H31 H21 H23.
  assert (Hno : ~ Subseq [m1; m3; m2] [m1; m2; m3]).
  { assert (L : forall x y z : DgtApi, ~ Subseq [x; y] [z])
      by (intros x y z H; apply subseq_length in H; cbn in H; lia).
    assert (L3 : forall x y z u v : DgtApi, ~ Subseq [x; y; z] [u; v])
      by (intros x y z u v H; apply subseq_length in H; cbn in H; lia).
    intros H. inversion H as [|x l1 l2 Ha|x l1 l2 Ha]; subst.
    - exact (L3 _ _ _ _ _ Ha).
    - inversion Ha as [|x l1 l2 Hb|x l1 l2 Hb]; subst.
      + exact (L _ _ _ Hb).
      + apply H23. reflexivity. }
  unfold has_positive_maxtime in Hp.
  destruct (maxtime m1) as [q|] eqn:Hq; [|discriminate].
  destruct (@process_first_timed init m1 q Hq Hp eq_refl)
    as (st1 & P & R & T & Mt & D1).
  cbn [init display_hash] in D1.
  assert (D1' : display_hash st1 = None \/ display_hash st1 = Some (hash m1))
    by (destruct D1 as [D|[D|D]]; auto).
  set (t := {| interval := q * time_factor init; serial := timers_made init |})
    in *.
  set (s2 := set_maxtimer_running false (set_tasks (tasks st1 ++ [m2]) st1)).
  assert (H3 : hash_matches (display_hash s2) (hash m3) = false).
  { apply hash_matches_other with (a := hash m1); [congruence | exact D1']. }
  destruct (process_shows_unmatched s2 m3 H3) as (S3 & T3 & D3).
  destruct (_process_message hash s2 m3) as [st3 out3] eqn:P3.
  cbn [fst snd] in S3, T3, D3.
  assert (T3' : tasks st3 = [m2]).
  { rewrite T3. unfold s2. cbn. rewrite T. reflexivity. }
  assert (H2 : hash_matches (display_hash (set_tasks [] st3)) (hash m2) = false).
  { change (display_hash (set_tasks [] st3)) with (display_hash st3).
    destruct D3 as [D|[D|D]]; rewrite D.
    - change (display_hash s2) with (display_hash st1).
      apply hash_matches_other with (a := hash m1); [congruence | exact D1'].
    - reflexivity.
    - cbn. apply Z.eqb_neq. congruence. }
  destruct (process_shows_unmatched (set_tasks [] st3) m2 H2) as (S4 & T4 & _).
  destruct (_process_message hash (set_tasks [] st3) m2) as [st4 out4] eqn:P4.
  cbn [fst snd] in S4, T4. cbn [set_tasks tasks] in T4.
  exists t.
  assert (Dr : exists st5, drain hash st3 (tasks st3) = (st5, out4) /\
                           tasks st5 = []).
  { rewrite T3'. cbn [drain]. rewrite P4.
    destruct (maxtimer_running st4).
    - exists st4. split; [reflexivity | exact T4].
    - exists (set_tasks [] st4). rewrite app_nil_r. split; reflexivity. }
  destruct Dr as (st5 & Dr & T5).
  eexists. split.
  - unfold start. cbn [schedule].
    move1. cbn [maxtimer_running init].
    move1. rewrite P.
    move1. rewrite R, Hw.
    move1.
    move1. fold t. rewrite same_timer_refl. cbn [orb].
    move1. cbn [set_maxtimer_running maxtimer_running].
    move1. fold s2. rewrite P3.
    move1. fold t. rewrite same_timer_refl. cbn [orb].
    rewrite Dr. reflexivity.
  - cbn [run_pc dispatch_queue fired fields trace].
    split; [reflexivity|]. split; [reflexivity|].
    split; [unfold without; cbn; rewrite ?same_timer_refl; reflexivity|].
    split; [exact T5|]. split; [|exact Hno].
    change (shown (TimerStart t :: Show m1 :: out3 ++ Show time_refresh :: out4))
      with (m1 :: shown (out3 ++ Show time_refresh :: out4)).
    rewrite DispatcherRunFacts.shown_app.
    change (shown (Show time_refresh :: out4))
      with (time_refresh :: shown out4).
    rewrite S3, S4. reflexivity.
Qed.

End WithHash.

Import Samples.

Local Open Scope string_scope.

(** A text shown for one second and a move that waits behind it. *)
Lemma stranded_command_witness :
  has_positive_maxtime (text_cmd "mate" false 1 false) = true /\
  wait (move_cmd "e2e4" true 0 false) = Some true /\
  exists (t : Timer) (c : Config),
    schedule sample_hash
             (start [text_cmd "mate" false 1 false;
                     move_cmd "e2e4" true 0 false])
             [RunTest; RunAct; RunTest; Fire t; Drain t; RunAct] = Some c /\
    at_rest c /\
    maxtimer_running (fields c) = false /\
    tasks (fields c) = [move_cmd "e2e4" true 0 false] /\
    shown (trace c) = [text_cmd "mate" false 1 false; time_refresh].
Proof.
  split; [reflexivity|]. split; [reflexivity|].
  exact (@waiting_command_can_be_stranded sample_hash
           (text_cmd "mate" false 1 false) (move_cmd "e2e4" true 0 false)
           eq_refl eq_refl).
Defined.

(** The run of that schedule. *)
Example stranded_command_run :
  option_map (fun c => (tasks (fields c), maxtimer_running (fields c),
                        sleeping c, fired c, trace c))
    (schedule sample_hash
       (start [text_cmd "mate" false 1 false; move_cmd "e2e4" true 0 false])
       [RunTest; RunAct; RunTest;
        Fire {| interval := 1 * 1; serial := 0 |};
        Drain {| interval := 1 * 1; serial := 0 |}; RunAct])
  = Some ([move_cmd "e2e4" true 0 false], false, [], [],
          [TimerStart {| interval := 1 * 1; serial := 0 |};
           Show (text_cmd "mate" false 1 false);
           Show time_refresh]).
Proof. reflexivity. Qed.

(** The same text and move, and a second text that arrives just after
    the timer has expired. *)
Lemma overtaking_command_witness :
  has_positive_maxtime (text_cmd "mate" false 1 false) = true /\
  wait (move_cmd "e2e4" true 0 false) = Some true /\
  sample_hash (text_cmd "ok" true 0 false)
    <> sample_hash (text_cmd "mate" false 1 false) /\
  sample_hash (move_cmd "e2e4" true 0 false)
    <> sample_hash (text_cmd "mate" false 1 false) /\
  sample_hash (move_cmd "e2e4" true 0 false)
    <> sample_hash (text_cmd "ok" true 0 false) /\
  exists (t : Timer) (c : Config),
    schedule sample_hash
             (start [text_cmd "mate" false 1 false;
                     move_cmd "e2e4" true 0 false;
                     text_cmd "ok" true 0 false])
             [RunTest; RunAct; RunTest; RunAct; Fire t; RunTest; RunAct;
              Drain t] = Some c /\
    shown (trace c) = [text_cmd "mate" false 1 false;
                       text_cmd "ok" true 0 false;
                       time_refresh;
                       move_cmd "e2e4" true 0 false].
Proof.
  assert (H31 : sample_hash (text_cmd "ok" true 0 false)
                <> sample_hash (text_cmd "mate" false 1 false))
    by (intros E; vm_compute in E; discriminate E).
  assert (H21 : sample_hash (move_cmd "e2e4" true 0 false)
                <> sample_hash (text_cmd "mate" false 1 false))
    by (intros E; vm_compute in E; discriminate E).
  assert (H23 : sample_hash (move_cmd "e2e4" true 0 false)
                <> sample_hash (text_cmd "ok" true 0 false))
    by (intros E; vm_compute in E; discriminate E).
  split; [reflexivity|]. split; [reflexivity|].
  split; [exact H31|]. split; [exact H21|]. split; [exact H23|].
  destruct (@later_command_can_overtake sample_hash
              (text_cmd "mate" false 1 false) (move_cmd "e2e4" true 0 false)
              (text_cmd "ok" true 0 false) eq_refl eq_refl H31 H21 H23)
    as (t & c & Hs & _ & _ & _ & _ & Hshown & _).
  exists t, c. split; [exact Hs | exact Hshown].
Defined.

End ThreadFacts.

(* ================================================================== *)
(** * Properties of the board gestures *)
(* ================================================================== *)

Module GestureFacts.
Import Api Py Display Gestures.

Local Open Scope string_scope.

Lemma mem_true_in (x : string) (t : list string) :
  mem x t = true -> In x t.
Proof.
  unfold mem. intros H. apply existsb_exists in H.
  destruct H as (y & Hy & E). apply String.eqb_eq in E. subst y. exact Hy.
Qed.

Lemma lookup_some_in_keys {V : Type} (k : string) (d : list (string * V))
      (v : V) :
  lookup k d = Some v -> In k (keys d).
Proof.
  induction d as [|[k0 v0] d IH]; cbn; [discriminate|].
  destruct (String.eqb k k0) eqn:E.
  - intros _. left. apply String.eqb_eq in E. congruence.
  - intros H. right. apply IH. exact H.
Qed.

(** The shutdown gestures are the same seen from either side of the
    board, have eight ranks and belong to no earlier table. *)
Lemma shutdown_tables (fen : string) (b : bool) :
  In fen shutdown_map ->
  let g := if b then reversed fen else fen in
  String.eqb g flip_pattern = false /\
  mem g level_map = false /\ mem g book_map = false /\
  mem g engine_map = false /\ lookup g mode_map = None /\
  mem g shutdown_map = true /\
  exists dr, drawresign_slice g = Some dr.
Proof.
  intros H; cbn in H;
    repeat (destruct H as [H|H]; [subst fen|]); try destruct H;
    destruct b; vm_compute; repeat split; eexists; reflexivity.
Qed.

Lemma reboot_tables (fen : string) (b : bool) :
  In fen reboot_map ->
  let g := if b then reversed fen else fen in
  String.eqb g flip_pattern = false /\
  mem g level_map = false /\ mem g book_map = false /\
  mem g engine_map = false /\ lookup g mode_map = None /\
  mem g shutdown_map = false /\ mem g reboot_map = true /\
  exists dr, drawresign_slice g = Some dr.
Proof.
  intros H; cbn in H;
    repeat (destruct H as [H|H]; [subst fen|]); try destruct H;
    destruct b; vm_compute; repeat split; eexists; reflexivity.
Qed.

(** A position whose middle ranks show a draw or resign pattern is in no
    table without such a pattern. *)
Lemma kings_exclude (table : list string) (g dr : string) (r : GameResult) :
  no_kings_in table = true ->
  drawresign_slice g = Some dr ->
  lookup dr drawresign_map = Some r ->
  mem g table = false.
Proof.
  intros Ht Hd Hl. destruct (mem g table) eqn:E; [|reflexivity].
  apply mem_true_in in E. unfold no_kings_in in Ht.
  rewrite forallb_forall in Ht. specialize (Ht g E).
  rewrite Hd, Hl in Ht. discriminate.
Qed.

(** Unpacking eight ranks fails exactly when there are not eight. *)
Lemma drawresign_slice_none (g : string) :
  List.length (split "/" g) <> 8%nat -> drawresign_slice g = None.
Proof.
  unfold drawresign_slice. intros H.
  destruct (split "/" g) as [|a [|b [|c [|d [|e [|f [|h [|i [|j l]]]]]]]]];
    try reflexivity.
  exfalso. apply H. reflexivity.
Qed.

Section Gestures.

Variable NavState : Type.
Variable ext : External NavState.

Lemma arrived_tables (mn : DgtMenu NavState) (fen : string) (raw : bool) :
  tc_fixed_map (arrived mn fen raw) = tc_fixed_map mn /\
  tc_blitz_map (arrived mn fen raw) = tc_blitz_map mn /\
  tc_fisch_map (arrived mn fen raw) = tc_fisch_map mn /\
  engine_has_960 (arrived mn fen raw) = engine_has_960 mn /\
  all_books (arrived mn fen raw) = all_books mn /\
  installed_engines (arrived mn fen raw) = installed_engines mn /\
  engine_restart (arrived mn fen raw) = engine_restart mn.
Proof.
  unfold arrived, turned.
  destruct (String.eqb (oriented mn fen raw) flip_pattern);
    repeat split; reflexivity.
Qed.

(** A new position of eight ranks reaches the chain of tests. *)
Lemma process_fen_arrives (fen : string) (raw : bool) (w : World NavState)
      (dr : string) :
  normal_fen (dgtmenu w) fen raw <> dgt_fen (dgtmenu w) ->
  drawresign_slice (normal_fen (dgtmenu w) fen raw) = Some dr ->
  _process_fen ext fen raw w =
  fen_dispatch ext (normal_fen (dgtmenu w) fen raw)
               {| me := set_drawresign_fen (Some dr) (me w);
                  dgtmenu := arrived (dgtmenu w) fen raw;
                  actions := actions w |}.
Proof.
  intros Hn Hd. apply String.eqb_neq in Hn.
  rewrite (@DisplayFacts.process_fen_new NavState ext fen raw w dr Hn Hd).
  reflexivity.
Qed.

(** The chain of tests up to the fixed gestures. *)
Lemma fen_dispatch_late (g : string) (w : World NavState) :
  mem g level_map = false ->
  mem g book_map = false ->
  mem g engine_map = false ->
  lookup g mode_map = None ->
  mem g (keys (tc_fixed_map (dgtmenu w))) = false ->
  mem g (keys (tc_blitz_map (dgtmenu w))) = false ->
  mem g (keys (tc_fisch_map (dgtmenu w))) = false ->
  fen_dispatch ext g w =
  if mem g shutdown_map then _power_off ext "web" w
  else if mem g reboot_map then _reboot ext "web" w
  else match option_map (fun d => lookup d drawresign_map)
                        (drawresign_fen (me w)) with
       | Some (Some result) =>
           (Done tt,
            if inside_menu ext (dgtmenu w) then w
            else {| me := me w; dgtmenu := dgtmenu w;
                    actions := actions w ++ [Fire (DRAWRESIGN result)] |})
       | _ => fen_board ext g w
       end.
Proof.
  intros H1 H2 H3 H4 H5 H6 H7.
  unfold fen_dispatch, bind at 1. cbn [get_menu].
  unfold bind at 1. cbn [get_me].
  rewrite H1, H2, H3, H4, H5, H6, H7.
  destruct (mem g shutdown_map); [reflexivity|].
  destruct (mem g reboot_map); [reflexivity|].
  destruct (option_map _ _) as [[result|]|]; try reflexivity.
  cbv [bind _inside_menu get_menu ret emit].
  destruct (inside_menu ext (dgtmenu w)); reflexivity.
Qed.

(** X7.  The shutdown and the reboot gesture work from either side of the
    board.  Let [fen] be reported raw or not, to a flipped board or not;
    let the position, turned round when the board is flipped, differ from
    the stored one and be no key of the time-control tables of the menu.
    If [fen] is one of the four shutdown (reboot) positions then
    [_process_fen] stores the position, dispatches the text "Y10_goodbye"
    ("Y10_pleasewait"), sets the restart flag of the menu and fires SHUTDOWN
    (REBOOT) for the device "web", and does nothing else. *)
Theorem confirm_gestures_from_either_side
  (w : World NavState) (fen : string) (raw : bool) :
  let mn := dgtmenu w in
  let g := oriented mn fen raw in
  g <> dgt_fen mn ->
  mem g (keys (tc_fixed_map mn)) = false ->
  mem g (keys (tc_blitz_map mn)) = false ->
  mem g (keys (tc_fisch_map mn)) = false ->
  (In fen shutdown_map ->
   _process_fen ext fen raw w =
   (Done tt,
    after w (set_engine_restart true (set_dgt_fen g mn)) (drawresign_slice g)
          [Dispatch (text ext "Y10_goodbye" NoArg); Fire (SHUTDOWN "web")]))
  /\
  (In fen reboot_map ->
   _process_fen ext fen raw w =
   (Done tt,
    after w (set_engine_restart true (set_dgt_fen g mn)) (drawresign_slice g)
          [Dispatch (text ext "Y10_pleasewait" NoArg); Fire (REBOOT "web")])).
Proof.
  intros mn g Hn Hx Hb Hf. split; intros Hin.
  - destruct (shutdown_tables (flip_board mn && raw) Hin)
      as (Ef & H1 & H2 & H3 & H4 & H5 & dr & Hd).
    fold (oriented mn fen raw) in Ef, H1, H2, H3, H4, H5, Hd.
    fold g in Ef, H1, H2, H3, H4, H5, Hd.
    assert (Eg : normal_fen mn fen raw = g)
      by (unfold normal_fen; fold g; rewrite Ef; reflexivity).
    rewrite (@process_fen_arrives fen raw w dr);
      [| fold mn; rewrite Eg; exact Hn | fold mn; rewrite Eg; exact Hd].
    fold mn. unfold arrived, turned. fold g. rewrite Ef, Eg, Hd.
    rewrite fen_dispatch_late; try assumption. rewrite H5.
    unfold _power_off, bind, emit, modify_menu, after.
    cbn [me dgtmenu actions]. rewrite <- app_assoc. reflexivity.
  - destruct (reboot_tables (flip_board mn && raw) Hin)
      as (Ef & H1 & H2 & H3 & H4 & H5 & H6 & dr & Hd).
    fold (oriented mn fen raw) in Ef, H1, H2, H3, H4, H5, H6, Hd.
    fold g in Ef, H1, H2, H3, H4, H5, H6, Hd.
    assert (Eg : normal_fen mn fen raw = g)
      by (unfold normal_fen; fold g; rewrite Ef; reflexivity).
    rewrite (@process_fen_arrives fen raw w dr);
      [| fold mn; rewrite Eg; exact Hn | fold mn; rewrite Eg; exact Hd].
    fold mn. unfold arrived, turned. fold g. rewrite Ef, Eg, Hd.
    rewrite fen_dispatch_late; try assumption. rewrite H5, H6.
    unfold _reboot, bind, emit, modify_menu, after.
    cbn [me dgtmenu actions]. rewrite <- app_assoc. reflexivity.
Qed.

(** X8.  A position that has not eight ranks is stored and then makes
    [_process_fen] raise [ValueError]: nothing is dispatched or fired and
    the fields of the display, [drawresign_fen] included, keep their
    values.  As the position is stored, the same report again is ignored
    without an error. *)
Theorem malformed_position_raises_once
  (w : World NavState) (fen : string) (raw : bool) :
  let mn := dgtmenu w in
  let g := oriented mn fen raw in
  g <> dgt_fen mn ->
  List.length (split "/" g) <> 8%nat ->
  let w1 := {| me := me w; dgtmenu := set_dgt_fen g mn;
               actions := actions w |} in
  _process_fen ext fen raw w = (Raised ValueError, w1) /\
  _process_fen ext fen raw w1 = (Done tt, w1).
Proof.
  intros mn g Hn Hl w1.
  assert (Ef : String.eqb g flip_pattern = false).
  { destruct (String.eqb g flip_pattern) eqn:E; [|reflexivity].
    apply String.eqb_eq in E. exfalso. apply Hl. rewrite E. reflexivity. }
  assert (Hd := drawresign_slice_none g Hl).
  apply String.eqb_neq in Hn.
  split.
  - unfold _process_fen.
    rewrite (@DisplayFacts.bind_done _ _ _ _ _ _ _ _
               (DisplayFacts.normalize_fen_run fen raw w)).
    unfold normal_fen. fold mn. fold g. rewrite Ef.
    unfold bind at 1. cbn [get_menu]. fold mn. rewrite Hn.
    unfold bind at 1. cbn [modify_menu].
    unfold bind at 1. unfold _drawresign at 1. unfold bind at 1.
    cbn [get_menu dgtmenu dgt_fen set_dgt_fen]. rewrite Hd. reflexivity.
  - unfold _process_fen.
    rewrite (@DisplayFacts.bind_done _ _ _ _ _ _ _ _
               (DisplayFacts.normalize_fen_run fen raw w1)).
    assert (Eo : oriented (dgtmenu w1) fen raw = g) by reflexivity.
    unfold normal_fen. rewrite Eo, Ef.
    unfold bind at 1. cbn [get_menu]. cbn [w1 dgtmenu dgt_fen set_dgt_fen].
    rewrite String.eqb_refl. reflexivity.
Qed.

(** X9.  The draw or resign gesture is read from the fifth and the fourth
    rank alone.  Let the new position have eight ranks, whatever stands on
    the other six, let the two middle ranks on an otherwise empty board be
    a key of [drawresign_map], and let the position be no key of the
    time-control tables of the menu.  Then [_process_fen] stores the
    position and the two ranks and, outside the menu, fires DRAWRESIGN with
    the result of the table; inside the menu it fires nothing. *)
Theorem kings_gesture_offers_result
  (w : World NavState) (fen : string) (raw : bool)
  (r8 r7 r6 r5 r4 r3 r2 r1 : string) (result : GameResult) :
  let mn := dgtmenu w in
  let g := normal_fen mn fen raw in
  let dr := "8/8/8/" ++ r5 ++ "/" ++ r4 ++ "/8/8/8" in
  g <> dgt_fen mn ->
  split "/" g = [r8; r7; r6; r5; r4; r3; r2; r1] ->
  lookup dr drawresign_map = Some result ->
  mem g (keys (tc_fixed_map mn)) = false ->
  mem g (keys (tc_blitz_map mn)) = false ->
  mem g (keys (tc_fisch_map mn)) = false ->
  _process_fen ext fen raw w =
  (Done tt,
   after w (arrived mn fen raw) (Some dr)
         (if inside_menu ext (arrived mn fen raw) then []
          else [Fire (DRAWRESIGN result)])).
Proof.
  intros mn g dr Hn Hs Hl Hx Hb Hf.
  assert (Hd : drawresign_slice g = Some dr)
    by (unfold drawresign_slice; rewrite Hs; reflexivity).
  destruct (arrived_tables mn fen raw) as (T1 & T2 & T3 & _).
  rewrite (@process_fen_arrives fen raw w dr Hn Hd). fold mn. fold g.
  rewrite fen_dispatch_late; cbn [dgtmenu me];
    try (rewrite ?T1, ?T2, ?T3; assumption);
    try (apply (@kings_exclude _ g dr result); [reflexivity | exact Hd | exact Hl]).
  - rewrite (@kings_exclude shutdown_map g dr result eq_refl Hd Hl).
    rewrite (@kings_exclude reboot_map g dr result eq_refl Hd Hl).
    cbn [set_drawresign_fen drawresign_fen option_map]. rewrite Hl.
    unfold after.
    destruct (inside_menu ext (arrived mn fen raw));
      [rewrite app_nil_r|]; reflexivity.
  - destruct (lookup g mode_map) as [m|] eqn:E; [|reflexivity].
    apply lookup_some_in_keys in E.
    assert (K := @kings_exclude (keys mode_map) g dr result eq_refl Hd Hl).
    unfold mem in K.
    assert (C : existsb (String.eqb g) (keys mode_map) = true).
    { apply existsb_exists. exists g. split; [exact E|apply String.eqb_refl]. }
    congruence.
Qed.

(** X10.  A new position of eight ranks that is no gesture ends in
    exactly one of four ways, told apart by [chess960_pos]: a board that
    does not parse raises [ValueError] with the position already stored;
    a position that is no start position fires FEN with the position as
    it was normalized; start position 518, and any start position when the
    engine plays Chess960, fires NEW_GAME with its number; any other start
    position dispatches the text "Y00_error960". *)
Theorem plain_position_outcome
  (w : World NavState) (fen : string) (raw : bool) (dr : string) :
  let mn := dgtmenu w in
  let g := normal_fen mn fen raw in
  g <> dgt_fen mn ->
  mem g level_map = false ->
  mem g book_map = false ->
  mem g engine_map = false ->
  lookup g mode_map = None ->
  mem g (keys (tc_fixed_map mn)) = false ->
  mem g (keys (tc_blitz_map mn)) = false ->
  mem g (keys (tc_fisch_map mn)) = false ->
  mem g shutdown_map = false ->
  mem g reboot_map = false ->
  drawresign_slice g = Some dr ->
  lookup dr drawresign_map = None ->
  _process_fen ext fen raw w =
  match chess960_pos ext g with
  | None =>
      (Raised ValueError, after w (arrived mn fen raw) (Some dr) [])
  | Some None =>
      (Done tt, after w (arrived mn fen raw) (Some dr) [Fire (FEN g)])
  | Some (Some pos960) =>
      (Done tt,
       after w (arrived mn fen raw) (Some dr)
             [if (pos960 =? 518)%Z || engine_has_960 mn
              then Fire (NEW_GAME pos960)
              else Dispatch (text ext "Y00_error960" NoArg)])
  end.
Proof.
  intros mn g Hn H1 H2 H3 H4 H5 H6 H7 H8 H9 Hd Hl.
  destruct (arrived_tables mn fen raw) as (T1 & T2 & T3 & T4 & _).
  rewrite (@process_fen_arrives fen raw w dr Hn Hd). fold mn. fold g.
  rewrite fen_dispatch_late; cbn [dgtmenu me];
    try (rewrite ?T1, ?T2, ?T3; assumption).
  rewrite H8, H9. cbn [set_drawresign_fen drawresign_fen option_map].
  rewrite Hl. unfold fen_board, bind at 1.
  destruct (chess960_pos ext g) as [[pos960|]|]; cbn [or_raise ret raise].
  - unfold bind at 1. cbn [get_menu dgtmenu]. rewrite T4. unfold after.
    destruct ((pos960 =? 518)%Z || engine_has_960 mn); reflexivity.
  - reflexivity.
  - unfold after. rewrite app_nil_r. reflexivity.
Qed.

(** The index of a book gesture is the place of its entry. *)
Lemma book_map_index (i : nat) (g : string) :
  nth_error book_map i = Some g ->
  index g book_map = Some i /\
  mem g level_map = false /\
  exists dr, drawresign_slice g = Some dr.
Proof.
  intros H.
  do 16 (destruct i as [|i];
         [injection H as <-; vm_compute; repeat split; eexists; reflexivity|]).
  destruct i; discriminate H.
Qed.

(** X11.  The book gesture on file [i] of the two middle ranks selects
    entry [i] of the list of books.  When the list is shorter, the
    position is stored and nothing else happens.  Otherwise the book
    index is set, the text of the entry gets the beep of the gesture
    level, a display time of one second and the [wait] flag that leaving
    the menu returns, and exactly SET_OPENING_BOOK is fired with that
    entry and text. *)
Theorem book_gesture_selects_or_ignores
  (w : World NavState) (fen : string) (raw : bool) (i : nat) :
  let mn := dgtmenu w in
  let g := normal_fen mn fen raw in
  g <> dgt_fen mn ->
  nth_error book_map i = Some g ->
  _process_fen ext fen raw w =
  match nth_error (all_books mn) i with
  | None =>
      (Done tt, after w (arrived mn fen raw) (drawresign_slice g) [])
  | Some book =>
      let text1 := set_maxtime 1 (set_beep (bl ext BL_MAP) (book_text book)) in
      let mn1 :=
        store_book_text i text1 (set_book i (arrived mn fen raw)) in
      let text2 :=
        set_wait (inside_menu ext mn1
                  && negb (confirm (enter_top_menu ext mn1))) text1 in
      (Done tt,
       after w (store_book_text i text2 (left_menu ext mn1))
             (drawresign_slice g)
             [Fire (SET_OPENING_BOOK
                      {| book_file := book_file book; book_text := text2 |}
                      text2 false)])
  end.
Proof.
  intros mn g Hn Hi.
  destruct (book_map_index i Hi) as (Ei & Hlv & dr & Hd).
  destruct (arrived_tables mn fen raw) as (_ & _ & _ & _ & Tb & _).
  rewrite (@process_fen_arrives fen raw w dr Hn Hd). fold mn. fold g.
  rewrite Hd.
  assert (Hb : mem g book_map = true).
  { unfold mem. apply existsb_exists. exists g.
    split; [eapply nth_error_In; exact Hi | apply String.eqb_refl]. }
  unfold fen_dispatch, bind at 1. cbn [get_menu].
  unfold bind at 1. cbn [get_me]. rewrite Hlv, Hb.
  unfold fen_book, bind at 1. rewrite Ei. cbn [or_raise ret].
  unfold try_pass, bind at 1. cbn [get_menu dgtmenu]. rewrite Tb.
  destruct (nth_error (all_books mn) i) as [book|].
  - cbn [or_raise ret]. unfold bind at 1. cbn [ret].
    unfold bind at 1. cbn [modify_menu me dgtmenu actions].
    unfold bind at 1. cbn [modify_menu me dgtmenu actions].
    rewrite (@DisplayFacts.bind_done _ _ _ _ _ _ _ _
               (DisplayFacts.exit_menu_run ext _)).
    cbn [me dgtmenu actions]. unfold bind at 1.
    cbn [modify_menu me dgtmenu actions emit]. reflexivity.
  - cbn [or_raise raise]. unfold bind at 1. cbn [raise Exn_eqb].
    unfold after. rewrite app_nil_r. reflexivity.
Qed.

(** The index of an engine gesture is the place of its entry. *)
Lemma engine_map_index (i : nat) (g : string) :
  nth_error engine_map i = Some g ->
  index g engine_map = Some i /\
  mem g level_map = false /\ mem g book_map = false /\
  exists dr, drawresign_slice g = Some dr.
Proof.
  intros H.
  do 8 (destruct i as [|i];
        [injection H as <-; vm_compute; repeat split; eexists; reflexivity|]).
  destruct i; discriminate H.
Qed.

(** X12.  The engine gesture on file [i] of the sixth rank never restarts
    anything when there is no engine to take.  Without installed engines
    the text "Y00_erroreng" is dispatched and the menu only stores the
    position.  With engines, but none at the index [i], nothing is
    dispatched or fired and the restart flag keeps its value; the engine
    index of the menu has then been set to [i] all the same. *)
Theorem engine_gesture_without_engine
  (w : World NavState) (fen : string) (raw : bool) (i : nat) :
  let mn := dgtmenu w in
  let g := normal_fen mn fen raw in
  g <> dgt_fen mn ->
  nth_error engine_map i = Some g ->
  (installed_engines mn = [] ->
   _process_fen ext fen raw w =
   (Done tt,
    after w (arrived mn fen raw) (drawresign_slice g)
          [Dispatch (text ext "Y00_erroreng" NoArg)]))
  /\
  (installed_engines mn <> [] ->
   get_engine (set_engine_index i (arrived mn fen raw)) = None ->
   _process_fen ext fen raw w =
   (Done tt,
    after w (set_engine_index i (arrived mn fen raw)) (drawresign_slice g) [])
   /\ engine_restart (set_engine_index i (arrived mn fen raw))
      = engine_restart mn).
Proof.
  intros mn g Hn Hi.
  destruct (engine_map_index i Hi) as (Ei & Hlv & Hbk & dr & Hd).
  destruct (arrived_tables mn fen raw) as (_ & _ & _ & _ & _ & Te & Tr).
  assert (He : mem g engine_map = true).
  { unfold mem. apply existsb_exists. exists g.
    split; [eapply nth_error_In; exact Hi | apply String.eqb_refl]. }
  assert (Run : _process_fen ext fen raw w =
                fen_engine ext g
                  {| me := set_drawresign_fen (Some dr) (me w);
                     dgtmenu := arrived mn fen raw;
                     actions := actions w |}).
  { rewrite (@process_fen_arrives fen raw w dr Hn Hd). fold mn. fold g.
    unfold fen_dispatch, bind at 1. cbn [get_menu].
    unfold bind at 1. cbn [get_me]. rewrite Hlv, Hbk, He. reflexivity. }
  rewrite Run, Hd. split.
  - intros Hempty. unfold fen_engine, bind at 1. cbn [get_menu dgtmenu].
    rewrite Te, Hempty. reflexivity.
  - intros Hsome Hnone. split; [| exact Tr].
    unfold fen_engine, bind at 1. cbn [get_menu dgtmenu]. rewrite Te.
    destruct (installed_engines mn) as [|e0 es]; [contradiction Hsome; reflexivity|].
    unfold try_pass, bind at 1. rewrite Ei. cbn [or_raise ret].
    unfold bind at 1. cbn [modify_menu me dgtmenu actions].
    unfold bind at 1. cbn [get_menu dgtmenu].
    unfold bind at 1. rewrite Hnone. cbn [or_raise raise Exn_eqb].
    unfold after. rewrite app_nil_r. reflexivity.
Qed.

(** The start position of chess, which is the flip pattern seen from
    the other side, is no gesture. *)
Lemma start_position_tables :
  let start := reversed flip_pattern in
  start = "rnbqkbnr/pppppppp/8/8/8/8/PPPPPPPP/RNBQKBNR" /\
  reversed start = flip_pattern /\
  String.eqb start flip_pattern = false /\
  mem start level_map = false /\ mem start book_map = false /\
  mem start engine_map = false /\ lookup start mode_map = None /\
  mem start shutdown_map = false /\ mem start reboot_map = false /\
  drawresign_slice start = Some "8/8/8/8/8/8/8/8" /\
  lookup "8/8/8/8/8/8/8/8" drawresign_map = None.
Proof. vm_compute. repeat split. Qed.

(** X25.  The start position is recognised from either side of the
    board.  Let the board report, raw, the pieces in their start position,
    seen from white's side or from black's, whatever the flip flag of the
    menu is.  If the chess library numbers the start position 518 and the
    position is new and no time-control gesture, then [_process_fen]
    stores the start position as white sees it, fires exactly NEW_GAME
    with 518, and leaves the flip flag such that the same report is read
    as the start position from now on. *)
Theorem start_position_from_either_side
  (w : World NavState) (fen : string) :
  fen = flip_pattern \/ fen = reversed flip_pattern ->
  let mn := dgtmenu w in
  let start := reversed flip_pattern in
  start <> dgt_fen mn ->
  mem start (keys (tc_fixed_map mn)) = false ->
  mem start (keys (tc_blitz_map mn)) = false ->
  mem start (keys (tc_fisch_map mn)) = false ->
  chess960_pos ext start = Some (Some 518%Z) ->
  let r := _process_fen ext fen true w in
  fst r = Done tt /\
  actions (snd r) = (actions w ++ [Fire (NEW_GAME 518)])%list /\
  me (snd r) = set_drawresign_fen (Some "8/8/8/8/8/8/8/8") (me w) /\
  dgt_fen (dgtmenu (snd r)) = start /\
  oriented (dgtmenu (snd r)) fen true = start.
Proof.
  intros Hfen mn start Hn Hx Hb Hf Hc r.
  destruct start_position_tables
    as (_ & Erev & Ef & H1 & H2 & H3 & H4 & H5 & H6 & Hd & Hl).
  fold start in Erev, Ef, H1, H2, H3, H4, H5, H6, Hd.
  assert (Eg : normal_fen mn fen true = start
               /\ oriented (arrived mn fen true) fen true = start).
  { unfold arrived, turned, normal_fen, oriented.
    cbn [flip_board set_dgt_fen].
    destruct Hfen as [-> | ->]; destruct (flip_board mn) eqn:Efl;
      cbn [andb]; fold start; rewrite ?Erev, ?Ef, ?String.eqb_refl;
      cbn [flip_board set_position_reverse_to_flipboard negb andb];
      rewrite ?Efl; cbn [negb andb]; fold start; rewrite ?Erev;
      split; reflexivity. }
  destruct Eg as [Eg Eo].
  destruct (arrived_tables mn fen true) as (T1 & T2 & T3 & _).
  assert (Run : r = (Done tt,
                     after w (arrived mn fen true) (Some "8/8/8/8/8/8/8/8")
                           [Fire (NEW_GAME 518)])).
  { subst r.
    rewrite (@process_fen_arrives fen true w "8/8/8/8/8/8/8/8");
      [| fold mn; rewrite Eg; exact Hn | fold mn; rewrite Eg; exact Hd].
    fold mn. rewrite Eg.
    rewrite fen_dispatch_late; cbn [dgtmenu me];
      try (rewrite ?T1, ?T2, ?T3; assumption).
    rewrite H5, H6. cbn [set_drawresign_fen drawresign_fen option_map].
    rewrite Hl. unfold fen_board, bind at 1. rewrite Hc. cbn [or_raise ret].
    unfold bind at 1. cbn [get_menu]. reflexivity. }
  rewrite Run. cbn [fst snd after me dgtmenu actions].
  split; [reflexivity|]. split; [reflexivity|]. split; [reflexivity|].
  split; [|exact Eo]. unfold arrived. cbn [dgt_fen set_dgt_fen]. exact Eg.
Qed.

End Gestures.

Import DisplaySamples GestureSamples.

(** A flipped board shows the two white queens on its far side. *)
Lemma confirm_gestures_witness :
  _process_fen sample_ext two_queens_seen_flipped true flipped_world =
  (Done tt,
   {| me := set_drawresign_fen (Some "8/8/8/8/8/8/8/8") sample_session;
      dgtmenu :=
        set_engine_restart true
          (set_dgt_fen "rnbqkbnr/pppppppp/8/8/8/8/PPPPPPPP/RNBQQBNR"
                       (dgtmenu flipped_world));
      actions := [Dispatch (sample_text "Y10_goodbye" NoArg);
                  Fire (SHUTDOWN "web")] |}).
Proof.
  assert (Hne : oriented (dgtmenu flipped_world) two_queens_seen_flipped true
                <> dgt_fen (dgtmenu flipped_world)) by discriminate.
  destruct (@confirm_gestures_from_either_side unit sample_ext flipped_world
              two_queens_seen_flipped true Hne eq_refl eq_refl eq_refl)
    as [Hs _].
  rewrite (Hs (or_intror (or_introl eq_refl))). reflexivity.
Defined.

(** Three ranks only. *)
Lemma malformed_position_witness :
  _process_fen sample_ext "8/8/8" true sample_world =
  (Raised ValueError,
   {| me := sample_session; dgtmenu := set_dgt_fen "8/8/8" sample_menu;
      actions := [] |}) /\
  _process_fen sample_ext "8/8/8" true
    {| me := sample_session; dgtmenu := set_dgt_fen "8/8/8" sample_menu;
       actions := [] |} =
  (Done tt,
   {| me := sample_session; dgtmenu := set_dgt_fen "8/8/8" sample_menu;
      actions := [] |}).
Proof.
  apply (@malformed_position_raises_once unit sample_ext sample_world
           "8/8/8" true); [discriminate | vm_compute; discriminate].
Defined.

Lemma kings_gesture_witness :
  _process_fen sample_ext kings_and_rooks true sample_world =
  (Done tt,
   {| me := set_drawresign_fen (Some "8/8/8/3k4/4K3/8/8/8") sample_session;
      dgtmenu := set_dgt_fen kings_and_rooks sample_menu;
      actions := [Fire (DRAWRESIGN WIN_WHITE)] |}).
Proof.
  assert (Hne : normal_fen (dgtmenu sample_world) kings_and_rooks true
                <> dgt_fen (dgtmenu sample_world)) by discriminate.
  exact (@kings_gesture_offers_result unit sample_ext sample_world
           kings_and_rooks true "r7" "8" "8" "3k4" "4K3" "8" "8" "7R"
           WIN_WHITE Hne eq_refl eq_refl eq_refl eq_refl eq_refl).
Defined.

Lemma plain_position_witness :
  _process_fen sample_ext after_e2e4 true sample_world =
  (Done tt,
   {| me := set_drawresign_fen (Some "8/8/8/8/4P3/8/8/8") sample_session;
      dgtmenu := set_dgt_fen after_e2e4 sample_menu;
      actions := [Fire (FEN after_e2e4)] |}).
Proof.
  assert (Hne : normal_fen (dgtmenu sample_world) after_e2e4 true
                <> dgt_fen (dgtmenu sample_world)) by discriminate.
  exact (@plain_position_outcome unit sample_ext sample_world after_e2e4 true
           "8/8/8/8/4P3/8/8/8" Hne eq_refl eq_refl eq_refl eq_refl eq_refl
           eq_refl eq_refl eq_refl eq_refl eq_refl eq_refl).
Defined.

(** The first file takes the only book; the second file finds none. *)
Lemma book_gesture_witness :
  _process_fen sample_ext "rnbqkbnr/pppppppp/8/8/8/q7/PPPPPPPP/RNBQKBNR" true
               library_world =
  (Done tt,
   {| me := set_drawresign_fen (Some "8/8/8/8/8/8/8/8") sample_session;
      dgtmenu :=
        set_all_books
          [{| book_file := "books/a-nobook.bin";
              book_text :=
                set_wait false (set_maxtime 1 (sample_text "nobook" NoArg)) |}]
          (set_book 0
             (set_dgt_fen "rnbqkbnr/pppppppp/8/8/8/q7/PPPPPPPP/RNBQKBNR"
                          (dgtmenu library_world)));
      actions :=
        [Fire (SET_OPENING_BOOK
                 {| book_file := "books/a-nobook.bin";
                    book_text :=
                      set_wait false
                        (set_maxtime 1 (sample_text "nobook" NoArg)) |}
                 (set_wait false (set_maxtime 1 (sample_text "nobook" NoArg)))
                 false)] |}) /\
  _process_fen sample_ext "rnbqkbnr/pppppppp/8/8/8/1q6/PPPPPPPP/RNBQKBNR" true
               library_world =
  (Done tt,
   {| me := set_drawresign_fen (Some "8/8/8/8/8/8/8/8") sample_session;
      dgtmenu :=
        set_dgt_fen "rnbqkbnr/pppppppp/8/8/8/1q6/PPPPPPPP/RNBQKBNR"
                    (dgtmenu library_world);
      actions := [] |}).
Proof.
  split.
  - assert (Hne : normal_fen (dgtmenu library_world)
                    "rnbqkbnr/pppppppp/8/8/8/q7/PPPPPPPP/RNBQKBNR" true
                  <> dgt_fen (dgtmenu library_world)) by discriminate.
    exact (@book_gesture_selects_or_ignores unit sample_ext library_world
             "rnbqkbnr/pppppppp/8/8/8/q7/PPPPPPPP/RNBQKBNR" true 0
             Hne eq_refl).
  - assert (Hne : normal_fen (dgtmenu library_world)
                    "rnbqkbnr/pppppppp/8/8/8/1q6/PPPPPPPP/RNBQKBNR" true
                  <> dgt_fen (dgtmenu library_world)) by discriminate.
    exact (@book_gesture_selects_or_ignores unit sample_ext library_world
             "rnbqkbnr/pppppppp/8/8/8/1q6/PPPPPPPP/RNBQKBNR" true 1
             Hne eq_refl).
Defined.

(** The fourth file asks for an engine where one is installed, and for
    any engine where none is. *)
Lemma engine_gesture_witness :
  _process_fen sample_ext "rnbqkbnr/pppppppp/3q4/8/8/8/PPPPPPPP/RNBQKBNR" true
               sample_world =
  (Done tt,
   {| me := set_drawresign_fen (Some "8/8/8/8/8/8/8/8") sample_session;
      dgtmenu :=
        set_engine_index 3
          (set_dgt_fen "rnbqkbnr/pppppppp/3q4/8/8/8/PPPPPPPP/RNBQKBNR"
                       sample_menu);
      actions := [] |}) /\
  _process_fen sample_ext "rnbqkbnr/pppppppp/3q4/8/8/8/PPPPPPPP/RNBQKBNR" true
               no_engine_world =
  (Done tt,
   {| me := set_drawresign_fen (Some "8/8/8/8/8/8/8/8") sample_session;
      dgtmenu :=
        set_dgt_fen "rnbqkbnr/pppppppp/3q4/8/8/8/PPPPPPPP/RNBQKBNR"
                    (dgtmenu no_engine_world);
      actions := [Dispatch (sample_text "Y00_erroreng" NoArg)] |}).
Proof.
  split.
  - assert (Hne : normal_fen (dgtmenu sample_world)
                    "rnbqkbnr/pppppppp/3q4/8/8/8/PPPPPPPP/RNBQKBNR" true
                  <> dgt_fen (dgtmenu sample_world)) by discriminate.
    assert (Hsome : installed_engines (dgtmenu sample_world) <> [])
      by discriminate.
    destruct (@engine_gesture_without_engine unit sample_ext sample_world
                "rnbqkbnr/pppppppp/3q4/8/8/8/PPPPPPPP/RNBQKBNR" true 3
                Hne eq_refl) as [_ H].
    exact (proj1 (H Hsome eq_refl)).
  - assert (Hne : normal_fen (dgtmenu no_engine_world)
                    "rnbqkbnr/pppppppp/3q4/8/8/8/PPPPPPPP/RNBQKBNR" true
                  <> dgt_fen (dgtmenu no_engine_world)) by discriminate.
    destruct (@engine_gesture_without_engine unit sample_ext no_engine_world
                "rnbqkbnr/pppppppp/3q4/8/8/8/PPPPPPPP/RNBQKBNR" true 3
                Hne eq_refl) as [H _].
    exact (H eq_refl).
Defined.

(** The menu believes the board to be flipped; the pieces are set up the
    usual way. *)
Lemma start_position_witness :
  let r := _process_fen sample_ext standard_start true flipped_world in
  fst r = Done tt /\
  actions (snd r) = [Fire (NEW_GAME 518)] /\
  me (snd r) = set_drawresign_fen (Some "8/8/8/8/8/8/8/8") sample_session /\
  dgt_fen (dgtmenu (snd r)) = standard_start /\
  oriented (dgtmenu (snd r)) standard_start true = standard_start.
Proof.
  assert (Hne : reversed flip_pattern <> dgt_fen (dgtmenu flipped_world))
    by discriminate.
  exact (@start_position_from_either_side unit sample_ext flipped_world
           standard_start (or_intror eq_refl) Hne eq_refl eq_refl eq_refl
           eq_refl).
Defined.

End GestureFacts.

(* ================================================================== *)
(** * Properties of the buttons *)
(* ================================================================== *)

Module ButtonFacts.
Import Api Py Display Buttons.

Local Open Scope string_scope.

Section Buttons.

Variable NavState : Type.
Variable ext : External NavState.

Lemma keeps_me_ret {A : Type} (a : A) : keeps_me (@ret NavState A a).
Proof. intros w. reflexivity. Qed.

Lemma keeps_me_raise {A : Type} (e : Exn) : keeps_me (@raise NavState A e).
Proof. intros w. reflexivity. Qed.

Lemma keeps_me_get_me : keeps_me (@get_me NavState).
Proof. intros w. reflexivity. Qed.

Lemma keeps_me_get_menu : keeps_me (@get_menu NavState).
Proof. intros w. reflexivity. Qed.

Lemma keeps_me_emit (a : Action) : keeps_me (@emit NavState a).
Proof. intros w. reflexivity. Qed.

Lemma keeps_me_modify_menu (f : DgtMenu NavState -> DgtMenu NavState) :
  keeps_me (modify_menu f).
Proof. intros w. reflexivity. Qed.

Lemma keeps_me_bind {A B : Type} (c : M NavState A) (k : A -> M NavState B) :
  keeps_me c -> (forall a, keeps_me (k a)) -> keeps_me (bind c k).
Proof.
  intros Hc Hk w. unfold bind. specialize (Hc w).
  destruct (c w) as [[a|e] w1]; cbn [snd] in *.
  - rewrite Hk. exact Hc.
  - exact Hc.
Qed.

Lemma keeps_me_inside_menu : keeps_me (_inside_menu ext).
Proof. intros w. reflexivity. Qed.

(** [_exit_display] dispatches one command and neither fails nor changes
    the state. *)
Lemma exit_display_run (w : World NavState) :
  _exit_display ext w
  = (Done tt, dispatched w [shown_on_exit ext (me w) (dgtmenu w)]).
Proof.
  unfold _exit_display, shown_on_exit, dispatched, bind, get_me, get_menu.
  destruct (move_truthy (play_move (me w))
            && match mode (dgtmenu w) with
               | NORMAL | REMOTE => true | _ => false end);
    [reflexivity|].
  destruct (if inside_menu ext (dgtmenu w)
            then get_current_text ext (dgtmenu w) else None);
    reflexivity.
Qed.

Lemma shown_on_exit_waits (s : Session) (mn : DgtMenu NavState) :
  wait (shown_on_exit ext s mn) = Some true.
Proof.
  unfold shown_on_exit.
  destruct (move_truthy (play_move s)
            && match mode mn with NORMAL | REMOTE => true | _ => false end);
    [reflexivity|].
  destruct (if inside_menu ext mn then get_current_text ext mn else None);
    reflexivity.
Qed.

Lemma keeps_me_exit_display : keeps_me (_exit_display ext).
Proof. intros w. rewrite exit_display_run. reflexivity. Qed.

Lemma keeps_me_combine : keeps_me (_combine_depth_and_score (NavState:=NavState)).
Proof.
  intros w. unfold _combine_depth_and_score, bind, get_me.
  destruct (combine_try (score (me w)) (depth (me w))); reflexivity.
Qed.

Lemma keeps_me_button0 (d : string) : keeps_me (_process_button0 ext d).
Proof.
  unfold _process_button0.
  apply keeps_me_bind; [apply keeps_me_inside_menu|]. intros [|].
  - apply keeps_me_bind; [apply keeps_me_get_menu|]. intros mn.
    destruct (up ext mn) as [mn1 [t|]];
      (apply keeps_me_bind; [apply keeps_me_modify_menu|]); intros _.
    + apply keeps_me_emit.
    + apply keeps_me_exit_display.
  - apply keeps_me_bind; [apply keeps_me_get_me|]. intros s.
    apply keeps_me_bind; [apply keeps_me_emit|]. intros _.
    apply keeps_me_exit_display.
Qed.

Lemma keeps_me_button1 (d : string) : keeps_me (_process_button1 ext d).
Proof.
  unfold _process_button1.
  apply keeps_me_bind; [apply keeps_me_inside_menu|]. intros [|].
  - apply keeps_me_bind; [apply keeps_me_get_menu|]. intros mn.
    destruct (left ext mn) as [mn1 t].
    apply keeps_me_bind; [apply keeps_me_modify_menu|]. intros _.
    apply keeps_me_emit.
  - apply keeps_me_bind; [apply keeps_me_combine|]. intros t.
    apply keeps_me_bind; [apply keeps_me_emit|]. intros _.
    apply keeps_me_exit_display.
Qed.

Lemma keeps_me_button3 (d : string) : keeps_me (_process_button3 ext d).
Proof.
  unfold _process_button3.
  apply keeps_me_bind; [apply keeps_me_inside_menu|]. intros [|].
  - apply keeps_me_bind; [apply keeps_me_get_menu|]. intros mn.
    destruct (right ext mn) as [mn1 t].
    apply keeps_me_bind; [apply keeps_me_modify_menu|]. intros _.
    apply keeps_me_emit.
  - apply keeps_me_bind; [apply keeps_me_get_me|]. intros s.
    apply keeps_me_bind; [apply keeps_me_emit|]. intros _.
    apply keeps_me_exit_display.
Qed.

Lemma keeps_me_button4 (d : string) : keeps_me (_process_button4 ext d).
Proof.
  unfold _process_button4.
  apply keeps_me_bind; [apply keeps_me_get_menu|]. intros mn.
  destruct (down ext mn) as [mn1 [t|]];
    (apply keeps_me_bind; [apply keeps_me_modify_menu|]); intros _;
    apply keeps_me_emit.
Qed.

Lemma keeps_me_power_off (d : string) : keeps_me (_power_off ext d).
Proof. intros w. reflexivity. Qed.

(** X13.  No button changes the record of the game.  Whatever the state
    and the code of the button, and also when the handler raises, the
    fields of the display are the same after [_process_button], but for
    two of them: button 2 may clear [engine_finished], and the lever
    (codes 64 and -64) may forget the pending move of the computer.  The
    scores, the depth, the hint and the last move are never touched. *)
Theorem buttons_keep_game_record
  (w : World NavState) (message : ButtonMessage) :
  let s' := me (snd (_process_button ext message w)) in
  s' = me w
  \/ (button message = 2 /\ s' = set_engine_finished false (me w))
  \/ ((button message = 64 \/ button message = -64) /\ s' = clear_play (me w)).
Proof.
  intros s'.
  assert (Hs : s' = me (snd (_process_button ext message w))) by reflexivity.
  clearbody s'. unfold _process_button, bind at 1 in Hs. cbn [get_menu] in Hs.
  destruct (negb (engine_restart (dgtmenu w))); [|left; exact Hs].
  destruct (button message =? 0)%Z;
    [left; rewrite Hs; apply keeps_me_button0|].
  destruct (button message =? 1)%Z;
    [left; rewrite Hs; apply keeps_me_button1|].
  destruct (button message =? 2)%Z eqn:E2.
  { apply Z.eqb_eq in E2.
    unfold _process_button2, bind at 1 in Hs. cbn [get_menu] in Hs.
    destruct (mode (dgtmenu w)); try (left; exact Hs);
      unfold bind at 1 in Hs; cbn [get_me] in Hs;
      (destruct (engine_finished (me w)) eqn:Ef;
       [right; left; split; [exact E2 | exact Hs] | left; exact Hs]). }
  destruct (button message =? 3)%Z;
    [left; rewrite Hs; apply keeps_me_button3|].
  destruct (button message =? 4)%Z;
    [left; rewrite Hs; apply keeps_me_button4|].
  destruct (button message =? 17)%Z;
    [left; rewrite Hs; apply keeps_me_power_off|].
  destruct (button message =? 64)%Z eqn:E64.
  { apply Z.eqb_eq in E64. unfold _process_lever, _inside_menu in Hs.
    cbv [bind get_menu ret] in Hs.
    destruct (inside_menu ext (dgtmenu w)); [left; exact Hs|].
    right; right. split; [left; exact E64 | exact Hs]. }
  destruct (button message =? -64)%Z eqn:E64'.
  { apply Z.eqb_eq in E64'. unfold _process_lever, _inside_menu in Hs.
    cbv [bind get_menu ret] in Hs.
    destruct (inside_menu ext (dgtmenu w)); [left; exact Hs|].
    right; right. split; [right; exact E64' | exact Hs]. }
  left; exact Hs.
Qed.

(** Button 0 outside the menu. *)
Lemma last_move_button (w : World NavState) (d : string) :
  engine_restart (dgtmenu w) = false ->
  inside_menu ext (dgtmenu w) = false ->
  _process_button ext {| button := 0; dev := d |} w =
  (Done tt,
   dispatched w [move_or_nomove ext (last_move (me w)) (last_fen (me w))
                                (last_turn (me w));
                 shown_on_exit ext (me w) (dgtmenu w)]).
Proof.
  intros Hr Hi. unfold _process_button, bind at 1. cbn [get_menu button dev].
  rewrite Hr. cbn [negb Z.eqb].
  unfold _process_button0, bind at 1, _inside_menu.
  unfold bind at 1. cbn [get_menu ret]. rewrite Hi.
  unfold bind at 1. cbn [get_me].
  unfold bind at 1. cbn [emit]. rewrite exit_display_run.
  unfold dispatched. cbn [me dgtmenu actions map].
  rewrite <- app_assoc. reflexivity.
Qed.

(** X14.  Button 2 asks for an alternative move once.  Outside the
    analysis modes and with a finished engine, the first press fires
    ALTERNATIVE_MOVE and clears [engine_finished]; the second press then
    fires PAUSE_RESUME.  The menu does not change. *)
Theorem alternative_move_asked_once
  (w : World NavState) (d1 d2 : string) :
  engine_restart (dgtmenu w) = false ->
  mode (dgtmenu w) = NORMAL \/ mode (dgtmenu w) = OBSERVE
  \/ mode (dgtmenu w) = REMOTE ->
  engine_finished (me w) = true ->
  bind (_process_button ext {| button := 2; dev := d1 |})
       (fun _ => _process_button ext {| button := 2; dev := d2 |}) w
  = (Done tt,
     {| me := set_engine_finished false (me w);
        dgtmenu := dgtmenu w;
        actions := actions w ++ [Fire ALTERNATIVE_MOVE; Fire PAUSE_RESUME] |}).
Proof.
  intros Hr Hm Hf.
  assert (First : _process_button ext {| button := 2; dev := d1 |} w
                  = (Done tt,
                     {| me := set_engine_finished false (me w);
                        dgtmenu := dgtmenu w;
                        actions := actions w ++ [Fire ALTERNATIVE_MOVE] |})).
  { unfold _process_button, bind at 1. cbn [get_menu button dev].
    rewrite Hr. cbn [negb Z.eqb Pos.eqb].
    unfold _process_button2, bind at 1. cbn [get_menu].
    destruct Hm as [Hm|[Hm|Hm]]; rewrite Hm;
      unfold bind at 1; cbn [get_me]; rewrite Hf; reflexivity. }
  rewrite (@DisplayFacts.bind_done _ _ _ _ _ _ _ _ First).
  unfold _process_button, bind at 1. cbn [get_menu button dev dgtmenu].
  rewrite Hr. cbn [negb Z.eqb Pos.eqb].
  unfold _process_button2, bind at 1. cbn [get_menu dgtmenu].
  destruct Hm as [Hm|[Hm|Hm]]; rewrite Hm;
    unfold bind at 1; cbn [get_me me set_engine_finished engine_finished];
    unfold emit; cbn [me dgtmenu actions]; rewrite <- app_assoc; reflexivity.
Qed.

(** X15.  Outside the menu the three information buttons answer with two
    commands and change nothing.  Button 0 shows the last move, button 3
    the hint move, each as a move command that does not wait, or the text
    "B10_nomove" when there is none; button 1 shows the score with the
    beep of the button level, unless combining it with the depth lets an
    exception through, in which case nothing is dispatched.  The second
    command brings the display back and always has [wait] set. *)
Theorem info_buttons_answer_and_return
  (w : World NavState) (message : ButtonMessage) :
  engine_restart (dgtmenu w) = false ->
  inside_menu ext (dgtmenu w) = false ->
  let s := me w in
  let back := shown_on_exit ext s (dgtmenu w) in
  wait back = Some true /\
  (button message = 0 ->
   _process_button ext message w =
   (Done tt,
    dispatched w [move_or_nomove ext (last_move s) (last_fen s) (last_turn s);
                  back])) /\
  (button message = 3 ->
   _process_button ext message w =
   (Done tt,
    dispatched w [move_or_nomove ext (hint_move s) (hint_fen s) (hint_turn s);
                  back])) /\
  (button message = 1 ->
   _process_button ext message w =
   match combine_try (score s) (depth s) with
   | Completed sc | Caught sc =>
       (Done tt, dispatched w [set_beep (bl ext BL_BUTTON) sc; back])
   | Escaped e => (Raised e, w)
   end).
Proof.
  intros Hr Hi s back. split; [apply shown_on_exit_waits|].
  assert (Two : forall c,
            bind (emit (Dispatch c)) (fun _ => _exit_display ext) w
            = (Done tt, dispatched w [c; back])).
  { intros c. unfold bind at 1. cbn [emit]. rewrite exit_display_run.
    unfold dispatched. cbn [me dgtmenu actions map].
    rewrite <- app_assoc. reflexivity. }
  split; [|split]; intros Hb.
  - unfold _process_button, bind at 1. cbn [get_menu].
    rewrite Hr, Hb. cbn [negb Z.eqb].
    unfold _process_button0, bind at 1, _inside_menu.
    unfold bind at 1. cbn [get_menu ret]. rewrite Hi.
    unfold bind at 1. cbn [get_me]. apply Two.
  - unfold _process_button, bind at 1. cbn [get_menu].
    rewrite Hr, Hb. cbn [negb Z.eqb Pos.eqb].
    unfold _process_button3, bind at 1, _inside_menu.
    unfold bind at 1. cbn [get_menu ret]. rewrite Hi.
    unfold bind at 1. cbn [get_me]. apply Two.
  - unfold _process_button, bind at 1. cbn [get_menu].
    rewrite Hr, Hb. cbn [negb Z.eqb Pos.eqb].
    unfold _process_button1, bind at 1, _inside_menu.
    unfold bind at 1. cbn [get_menu ret]. rewrite Hi.
    unfold bind at 1, _combine_depth_and_score, bind at 1. cbn [get_me].
    fold s.
    destruct (combine_try (score s) (depth s)); cbn [ret raise];
      try apply Two; reflexivity.
Qed.

End Buttons.

Import DisplaySamples ButtonSamples.

Lemma alternative_move_witness :
  bind (_process_button sample_ext {| button := 2; dev := "ser" |})
       (fun _ => _process_button sample_ext {| button := 2; dev := "ser" |})
       finished_world
  = (Done tt,
     {| me := sample_session; dgtmenu := sample_menu;
        actions := [Fire ALTERNATIVE_MOVE; Fire PAUSE_RESUME] |}).
Proof.
  exact (@alternative_move_asked_once unit sample_ext finished_world
           "ser" "ser" eq_refl (or_introl eq_refl) eq_refl).
Defined.

(** Button 0 after the reply of the user: the reply, then the clock. *)
Lemma info_buttons_witness :
  _process_button sample_ext {| button := 0; dev := "ser" |} moved_world
  = (Done tt,
     {| me := moved_session; dgtmenu := sample_menu;
        actions :=
          [Dispatch
             {| body :=
                  DISPLAY_MOVE
                    (UciMove "e7e5")
                    (Some "rnbqkbnr/pppppppp/8/8/4P3/8/PPPP1PPP/RNBQKBNR b KQkq - 0 1")
                    RIGHT false all_devs;
                wait := Some false; maxtime := Some 1%Q |};
           Dispatch
             {| body := DISPLAY_TIME true all_devs;
                wait := Some true; maxtime := None |}] |}).
Proof.
  exact (proj1 (proj2 (@info_buttons_answer_and_return unit sample_ext
                         moved_world {| button := 0; dev := "ser" |}
                         eq_refl eq_refl))
               eq_refl).
Defined.

End ButtonFacts.

(* ================================================================== *)
(** * Properties of the lights and of the record of the game *)
(* ================================================================== *)

Module LightFacts.
Import Api Py Display Buttons Play Lights.

Local Open Scope string_scope.

Lemma dark_body (c : DgtApi) :
  is_light c = false ->
  forall lit rest,
    lit_after lit (Dispatch c :: rest) = lit_after lit rest /\
    (lights_alternate lit (Dispatch c :: rest) <-> lights_alternate lit rest).
Proof.
  unfold is_light. intros H lit rest. cbn [lit_after lights_alternate].
  destruct (body c); try discriminate H; split; reflexivity.
Qed.

Lemma lit_after_app (lit : bool) (a b : list Action) :
  lit_after lit (a ++ b) = lit_after (lit_after lit a) b.
Proof.
  revert lit. induction a as [|x a IH]; intros lit; [reflexivity|].
  destruct x; cbn [app lit_after]; apply IH.
Qed.

Lemma lit_after_dark (lit : bool) (acts : list Action) :
  Forall dark acts -> lit_after lit acts = lit.
Proof.
  induction 1 as [|x acts Hx _ IH]; [reflexivity|].
  destruct x as [c| |]; cbn [lit_after]; try exact IH.
  cbn [dark] in Hx. destruct (dark_body c Hx lit acts) as [E _].
  cbn [lit_after] in E. rewrite E. exact IH.
Qed.

Lemma alternate_app (lit : bool) (a b : list Action) :
  lights_alternate lit (a ++ b) <->
  lights_alternate lit a /\ lights_alternate (lit_after lit a) b.
Proof.
  revert lit. induction a as [|x a IH]; intros lit.
  - cbn. tauto.
  - destruct x as [c| |]; cbn [app lit_after lights_alternate];
      try apply IH.
    destruct (body c); try apply IH; rewrite IH; tauto.
Qed.

Lemma alternate_dark (lit : bool) (acts : list Action) :
  Forall dark acts -> lights_alternate lit acts.
Proof.
  induction 1 as [|x acts Hx _ IH]; [exact I|].
  destruct x as [c| |]; cbn [lights_alternate]; try exact IH.
  cbn [dark] in Hx. apply (dark_body c Hx lit acts). exact IH.
Qed.

Lemma is_light_set_l (v : string) (t : DgtApi) :
  is_light (set_l v t) = is_light t.
Proof. destruct t as [[] ? ?]; reflexivity. Qed.

Lemma is_light_set_m (v : string) (t : DgtApi) :
  is_light (set_m v t) = is_light t.
Proof. destruct t as [[] ? ?]; reflexivity. Qed.

Lemma is_light_set_s (v : string) (t : DgtApi) :
  is_light (set_s v t) = is_light t.
Proof. destruct t as [[] ? ?]; reflexivity. Qed.

Lemma is_light_set_rd (v : ClockIcons) (t : DgtApi) :
  is_light (set_rd v t) = is_light t.
Proof. destruct t as [[] ? ?]; reflexivity. Qed.

Lemma is_light_set_beep (v : bool) (t : DgtApi) :
  is_light (set_beep v t) = is_light t.
Proof. destruct t as [[] ? ?]; reflexivity. Qed.

Lemma is_light_set_wait (v : bool) (t : DgtApi) :
  is_light (set_wait v t) = is_light t.
Proof. reflexivity. Qed.

Lemma is_light_set_maxtime (v : Q) (t : DgtApi) :
  is_light (set_maxtime v t) = is_light t.
Proof. reflexivity. Qed.

Lemma clamp_short_light (sc sc1 : DgtApi) :
  clamp_short sc = Some sc1 -> is_light sc1 = is_light sc.
Proof.
  unfold clamp_short. destruct (int (get_s sc)) as [v|]; [|discriminate].
  destruct (v <=? -1000)%Z;
    (match goal with
     | |- context [int (get_s ?x)] => destruct (int (get_s x)) as [v1|]
     end; [|discriminate]);
    destruct (v1 >=? 1000)%Z; intros H; injection H as <-;
    rewrite ?is_light_set_s; reflexivity.
Qed.

(** The score with the depth in front is a text when the score was. *)
Lemma combine_light (sc : DgtApi) (d : option Z) (out : DgtApi) :
  combine_try sc d = Completed out \/ combine_try sc d = Caught out ->
  is_light out = is_light sc.
Proof.
  unfold combine_try.
  destruct (clamp_short sc) as [sc1|] eqn:C.
  2:{ intros [H|H]; [discriminate|]. injection H as <-. reflexivity. }
  apply clamp_short_light in C. rewrite <- C.
  destruct (_score_to_string (last_chars 8 (get_l sc1)) Len_l) as [sl|].
  2:{ intros [H|H]; [discriminate|]. injection H as <-. reflexivity. }
  destruct d as [dv|]; [|intros [H|H]; discriminate].
  match goal with
  | |- context [_score_to_string (last_chars 6 ?x) Len_m] =>
      destruct (_score_to_string (last_chars 6 x) Len_m) as [sm|]
  end.
  2:{ intros [H|H]; [discriminate|]. injection H as <-.
      apply is_light_set_l. }
  match goal with
  | |- context [_score_to_string (last_chars 4 ?x) Len_s] =>
      destruct (_score_to_string (last_chars 4 x) Len_s) as [ss|]
  end.
  2:{ intros [H|H]; [discriminate|]. injection H as <-.
      rewrite is_light_set_m. apply is_light_set_l. }
  intros [H|H]; [|discriminate]. injection H as <-.
  rewrite is_light_set_rd, is_light_set_s, is_light_set_m.
  apply is_light_set_l.
Qed.

Section Lights.

Variable NavState : Type.
Variable ext : External NavState.

Hypothesis texts_ok : texts_only ext.

Lemma quiet_ret {A : Type} (a : A) : quiet (@ret NavState A a).
Proof.
  intros w _. cbn. repeat split. exists []. rewrite app_nil_r.
  split; [reflexivity | constructor].
Qed.

Lemma quiet_raise {A : Type} (e : Exn) : quiet (@raise NavState A e).
Proof.
  intros w _. cbn. repeat split. exists []. rewrite app_nil_r.
  split; [reflexivity | constructor].
Qed.

Lemma quiet_or_raise {A : Type} (o : option A) (e : Exn) :
  quiet (@or_raise NavState A o e).
Proof. destruct o; [apply quiet_ret | apply quiet_raise]. Qed.

Lemma quiet_get_me : quiet (@get_me NavState).
Proof.
  intros w _. cbn. repeat split. exists []. rewrite app_nil_r.
  split; [reflexivity | constructor].
Qed.

Lemma quiet_get_menu : quiet (@get_menu NavState).
Proof.
  intros w _. cbn. repeat split. exists []. rewrite app_nil_r.
  split; [reflexivity | constructor].
Qed.

Lemma quiet_modify_menu (f : DgtMenu NavState -> DgtMenu NavState) :
  quiet (modify_menu f).
Proof.
  intros w _. cbn. repeat split. exists []. rewrite app_nil_r.
  split; [reflexivity | constructor].
Qed.

Lemma quiet_modify_me (f : Session -> Session) :
  (forall s, score (f s) = score s /\ leds_are_on (f s) = leds_are_on s) ->
  quiet (@modify_me NavState f).
Proof.
  intros Hf w _. cbn. destruct (Hf (me w)) as [H1 H2].
  split; [exact H1|]. split; [exact H2|].
  exists []. rewrite app_nil_r. split; [reflexivity | constructor].
Qed.

Lemma quiet_emit (a : Action) : dark a -> quiet (@emit NavState a).
Proof.
  intros Ha w _. cbn. repeat split. exists [a].
  split; [reflexivity | constructor; [exact Ha | constructor]].
Qed.

Lemma quiet_emit_fire (e : Event) : quiet (@emit NavState (Fire e)).
Proof. apply quiet_emit. exact I. Qed.

Lemma quiet_emit_config (v : option string) :
  quiet (@emit NavState (ConfigWrite v)).
Proof. apply quiet_emit. exact I. Qed.

Lemma quiet_emit_text (text_id : string) (arg : TextArg) :
  quiet (@emit NavState (Dispatch (text ext text_id arg))).
Proof. apply quiet_emit. apply texts_ok. Qed.

Lemma quiet_bind {A B : Type} (c : M NavState A) (k : A -> M NavState B) :
  quiet c -> (forall a, quiet (k a)) -> quiet (bind c k).
Proof.
  intros Hc Hk w Hw. unfold bind. specialize (Hc w Hw).
  destruct (c w) as [[a|e] w1]; cbn [snd] in *; [|exact Hc].
  destruct Hc as (Hs & Hl & acts1 & Ha & Hd).
  assert (Hw1 : is_light (score (me w1)) = false) by (rewrite Hs; exact Hw).
  destruct (Hk a w1 Hw1) as (Hs2 & Hl2 & acts2 & Ha2 & Hd2).
  split; [congruence|]. split; [congruence|].
  exists (acts1 ++ acts2)%list. split.
  - rewrite Ha2, Ha, app_assoc. reflexivity.
  - apply Forall_app. split; assumption.
Qed.

Lemma quiet_try_pass (c : M NavState unit) (e : Exn) :
  quiet c -> quiet (try_pass c e).
Proof.
  intros Hc w Hw. unfold try_pass. specialize (Hc w Hw).
  destruct (c w) as [[a|e1] w1]; cbn [snd] in *; [exact Hc|].
  destruct (Exn_eqb e1 e); exact Hc.
Qed.

Create HintDb hush.

#[local] Hint Resolve quiet_ret quiet_raise quiet_or_raise quiet_get_me
  quiet_get_menu quiet_modify_menu quiet_emit_fire quiet_emit_config
  quiet_emit_text quiet_try_pass : hush.

(** Splits a handler into its steps; the assignments that remain keep
    the flag and the score by computation. *)
Ltac hush :=
  repeat first
    [ solve [auto with hush]
    | apply quiet_bind; [| intros ?]
    | apply quiet_try_pass
    | apply quiet_modify_me; intros ?; split; reflexivity
    | apply quiet_emit; reflexivity
    | match goal with
      | |- quiet (match ?x with _ => _ end) => destruct x
      | |- quiet (if ?x then _ else _) => destruct x
      | |- quiet (let '(_, _) := ?x in _) => destruct x
      end ].

Lemma quiet_exit_menu : quiet (_exit_menu ext).
Proof. unfold _exit_menu. hush. Qed.

#[local] Hint Resolve quiet_exit_menu : hush.

Lemma quiet_fen_dispatch (fen : string) : quiet (fen_dispatch ext fen).
Proof.
  unfold fen_dispatch, fen_level, fen_book, fen_engine, fen_mode, fen_time,
    fen_board, _power_off, _reboot, _inside_menu.
  hush.
Qed.

Lemma quiet_process_fen (fen : string) (raw : bool) :
  quiet (_process_fen ext fen raw).
Proof.
  unfold _process_fen, normalize_fen, _drawresign.
  apply quiet_bind; [hush|]. intros fen1.
  apply quiet_bind; [hush|]. intros mn.
  destruct (String.eqb fen1 (dgt_fen mn)); [hush|].
  apply quiet_bind; [hush|]. intros _.
  apply quiet_bind; [hush|]. intros dr.
  apply quiet_bind; [hush|]. intros _.
  apply quiet_fen_dispatch.
Qed.

Lemma shown_on_exit_dark (s : Session) (mn : DgtMenu NavState) :
  is_light (shown_on_exit ext s mn) = false.
Proof.
  unfold shown_on_exit.
  destruct (move_truthy (play_move s)
            && match mode mn with NORMAL | REMOTE => true | _ => false end);
    [reflexivity|].
  destruct (inside_menu ext mn); [|reflexivity].
  destruct (get_current_text ext mn) as [t|] eqn:E; [|reflexivity].
  rewrite is_light_set_wait. apply texts_ok in E. exact E.
Qed.

Lemma quiet_exit_display : quiet (_exit_display ext).
Proof.
  intros w _. rewrite ButtonFacts.exit_display_run. cbn.
  repeat split. eexists. split; [reflexivity|].
  constructor; [apply shown_on_exit_dark | constructor].
Qed.

Lemma move_or_nomove_dark (mv : Move) (fen : option string)
      (turn : option Color) :
  is_light (move_or_nomove ext mv fen turn) = false.
Proof.
  unfold move_or_nomove. destruct (move_truthy mv); [reflexivity|].
  apply texts_ok.
Qed.

#[local] Hint Resolve quiet_exit_display : hush.

Lemma quiet_button0 (d : string) : quiet (_process_button0 ext d).
Proof.
  unfold _process_button0, _inside_menu.
  apply quiet_bind; [hush|]. intros [|].
  - apply quiet_bind; [hush|]. intros mn.
    destruct (up ext mn) as [mn1 [t|]] eqn:E;
      (apply quiet_bind; [hush|]); intros _; [|hush].
    apply quiet_emit. destruct texts_ok as (_ & Hup & _).
    apply (Hup mn). rewrite E. reflexivity.
  - apply quiet_bind; [hush|]. intros s.
    apply quiet_bind; [|intros _; hush].
    apply quiet_emit. apply move_or_nomove_dark.
Qed.

Lemma quiet_button1 (d : string) : quiet (_process_button1 ext d).
Proof.
  unfold _process_button1, _inside_menu.
  apply quiet_bind; [hush|]. intros [|].
  - apply quiet_bind; [hush|]. intros mn.
    destruct (left ext mn) as [mn1 t] eqn:E.
    apply quiet_bind; [hush|]. intros _.
    apply quiet_emit. destruct texts_ok as (_ & _ & _ & Hl & _).
    specialize (Hl mn). rewrite E in Hl. exact Hl.
  - intros w Hw.
    assert (Run : forall k : DgtApi -> M NavState unit,
              bind (@_combine_depth_and_score NavState) k w
              = match combine_try (score (me w)) (depth (me w)) with
                | Completed sc | Caught sc => k sc w
                | Escaped e => (Raised e, w)
                end).
    { intros k. unfold bind at 1, _combine_depth_and_score, bind at 1.
      cbn [get_me].
      destruct (combine_try (score (me w)) (depth (me w))); reflexivity. }
    rewrite Run.
    assert (Q : forall sc, is_light sc = false ->
              quiet (bind (emit (Dispatch (set_beep (bl ext BL_BUTTON) sc)))
                          (fun _ => _exit_display ext))).
    { intros sc Hsc. apply quiet_bind; [|intros _; hush].
      apply quiet_emit. cbn [dark]. rewrite is_light_set_beep. exact Hsc. }
    destruct (combine_try (score (me w)) (depth (me w))) as [sc|sc|e] eqn:C.
    + apply Q; [|exact Hw].
      rewrite (@combine_light _ _ sc (or_introl C)). exact Hw.
    + apply Q; [|exact Hw].
      rewrite (@combine_light _ _ sc (or_intror C)). exact Hw.
    + exact (@quiet_raise unit e w Hw).
Qed.

Lemma quiet_button2 (d : string) : quiet (_process_button2 ext d).
Proof. unfold _process_button2. hush. Qed.

Lemma quiet_button3 (d : string) : quiet (_process_button3 ext d).
Proof.
  unfold _process_button3, _inside_menu.
  apply quiet_bind; [hush|]. intros [|].
  - apply quiet_bind; [hush|]. intros mn.
    destruct (right ext mn) as [mn1 t] eqn:E.
    apply quiet_bind; [hush|]. intros _.
    apply quiet_emit. destruct texts_ok as (_ & _ & _ & _ & Hr & _).
    specialize (Hr mn). rewrite E in Hr. exact Hr.
  - apply quiet_bind; [hush|]. intros s.
    apply quiet_bind; [|intros _; hush].
    apply quiet_emit. apply move_or_nomove_dark.
Qed.

Lemma quiet_button4 (d : string) : quiet (_process_button4 ext d).
Proof.
  unfold _process_button4.
  apply quiet_bind; [hush|]. intros mn.
  destruct (down ext mn) as [mn1 [t|]] eqn:E;
    (apply quiet_bind; [hush|]); intros _; [|hush].
  apply quiet_emit. destruct texts_ok as (_ & _ & Hdown & _).
  apply (Hdown mn). rewrite E. reflexivity.
Qed.

Lemma quiet_lever (side : bool) (d : string) :
  quiet (_process_lever ext side d).
Proof. unfold _process_lever, _inside_menu. hush. Qed.

Lemma quiet_process_button (message : ButtonMessage) :
  quiet (_process_button ext message).
Proof.
  unfold _process_button.
  apply quiet_bind; [hush|]. intros mn.
  destruct (negb (engine_restart mn)); [|hush].
  destruct (button message =? 0)%Z; [apply quiet_button0|].
  destruct (button message =? 1)%Z; [apply quiet_button1|].
  destruct (button message =? 2)%Z; [apply quiet_button2|].
  destruct (button message =? 3)%Z; [apply quiet_button3|].
  destruct (button message =? 4)%Z; [apply quiet_button4|].
  destruct (button message =? 17)%Z; [unfold _power_off; hush|].
  destruct (button message =? 64)%Z; [apply quiet_lever|].
  destruct (button message =? -64)%Z; [apply quiet_lever|].
  hush.
Qed.

(** ** The flag and the board agree *)

Lemma quiet_keeps {A : Type} (c : M NavState A) :
  quiet c -> keeps_led_inv c.
Proof.
  intros Hc w (Hl & Ha & Hs). destruct (Hc w Hs) as (Es & El & acts & Ea & Hd).
  unfold led_inv. rewrite Es, El, Ea, lit_after_app, (lit_after_dark _ Hd).
  split; [exact Hl|]. split; [|exact Hs].
  apply alternate_app. split; [exact Ha | apply alternate_dark; exact Hd].
Qed.

Lemma keeps_inv_bind {A B : Type} (c : M NavState A) (k : A -> M NavState B) :
  keeps_led_inv c -> (forall a, keeps_led_inv (k a)) ->
  keeps_led_inv (bind c k).
Proof.
  intros Hc Hk w Hw. unfold bind. specialize (Hc w Hw).
  destruct (c w) as [[a|e] w1]; cbn [snd] in *; [|exact Hc].
  apply Hk. exact Hc.
Qed.

Lemma keeps_inv_clear_lights : keeps_led_inv (@clear_lights NavState).
Proof.
  intros w Hw. unfold clear_lights, bind, get_me.
  destruct (leds_are_on (me w)) eqn:E; [|exact Hw].
  destruct Hw as (Hl & Ha & Hs). cbn. unfold led_inv.
  cbn [me actions leds_are_on set_leds_are_on score].
  rewrite lit_after_app. split; [reflexivity|]. split; [|exact Hs].
  apply alternate_app. split; [exact Ha|]. cbn. rewrite <- Hl, E.
  split; [reflexivity | exact I].
Qed.

Lemma keeps_inv_reset : keeps_led_inv (_reset_moves_and_score ext).
Proof.
  intros w (Hl & Ha & Hs). unfold _reset_moves_and_score. cbn.
  split; [exact Hl|]. split; [exact Ha|]. apply texts_ok.
Qed.

Lemma keeps_inv_set_score (text_id : string) (arg : TextArg) :
  keeps_led_inv (@modify_me NavState (set_score (text ext text_id arg))).
Proof.
  intros w (Hl & Ha & Hs). cbn.
  split; [exact Hl|]. split; [exact Ha|]. apply texts_ok.
Qed.

Lemma keeps_inv_computer_move
      (Game Clock : Type) (co : Collaborators NavState Game Clock)
      (move : Move) (ponder : option Move) (game : Game) (wait : bool) :
  keeps_led_inv
    (_process_computer_move ext co move ponder game wait).
Proof.
  intros w Hw. unfold _process_computer_move.
  unfold bind at 1. cbn [get_me].
  destruct (leds_are_on (me w)) eqn:E; destruct Hw as (Hl & Ha & Hs);
    destruct (ponder_truthy ponder);
    cbn; unfold led_inv; cbn [me actions leds_are_on score];
    rewrite !lit_after_app; (split; [reflexivity|]); (split; [|exact Hs]);
    repeat (apply alternate_app; split); rewrite ?lit_after_app;
    try exact Ha; cbn; rewrite <- ?Hl, ?E; auto.
Qed.

Lemma quiet_show_score (k : DgtApi -> DgtApi) :
  (forall t, is_light (k t) = is_light t) ->
  quiet (bind (@_combine_depth_and_score NavState)
              (fun t => emit (Dispatch (k t)))).
Proof.
  intros Hk w Hw.
  assert (Run : bind (@_combine_depth_and_score NavState)
                     (fun t => emit (Dispatch (k t))) w
                = match combine_try (score (me w)) (depth (me w)) with
                  | Completed sc | Caught sc => emit (Dispatch (k sc)) w
                  | Escaped e => (Raised e, w)
                  end).
  { unfold bind at 1, _combine_depth_and_score, bind at 1. cbn [get_me].
    destruct (combine_try (score (me w)) (depth (me w))); reflexivity. }
  rewrite Run.
  destruct (combine_try (score (me w)) (depth (me w))) as [sc|sc|e] eqn:C.
  - apply quiet_emit; [|exact Hw]. cbn [dark]. rewrite Hk.
    rewrite (@combine_light _ _ sc (or_introl C)). exact Hw.
  - apply quiet_emit; [|exact Hw]. cbn [dark]. rewrite Hk.
    rewrite (@combine_light _ _ sc (or_intror C)). exact Hw.
  - exact (@quiet_raise unit e w Hw).
Qed.

Lemma quiet_unless_confirmed (show_ok : bool) (t : DgtApi) :
  is_light t = false -> quiet (@unless_confirmed NavState show_ok t).
Proof.
  intros Ht. unfold unless_confirmed.
  apply quiet_bind; [hush|]. intros mn.
  destruct (negb (confirm mn) || negb show_ok); [|hush].
  apply quiet_emit. exact Ht.
Qed.

Lemma quiet_select_engine (file : string) (engines : list Engine) (i : nat) :
  quiet (@select_engine NavState file engines i).
Proof.
  revert i. induction engines as [|e rest IH]; intros i; cbn [select_engine].
  - hush.
  - apply quiet_bind; [hush|]. intros _. apply IH.
Qed.

#[local] Hint Resolve quiet_select_engine quiet_process_fen
  quiet_process_button : hush.

Section Desk.

Variable Game : Type.
Variable Clock : Type.
Variable co : Collaborators NavState Game Clock.

Lemma lift_world (c : M NavState unit) (d : Desk NavState Clock) :
  world (snd (lift c d)) = snd (c (world d)).
Proof. unfold lift. destruct (c (world d)) as [o w]. reflexivity. Qed.

Lemma lift_returned (c : M NavState unit) (d : Desk NavState Clock) :
  time_control (snd (lift c d)) = time_control d.
Proof. unfold lift. destruct (c (world d)) as [o w]. reflexivity. Qed.

(** Splits a handler at the places where the lights are cleared. *)
Ltac calm :=
  repeat first
    [ apply keeps_inv_clear_lights
    | apply keeps_inv_reset
    | apply keeps_inv_set_score
    | apply quiet_keeps; solve [hush]
    | apply keeps_inv_bind; [| intros ?] ].

Lemma serial_nr_keeps_led_inv (d : Desk NavState Clock) :
  led_inv (world d) ->
  led_inv (world (snd (_process_dgt_serial_nr ext co d))).
Proof.
  destruct d as [w tc]. cbn [world]. intros Hw.
  unfold _process_dgt_serial_nr. cbn [world time_control]. cbv zeta.
  destruct (Mode_eqb (mode (dgtmenu w)) PONDER
            && negb (inside_menu ext (dgtmenu w))); [|exact Hw].
  assert (Shown : forall t, is_light t = false ->
            led_inv {| me := me w; dgtmenu := dgtmenu w;
                       actions := (actions w
                                   ++ [Dispatch (set_wait true t)])%list |}).
  { intros t Ht. destruct Hw as (Hl & Ha & Hs). unfold led_inv.
    cbn [me actions]. rewrite lit_after_app.
    assert (Hd : Forall dark [Dispatch (set_wait true t)])
      by (constructor; [exact Ht | constructor]).
    rewrite (lit_after_dark _ Hd). split; [exact Hl|]. split; [|exact Hs].
    apply alternate_app. split; [exact Ha | apply alternate_dark; exact Hd]. }
  assert (Ended : forall (o : Outcome DgtApi),
            match o with Done t => is_light t = false | Raised _ => True end ->
            led_inv
              (world
                 (snd
                    (match (o, w) with
                     | (Raised e, w1) =>
                         (Threw e, {| world := w1; time_control := tc |})
                     | (Done t, w1) =>
                         if (get_ponderinterval co (dgtmenu w) * 2 =? 0)%Z
                         then (ZeroDivisionError,
                               {| world :=
                                    {| me := me w1; dgtmenu := dgtmenu w1;
                                       actions :=
                                         (actions w1
                                          ++ [Dispatch (set_wait true t)])%list |};
                                  time_control := tc |})
                         else (Returned,
                               {| world :=
                                    {| me := set_show_move_or_value
                                               ((show_move_or_value (me w) + 1)
                                                  mod (get_ponderinterval co
                                                         (dgtmenu w) * 2))%Z
                                               (me w1);
                                       dgtmenu := dgtmenu w1;
                                       actions :=
                                         (actions w1
                                          ++ [Dispatch (set_wait true t)])%list |};
                                  time_control := tc |})
                     end)))).
  { intros [t|e] Ho; cbn [snd world]; [|exact Hw].
    destruct (get_ponderinterval co (dgtmenu w) * 2 =? 0)%Z;
      cbn [snd world]; [apply Shown; exact Ho|].
    exact (Shown t Ho). }
  destruct (show_move_or_value (me w) >=? get_ponderinterval co (dgtmenu w))%Z.
  - destruct (move_truthy (hint_move (me w))).
    + refine (Ended (Done _) _). reflexivity.
    + refine (Ended (Done _) _). apply texts_ok.
  - unfold _combine_depth_and_score, bind, get_me.
    destruct (combine_try (score (me w)) (depth (me w))) as [sc|sc|e] eqn:C;
      cbn [ret raise].
    + apply (Ended (Done sc)).
      rewrite (@combine_light _ _ sc (or_introl C)). apply Hw.
    + apply (Ended (Done sc)).
      rewrite (@combine_light _ _ sc (or_intror C)). apply Hw.
    + exact (Ended (Raised e) I).
Qed.

Lemma step_keeps_led_inv (message : Message.t Game) (d : Desk NavState Clock) :
  carries_no_light message ->
  led_inv (world d) ->
  led_inv (world (snd (_process_message ext co message d))).
Proof.
  intros Hm Hw.
  destruct message; cbn [_process_message carries_no_light] in *;
    try exact Hw;
    try (apply serial_nr_keeps_led_inv; exact Hw);
    rewrite lift_world; cbn [world];
    match goal with
    | |- led_inv (snd (?c ?w)) =>
        revert Hw; generalize w; change (keeps_led_inv c)
    end.
  all: try solve [calm].
  all: try solve [apply quiet_keeps; apply quiet_emit; exact Hm].
  all: try solve [apply quiet_keeps; apply quiet_unless_confirmed; exact Hm].
  - unfold _process_engine_ready. apply quiet_keeps.
    apply quiet_bind; [hush|]. intros mn.
    apply quiet_bind; [hush|]. intros _.
    apply quiet_bind; [hush|]. intros _.
    apply quiet_bind; [apply quiet_unless_confirmed; exact Hm|]. intros _.
    hush.
  - apply keeps_inv_computer_move.
  - apply quiet_keeps. apply quiet_bind; [hush|]. intros mn.
    destruct (negb (engine_restart mn)); [|hush].
    apply quiet_emit. exact Hm.
  - apply quiet_keeps. apply quiet_bind; [hush|]. intros mn.
    destruct (negb (engine_restart mn)); [|hush].
    apply quiet_emit. cbn [dark]. unfold game_ends_text.
    rewrite is_light_set_maxtime, is_light_set_beep. apply texts_ok.
  - apply quiet_keeps. apply quiet_bind; [hush|]. intros _.
    apply quiet_unless_confirmed. exact Hm.
  - unfold _process_new_score.
    apply keeps_inv_bind; [destruct mate; apply keeps_inv_set_score|].
    intros _. apply quiet_keeps. apply quiet_bind; [unfold _inside_menu; hush|].
    intros inside. destruct (Mode_eqb _ KIBITZ && negb inside); [|hush].
    apply (quiet_show_score (fun t => t)). reflexivity.
  - apply quiet_keeps. apply quiet_bind; [apply quiet_emit; exact Hm|].
    intros _. hush.
Qed.

(** The flag and the board agree after any messages, also when the
    thread has ended with an exception. *)
Lemma run_keeps_led_inv (messages : list (Message.t Game))
      (d : Desk NavState Clock) :
  Forall carries_no_light messages ->
  led_inv (world d) ->
  led_inv (world (snd (run ext co messages d))).
Proof.
  intros Hm. revert d.
  induction Hm as [|message rest Hx _ IH]; intros d Hd; [exact Hd|].
  cbn [run]. assert (H1 := step_keeps_led_inv message d Hx Hd).
  destruct (_process_message ext co message d) as [[|e|] d1];
    cbn [snd] in *; [apply IH; exact H1 | exact H1 | exact H1].
Qed.

End Desk.

(** X16.  The flag [leds_are_on] tells what the board shows, and the
    light commands alternate.  Let the translation and the menu hand out
    no light commands, and let no message bring one as its text.  After
    any messages to a display that was just created, also when a handler
    has raised, [leds_are_on] holds exactly when the last light command
    that was dispatched is LIGHT_SQUARES; LIGHT_CLEAR was dispatched only
    while squares were lit, and LIGHT_SQUARES only while none was. *)
Theorem lights_follow_the_flag
  (Game Clock : Type) (co : Collaborators NavState Game Clock)
  (mn : DgtMenu NavState) (tc : Clock) (messages : list (Message.t Game)) :
  Forall carries_no_light messages ->
  let w := world (snd (run ext co messages (created ext mn tc))) in
  leds_are_on (me w) = lit_after false (actions w) /\
  lights_alternate false (actions w).
Proof.
  intros Hm w.
  assert (H0 : led_inv (world (created ext mn tc))).
  { split; [reflexivity|]. split; [exact I|]. apply texts_ok. }
  destruct (run_keeps_led_inv co (created ext mn tc) Hm H0) as (Hl & Ha & _).
  split; [exact Hl | exact Ha].
Qed.

End Lights.

Import DisplaySamples PlaySamples.

(** An opening in which the computer changes its mind. *)
Lemma lights_follow_the_flag_witness :
  let w := world (snd (run sample_ext sample_co opening
                           (created sample_ext sample_menu tt))) in
  leds_are_on (me w) = lit_after false (actions w) /\
  lights_alternate false (actions w).
Proof.
  apply (@lights_follow_the_flag unit sample_ext);
    [repeat split; try reflexivity; cbn; intros; discriminate
    | repeat constructor].
Defined.

End LightFacts.

(* ================================================================== *)
(** * Properties of the moves of a game *)
(* ================================================================== *)

Module GameFacts.
Import Api Py Display Buttons Play Ponder.

Local Open Scope string_scope.

Section Game.

Variable NavState : Type.
Variable ext : External NavState.
Variable Game : Type.
Variable Clock : Type.
Variable co : Collaborators NavState Game Clock.

(** The state after the move of the computer was shown. *)
Lemma computer_move_run (d : Desk NavState Clock) (move : Move)
      (ponder : option Move) (game : Game) (wait : bool) :
  _process_message ext co (Message.COMPUTER_MOVE move ponder game wait) d =
  (Returned,
   {| world :=
        {| me :=
             set_leds_are_on true
               ((if ponder_truthy ponder
                 then set_hint (match ponder with
                                | Some mv => mv
                                | None => NullMove
                                end)
                               (Some (game_fen co (pushed co game move)))
                               (Some (game_turn co (pushed co game move)))
                 else set_hint NullMove None None)
                  (set_play move (Some (game_fen co game))
                            (Some (game_turn co game))
                            (set_engine_finished true (me (world d)))));
           dgtmenu := dgtmenu (world d);
           actions :=
             (actions (world d)
              ++ (if leds_are_on (me (world d))
                  then [Dispatch light_clear] else [])
              ++ [Dispatch
                    {| body := DISPLAY_MOVE move (Some (game_fen co game))
                                 (_get_clock_side (Some (game_turn co game)))
                                 (bl ext BL_CONFIG) all_devs;
                       Api.wait := Some wait; maxtime := Some 0%Q |};
                  Dispatch (light_squares move)])%list |};
      time_control := time_control d |}).
Proof.
  destruct d as [[s mn acts] tc]. cbn [_process_message world time_control].
  unfold lift, _process_computer_move. cbn [world time_control].
  cbv [bind get_me modify_me emit ret]. cbn [me dgtmenu actions].
  destruct (leds_are_on s); destruct (ponder_truthy ponder);
    cbn [me dgtmenu actions app]; rewrite <- ?app_assoc; reflexivity.
Qed.

(** The state after the move of the computer was made on the board. *)
Lemma computer_move_done_run (d : Desk NavState Clock) :
  let s := me (world d) in
  _process_message ext co Message.COMPUTER_MOVE_DONE d =
  (Returned,
   {| world :=
        {| me :=
             set_engine_finished false
               (set_play NullMove None None
                  (set_last (play_move s) (play_fen s) (play_turn s)
                            (if leds_are_on s then set_leds_are_on false s
                             else s)));
           dgtmenu := dgtmenu (world d);
           actions :=
             (actions (world d)
              ++ (if leds_are_on s then [Dispatch light_clear] else [])
              ++ (if confirm (dgtmenu (world d)) then []
                  else [Dispatch (text ext "K05_okpico" NoArg)])
              ++ (match clock_mode co (time_control d) with
                  | FIXED => [Dispatch (display_time all_devs)]
                  | _ => []
                  end))%list |};
      time_control := time_control d |}).
Proof.
  destruct d as [[s mn acts] tc]. cbn [_process_message world time_control].
  unfold lift, _process_computer_move_done, clear_lights.
  cbn [world time_control me dgtmenu actions].
  cbv [bind get_me get_menu modify_me emit ret]. cbn [me dgtmenu actions].
  destruct (leds_are_on s); cbn [me dgtmenu actions];
    destruct (confirm mn); cbn [negb me dgtmenu actions];
    destruct (clock_mode co tc); cbn [me dgtmenu actions app];
    rewrite <- ?app_assoc, ?app_nil_r; reflexivity.
Qed.

(** X17.  The move of the computer becomes the last move once it is
    done.  After COMPUTER_MOVE and COMPUTER_MOVE_DONE, from any state,
    the last move is the move of the message with the position and the
    side to move of its game, no move is pending, the engine is not
    marked finished and the flag of the lights is off.  What was
    dispatched is: LIGHT_CLEAR if lights were on, the move without
    maximal time, LIGHT_SQUARES for the move, LIGHT_CLEAR, the text
    "K05_okpico" unless the menu confirms, and the clock when the time
    control is a fixed one. *)
Theorem computer_move_becomes_last_move
  (d : Desk NavState Clock) (move : Move) (ponder : option Move)
  (game : Game) (wait : bool) :
  let r := run ext co [Message.COMPUTER_MOVE move ponder game wait;
                       Message.COMPUTER_MOVE_DONE] d in
  let w := world d in
  let w' := world (snd r) in
  fst r = Returned /\
  last_move (me w') = move /\
  last_fen (me w') = Some (game_fen co game) /\
  last_turn (me w') = Some (game_turn co game) /\
  play_move (me w') = NullMove /\
  play_fen (me w') = None /\
  play_turn (me w') = None /\
  engine_finished (me w') = false /\
  leds_are_on (me w') = false /\
  dgtmenu w' = dgtmenu w /\
  actions w' =
  (actions w
   ++ (if leds_are_on (me w) then [Dispatch light_clear] else [])
   ++ [Dispatch {| body := DISPLAY_MOVE move (Some (game_fen co game))
                             (_get_clock_side (Some (game_turn co game)))
                             (bl ext BL_CONFIG) all_devs;
                   Api.wait := Some wait; maxtime := Some 0%Q |};
       Dispatch (light_squares move);
       Dispatch light_clear]
   ++ (if confirm (dgtmenu w) then []
       else [Dispatch (text ext "K05_okpico" NoArg)])
   ++ (match clock_mode co (time_control d) with
       | FIXED => [Dispatch (display_time all_devs)]
       | _ => []
       end))%list.
Proof.
  cbn [run]. rewrite computer_move_run. cbn [fst snd].
  rewrite computer_move_done_run. cbn [fst snd world time_control].
  cbn [me dgtmenu actions leds_are_on set_leds_are_on].
  destruct (ponder_truthy ponder); repeat (split; [reflexivity|]);
    cbn [leds_are_on set_leds_are_on set_hint]; rewrite <- !app_assoc;
    reflexivity.
Qed.

(** X18.  Button 0 shows the move that the computer has made.  Outside
    the menu and with no restart pending, after COMPUTER_MOVE with a move
    that is not the null move and COMPUTER_MOVE_DONE, the button
    dispatches that move with the position and the side of the game of
    the message, not waiting and for one second, and then the clock; the
    fields of the display stay as they were after the move. *)
Theorem last_move_button_shows_computer_move
  (d : Desk NavState Clock) (move : Move) (ponder : option Move)
  (game : Game) (wait : bool) (dev : string) :
  engine_restart (dgtmenu (world d)) = false ->
  inside_menu ext (dgtmenu (world d)) = false ->
  move_truthy move = true ->
  let played := [Message.COMPUTER_MOVE move ponder game wait;
                 Message.COMPUTER_MOVE_DONE] in
  let d1 := snd (run ext co played d) in
  let r := run ext co
               (played ++ [Message.DGT_BUTTON {| button := 0; dev := dev |}])
               d in
  fst r = Returned /\
  me (world (snd r)) = me (world d1) /\
  dgtmenu (world (snd r)) = dgtmenu (world d) /\
  actions (world (snd r)) =
  (actions (world d1)
   ++ [Dispatch {| body := DISPLAY_MOVE move (Some (game_fen co game))
                             (_get_clock_side (Some (game_turn co game)))
                             (bl ext BL_BUTTON) all_devs;
                   Api.wait := Some false; maxtime := Some 1%Q |};
       Dispatch (display_time all_devs)])%list.
Proof.
  intros Hr Hi Hm played d1 r. subst played d1 r.
  cbn [run app]. rewrite computer_move_run. cbn [fst snd].
  rewrite computer_move_done_run. cbn [fst snd world time_control].
  cbn [_process_message]. unfold lift. cbn [world time_control].
  rewrite ButtonFacts.last_move_button;
    [| cbn [dgtmenu]; exact Hr | cbn [dgtmenu]; exact Hi].
  cbn [fst snd world]. unfold dispatched. cbn [me dgtmenu actions map].
  unfold shown_on_exit, move_or_nomove.
  destruct (ponder_truthy ponder);
    cbn [last_move last_fen last_turn play_move play_fen play_turn
         set_engine_finished set_play set_last set_leds_are_on set_hint
         leds_are_on move_truthy andb];
    rewrite Hm, Hi; repeat (split; [reflexivity|]); reflexivity.
Qed.

(** One tick in ponder mode, outside the menu. *)
Lemma tick_run (d : Desk NavState Clock) :
  let w := world d in
  let p := get_ponderinterval co (dgtmenu w) in
  mode (dgtmenu w) = PONDER ->
  inside_menu ext (dgtmenu w) = false ->
  p <> 0 ->
  (forall e, combine_try (score (me w)) (depth (me w)) <> Escaped e) ->
  _process_dgt_serial_nr ext co d =
  (Returned,
   {| world :=
        {| me := set_show_move_or_value
                   ((show_move_or_value (me w) + 1) mod (p * 2)) (me w);
           dgtmenu := dgtmenu w;
           actions :=
             (actions w
              ++ [Dispatch (ponder_shown ext co (me w) (dgtmenu w)
                                         (show_move_or_value (me w)))])%list |};
      time_control := time_control d |}).
Proof.
  destruct d as [[s mn acts] tc]. cbn [world me dgtmenu actions time_control].
  intros Hm Hi Hp Hc.
  unfold _process_dgt_serial_nr, ponder_shown.
  cbn [world me dgtmenu actions time_control]. cbv zeta.
  rewrite Hm, Hi. cbn [Mode_eqb negb andb].
  assert (E : (get_ponderinterval co mn * 2 =? 0)%Z = false)
    by (apply Z.eqb_neq; lia).
  destruct (show_move_or_value s >=? get_ponderinterval co mn)%Z.
  - destruct (move_truthy (hint_move s)); cbn [me dgtmenu actions];
      rewrite E; reflexivity.
  - unfold _combine_depth_and_score, bind, get_me. cbn [me].
    destruct (combine_try (score s) (depth s)) as [sc|sc|e] eqn:C;
      cbn [ret raise me dgtmenu actions];
      [rewrite E; reflexivity | rewrite E; reflexivity |].
    exfalso. exact (Hc e eq_refl).
Qed.

Lemma ticks_run (n : nat) :
  forall d : Desk NavState Clock,
  let w := world d in
  let p := get_ponderinterval co (dgtmenu w) in
  mode (dgtmenu w) = PONDER ->
  inside_menu ext (dgtmenu w) = false ->
  0 < p ->
  0 <= show_move_or_value (me w) < p * 2 ->
  (forall e, combine_try (score (me w)) (depth (me w)) <> Escaped e) ->
  let r := run ext co (ticks Game n) d in
  fst r = Returned /\
  show_move_or_value (me (world (snd r)))
  = (show_move_or_value (me w) + Z.of_nat n) mod (p * 2) /\
  actions (world (snd r))
  = (actions w
     ++ map (fun k =>
               Dispatch
                 (ponder_shown ext co (me w) (dgtmenu w)
                    ((show_move_or_value (me w) + Z.of_nat k) mod (p * 2))))
            (seq 0 n))%list.
Proof.
  induction n as [|n IH]; intros d; cbv zeta; intros Hm Hi Hp Hc He.
  - cbn [ticks repeat run fst snd seq map].
    rewrite Z.add_0_r, Z.mod_small, app_nil_r by exact Hc.
    repeat split.
  - cbn [ticks repeat run _process_message].
    assert (Hp0 : get_ponderinterval co (dgtmenu (world d)) <> 0) by lia.
    rewrite (tick_run d Hm Hi Hp0 He).
    set (p := get_ponderinterval co (dgtmenu (world d))) in *.
    set (d1 := {| world := _; time_control := _ |}).
    assert (B : 0 <= (show_move_or_value (me (world d)) + 1) mod (p * 2)
                < p * 2)
      by (apply Z.mod_pos_bound; lia).
    destruct (IH d1 Hm Hi Hp B He) as (R1 & R2 & R3).
    fold (ticks Game n). split; [exact R1|]. split.
    + rewrite R2. cbn [d1 world me dgtmenu show_move_or_value
                        set_show_move_or_value]. fold p.
      rewrite Z.add_mod_idemp_l by lia. f_equal. lia.
    + rewrite R3. cbn [d1 world me dgtmenu actions show_move_or_value
                        set_show_move_or_value]. fold p.
      rewrite <- app_assoc. f_equal. cbn [app seq map].
      f_equal.
      * rewrite Z.add_0_r, Z.mod_small by exact Hc. reflexivity.
      * rewrite <- seq_shift, map_map. apply map_ext. intros k.
        rewrite Z.add_mod_idemp_l by lia.
        replace (show_move_or_value (me (world d)) + 1 + Z.of_nat k)
          with (show_move_or_value (me (world d)) + Z.of_nat (S k)) by lia.
        reflexivity.
Qed.

(** X19.  The ponder display rotates.  In ponder mode, outside the menu,
    with a positive ponder interval [p], a counter in its range and a
    score that can be combined with the depth, [n] ticks of the watchdog
    return, dispatch one waiting command each and leave the counter at
    its start value plus [n], modulo [2 p]: tick after tick the score is
    shown while the counter is below [p] and the hint move, or the text
    "N10_nomove", while it is not. *)
Theorem ponder_display_rotates (d : Desk NavState Clock) (n : nat) :
  let w := world d in
  let p := get_ponderinterval co (dgtmenu w) in
  let c := show_move_or_value (me w) in
  mode (dgtmenu w) = PONDER ->
  inside_menu ext (dgtmenu w) = false ->
  0 < p ->
  0 <= c < p * 2 ->
  (forall e, combine_try (score (me w)) (depth (me w)) <> Escaped e) ->
  let r := run ext co (ticks Game n) d in
  fst r = Returned /\
  show_move_or_value (me (world (snd r))) = (c + Z.of_nat n) mod (p * 2) /\
  actions (world (snd r))
  = (actions w
     ++ map (fun k =>
               Dispatch (ponder_shown ext co (me w) (dgtmenu w)
                                      ((c + Z.of_nat k) mod (p * 2))))
            (seq 0 n))%list /\
  forall v, wait (ponder_shown ext co (me w) (dgtmenu w) v) = Some true.
Proof.
  intros w p c Hm Hi Hp Hc He r.
  destruct (ticks_run n d Hm Hi Hp Hc He) as (R1 & R2 & R3).
  split; [exact R1|]. split; [exact R2|]. split; [exact R3|].
  intros v. reflexivity.
Qed.

(** What the loop of [_process_engine_ready] does. *)
Lemma select_engine_run (file : string) (engines : list Engine) :
  forall (i : nat) (w : World NavState),
  select_engine file engines i w =
  (Done tt,
   {| me := me w;
      dgtmenu := match last_match file engines i with
                 | Some j => set_engine_index j (dgtmenu w)
                 | None => dgtmenu w
                 end;
      actions := actions w |}).
Proof.
  induction engines as [|e rest IH]; intros i w; cbn [select_engine last_match].
  - destruct w; reflexivity.
  - unfold bind at 1.
    destruct (String.eqb (eng_file e) file); cbn [modify_menu ret];
      rewrite IH; cbn [me dgtmenu actions];
      destruct (last_match file rest (S i)); reflexivity.
Qed.

Lemma last_match_none (file : string) (engines : list Engine) :
  forall i, last_match file engines i = None ->
  forall e, In e engines -> eng_file e <> file.
Proof.
  induction engines as [|e0 rest IH]; intros i H e He; [destruct He|].
  cbn [last_match] in H.
  destruct (last_match file rest (S i)) eqn:L; [discriminate|].
  destruct (String.eqb (eng_file e0) file) eqn:E; [discriminate|].
  destruct He as [<-|He]; [apply String.eqb_neq; exact E|].
  exact (IH (S i) L e He).
Qed.

Lemma last_match_some (file : string) (engines : list Engine) :
  forall i k, last_match file engines i = Some k ->
  exists j e,
    k = (i + j)%nat /\ nth_error engines j = Some e /\ eng_file e = file /\
    forall j' e', (j < j')%nat -> nth_error engines j' = Some e' ->
                  eng_file e' <> file.
Proof.
  induction engines as [|e0 rest IH]; intros i k H; [discriminate|].
  cbn [last_match] in H.
  destruct (last_match file rest (S i)) as [k1|] eqn:L.
  - injection H as <-. destruct (IH (S i) k1 L) as (j & e & Hk & Hn & Hf & Hmax).
    exists (S j), e. split; [lia|]. split; [exact Hn|]. split; [exact Hf|].
    intros [|j'] e' Hlt Hn'; [lia|]. apply (Hmax j' e'); [lia | exact Hn'].
  - destruct (String.eqb (eng_file e0) file) eqn:E; [|discriminate].
    injection H as <-. exists 0%nat, e0. split; [lia|].
    split; [reflexivity|]. split; [apply String.eqb_eq; exact E|].
    intros [|j'] e' Hlt Hn'; [lia|]. cbn in Hn'.
    apply (@last_match_none file rest (S i) L). eapply nth_error_In. exact Hn'.
Qed.

Lemma engine_ready_run
      (d : Desk NavState Clock) (file : string) (eng_text : DgtApi)
      (has_960 show_ok : bool) :
  _process_message ext co
    (Message.ENGINE_READY file eng_text has_960 show_ok) d =
  (Returned,
   {| world :=
        {| me := me (world d);
           dgtmenu :=
             set_engine_restart false
               (set_engine_has_960 has_960
                  match last_match file (installed_engines (dgtmenu (world d)))
                                   0 with
                  | Some j => set_engine_index j (dgtmenu (world d))
                  | None => dgtmenu (world d)
                  end);
           actions :=
             (actions (world d)
              ++ (if negb (confirm (dgtmenu (world d))) || negb show_ok
                  then [Dispatch eng_text] else []))%list |};
      time_control := time_control d |}).
Proof.
  destruct d as [[s mn0 acts] tc].
  cbn [_process_message world time_control me dgtmenu actions].
  unfold lift, _process_engine_ready. cbn [world time_control].
  unfold bind at 1. cbn [get_menu dgtmenu].
  unfold bind at 1. rewrite select_engine_run. cbn [me dgtmenu actions].
  unfold bind at 1. cbn [modify_menu me dgtmenu actions].
  unfold bind at 1, unless_confirmed, bind at 1. cbn [get_menu dgtmenu].
  assert (Ec : confirm (set_engine_has_960 has_960
                          match last_match file (installed_engines mn0) 0 with
                          | Some j => set_engine_index j mn0
                          | None => mn0
                          end) = confirm mn0)
    by (destruct (last_match file (installed_engines mn0) 0); reflexivity).
  rewrite Ec.
  destruct (negb (confirm mn0) || negb show_ok);
    cbn [emit ret modify_menu me dgtmenu actions];
    rewrite ?app_nil_r; reflexivity.
Qed.

(** X20.  ENGINE_READY selects the engine and ends the restart.  The
    handler returns; the restart flag of the menu is cleared, so that
    buttons are handled again, and the Chess960 flag is the one of the
    message.  The engine index becomes the place of the last installed
    engine with the file of the message and stays as it is when no
    installed engine has that file.  The text of the message is
    dispatched unless the menu confirms and the message asks for the
    confirmation; the fields of the display do not change. *)
Theorem engine_ready_selects_and_ends_restart
  (d : Desk NavState Clock) (file : string) (eng_text : DgtApi)
  (has_960 show_ok : bool) :
  let r := _process_message ext co
             (Message.ENGINE_READY file eng_text has_960 show_ok) d in
  let mn := dgtmenu (world d) in
  let mn' := dgtmenu (world (snd r)) in
  fst r = Returned /\
  engine_restart mn' = false /\
  engine_has_960 mn' = has_960 /\
  installed_engines mn' = installed_engines mn /\
  ((forall e, In e (installed_engines mn) -> eng_file e <> file) ->
   engine_index mn' = engine_index mn) /\
  (forall j e,
     nth_error (installed_engines mn) j = Some e ->
     eng_file e = file ->
     (forall j' e', (j < j')%nat ->
                    nth_error (installed_engines mn) j' = Some e' ->
                    eng_file e' <> file) ->
     engine_index mn' = j) /\
  me (world (snd r)) = me (world d) /\
  actions (world (snd r)) =
  (actions (world d)
   ++ (if negb (confirm mn) || negb show_ok then [Dispatch eng_text]
       else []))%list.
Proof.
  cbv zeta. rewrite engine_ready_run. cbn [fst snd world me dgtmenu actions].
  set (mn0 := dgtmenu (world d)).
  destruct (last_match file (installed_engines mn0) 0) as [k|] eqn:L;
    (split; [reflexivity|]); (split; [reflexivity|]);
    (split; [reflexivity|]); (split; [reflexivity|]);
    (split; [|split; [|split; reflexivity]]).
  - intros Hno; exfalso.
    destruct (@last_match_some file (installed_engines mn0) 0 k L)
      as (j & e & _ & Hn & Hf & _).
    exact (Hno e (nth_error_In _ _ Hn) Hf).
  - intros j e Hn Hf Hmax.
    destruct (@last_match_some file (installed_engines mn0) 0 k L)
      as (j0 & e0 & Hk & Hn0 & Hf0 & Hmax0).
    cbn [engine_index set_engine_has_960 set_engine_index set_engine_restart].
    subst k. cbn [Nat.add].
    destruct (Nat.lt_trichotomy j j0) as [Hlt|[Heq|Hgt]];
      [ exfalso; exact (Hmax j0 e0 Hlt Hn0 Hf0)
      | exact (eq_sym Heq)
      | exfalso; exact (Hmax0 j e Hgt Hn Hf) ].
  - intros _; reflexivity.
  - intros j e Hn Hf _; exfalso.
    exact (@last_match_none file (installed_engines mn0) 0 L e
             (nth_error_In _ _ Hn) Hf).
Qed.

(** ** A score before the first depth *)

(** On a display that has just been created, and outside the menu, a
    score that arrives in kibitz mode before any depth ends the handling
    of the message with the [TypeError] of [_combine_depth_and_score]:
    the text of the score is stored and nothing is dispatched. *)
Lemma score_before_depth_stops_display
      (mn : DgtMenu NavState) (tc : Clock) (v vs vl : Z) :
  inside_menu ext mn = false ->
  int (get_s (text ext "N10_score" (ArgInt v))) = Some vs ->
  int (last_chars 8 (get_l (text ext "N10_score" (ArgInt v)))) = Some vl ->
  _process_message ext co (Message.NEW_SCORE v None KIBITZ WHITE)
                   (created ext mn tc)
  = (Threw TypeError,
     {| world :=
          {| me := set_score (text ext "N10_score" (ArgInt v))
                             (me (world (created ext mn tc)));
             dgtmenu := mn; actions := [] |};
        time_control := tc |}).
Proof.
  intros Hin Hs Hl.
  cbn [_process_message]. unfold lift, _process_new_score.
  cbv [bind seq modify_me _inside_menu get_menu ret emit created world
       time_control me dgtmenu actions].
  rewrite Hin. cbn [Mode_eqb negb andb].
  unfold _combine_depth_and_score.
  cbv [bind get_me me set_score score depth].
  rewrite (DisplayFacts.combine_try_without_depth _ Hs Hl).
  reflexivity.
Qed.

End Game.

Import DisplaySamples PlaySamples.

(** The computer opens with the king's pawn; button 0 shows it. *)
Lemma last_move_button_witness :
  let played := [Message.COMPUTER_MOVE (UciMove "e2e4") None start_game false;
                 Message.COMPUTER_MOVE_DONE] in
  let d1 := snd (run sample_ext sample_co played sample_desk) in
  let r := run sample_ext sample_co
               (played ++ [Message.DGT_BUTTON {| button := 0; dev := "ser" |}])
               sample_desk in
  fst r = Returned /\
  me (world (snd r)) = me (world d1) /\
  dgtmenu (world (snd r)) = dgtmenu (world sample_desk) /\
  actions (world (snd r)) =
  (actions (world d1)
   ++ [Dispatch {| body := DISPLAY_MOVE (UciMove "e2e4")
                             (Some (fst start_game)) LEFT false all_devs;
                   Api.wait := Some false; maxtime := Some 1%Q |};
       Dispatch (display_time all_devs)])%list.
Proof.
  exact (@last_move_button_shows_computer_move unit sample_ext SampleGame unit
           sample_co sample_desk (UciMove "e2e4") None start_game false "ser"
           eq_refl eq_refl eq_refl).
Defined.

(** Seven ticks with an interval of three: three scores, three times
    "no move", and a score again. *)
Lemma ponder_display_witness :
  let r := run sample_ext sample_co (ticks SampleGame 7) ponder_desk in
  fst r = Returned /\
  show_move_or_value (me (world (snd r))) = 1 /\
  actions (world (snd r)) =
  [Dispatch (set_wait true (score sample_session));
   Dispatch (set_wait true (score sample_session));
   Dispatch (set_wait true (score sample_session));
   Dispatch (set_wait true (sample_text "N10_nomove" NoArg));
   Dispatch (set_wait true (sample_text "N10_nomove" NoArg));
   Dispatch (set_wait true (sample_text "N10_nomove" NoArg));
   Dispatch (set_wait true (score sample_session))].
Proof.
  assert (He : forall e,
            combine_try (score (me (world ponder_desk)))
                        (depth (me (world ponder_desk))) <> Escaped e)
    by (intros e; vm_compute; discriminate).
  destruct (@ponder_display_rotates unit sample_ext SampleGame unit sample_co
              ponder_desk 7 eq_refl eq_refl eq_refl
              (conj (Z.le_refl 0) eq_refl) He) as (R1 & R2 & R3 & _).
  split; [exact R1|]. split; [exact R2|]. exact R3.
Defined.

(** The score of 123 centipawns sent to a new display in kibitz mode. *)
Example score_before_depth_run :
  fst (run score_ext sample_co
           [Message.NEW_SCORE 123 None KIBITZ WHITE]
           (created score_ext sample_menu tt))
  = Threw TypeError.
Proof. reflexivity. Qed.

End GameFacts.

(* ================================================================== *)
(** * Properties of the engine wrapper *)
(* ================================================================== *)

Module UciFacts.
Import Api Uci.

Section Engine.

Variable TimeDict : Type.
Variable Future : Type.
Variable result : Future -> BestMove.

Lemma call_keeps_future (c : Call TimeDict Future) (self : UciEngine Future) :
  searching_has_future self ->
  searching_has_future (snd (fst (call result c self))) /\
  fst (fst (call result c self)) <> Some AttributeError.
Proof.
  intros H. destruct c; cbn.
  - split; [right|]; discriminate.
  - split; [right|]; discriminate.
  - unfold stop, is_waiting.
    destruct (status self) eqn:E; cbn [future];
      [ | | cbn; split; [left; exact E | discriminate] ];
      (destruct (future self) as [f|] eqn:F; cbn;
       [ split; [right; cbn; discriminate | discriminate]
       | exfalso; destruct H as [H|H];
         [congruence | apply H; congruence] ]).
  - split; [left; reflexivity | discriminate].
  - split; [exact H | discriminate].
  - split; [exact H | discriminate].
  - split; [exact H | discriminate].
Qed.

Lemma calls_keep_future (cs : list (Call TimeDict Future)) :
  forall self : UciEngine Future,
  searching_has_future self ->
  searching_has_future (fst (fst (calls result cs self))) /\
  ~ In AttributeError (snd (fst (calls result cs self))).
Proof.
  induction cs as [|c rest IH]; intros self H; cbn [calls].
  - split; [exact H | intros []].
  - destruct (@call_keeps_future c self H) as [H1 Hv].
    destruct (call result c self) as [[v self1] out1]. cbn [fst snd] in *.
    destruct (IH self1 H1) as [H2 Hvs].
    destruct (calls result rest self1) as [[self2 vs] out2]. cbn [fst snd] in *.
    split; [exact H2|].
    destruct v as [x|]; [|exact Hvs].
    intros [Hx|Hx]; [apply Hv; rewrite Hx; reflexivity | exact (Hvs Hx)].
Qed.

(** X21.  [stop] always finds the command object of the search.  After
    any calls of [go], [ponder], [stop], [callback], [option], [level] and
    [send] on an engine that was just created, either the engine waits or
    [future] is set, and no call of [stop] has ended with the
    [AttributeError] of a missing command object. *)
Theorem stop_finds_its_search (cs : list (Call TimeDict Future)) :
  let r := calls result cs (@init Future) in
  searching_has_future (fst (fst r)) /\
  ~ In AttributeError (snd (fst r)).
Proof.
  apply calls_keep_future. left. reflexivity.
Qed.

Lemma last_cons_any (x : bool) (l : list bool) (d d' : bool) :
  last (x :: l) d = last (x :: l) d'.
Proof.
  revert x. induction l as [|y l IH]; intros x; [reflexivity|].
  change (last (y :: l) d = last (y :: l) d'). apply IH.
Qed.

(** The calls of [stop] during a search, and the end of the search. *)
Lemma stops_then_callback (f : Future) (bs : list bool) :
  forall self : UciEngine Future,
  status self <> WAIT ->
  future self = Some f ->
  let r := calls result (map (@Stop TimeDict Future) bs ++ [Callback TimeDict f])
                 self in
  status (fst (fst r)) = WAIT /\
  res (fst (fst r)) = Some (result f) /\
  snd (fst r) = map (fun _ => Returns (Some (result f))) bs /\
  snd r
  = (map (fun _ => EngineStop TimeDict) bs
     ++ Fire TimeDict (STOP_SEARCH (status self))
        :: (if last bs (show_best self)
            then [Fire TimeDict (BEST_MOVE (bestmove (result f))
                                      (ponder_move (result f)) false)]
            else []))%list.
Proof.
  induction bs as [|b rest IH]; intros self Hs Hf.
  - cbn. split; [reflexivity|]. split; [reflexivity|].
    split; [reflexivity|]. rewrite app_nil_r. reflexivity.
  - cbn [map app calls call].
    assert (St : stop TimeDict result b self
                 = (Returns (Some (result f)),
                    {| options := options self; future := future self;
                       show_best := b; res := res self; status := status self;
                       level_support := level_support self |},
                    [EngineStop TimeDict])).
    { unfold stop, is_waiting. destruct (status self); cbn [future];
        try rewrite Hf; try reflexivity. contradiction Hs; reflexivity. }
    rewrite St.
    specialize (IH {| options := options self; future := future self;
                      show_best := b; res := res self; status := status self;
                      level_support := level_support self |} Hs Hf).
    cbv zeta in IH. cbn [status show_best] in IH.
    destruct (calls result (map (@Stop TimeDict Future) rest
                            ++ [Callback TimeDict f]) _) as [[self2 vs] out2].
    cbn [fst snd] in *. destruct IH as (R1 & R2 & R3 & R4).
    split; [exact R1|]. split; [exact R2|]. split; [rewrite R3; reflexivity|].
    rewrite R4. cbn [app]. do 3 f_equal.
    destruct rest as [|b0 rest]; [reflexivity|].
    change (last (b :: b0 :: rest) (show_best self))
      with (last (b0 :: rest) (show_best self)).
    rewrite (last_cons_any b0 rest b (show_best self)). reflexivity.
Qed.

(** X22.  A search reports its best move unless the last [stop] asked for
    silence.  Take [go], or [ponder], then any calls of [stop], then the
    [callback] of the search.  The events fired are START_SEARCH and
    STOP_SEARCH with the status of the search, followed by BEST_MOVE with
    the result of the search exactly when the last [stop] had [show_best]
    set, or, without a [stop], when the search was started by [go].  Each
    [stop] returns the result of the search; at the end the engine waits
    and keeps the result. *)
Theorem best_move_follows_last_stop
  (self : UciEngine Future) (start : Call TimeDict Future) (f : Future)
  (bs : list bool) :
  (exists time_dict, start = Go time_dict f) \/ start = Ponder TimeDict f ->
  let searching := match start with Ponder _ _ => PONDER | _ => THINK end in
  let by_go := match start with Ponder _ _ => false | _ => true end in
  let r := calls result
                 (start :: map (Stop TimeDict Future) bs
                  ++ [Callback TimeDict f])
                 self in
  status (fst (fst r)) = WAIT /\
  res (fst (fst r)) = Some (result f) /\
  snd (fst r) = map (fun _ => Returns (Some (result f))) bs /\
  fired (snd r)
  = (START_SEARCH searching :: STOP_SEARCH searching
     :: (if last bs by_go
         then [BEST_MOVE (bestmove (result f)) (ponder_move (result f)) false]
         else []))%list.
Proof.
  assert (Quiet : forall l : list bool,
            fired (map (fun _ => EngineStop TimeDict) l) = [])
    by (induction l; [reflexivity | assumption]).
  assert (Fapp : forall a b : list (Effect TimeDict),
            fired (a ++ b) = (fired a ++ fired b)%list)
    by (intros a b; unfold fired; apply flat_map_app).
  unfold fired in *.
  intros [[time_dict ->] | ->]; cbv zeta; cbn [calls call go ponder app].
  - set (self1 := {| options := options self; future := Some f;
                     show_best := true; res := res self; status := THINK;
                     level_support := level_support self |}).
    destruct (@stops_then_callback f bs self1 ltac:(discriminate) eq_refl)
      as (R1 & R2 & R3 & R4).
    destruct (calls result _ self1) as [[self2 vs] out2]. cbn [fst snd] in *.
    split; [exact R1|]. split; [exact R2|]. split; [exact R3|].
    rewrite R4. cbn [app flat_map]. rewrite Fapp, Quiet. cbn [app flat_map].
    subst self1. cbn [show_best status].
    destruct (last bs true); reflexivity.
  - set (self1 := {| options := options self; future := Some f;
                     show_best := false; res := res self; status := PONDER;
                     level_support := level_support self |}).
    destruct (@stops_then_callback f bs self1 ltac:(discriminate) eq_refl)
      as (R1 & R2 & R3 & R4).
    destruct (calls result _ self1) as [[self2 vs] out2]. cbn [fst snd] in *.
    split; [exact R1|]. split; [exact R2|]. split; [exact R3|].
    rewrite R4. cbn [app flat_map]. rewrite Fapp, Quiet. cbn [app flat_map].
    subst self1. cbn [show_best status].
    destruct (last bs false); reflexivity.
Qed.

End Engine.

Import UciSamples.

Local Open Scope string_scope.

(** A ponder search that is stopped twice, the second time for its
    result. *)
Lemma best_move_follows_last_stop_witness :
  let r := calls sample_result
                 (Ponder unit 1%nat
                  :: [Stop unit nat false; Stop unit nat true;
                      Callback unit 1%nat])
                 (init nat) in
  status (fst (fst r)) = WAIT /\
  res (fst (fst r)) = Some (sample_result 1) /\
  snd (fst r) = [Returns (Some (sample_result 1));
                 Returns (Some (sample_result 1))] /\
  fired (snd r)
  = [START_SEARCH PONDER; STOP_SEARCH PONDER;
     BEST_MOVE (UciMove "g1f3") (Some (UciMove "g8f6")) false].
Proof.
  exact (@best_move_follows_last_stop unit nat sample_result (init nat)
           (Ponder unit 1%nat) 1%nat [false; true] (or_intror eq_refl)).
Defined.

End UciFacts.

(* ================================================================== *)
(** * The widths of the score with its depth *)
(* ================================================================== *)

Module WidthFacts.
Import Api Py Display.

Local Open Scope string_scope.
Local Open Scope nat_scope.

Lemma length_spaces (n : nat) : String.length (spaces n) = n.
Proof. induction n as [|n IH]; cbn; [reflexivity | rewrite IH; reflexivity]. Qed.

(** Right alignment fills a short string up to the width. *)
Lemma length_rjust (width : nat) (s : string) :
  String.length s <= width -> String.length (rjust width s) = width.
Proof.
  intros H. unfold rjust. rewrite PyFacts.length_append, length_spaces. lia.
Qed.

Lemma length_digits_fuel (fuel : nat) :
  forall k n acc,
    n < 10 ^ S k ->
    String.length (digits_fuel fuel n acc) <= S k + String.length acc.
Proof.
  induction fuel as [|fuel IH]; intros k n acc Hn; cbn [digits_fuel]; [lia|].
  destruct (n / 10 =? 0) eqn:E; [cbn [String.length]; lia|].
  apply Nat.eqb_neq in E.
  destruct k as [|k].
  - exfalso. apply E. apply Nat.div_small. cbn in Hn. exact Hn.
  - assert (Hd : n / 10 < 10 ^ S k).
    { apply Nat.Div0.div_lt_upper_bound.
      rewrite (Nat.pow_succ_r' 10 (S k)) in Hn. exact Hn. }
    specialize (IH k (n / 10) (String (digit_char (n mod 10)) acc) Hd).
    cbn [String.length] in IH. lia.
Qed.

Lemma length_str_nat (k n : nat) :
  n < 10 ^ S k -> String.length (str_nat n) <= S k.
Proof.
  intros H. unfold str_nat.
  assert (L := @length_digits_fuel (S n) k n "" H). cbn [String.length] in L.
  lia.
Qed.

Lemma length_two_digits (n : nat) : String.length (two_digits n) = 2.
Proof. reflexivity. Qed.

Lemma length_rev_onto (s acc : string) :
  String.length (rev_onto s acc) = String.length s + String.length acc.
Proof.
  revert acc. induction s as [|c s IH]; intros acc; cbn [rev_onto String.length];
    [reflexivity|]. rewrite IH. cbn [String.length]. lia.
Qed.

Lemma length_reversed (s : string) :
  String.length (reversed s) = String.length s.
Proof. unfold reversed. rewrite length_rev_onto. cbn. lia. Qed.

Lemma length_lstrip (s : string) :
  String.length (lstrip s) <= String.length s.
Proof.
  induction s as [|c s IH]; cbn [lstrip String.length]; [lia|].
  destruct (is_space c); cbn [String.length]; lia.
Qed.

Lemma length_strip (s : string) :
  String.length (strip s) <= String.length s.
Proof.
  unfold strip. rewrite length_reversed.
  eapply Nat.le_trans; [apply length_lstrip|].
  rewrite length_reversed. apply length_lstrip.
Qed.

Lemma length_substring (a n : nat) (s : string) :
  String.length (substring a n s) <= n.
Proof.
  revert a n. induction s as [|c s IH]; intros a n.
  - destruct a, n; cbn; lia.
  - destruct a as [|a]; [destruct n as [|n]|]; cbn [substring String.length].
    + lia.
    + specialize (IH 0 n). lia.
    + apply IH.
Qed.

Lemma length_last_chars (n : nat) (s : string) :
  String.length (last_chars n s) <= n.
Proof. apply length_substring. Qed.

Lemma digit_value_bound (c : ascii) (d : nat) :
  digit_value c = Some d -> d < 10.
Proof.
  unfold digit_value.
  destruct ((48 <=? nat_of_ascii c) && (nat_of_ascii c <=? 57)) eqn:E;
    [|discriminate].
  intros H. injection H as <-.
  apply andb_prop in E. destruct E as [E1 E2].
  apply Nat.leb_le in E1, E2. lia.
Qed.

(** The digits of a string of [n] characters make a number below
    [10 ^ n]. *)
Lemma parse_digits_bound (s : string) :
  forall acc r,
    parse_digits s acc = Some r ->
    r < (acc + 1) * 10 ^ String.length s.
Proof.
  induction s as [|c s IH]; intros acc r H; cbn [parse_digits] in H.
  - injection H as <-. cbn. lia.
  - destruct (digit_value c) as [d|] eqn:D; [|discriminate].
    apply digit_value_bound in D. apply IH in H.
    cbn [String.length]. rewrite Nat.pow_succ_r'.
    assert (10 * acc + d + 1 <= 10 * (acc + 1)) by lia.
    assert ((10 * acc + d + 1) * 10 ^ String.length s
            <= 10 * (acc + 1) * 10 ^ String.length s)
      by (apply Nat.mul_le_mono_r; assumption).
    lia.
Qed.

Lemma parse_unsigned_bound (s : string) (r : nat) :
  parse_unsigned s = Some r -> r < 10 ^ String.length s.
Proof.
  unfold parse_unsigned. destruct s as [|c s]; [discriminate|].
  intros H. apply parse_digits_bound in H. lia.
Qed.

(** [int] on the first character of the stripped string. *)
Lemma int_cases (s : string) :
  int s =
  match strip s with
  | EmptyString => None
  | String c r =>
      if Ascii.eqb c "-"
      then option_map (fun n => (- Z.of_nat n)%Z) (parse_unsigned r)
      else if Ascii.eqb c "+"
      then option_map Z.of_nat (parse_unsigned r)
      else option_map Z.of_nat (parse_unsigned (String c r))
  end.
Proof.
  unfold int. destruct (strip s) as [|c r]; [reflexivity|].
  destruct c as [[] [] [] [] [] [] [] []]; reflexivity.
Qed.

Lemma pow_split (k m p : nat) :
  m <= k -> p < 10 ^ (2 + m) -> p / 100 < 10 ^ k.
Proof.
  intros Hm Hp. apply Nat.Div0.div_lt_upper_bound.
  assert (10 ^ (2 + m) = 100 * 10 ^ m)
    by (rewrite Nat.pow_add_r; reflexivity).
  assert (10 ^ m <= 10 ^ k) by (apply Nat.pow_le_mono_r; lia).
  nia.
Qed.

(** A number that was read from at most [k + 4] characters fits, with
    its sign, the digits of its hundredth part and two decimals, into as
    many characters. *)
Lemma int_field_fits (s : string) (v : Z) (k : nat) :
  int s = Some v ->
  String.length s <= k + 4 ->
  String.length ((if (v <? 0)%Z then "-" else "")
                 ++ str_nat (Z.abs_nat v / 100)
                 ++ two_digits (Z.abs_nat v mod 100)) <= k + 4.
Proof.
  intros Hi Hl. rewrite int_cases in Hi.
  assert (Ht := length_strip s).
  destruct (strip s) as [|c r]; [discriminate|].
  cbn [String.length] in Ht.
  rewrite !PyFacts.length_append, length_two_digits.
  destruct (Ascii.eqb c "-").
  - destruct (parse_unsigned r) as [p|] eqn:P; [|discriminate].
    injection Hi as <-. apply parse_unsigned_bound in P.
    assert (Ha : Z.abs_nat (- Z.of_nat p) = p) by lia. rewrite Ha.
    assert (Hp : p < 10 ^ (2 + (k + 1))).
    { eapply Nat.lt_le_trans; [exact P|]. apply Nat.pow_le_mono_r; lia. }
    assert (Hd : p / 100 < 10 ^ S k)
      by (apply (@pow_split (S k) (k + 1) p); [lia | exact Hp]).
    apply length_str_nat in Hd.
    destruct (- Z.of_nat p <? 0)%Z; cbn [String.length]; lia.
  - assert (Hv : exists p, v = Z.of_nat p /\ p < 10 ^ (2 + (k + 2))).
    { destruct (Ascii.eqb c "+").
      - destruct (parse_unsigned r) as [p|] eqn:P; [|discriminate].
        injection Hi as <-. apply parse_unsigned_bound in P.
        exists p. split; [reflexivity|].
        eapply Nat.lt_le_trans; [exact P|]. apply Nat.pow_le_mono_r; lia.
      - destruct (parse_unsigned (String c r)) as [p|] eqn:P; [|discriminate].
        injection Hi as <-. apply parse_unsigned_bound in P.
        exists p. split; [reflexivity|].
        eapply Nat.lt_le_trans; [exact P|]. apply Nat.pow_le_mono_r.
        + lia.
        + cbn [String.length]. lia. }
    destruct Hv as (p & -> & Hp).
    assert (Ha : Z.abs_nat (Z.of_nat p) = p) by lia. rewrite Ha.
    assert (Hd : p / 100 < 10 ^ S (S k))
      by (apply (@pow_split (S (S k)) (k + 2) p); [lia | exact Hp]).
    apply length_str_nat in Hd.
    assert (Hs : (Z.of_nat p <? 0)%Z = false) by (apply Z.ltb_ge; lia).
    rewrite Hs. cbn [String.length]. lia.
Qed.

(** The value with two decimals and no point has the width of its
    field. *)
Lemma length_hundredths (s : string) (v : Z) (k : nat) :
  int s = Some v ->
  String.length s <= k + 4 ->
  String.length (hundredths_digits (k + 5) v) = k + 4.
Proof.
  intros Hi Hl. unfold hundredths_digits.
  replace (k + 5 - 1) with (k + 4) by lia.
  apply length_rjust. exact (@int_field_fits s v k Hi Hl).
Qed.

Lemma length_format_d3 (d : Z) :
  (-99 <= d <= 999)%Z -> String.length (format_d 3 d) = 3.
Proof.
  intros H. unfold format_d. apply length_rjust. unfold str_int.
  destruct (d <? 0)%Z eqn:E.
  - apply Z.ltb_lt in E. cbn [String.length].
    assert (L : Z.abs_nat d < 10 ^ 2) by (cbn; lia).
    apply length_str_nat in L. lia.
  - apply Z.ltb_ge in E.
    assert (L : Z.abs_nat d < 10 ^ 3) by (cbn; lia).
    apply length_str_nat in L. lia.
Qed.

Lemma length_format_d2 (d : Z) :
  String.length (format_d 2 (d mod 100)%Z) = 2.
Proof.
  assert (B := Z.mod_pos_bound d 100 ltac:(lia)).
  unfold format_d. apply length_rjust. unfold str_int.
  assert (E : (d mod 100 <? 0)%Z = false) by (apply Z.ltb_ge; lia).
  rewrite E.
  assert (L : Z.abs_nat (d mod 100) < 10 ^ 2) by (cbn; lia).
  apply length_str_nat in L. lia.
Qed.

(** X23.  The score with its depth has fixed widths.  Whenever
    [_combine_depth_and_score] gets through all its conversions, for a
    depth between -99 and 999, the long variant of the text has exactly
    eleven characters, the medium one eight and the short one six,
    whatever the score was. *)
Theorem combined_score_has_fixed_widths (sc out : DgtApi) (d : Z) :
  combine_try sc (Some d) = Completed out ->
  (-99 <= d <= 999)%Z ->
  String.length (get_l out) = 11 /\
  String.length (get_m out) = 8 /\
  String.length (get_s out) = 6.
Proof.
  intros Hc Hd.
  destruct sc as [bd w mt].
  destruct bd as [mv f sd b dv|l m s b rd|fo dv| |u|dv|tl tr sd dv|ma su dv
                  |tl tr dv];
    try (cbn in Hc; discriminate Hc).
  unfold combine_try in Hc.
  destruct (int s) as [vs|] eqn:Es.
  2:{ unfold clamp_short in Hc. cbn [get_s body] in Hc. rewrite Es in Hc.
      discriminate Hc. }
  rewrite (@DisplayFacts.clamp_short_text l m s b rd w mt vs Es) in Hc.
  cbn [get_l get_m get_s set_l set_m set_s set_rd body wait maxtime] in Hc.
  unfold _score_to_string in Hc.
  destruct (int (last_chars 8 l)) as [vl|] eqn:El; [|discriminate Hc].
  destruct (int (last_chars 6 m)) as [vm|] eqn:Em; [|discriminate Hc].
  match type of Hc with
  | context [int (last_chars 4 ?x)] =>
      destruct (int (last_chars 4 x)) as [v4|] eqn:E4; [|discriminate Hc]
  end.
  injection Hc as <-. cbn [get_l get_m get_s body].
  rewrite !PyFacts.remove_dots_format_2f, !PyFacts.length_append.
  rewrite (@length_format_d3 d Hd), !length_format_d2.
  assert (Ll : String.length (hundredths_digits 9 vl) = 8)
    by exact (@length_hundredths _ vl 4%nat El (length_last_chars 8 l)).
  assert (Lm : String.length (hundredths_digits 7 vm) = 6)
    by exact (@length_hundredths _ vm 2%nat Em (length_last_chars 6 m)).
  assert (Ls : String.length (hundredths_digits 5 v4) = 4)
    by exact (@length_hundredths _ v4 0%nat E4 (length_last_chars 4 _)).
  rewrite Ll, Lm, Ls. repeat split.
Qed.

Import DisplaySamples.

(** Minus fifteen pawns at depth 12. *)
Lemma fixed_widths_witness :
  let out := {| body := DISPLAY_TEXT " 12   -1500" "12 -1500" "12-999" false
                                     (Some DOT);
                wait := Some false; maxtime := Some 1%Q |} in
  combine_try (score_text "   -1500" "   -1500" " -1500") (Some 12%Z)
  = Completed out /\
  String.length (get_l out) = 11 /\
  String.length (get_m out) = 8 /\
  String.length (get_s out) = 6.
Proof.
  split; [vm_compute; reflexivity|].
  apply (@combined_score_has_fixed_widths
           (score_text "   -1500" "   -1500" " -1500") _ 12%Z);
    [vm_compute; reflexivity | lia].
Defined.

End WidthFacts.

(* ================================================================== *)
(** * Properties of the display together with the dispatcher *)
(* ================================================================== *)

Module PipelineFacts.
Import Api Dispatcher DispatcherRuns Display Buttons Pipeline.

Local Open Scope string_scope.

Lemma skipn_length_app {A : Type} (l l' : list A) :
  skipn (List.length l) (l ++ l') = l'.
Proof. induction l as [|x l IH]; [reflexivity | exact IH]. Qed.

Section Pipeline.

Variable hash : DgtApi -> Z.
Variable NavState : Type.
Variable ext : External NavState.

(** X24.  The answer of button 0 is shown for its second, then the clock
    comes back.  Let the display be outside the menu with no restart and
    no move of the computer pending, and let the last move be a move.
    Let the dispatcher hold no command unless its timer runs, and let the
    answer not be the text that is on the display already, unless it
    beeps.  Then the two commands of the button, taken by the dispatcher
    and followed by the expiry of the timer, have this effect: a running
    timer is cancelled, a timer of one second (times the time factor) is
    started and the last move is shown; at the expiry the time display is
    refreshed and the clock command of [_exit_display], which has waited,
    is shown.  Nothing waits afterwards and no timer runs. *)
Theorem button_answer_then_clock
  (w : World NavState) (st : State) (dev : string) :
  engine_restart (dgtmenu w) = false ->
  inside_menu ext (dgtmenu w) = false ->
  move_truthy (last_move (me w)) = true ->
  move_truthy (play_move (me w)) = false ->
  (maxtimer_running st = false -> tasks st = []) ->
  let answer :=
    {| body := DISPLAY_MOVE (last_move (me w)) (last_fen (me w))
                            (_get_clock_side (last_turn (me w)))
                            (bl ext BL_BUTTON) all_devs;
       wait := Some false; maxtime := Some 1%Q |} in
  let back :=
    {| body := DISPLAY_TIME true all_devs; wait := Some true;
       maxtime := None |} in
  hash_matches (display_hash st) (hash answer) && negb (bl ext BL_BUTTON)
  = false ->
  let w' := snd (_process_button ext {| button := 0; dev := dev |} w) in
  let r := run_inputs hash st (handed_over w w' ++ [Expire]) in
  snd r
  = ((if maxtimer_running st then [TimerCancel (maxtimer st)] else [])
     ++ [TimerStart {| interval := 1 * time_factor st;
                       serial := timers_made st |};
         Show answer; Show time_refresh; Show back])%list /\
  tasks (fst r) = [] /\
  maxtimer_running (fst r) = false.
Proof.
  intros Hr Hi Hl Hp Hq answer back Hh w' r.
  assert (Ew : handed_over w w' = [Submit answer; Submit back]).
  { unfold handed_over, appended, w'.
    rewrite (ButtonFacts.last_move_button ext w dev Hr Hi).
    cbn [snd dispatched actions]. rewrite skipn_length_app.
    unfold move_or_nomove, shown_on_exit. rewrite Hl, Hp, Hi.
    reflexivity. }
  subst r. rewrite Ew. cbn [app].
  assert (Run : exists stf,
            run_inputs hash st [Submit answer; Submit back; Expire]
            = (stf,
               ((if maxtimer_running st then [TimerCancel (maxtimer st)]
                 else [])
                ++ [TimerStart {| interval := 1 * time_factor st;
                                  serial := timers_made st |};
                    Show answer; Show time_refresh; Show back])%list)
            /\ tasks stf = [] /\ maxtimer_running stf = false).
  { cbn [run_inputs step].
    unfold run_step at 1, arbitrate.
    destruct (maxtimer_running st) eqn:Er.
    - cbn [wait answer].
      unfold _process_message at 1.
      cbn [is_clock_state is_move_or_text repr body].
      cbn [display_hash set_tasks set_maxtimer_running]. fold answer.
      cbn [beep body answer]. cbn [beep body] in Hh. rewrite Hh.
      cbn. eexists. split; [reflexivity|]. split; reflexivity.
    - specialize (Hq eq_refl).
      unfold _process_message at 1.
      cbn [is_clock_state is_move_or_text repr body].
      fold answer. cbn [beep body answer]. cbn [beep body] in Hh. rewrite Hh.
      cbn. rewrite Hq. cbn.
      eexists. split; [reflexivity|]. split; reflexivity. }
  destruct Run as (stf & -> & Ht & Hm). cbn [fst snd].
  split; [reflexivity|]. split; assumption.
Qed.

End Pipeline.

Import Samples DisplaySamples ButtonSamples.

(** Button 0 after the reply of the user, with an idle dispatcher. *)
Lemma button_answer_then_clock_witness :
  let answer :=
    {| body := DISPLAY_MOVE
                 (UciMove "e7e5")
                 (Some "rnbqkbnr/pppppppp/8/8/4P3/8/PPPP1PPP/RNBQKBNR b KQkq - 0 1")
                 RIGHT false all_devs;
       wait := Some false; maxtime := Some 1%Q |} in
  let back :=
    {| body := DISPLAY_TIME true all_devs; wait := Some true;
       maxtime := None |} in
  let w' := snd (_process_button sample_ext {| button := 0; dev := "ser" |}
                                 moved_world) in
  let r := run_inputs sample_hash init
                      (handed_over moved_world w' ++ [Expire]) in
  snd r
  = [TimerStart {| interval := 1 * 1; serial := 0 |};
     Show answer; Show time_refresh; Show back] /\
  tasks (fst r) = [] /\
  maxtimer_running (fst r) = false.
Proof.
  exact (@button_answer_then_clock sample_hash unit sample_ext moved_world
           init "ser" eq_refl eq_refl eq_refl eq_refl (fun _ => eq_refl)
           eq_refl).
Defined.

End PipelineFacts.
